(** * MUFF 2.0 microscope positioner: device control and capture sequencing

    A shallow embedding of [muff_arduino.py] and [muff_mainloop.py], and of
    [read_signif_line] of [muff_params.py].

    - Python [int] is [Z]; [//] and [%] with a positive divisor are [Z.div]
      and [Z.modulo].
    - Python [float] is the binary64 type [PrimFloat.float]; [==] is
      [PrimFloat.eqb], [round] is written out on the decoded mantissa.
    - Python [str] is [string] (one [ascii] per code point below 256);
      [bytes] is [list byte].
    - An exception, [sys.exit] and a read that never returns end a
      computation: see [stop] and [outcome].
    - The module globals [LED_status], [Z_curr] and [muff_arduino.verbose],
      the serial port, the standard input, the two pipes, the clock and the
      directory tree are the fields of [World]; everything the program does
      to the outside is appended to [trace].
    - The file object [m2cPipe] buffers what is written to it: what a
      [flush] that raised has left there is [m2c_unsent], and [close]
      flushes it once more.
    - [time.sleep] and [time.time] leave no mark on the state and are left
      out; the closing line of [capture_image_set] keeps its count of images
      and drops the elapsed time. *)

From Stdlib Require Import ZArith List Bool Lia.
From Stdlib Require Import Strings.String Strings.Ascii Strings.Byte.
From Stdlib Require Import Numbers.DecimalString.
From Stdlib Require Import Floats.PrimFloat Floats.SpecFloat Floats.FloatOps.
From Stdlib Require Import Numbers.Cyclic.Int63.Uint63.
Import ListNotations.

Set Warnings "-inexact-float".
Open Scope string_scope.
Open Scope list_scope.
Open Scope Z_scope.

(** ** Python values and control *)

Definition float : Set := PrimFloat.float.
Definition bytes := list byte.

Inductive exn : Type :=
| AssertionError
| NameError (name : string)
| IndexError
| TypeError
| ValueError
| OverflowError
| UnicodeEncodeError
| AttributeError
| BrokenPipeError
| FileExistsError (path : string).

(** How a computation ends when it does not return: an uncaught exception,
    [sys.exit], or a blocking read on an input that has nothing more. *)
Inductive stop : Type :=
| Raise (e : exn)
| Exit (code : Z)
| Blocked.

Inductive outcome (A : Type) : Type :=
| Normal (a : A)
| Stop (s : stop).
Arguments Normal {A} a.
Arguments Stop {A} s.

Module Pure.
Definition bind {A B} (m : outcome A) (k : A -> outcome B) : outcome B :=
  match m with
  | Normal a => k a
  | Stop s => Stop s
  end.
Definition raise {A} (e : exn) : outcome A := Stop (Raise e).
Definition assert (c : bool) : outcome unit :=
  if c then Normal tt else raise AssertionError.
End Pure.

Declare Scope pure_scope.
Delimit Scope pure_scope with pure.
Notation "x <- m ;; k" := (Pure.bind m (fun x => k))
  (at level 61, m at next level, right associativity) : pure_scope.
Notation "m ;; k" := (Pure.bind m (fun _ => k))
  (at level 61, right associativity) : pure_scope.

(** [l[i] = v]: a negative index counts from the end, an index out of range
    raises [IndexError]. *)
Fixpoint update_nth {A} (l : list A) (n : nat) (v : A) : list A :=
  match l, n with
  | [], _ => []
  | _ :: t, O => v :: t
  | h :: t, S n' => h :: update_nth t n' v
  end.

Definition list_index {A} (l : list A) (i : Z) : outcome nat :=
  let len := Z.of_nat (List.length l) in
  let j := if i <? 0 then i + len else i in
  if (0 <=? j) && (j <? len) then Normal (Z.to_nat j) else Pure.raise IndexError.

Definition list_assign {A} (l : list A) (i : Z) (v : A) : outcome (list A) :=
  (n <- list_index l i ;; Normal (update_nth l n v))%pure.

Definition list_get {A} (l : list A) (i : Z) : outcome A :=
  (n <- list_index l i ;;
   match nth_error l n with
   | Some a => Normal a
   | None => Pure.raise IndexError
   end)%pure.

(** ** The light pattern planner ([muff_mainloop.py]) *)

Definition num_LEDs : Z := 24.

Definition define_LED_centric_pattern (vals : list float) (Lm : Z)
  : outcome (list float) :=
  (Pure.assert ((0 <=? Lm) && (Lm <? 12)) ;;
   vals <- list_assign vals Lm 1%float ;;
   let La := (Lm + 1) mod 12 in
   vals <- list_assign vals La 1%float ;;
   let Lb := (Lm + 11) mod 12 in
   vals <- list_assign vals Lb 1%float ;;
   let Lu := Lm + 12 in
   vals <- list_assign vals Lu 1%float ;;
   let Lr := (Lm + 4) mod 12 in
   vals <- list_assign vals Lr 1%float ;;
   let Ls := (Lm + 8) mod 12 in
   list_assign vals Ls 1%float)%pure.

Definition define_LED_bridging_pattern (vals : list float) (La : Z)
  : outcome (list float) :=
  (Pure.assert ((0 <=? La) && (La <? 12)) ;;
   vals <- list_assign vals La 1%float ;;
   let Lb := (La + 1) mod 12 in
   vals <- list_assign vals Lb 1%float ;;
   let Lu := La + 12 in
   vals <- list_assign vals Lu 1%float ;;
   let Lv := Lb + 12 in
   vals <- list_assign vals Lv 1%float ;;
   let Lr := (Lb + 4) mod 12 in
   vals <- list_assign vals Lr 1%float ;;
   let Ls := (La + 8) mod 12 in
   list_assign vals Ls 1%float)%pure.

(** The index of the bottom-tier branch, [((L - 12)*12 + 6)//(nL - 12)]. *)
Definition bottom_tier_index (L nL : Z) : Z := ((L - 12) * 12 + 6) / (nL - 12).

(** The azimuth slot of the branch [nL < 12], [(L*24 + 12)//nL]. *)
Definition azimuth_slot (L nL : Z) : Z := (L * 24 + 12) / nL.

(** In the bottom-tier branch the source assigns to [val[Lx]]; no name
    [val] is bound in the function or the module, so the statement raises
    [NameError] once [Lx] has been computed. *)
Definition define_LED_vals (L nL : Z) : outcome (list float) :=
  (Pure.assert ((0 <? nL) && (nL <=? num_LEDs)) ;;
   Pure.assert ((0 <=? L) && (L <? nL)) ;;
   let vals := repeat 0%float (Z.to_nat num_LEDs) in
   Pure.assert (num_LEDs =? 24) ;;
   if 12 <? nL then
     if (L <? 12) || (nL =? 24) then
       list_assign vals L 1%float
     else
       let Lx := bottom_tier_index L nL in
       Pure.raise (NameError "val")
   else if nL =? 12 then
     vals <- list_assign vals L 1%float ;;
     list_assign vals (L + 12) 1%float
   else if nL =? 6 then
     let Lm := 2 * L in
     define_LED_centric_pattern vals Lm
   else
     Pure.assert (nL <? 12) ;;
     let S := azimuth_slot L nL in
     Pure.assert ((0 <=? S) && (S <? 23)) ;;
     if S mod 2 =? 0 then
       let Lm := S / 2 in
       define_LED_centric_pattern vals Lm
     else
       let La := (S - 1) / 2 in
       define_LED_bridging_pattern vals La)%pure.

(** How many entries of a vector compare equal to [1.0]. *)
Definition count_lit (vals : list float) : nat :=
  List.length (filter (fun x => PrimFloat.eqb x 1%float) vals).

(** ** Strings, bytes and [%d] formatting *)

Definition nl : ascii := ascii_of_nat 10.
Definition cr : ascii := ascii_of_nat 13.

Definition ord (c : ascii) : Z := Z.of_N (N_of_ascii c).

(** [chr(n)] for a code point below 256, the only ones this model holds. *)
Definition chr (n : Z) : outcome string :=
  if (0 <=? n) && (n <? 256) then Normal (String (ascii_of_N (Z.to_N n)) "")
  else Pure.raise ValueError.

(** [str.isspace] on the code points below 256. *)
Definition isspace (c : ascii) : bool :=
  let n := ord c in
  ((9 <=? n) && (n <=? 13)) || ((28 <=? n) && (n <=? 32))
  || (n =? 133) || (n =? 160).

Fixpoint lstrip (s : string) : string :=
  match s with
  | String c t => if isspace c then lstrip t else s
  | EmptyString => EmptyString
  end.

Definition reverse (s : string) : string :=
  string_of_list_ascii (rev (list_ascii_of_string s)).

Definition strip (s : string) : string :=
  reverse (lstrip (reverse (lstrip s))).

(** [str.lower] on the code points below 256. *)
Definition lower_char (c : ascii) : ascii :=
  let n := ord c in
  if ((65 <=? n) && (n <=? 90))
     || ((192 <=? n) && (n <=? 222) && negb (n =? 215))
  then ascii_of_N (Z.to_N (n + 32)) else c.

Fixpoint lower (s : string) : string :=
  match s with
  | String c t => String (lower_char c) (lower t)
  | EmptyString => EmptyString
  end.

Definition decimal (n : Z) : string :=
  NilZero.string_of_uint (N.to_uint (Z.abs_N n)).

Fixpoint zeros (n : nat) : string :=
  match n with
  | O => ""
  | S n' => String "0" (zeros n')
  end.

(** ["%0<width>d" % n], and ["%+0<width>d" % n] when [plus]: the sign, when
    there is one, counts in the width. *)
Definition format_d (plus : bool) (width : nat) (n : Z) : string :=
  let sign := if n <? 0 then "-" else if plus then "+" else "" in
  let ds := decimal n in
  (sign ++ zeros (width - String.length sign - String.length ds) ++ ds)%string.

Definition bad_chars : list ascii :=
  list_ascii_of_string "'" ++ [ascii_of_nat 34] ++ list_ascii_of_string "[]()".

Definition show_char (blanks : bool) (c : ascii) : string :=
  if (Ascii.eqb c " " && blanks) || (ord c <? 32) || (126 <? ord c)
     || existsb (Ascii.eqb c) bad_chars
  then ("[chr(" ++ format_d false 3 (ord c) ++ ")]")%string
  else String c "".

(** [show_chars] of [muff_mainloop.py]. *)
Fixpoint show_chars (s : string) (blanks : bool) : string :=
  match s with
  | String c t => (show_char blanks c ++ show_chars t blanks)%string
  | EmptyString => ""
  end.

(** [show_bytes] of [muff_arduino.py]. *)
Definition show_bytes (s : bytes) (blanks : bool) : string :=
  show_chars (string_of_list_byte s) blanks.

(** [s.encode('ascii')]. *)
Definition encode_ascii (s : string) : outcome bytes :=
  if forallb (fun c => ord c <? 128) (list_ascii_of_string s)
  then Normal (list_byte_of_string s) else Pure.raise UnicodeEncodeError.

Definition bytes_eqb (x y : bytes) : bool :=
  String.eqb (string_of_list_byte x) (string_of_list_byte y).

(** A bytes literal. *)
Definition b (s : string) : bytes := list_byte_of_string s.

(** ** Floats *)

(** An [int] used where a float is expected; exact below 2^53, and every
    call site has asserted a range far below that. *)
Definition float_of_int (n : Z) : float :=
  if n <? 0 then PrimFloat.opp (PrimFloat.of_uint63 (Uint63.of_Z (- n)))
  else PrimFloat.of_uint63 (Uint63.of_Z n).

(** [m * 2^e] rounded to the nearest integer, ties to the even one. *)
Definition round_half_even (m e : Z) : Z :=
  if 0 <=? e then m * 2 ^ e
  else
    let d := 2 ^ (- e) in
    let q := m / d in
    let r := m mod d in
    if 2 * r <? d then q
    else if d <? 2 * r then q + 1
    else if Z.even q then q else q + 1.

(** [round(x)] of a float, an [int]. *)
Definition py_round (x : float) : outcome Z :=
  match Prim2SF x with
  | S754_zero _ => Normal 0
  | S754_infinity _ => Pure.raise OverflowError
  | S754_nan => Pure.raise ValueError
  | S754_finite s m e =>
      let n := round_half_even (Zpos m) e in
      Normal (if s then - n else n)
  end.

(** ** The world *)

Inductive serial_port : Type := ttyUSB0.
Inductive pipe : Type := muff_pipe_m2c | muff_pipe_c2m.

(** The lines written to [stderr]. A constructor stands for one [write] of
    the source; its arguments are the formatted pieces. *)
Inductive message : Type :=
| DebuggingRun                       (* !! debugging run (without the Arduino) *)
| StartingMotor (dir : Z)            (* starting motor in direction %+d *)
| StoppingMotor                      (* stopping motor *)
| DefiningZStep (microns : string)   (* defining Z step to be %+03d microns *)
| RaisingMicroscope                  (* raising microscope by 1 step *)
| TestingLEDs                        (* testing the LEDs *)
| SettingLED (lix : Z) (pwr : float) (* setting LED %02d intensity to %.2f *)
| SettingAllLEDs (pwr : float)       (* seting intensity of all LEDs to %.2f *)
| PartialIntensity                   (* ** partial LED intensity not implemented yet. *)
| WouldSend (shown : string)         (* would send to Arduino: '%s' *)
| Sending (shown : string)           (* sending to Arduino: '%s' *)
| PretendingOK                       (* pretending that the Arduino replied OK *)
| InvalidReturnCode (shown : string) (* ** Invalid OK return code from Arduino: '%s' *)
| ReceivedOpen (shown : string)      (* received from Arduino: '%s *)
| ReceivedClose                      (* ' *)
| Received (shown : string)          (* received from Arduino: '%s' *)
| Echo (shown : string)              (* the bytes of a comment *)
| Capturing (nI nL nV nH : Z)        (* capturing %d images (...) *)
| EstimatedTime (minutes : float)    (* estimated time = %.1f minutes *)
| SavingIn (topdir : string)         (* saving images in directory %s *)
| CaptureFailed                      (* ** frame capture failed *)
| Captured (nI : Z)                  (* captured %d images in %.1f minutes *)
| StartingPositioning                (* starting manual positioning of the camera. *)
| PositioningHelp                    (* the help text *)
| Prompt                             (* command (u,d,U,D,s,q,ok,abort)? *)
| Newline
| Unrecognized (shown : string)      (* ** unrecognized command '%s' *)
| CapturingFrame (H : Z) (fname : string) (* capturing frame %d and writing to '%s' *)
| GrabbingWith (template : string)   (* grabbing frame with command = "%s" *)
| UvcStatus (res : Z)                (* ** {uvccapture} returned with nonzero status %d *)
| CommandNotSent                     (* ** command to {muff_camview.py} could not be sent *)
| PipeWasClosed                      (* ** pipe from {muff_camview.py} was closed *)
| InvalidResponse (shown : string)   (* ** {muff_camview.py} returned invalid response '%s' *)
| NotRunning                         (* !! assuming that {muff_camview.py} is not running *)
| CreatingTop (topdir : string)      (* creating top directory '%s' and subdirectories *)
| CreatingSub (subdir : string)      (* creating subdirectory '%s' *)
| TestingAll (n : Z)                 (* testing all %d leds *)
| TestingConditions (nL : Z)         (* testing all %d lighting conditions to be used *)
| SettingCondition (L : Z)           (* setting lighting condition L%02d *)
| Rotating (V : Z)                   (* rotating object to view direction %d *)
| BadArguments                       (* ** bad command line arguments ..., and HELP *)
| Synopsis                           (* SYNOPSIS, HELP, DESCRIPTION, INFO *)
| Done                               (* done. *)
| ProcessAborted.                    (* ** process aborted. *)

Inductive event : Type :=
| SerialWrite (command : bytes)      (* sport.write(command) *)
| Stderr (m : message)
| StdinRead (s : string)             (* what stdin.readline() returned *)
| PipeWrite (line : string)          (* a line written to m2cPipe and flushed *)
| PipeRead (s : string)              (* what c2mPipe.readline() returned *)
| PipeOpened (p : pipe)
| PipeClosed (p : pipe)
| MakeDirs (path : string)           (* a successful os.makedirs(path) *)
| System (command : string).         (* os.system(command) *)

Record World : Type := mkWorld {
  serial_in : list bytes;       (* what the next calls of sport.read() return *)
  stdin_in : list string;       (* the lines of stdin still unread *)
  c2m_in : list string;         (* the lines of the reply pipe still unread *)
  m2c_fails : list bool;        (* per request: does writing to the pipe raise *)
  m2c_unsent : bool;            (* m2cPipe holds data that a flush failed to send *)
  system_status : list Z;       (* what the next calls of os.system return *)
  utc_now : string;             (* the clock, as strftime("%Y-%m-%d-%H%M-U") shows it *)
  dirs : list string;           (* the directories that exist *)
  arduino_verbose : bool;       (* muff_arduino.verbose *)
  LED_status : list (option float);  (* None stands for Python's None *)
  Z_curr : option float;
  trace : list event            (* oldest first *)
}.

Definition set_serial_in v w := mkWorld v (stdin_in w) (c2m_in w) (m2c_fails w)
  (m2c_unsent w) (system_status w) (utc_now w) (dirs w) (arduino_verbose w)
  (LED_status w) (Z_curr w) (trace w).
Definition set_stdin_in v w := mkWorld (serial_in w) v (c2m_in w) (m2c_fails w)
  (m2c_unsent w) (system_status w) (utc_now w) (dirs w) (arduino_verbose w)
  (LED_status w) (Z_curr w) (trace w).
Definition set_c2m_in v w := mkWorld (serial_in w) (stdin_in w) v (m2c_fails w)
  (m2c_unsent w) (system_status w) (utc_now w) (dirs w) (arduino_verbose w)
  (LED_status w) (Z_curr w) (trace w).
Definition set_m2c_fails v w := mkWorld (serial_in w) (stdin_in w) (c2m_in w) v
  (m2c_unsent w) (system_status w) (utc_now w) (dirs w) (arduino_verbose w)
  (LED_status w) (Z_curr w) (trace w).
Definition set_m2c_unsent v w := mkWorld (serial_in w) (stdin_in w) (c2m_in w)
  (m2c_fails w) v (system_status w) (utc_now w) (dirs w) (arduino_verbose w)
  (LED_status w) (Z_curr w) (trace w).
Definition set_system_status v w := mkWorld (serial_in w) (stdin_in w) (c2m_in w)
  (m2c_fails w) (m2c_unsent w) v (utc_now w) (dirs w) (arduino_verbose w)
  (LED_status w) (Z_curr w) (trace w).
Definition set_dirs v w := mkWorld (serial_in w) (stdin_in w) (c2m_in w)
  (m2c_fails w) (m2c_unsent w) (system_status w) (utc_now w) v (arduino_verbose w)
  (LED_status w) (Z_curr w) (trace w).
Definition set_arduino_verbose v w := mkWorld (serial_in w) (stdin_in w) (c2m_in w)
  (m2c_fails w) (m2c_unsent w) (system_status w) (utc_now w) (dirs w) v
  (LED_status w) (Z_curr w) (trace w).
Definition set_LED_status v w := mkWorld (serial_in w) (stdin_in w) (c2m_in w)
  (m2c_fails w) (m2c_unsent w) (system_status w) (utc_now w) (dirs w)
  (arduino_verbose w) v (Z_curr w) (trace w).
Definition set_Z_curr v w := mkWorld (serial_in w) (stdin_in w) (c2m_in w)
  (m2c_fails w) (m2c_unsent w) (system_status w) (utc_now w) (dirs w)
  (arduino_verbose w) (LED_status w) v (trace w).
Definition set_trace v w := mkWorld (serial_in w) (stdin_in w) (c2m_in w)
  (m2c_fails w) (m2c_unsent w) (system_status w) (utc_now w) (dirs w)
  (arduino_verbose w) (LED_status w) (Z_curr w) v.

(** ** Computations on the world *)

Definition M (A : Type) : Type := World -> outcome A * World.

Definition ret {A} (a : A) : M A := fun w => (Normal a, w).

Definition bind {A B} (m : M A) (k : A -> M B) : M B :=
  fun w => match m w with
           | (Normal a, w') => k a w'
           | (Stop s, w') => (Stop s, w')
           end.

Declare Scope world_scope.
Delimit Scope world_scope with world.
Notation "x <- m ;; k" := (bind m (fun x => k))
  (at level 61, m at next level, right associativity) : world_scope.
Notation "m ;; k" := (bind m (fun _ => k))
  (at level 61, right associativity) : world_scope.
Open Scope world_scope.

Definition halt {A} (s : stop) : M A := fun w => (Stop s, w).
Definition raise {A} (e : exn) : M A := halt (Raise e).
Definition sys_exit {A} (code : Z) : M A := halt (Exit code).
Definition lift {A} (o : outcome A) : M A := fun w => (o, w).
Definition assert (c : bool) : M unit := lift (Pure.assert c).
Definition when (c : bool) (m : M unit) : M unit := if c then m else ret tt.
Definition get {A} (f : World -> A) : M A := fun w => (Normal (f w), w).
Definition modify (f : World -> World) : M unit := fun w => (Normal tt, f w).
Definition emit (e : event) : M unit := modify (fun w => set_trace (trace w ++ [e]) w).
Definition stderr_write (m : message) : M unit := emit (Stderr m).

(** [for x in xs: body], where the body may leave the enclosing function with
    a [return]: [Some r] is that return, [None] runs on. *)
Fixpoint for_each {A R} (xs : list A) (body : A -> M (option R)) : M (option R) :=
  match xs with
  | [] => ret None
  | x :: t => r <- body x ;;
              match r with
              | Some v => ret (Some v)
              | None => for_each t body
              end
  end.

Definition range (n : Z) : list Z := map Z.of_nat (seq 0 (Z.to_nat n)).

(** [sport.read()]: the next entry of [serial_in]; with none left the call
    never returns (the port is opened without a timeout). *)
Definition sport_read : M bytes :=
  fun w => match serial_in w with
           | c :: rest => (Normal c, set_serial_in rest w)
           | [] => (Stop Blocked, w)
           end.

(** [stdin.readline()]: the next line, or the empty string at end of file. *)
Definition stdin_readline : M string :=
  fun w => match stdin_in w with
           | s :: rest => (Normal s, set_trace (trace w ++ [StdinRead s]) (set_stdin_in rest w))
           | [] => (Normal "", set_trace (trace w ++ [StdinRead ""]) w)
           end.

(** ** The Arduino interface ([muff_arduino.py]) *)

(** [if verbose: stderr.write(...)] of [muff_arduino.py]. *)
Definition vlog (m : message) : M unit :=
  v <- get arduino_verbose ;; when v (stderr_write m).

(** Every iteration of the source's [while True] ends in [return] or in the
    call of [show_chrs], a name bound nowhere in [muff_arduino.py]: the
    formatting of the first complaint raises [NameError], and nothing is
    written. *)
Definition readchar (sport : serial_port) : M bytes :=
  c <- sport_read ;;
  if (List.length c =? 1)%nat then ret c
  else raise (NameError "show_chrs").

Definition is_eol (c : bytes) : bool := bytes_eqb c [byte_of_ascii cr] || bytes_eqb c [byte_of_ascii nl].

Fixpoint skip_to_eol_loop (fuel : nat) (sport : serial_port) : M unit :=
  match fuel with
  | O => halt Blocked
  | S fuel' =>
      c <- readchar sport ;;
      vlog (Echo (show_bytes c false)) ;;
      if is_eol c then ret tt else skip_to_eol_loop fuel' sport
  end.

(** Each iteration reads once, so one more than the number of pending reads
    is an iteration count the loop cannot exceed. *)
Definition pending_reads : M nat := get (fun w => S (List.length (serial_in w))).

Definition skip_to_eol (sport : serial_port) : M unit :=
  n <- pending_reads ;; skip_to_eol_loop n sport.

Fixpoint read_signif_loop (fuel : nat) (sport : serial_port) : M bytes :=
  match fuel with
  | O => halt Blocked
  | S fuel' =>
      c <- readchar sport ;;
      if bytes_eqb c (b "#") then
        vlog (ReceivedOpen (show_bytes c false)) ;;
        skip_to_eol sport ;;
        vlog ReceivedClose ;;
        read_signif_loop fuel' sport
      else
        vlog (Received (show_bytes c true)) ;;
        if negb (bytes_eqb c (b " ")) && negb (bytes_eqb c [byte_of_ascii cr])
           && negb (bytes_eqb c [byte_of_ascii nl])
        then ret c
        else read_signif_loop fuel' sport
  end.

(** [sport.flush()] waits for pending output; it takes nothing from the input. *)
Definition sport_flush : M unit := ret tt.

Definition read_signif (sport : option serial_port) : M bytes :=
  match sport with
  | None => raise AssertionError
  | Some p =>
      sport_flush ;;
      n <- pending_reads ;;
      read_signif_loop n p
  end.

Definition wait_arduino_OK (sport : option serial_port) : M unit :=
  match sport with
  | None => stderr_write PretendingOK
  | Some _ =>
      c <- read_signif sport ;;
      if negb (bytes_eqb c (b "0")) then
        stderr_write (InvalidReturnCode (show_bytes c true)) ;;
        sys_exit 1
      else ret tt
  end.

Definition send_command (sport : option serial_port) (command : bytes) : M unit :=
  match sport with
  | None => stderr_write (WouldSend (show_bytes command false))
  | Some _ =>
      vlog (Sending (show_bytes command false)) ;;
      sport_flush ;;
      emit (SerialWrite command)
  end.

Definition send_command_and_wait (sport : option serial_port) (command : bytes) : M unit :=
  send_command sport command ;;
  wait_arduino_OK sport.

Definition stop_motor (sport : option serial_port) : M unit :=
  vlog StoppingMotor ;;
  let command := b "3" in
  send_command_and_wait sport command.

Definition start_motor (sport : option serial_port) (dir : Z) (fast : bool) : M unit :=
  stop_motor sport ;;
  vlog (StartingMotor dir) ;;
  command <- (if dir =? 1 then
                ret (if fast then b "6" else b "1")
              else if dir =? -1 then
                ret (if fast then b "7" else b "2")
              else raise AssertionError) ;;
  send_command_and_wait sport command.

Definition set_Z_step (sport : option serial_port) (Z_step : float) : M unit :=
  istep <- lift (py_round (Z_step * 1000)%float) ;;
  assert ((-999 <=? istep) && (istep <=? 999)) ;;
  vlog (DefiningZStep (format_d true 3 istep)) ;;
  command <- lift (encode_ascii ("4" ++ format_d true 3 istep)%string) ;;
  send_command_and_wait sport command.

Definition move_microscope (sport : option serial_port) : M unit :=
  vlog RaisingMicroscope ;;
  let command := b "5" in
  send_command_and_wait sport command.

Definition switch_LED (sport : option serial_port) (lix : Z) (pwr : float) : M unit :=
  vlog (SettingLED lix pwr) ;;
  assert ((0 <=? lix) && (lix <? num_LEDs)) ;;
  assert (PrimFloat.leb 0 pwr && PrimFloat.leb pwr 1) ;;
  opcode <- (if PrimFloat.eqb pwr 1 then ret "+"
             else if PrimFloat.eqb pwr 0 then ret "-"
             else stderr_write PartialIntensity ;; sys_exit 1) ;;
  lname <- lift (chr (ord "A" + lix)) ;;
  command <- lift (encode_ascii (opcode ++ lname)%string) ;;
  send_command_and_wait sport command.

Definition switch_all_LEDs (sport : option serial_port) (pwr : float) : M unit :=
  vlog (SettingAllLEDs pwr) ;;
  assert (PrimFloat.leb 0 pwr && PrimFloat.leb pwr 1) ;;
  command <- (if PrimFloat.eqb pwr 1 then ret (b "+@")
              else if PrimFloat.eqb pwr 0 then ret (b "-@")
              else stderr_write PartialIntensity ;; sys_exit 1) ;;
  send_command_and_wait sport command.

Definition test_lights (sport : option serial_port) : M unit :=
  vlog TestingLEDs ;;
  switch_all_LEDs sport 1%float ;;
  switch_all_LEDs sport 0%float.

Definition connect (arduino_present verb : bool) : M (option serial_port) :=
  modify (set_arduino_verbose verb) ;;
  if negb arduino_present then
    stderr_write DebuggingRun ;;
    ret None
  else
    ret (Some ttyUSB0).

(** ** The main loop ([muff_mainloop.py]) *)

(** The module's settings, as the source has them. *)
Definition Z_step_min : float := (-0.999)%float.
Definition Z_step_max : float := 0.999%float.
Definition Z_range_max : float := 100.00%float.
Definition nL_max : Z := num_LEDs.
Definition nV_max : Z := 1.
Definition nH_max : Z := 99.
Definition use_uvc : bool := false.
Definition arduino_present : bool := false.
Definition camera_present : bool := true.
Definition verbose : bool := false.

Fixpoint for_loop {A} (xs : list A) (body : A -> M unit) : M unit :=
  match xs with
  | [] => ret tt
  | x :: t => body x ;; for_loop t body
  end.

(** [pwr != LED_status[lix]]: a float differs from [None]. *)
Definition differs (pwr : float) (status : option float) : bool :=
  match status with
  | None => true
  | Some s => negb (PrimFloat.eqb pwr s)
  end.

(** The body of the loop of [set_light_condition]. The source's assertion
    reads [type(pwr) is float and pwr == 0.0 or pwr == 1.0]; [pwr] is a float
    here. *)
Definition set_light_condition_body (sport : option serial_port) (LED_vals : list float)
    (lix : Z) : M unit :=
  pwr <- lift (list_get LED_vals lix) ;;
  assert (PrimFloat.eqb pwr 0 || PrimFloat.eqb pwr 1) ;;
  status <- get LED_status ;;
  old <- lift (list_get status lix) ;;
  if differs pwr old then
    switch_LED sport lix pwr ;;
    status <- get LED_status ;;
    status <- lift (list_assign status lix (Some pwr)) ;;
    modify (set_LED_status status)
  else ret tt.

Definition set_light_condition (sport : option serial_port) (LED_vals : list float) : M unit :=
  assert (Z.of_nat (List.length LED_vals) =? num_LEDs) ;;
  for_loop (range num_LEDs) (set_light_condition_body sport LED_vals).

Definition switch_all_lights_off (sport : option serial_port) : M unit :=
  switch_all_LEDs sport 0%float ;;
  for_loop (range num_LEDs) (fun lix =>
    status <- get LED_status ;;
    status <- lift (list_assign status lix (Some 0%float)) ;;
    modify (set_LED_status status)).

Definition set_view_direction (sport : option serial_port) (V nV : Z) : M unit :=
  assert (nV =? 1) ;;
  assert ((0 <=? V) && (V <? nV)) ;;
  when (1 <? nV) (when verbose (stderr_write (Rotating V))).

Definition test_lighting_conditions (sport : option serial_port) (nL : Z) : M unit :=
  stderr_write (TestingAll num_LEDs) ;;
  test_lights sport ;;
  modify (set_LED_status (repeat (Some 0%float) (Z.to_nat num_LEDs))) ;;
  stderr_write (TestingConditions nL) ;;
  for_loop (range nL) (fun L =>
    stderr_write (SettingCondition L) ;;
    LED_vals <- lift (define_LED_vals L nL) ;;
    set_light_condition sport LED_vals ;;
    switch_all_lights_off sport).

Definition make_subdir_name (topdir : string) (L V : Z) : string :=
  (topdir ++ "/L_" ++ format_d false 2 L ++ "/V_" ++ format_d false 2 V ++ "/raw")%string.

Definition make_frame_filename (topdir : string) (L V H : Z) : string :=
  let subdir := make_subdir_name topdir L V in
  (subdir ++ "/frame_" ++ format_d false 5 H ++ ".jpg")%string.

(** The directories above [path]: what stands before each of its slashes. *)
Fixpoint parents (seen path : string) : list string :=
  match path with
  | EmptyString => []
  | String c t =>
      (if Ascii.eqb c "/" then [seen] else [])
        ++ parents (seen ++ String c "")%string t
  end.

Definition exists_dir (path : string) (ds : list string) : bool :=
  existsb (String.eqb path) ds.

(** [os.makedirs(path, exist_ok=False)]. *)
Definition makedirs (path : string) : M unit :=
  ds <- get dirs ;;
  if exists_dir path ds then raise (FileExistsError path)
  else
    let missing := filter (fun d => negb (exists_dir d ds)) (parents "" path) in
    modify (set_dirs (ds ++ missing ++ [path])) ;;
    emit (MakeDirs path).

Definition create_directories (nL nV : Z) : M string :=
  assert ((0 <? nL) && (nL <=? 99) && (nL <=? nL_max)) ;;
  assert ((0 <? nV) && (nV <=? 99) && (nV <=? nV_max)) ;;
  tdx <- get utc_now ;;
  let topdir := ("muff_scans/" ++ tdx)%string in
  when verbose (stderr_write (CreatingTop topdir)) ;;
  makedirs topdir ;;
  for_loop (range nL) (fun L =>
    for_loop (range nV) (fun V =>
      let subdir := make_subdir_name topdir L V in
      when verbose (stderr_write (CreatingSub subdir)) ;;
      makedirs subdir)) ;;
  ret topdir.

(** The pipes are opened anew: the file object [m2cPipe] starts with an
    empty buffer. *)
Definition open_pipes : M (option pipe * option pipe) :=
  if camera_present && negb use_uvc then
    emit (PipeOpened muff_pipe_m2c) ;;
    modify (set_m2c_unsent false) ;;
    emit (PipeOpened muff_pipe_c2m) ;;
    ret (Some muff_pipe_m2c, Some muff_pipe_c2m)
  else
    stderr_write NotRunning ;;
    ret (None, None).

Definition estimate_secs (nL nV nH : Z) : float :=
  let mov_time := 2.00%float in
  let rot_time := 3.00%float in
  let img_time := 3.00%float in
  let eTime := (img_time * float_of_int nL)%float in
  let eTime := if 1 <? nV then ((eTime + rot_time) * float_of_int nV)%float else eTime in
  (eTime * float_of_int nH + mov_time * float_of_int (nH - 1))%float.

(** [os.system(command)]: the next entry of [system_status], 0 with none left. *)
Definition os_system (command : string) : M Z :=
  emit (System command) ;;
  st <- get system_status ;;
  match st with
  | r :: rest => modify (set_system_status rest) ;; ret r
  | [] => ret 0
  end.

Definition capture_frame_uvc (fname : string) : M bool :=
  let template := "uvccapture -S40 -C30 -G80 -B20 -x2560 -y2048 -o'%s' -v" in
  when verbose (stderr_write (GrabbingWith template)) ;;
  if negb camera_present then ret true
  else
    let command := ("uvccapture -S40 -C30 -G80 -B20 -x2560 -y2048 -o'" ++ fname ++ "' -v")%string in
    res <- os_system command ;;
    if negb (res =? 0) then
      stderr_write (UvcStatus res) ;;
      ret false
    else ret true.

(** The [try] block of [capture_frame_camview]: two writes and a flush on
    [m2cPipe]. It raises as a whole or not at all: [AttributeError] when the
    pipe is [None], or what the next entry of [m2c_fails] says (no failure
    with none left). The bare [except] catches either; [false] is that case.
    The writes only fill the buffer of the file object, so it is the flush
    that raises, and the request then stays in the buffer; a flush that
    goes through leaves the buffer empty. *)
Definition m2c_send (m2cPipe : option pipe) (command : string) : M bool :=
  match m2cPipe with
  | None => ret false
  | Some _ =>
      fs <- get m2c_fails ;;
      match fs with
      | true :: rest =>
          modify (set_m2c_fails rest) ;;
          modify (set_m2c_unsent true) ;;
          ret false
      | false :: rest =>
          modify (set_m2c_fails rest) ;;
          modify (set_m2c_unsent false) ;;
          emit (PipeWrite (command ++ String nl "")%string) ;; ret true
      | [] =>
          modify (set_m2c_unsent false) ;;
          emit (PipeWrite (command ++ String nl "")%string) ;; ret true
      end
  end.

(** [c2mPipe.readline()]: the next line, or the empty string once the other
    end has closed the pipe. *)
Definition c2m_readline (c2mPipe : option pipe) : M string :=
  match c2mPipe with
  | None => raise AttributeError
  | Some _ =>
      ls <- get c2m_in ;;
      match ls with
      | s :: rest => modify (set_c2m_in rest) ;; emit (PipeRead s) ;; ret s
      | [] => emit (PipeRead "") ;; ret ""
      end
  end.

(** The format of the verbose line of the branch without a camera ends in
    [%] and a newline, which [%] refuses with [ValueError]. *)
Definition capture_frame_camview (m2cPipe c2mPipe : option pipe) (fname : string) : M bool :=
  let command := ("G " ++ fname)%string in
  if negb camera_present then
    when verbose (raise ValueError) ;;
    ret true
  else
    sent <- m2c_send m2cPipe command ;;
    if negb sent then
      stderr_write CommandNotSent ;;
      ret false
    else
      s <- c2m_readline c2mPipe ;;
      if String.eqb s "" then
        stderr_write PipeWasClosed ;;
        ret false
      else if negb (String.eqb s (String "o" (String "k" (String nl "")))) then
        stderr_write (InvalidResponse (show_chars s false)) ;;
        ret false
      else ret true.

Definition capture_frame (m2cPipe c2mPipe : option pipe) (topdir : string) (L V H : Z) : M bool :=
  let fname := make_frame_filename topdir L V H in
  stderr_write (CapturingFrame H fname) ;;
  if use_uvc then capture_frame_uvc fname
  else capture_frame_camview m2cPipe c2mPipe fname.

(** The body of the innermost loop of [capture_image_set], for lighting
    condition [L]: [Some false] is its [return False]. *)
Definition capture_image_set_body (sport : option serial_port) (m2cPipe c2mPipe : option pipe)
    (topdir : string) (nL V H L : Z) : M (option bool) :=
  LED_vals <- lift (define_LED_vals L nL) ;;
  set_light_condition sport LED_vals ;;
  ok <- capture_frame m2cPipe c2mPipe topdir L V H ;;
  switch_all_lights_off sport ;;
  if negb ok then
    stderr_write CaptureFailed ;;
    ret (Some false)
  else ret None.

(** The move between two heights. *)
Definition capture_image_set_rise (sport : option serial_port) (Z_step : float) : M unit :=
  move_microscope sport ;;
  z <- get Z_curr ;;
  match z with
  | Some z => modify (set_Z_curr (Some (z + Z_step)%float))
  | None => raise TypeError
  end.

Definition capture_image_set (sport : option serial_port) (m2cPipe c2mPipe : option pipe)
    (nL nV nH : Z) (Z_step : float) : M bool :=
  assert ((0 <? nL) && (nL <=? nL_max)) ;;
  assert ((0 <? nV) && (nV <=? nV_max)) ;;
  assert ((0 <? nH) && (nH <=? nH_max)) ;;
  assert (PrimFloat.leb Z_step_min Z_step && PrimFloat.leb Z_step Z_step_max) ;;
  assert (PrimFloat.leb (float_of_int nH * Z_step) (Z_range_max + 0.0001)) ;;
  let nI := nL * nV * nH in
  stderr_write (Capturing nI nL nV nH) ;;
  let eTime := estimate_secs nL nV nH in
  stderr_write (EstimatedTime (eTime / 60)%float) ;;
  topdir <- create_directories nL nV ;;
  stderr_write (SavingIn topdir) ;;
  r <- for_each (range nH) (fun H =>
    when (0 <? H) (capture_image_set_rise sport Z_step) ;;
    for_each (range nV) (fun V =>
      when (1 <? nV) (set_view_direction sport V nV) ;;
      for_each (range nL) (capture_image_set_body sport m2cPipe c2mPipe topdir nL V H))) ;;
  match r with
  | Some v => ret v
  | None =>
      stderr_write (Captured nI) ;;
      ret true
  end.

(** One turn of the loop of [place_camera_for_first_image] on the line [s]
    that [stdin.readline()] returned: [Some r] is [return r], [None] goes
    round again. *)
Definition place_camera_body (sport : option serial_port) (s : string) : M (option bool) :=
  if String.eqb s "" then
    stderr_write Newline ;;
    stop_motor sport ;;
    ret (Some false)
  else
    let s := strip s in
    if String.eqb (lower s) "ok" then
      stop_motor sport ;;
      modify (set_Z_curr (Some 0%float)) ;;
      ret (Some true)
    else if String.eqb (lower s) "abort" || String.eqb (lower s) "q" then
      stop_motor sport ;;
      ret (Some false)
    else
      (if String.eqb s "u" then start_motor sport 1 false
       else if String.eqb s "d" then start_motor sport (-1) false
       else if String.eqb s "U" then start_motor sport 1 true
       else if String.eqb s "D" then start_motor sport (-1) true
       else if String.eqb (lower s) "s" then stop_motor sport
       else if String.eqb s "" then ret tt
       else stderr_write (Unrecognized (show_chars s true))) ;;
      ret None.

Fixpoint place_camera_loop (fuel : nat) (sport : option serial_port) : M bool :=
  match fuel with
  | O => halt Blocked
  | S fuel' =>
      stderr_write Prompt ;;
      s <- stdin_readline ;;
      r <- place_camera_body sport s ;;
      match r with
      | Some v => ret v
      | None => place_camera_loop fuel' sport
      end
  end.

(** The loop reads one line per iteration and returns at the end of the
    input, so one more than the number of pending lines bounds its
    iterations. The [switch_all_lights_off] after the loop is never reached. *)
Definition place_camera_for_first_image (sport : option serial_port) : M bool :=
  stderr_write StartingPositioning ;;
  stderr_write PositioningHelp ;;
  let Lval := repeat 0%float (Z.to_nat num_LEDs) in
  Lval <- lift (Pure.bind (list_assign Lval 0 1%float) (fun l =>
                Pure.bind (list_assign l 3 1%float) (fun l =>
                Pure.bind (list_assign l 6 1%float) (fun l =>
                list_assign l 9 1%float)))) ;;
  set_light_condition sport Lval ;;
  n <- get (fun w => S (List.length (stdin_in w))) ;;
  place_camera_loop n sport.

(** [m2cPipe.close()]: it flushes the buffer first. With nothing unsent
    there is nothing to write and the pipe is closed. With a request that a
    failed flush has left there, the flush is tried again on the pipe that
    refused it and raises [BrokenPipeError] again; the file is closed all
    the same, and the exception leaves [close]. *)
Definition m2c_close (p : pipe) : M unit :=
  unsent <- get m2c_unsent ;;
  emit (PipeClosed p) ;;
  when unsent (raise BrokenPipeError).

(** [c2mPipe.close()], on a pipe open for reading. *)
Definition c2m_close (p : pipe) : M unit := emit (PipeClosed p).

Definition terminate_process (sport : option serial_port) (m2cPipe c2mPipe : option pipe)
    (ok : bool) : M unit :=
  match m2cPipe with Some p => m2c_close p | None => ret tt end ;;
  match c2mPipe with Some p => c2m_close p | None => ret tt end ;;
  stop_motor sport ;;
  switch_all_LEDs sport 0%float ;;
  if ok then
    stderr_write Done ;;
    sys_exit 0
  else
    stderr_write ProcessAborted ;;
    sys_exit 1.

(** The command line, as [check_for_help] and the [try] block of
    [parse_command_line_args] read it: [-help] alone; arguments whose
    conversion raises; or four converted values. [synopsis] holds when there
    are not exactly four arguments or the first is [-help], in which case
    the help text is printed first. *)
Inductive cmdline : Type :=
| HelpRequested
| Unparsed (synopsis : bool)
| Parsed (synopsis : bool) (nL nV nH : Z) (Z_step : float).

Definition parse_command_line_args (argv : cmdline) : M (option (Z * Z * Z * float)) :=
  match argv with
  | HelpRequested => stderr_write Synopsis ;; stderr_write BadArguments ;; ret None
  | Unparsed synopsis =>
      when synopsis (stderr_write Synopsis) ;;
      stderr_write BadArguments ;;
      ret None
  | Parsed synopsis nL nV nH Z_step =>
      when synopsis (stderr_write Synopsis) ;;
      ret (Some (nL, nV, nH, Z_step))
  end.

(** [main]. With arguments that do not parse it calls [terminate_process]
    with two arguments instead of four, which raises [TypeError]. *)
Definition main (argv : cmdline) : M unit :=
  match argv with
  | HelpRequested => stderr_write Synopsis ;; sys_exit 0
  | _ => ret tt
  end ;;
  let sport : option serial_port := None in
  args <- parse_command_line_args argv ;;
  match args with
  | None => raise TypeError
  | Some (nL, nV, nH, Z_step) =>
      pipes <- open_pipes ;;
      let (m2cPipe, c2mPipe) := pipes in
      sport <- connect arduino_present verbose ;;
      test_lighting_conditions sport nL ;;
      set_Z_step sport Z_step ;;
      ok <- place_camera_for_first_image sport ;;
      when (negb ok) (terminate_process sport m2cPipe c2mPipe ok) ;;
      ok <- capture_image_set sport m2cPipe c2mPipe nL nV nH Z_step ;;
      terminate_process sport m2cPipe c2mPipe ok ;;
      raise AssertionError
  end.

(** ** Reading a trace *)

(** The device command an event carries: the bytes written to the port, or,
    without a port, the command the simulation announces. Both are given as
    [show_bytes] prints them. *)
Definition issued (e : event) : option string :=
  match e with
  | SerialWrite command => Some (show_bytes command false)
  | Stderr (WouldSend shown) => Some shown
  | _ => None
  end.

Fixpoint commands (t : list event) : list string :=
  match t with
  | [] => []
  | e :: t' => match issued e with
               | Some c => c :: commands t'
               | None => commands t'
               end
  end.

(** The lines sent to the frame grabber. *)
Fixpoint requests (t : list event) : list string :=
  match t with
  | [] => []
  | PipeWrite line :: t' => line :: requests t'
  | _ :: t' => requests t'
  end.


(** ** Vocabulary of the properties *)

(** The number of lit LEDs each branch of the planner stands for. *)
Definition branch_count (nL : Z) : nat :=
  if 12 <? nL then 1 else if nL =? 12 then 2 else 6.

Definition binary (vals : list float) : Prop :=
  Forall (fun x => x = 0%float \/ x = 1%float) vals.

(** The planner on a branch that returns: a 24-entry vector of 0.0 and 1.0
    with as many entries lit as the branch says. *)
Definition planned (L nL : Z) : Prop :=
  exists vals, define_LED_vals L nL = Normal vals
    /\ List.length vals = 24%nat /\ binary vals
    /\ count_lit vals = branch_count nL.

(** A serial input that delivers one byte per read. *)
Definition stream (bs : list byte) : list bytes := map (fun c => [c]) bs.

Definition blank (c : byte) : Prop := c = " "%byte \/ c = x0d \/ c = x0a.
Definition eol (c : byte) : Prop := c = x0d \/ c = x0a.

(** [resolves pre tok]: the bytes [pre] are spaces, CRs, LFs and comments
    (a [#], any bytes other than CR and LF, then one CR or LF), followed by
    the one byte [tok], which is none of these. *)
Inductive resolves : list byte -> byte -> Prop :=
| resolves_token (tok : byte) :
    ~ blank tok -> tok <> "#"%byte -> resolves [tok] tok
| resolves_blank (c : byte) (pre : list byte) (tok : byte) :
    blank c -> resolves pre tok -> resolves (c :: pre) tok
| resolves_comment (body : list byte) (e : byte) (pre : list byte) (tok : byte) :
    Forall (fun c => ~ eol c) body -> eol e -> resolves pre tok ->
    resolves ("#"%byte :: body ++ e :: pre) tok.

(** [w'] is [w] after reads from the serial port and lines on [stderr] that
    announce no command: nothing else differs. *)
Definition quiet (w w' : World) : Prop :=
  w' = set_trace (trace w') (set_serial_in (serial_in w') w)
  /\ exists t, trace w' = trace w ++ t /\ commands t = [] /\ requests t = [].

(** The two acknowledged inputs of the examples: [# junk CR LF 0] and
    [SP SP LF SP 0]. *)
Definition junk_then_ack : list byte := b "# junk" ++ [x0d; x0a] ++ b "0".
Definition blanks_then_ack : list byte := b "  " ++ [x0a] ++ b " 0".

(** A world with nothing in it: the globals as the modules initialise them. *)
Definition initial_world : World :=
  mkWorld [] [] [] [] false [] "2018-09-04-1849-U" [] false (repeat None 24) None [].

(** A computation after which the world is [quiet] with respect to the one
    it started in, however it ends. *)
Definition keeps_quiet {A} (m : M A) : Prop := forall w, quiet w (snd (m w)).

(** The text of the command that switches LED [lix] to [pwr]. *)
Definition LED_command (lix : Z) (pwr : float) : string :=
  ((if PrimFloat.eqb pwr 1 then "+" else "-")
     ++ String (ascii_of_N (Z.to_N (65 + lix))) "")%string.

(** The commands [set_light_condition] owes for the entries [vals] against
    the cached [status], the first of them being LED [lix]. *)
Fixpoint switches (lix : Z) (vals : list float) (status : list (option float))
  : list string :=
  match vals, status with
  | pwr :: vals', old :: status' =>
      (if differs pwr old then [LED_command lix pwr] else [])
        ++ switches (lix + 1) vals' status'
  | _, _ => []
  end.

(** The cache after these commands. *)
Fixpoint refreshed (vals : list float) (status : list (option float))
  : list (option float) :=
  match vals, status with
  | pwr :: vals', old :: status' =>
      (if differs pwr old then Some pwr else old) :: refreshed vals' status'
  | _, _ => status
  end.

(** [w] with the events [t] appended to its trace. *)
Definition extend (t : list event) (w : World) : World := set_trace (trace w ++ t) w.

(** What a verbose line adds to the trace. *)
Definition announce (verbose : bool) (note : message) : list event :=
  if verbose then [Stderr note] else [].

(** What a command leaves in the trace when there is no port. *)
Definition simulated (shown : string) : list event :=
  [Stderr (WouldSend shown); Stderr PretendingOK].

(** The events of [set_light_condition] without a port. *)
Fixpoint light_events (verbose : bool) (lix : Z) (vals : list float)
    (status : list (option float)) : list event :=
  match vals, status with
  | pwr :: vals', old :: status' =>
      (if differs pwr old
       then announce verbose (SettingLED lix pwr) ++ simulated (LED_command lix pwr)
       else [])
        ++ light_events verbose (lix + 1) vals' status'
  | _, _ => []
  end.

(** The four motions of the positioning loop. *)
Definition motion_opcode (dir : Z) (fast : bool) : string :=
  if dir =? 1 then (if fast then "6" else "1") else (if fast then "7" else "2").

(** A vector with LED 0 lit. *)
Definition one_lit : list float := 1%float :: repeat 0%float 23.

(** [w] after the prompt and the read of the line [s], [rest] being the
    lines still unread. *)
Definition prompted (s : string) (rest : list string) (w : World) : World :=
  extend [Stderr Prompt; StdinRead s] (set_stdin_in rest w).

(** The vector lit during manual positioning: LEDs 0, 3, 6 and 9. *)
Definition positioning_lights : list float :=
  map (fun k => if (k mod 3 =? 0) && (k <? 12) then 1%float else 0%float) (range 24).

(** A line as [readline] returns it, with its newline. *)
Definition line (s : string) : string := (s ++ String nl "")%string.

(** The stripped lines the loop acts on. *)
Definition recognised (c : string) : Prop :=
  lower c = "ok" \/ lower c = "abort" \/ lower c = "q" \/ lower c = "s"
  \/ c = "u" \/ c = "d" \/ c = "U" \/ c = "D" \/ c = "".

(** The payload of a step of [istep] microns is plain ASCII and is shown as
    it is. *)
Definition payload_ok (istep : Z) : bool :=
  match encode_ascii ("4" ++ format_d true 3 istep)%string with
  | Normal bs =>
      String.eqb (string_of_list_byte bs) ("4" ++ format_d true 3 istep)%string
      && String.eqb (show_bytes bs false) ("4" ++ format_d true 3 istep)%string
  | Stop _ => false
  end.

(** The width 3 of [%+03d] counts the sign: below 100 microns the magnitude
    is printed with two digits. *)
Definition magnitude_digits (istep : Z) : nat := String.length (format_d true 3 istep) - 1.

(** What the sequencer is watched for: a capture request sent to the frame
    grabber, or a step-once command ([5]) issued to the device. *)
Inductive milestone : Type :=
| Request (sent : string)
| StepOnce.

Definition milestone_of (e : event) : option milestone :=
  match e with
  | PipeWrite sent => Some (Request sent)
  | _ => match issued e with
         | Some c => if String.eqb c "5" then Some StepOnce else None
         | None => None
         end
  end.

Fixpoint milestones (t : list event) : list milestone :=
  match t with
  | [] => []
  | e :: t' => match milestone_of e with
               | Some m => m :: milestones t'
               | None => milestones t'
               end
  end.

(** The events of one frame captured through the pipes without a port:
    the lights, the request, its acknowledgement, all lights off. *)
Definition frame_events (verbose : bool) (vals : list float) (status : list (option float))
    (H : Z) (fname : string) : list event :=
  light_events verbose 0 vals status
  ++ [Stderr (CapturingFrame H fname); PipeWrite (line ("G " ++ fname));
      PipeRead (line "ok")]
  ++ announce verbose (SettingAllLEDs 0%float) ++ simulated "-@".

(** The world after such a frame, [rest] being the replies still unread. *)
Definition after_frame (vals : list float) (H : Z) (fname : string) (rest : list string)
    (w : World) : World :=
  set_LED_status (repeat (Some 0%float) 24)
    (set_c2m_in rest
       (set_m2c_unsent false
          (set_m2c_fails (tl (m2c_fails w))
             (extend (frame_events (arduino_verbose w) vals (LED_status w) H fname) w)))).

(** The one lighting condition of [nL = 1]. *)
Definition sole_condition : list float :=
  map (fun k => if existsb (Z.eqb k) [2; 5; 6; 7; 10; 18] then 1%float else 0%float)
      (range 24).

(** The final status lines in a trace. *)
Fixpoint reports (t : list event) : nat :=
  match t with
  | [] => 0
  | Stderr Done :: t' => S (reports t')
  | Stderr ProcessAborted :: t' => S (reports t')
  | _ :: t' => reports t'
  end.

(** The replies [ok] in a trace: one per successful capture. *)
Fixpoint acknowledgements (t : list event) : nat :=
  match t with
  | [] => 0
  | PipeRead s :: t' =>
      if String.eqb s (line "ok") then S (acknowledgements t') else acknowledgements t'
  | _ :: t' => acknowledgements t'
  end.

(** What [terminate_process] does without a port when [m2cPipe] holds
    nothing unsent: the pipes are closed, the motor is stopped, all lights
    are switched off, the status is reported. *)
Definition closing (m2cPipe c2mPipe : option pipe) : list event :=
  match m2cPipe with Some p => [PipeClosed p] | None => [] end
  ++ match c2mPipe with Some p => [PipeClosed p] | None => [] end.

Definition cleanup_events (verbose : bool) (m2cPipe c2mPipe : option pipe) (ok : bool)
  : list event :=
  closing m2cPipe c2mPipe
  ++ announce verbose StoppingMotor ++ simulated "3"
  ++ announce verbose (SettingAllLEDs 0%float) ++ simulated "-@"
  ++ [Stderr (if ok then Done else ProcessAborted)].

(** A computation that never leaves through [sys.exit] and reports no final
    status. *)
Definition plain {A} (m : M A) : Prop :=
  forall w, (forall c, fst (m w) <> Stop (Exit c))
            /\ exists t, trace (snd (m w)) = trace w ++ t /\ reports t = 0%nat.

(** A pure result that is no [sys.exit]. *)
Definition no_exit {A} (o : outcome A) : Prop := forall c, o <> Stop (Exit c).

(** [main] on parsed arguments, after the pipes are open and the (absent)
    Arduino is connected. *)
Definition session (m2cPipe c2mPipe : option pipe) (nL nV nH : Z) (Z_step : float) : M unit :=
  test_lighting_conditions None nL ;;
  set_Z_step None Z_step ;;
  ok <- place_camera_for_first_image None ;;
  when (negb ok) (terminate_process None m2cPipe c2mPipe ok) ;;
  ok <- capture_image_set None m2cPipe c2mPipe nL nV nH Z_step ;;
  terminate_process None m2cPipe c2mPipe ok ;;
  raise AssertionError.

(** The world in which the session starts. *)
Definition session_start (synopsis : bool) (w : World) : World :=
  extend [Stderr DebuggingRun]
    (set_arduino_verbose false
       (extend [PipeOpened muff_pipe_m2c; PipeOpened muff_pipe_c2m]
          (set_m2c_unsent false
             (extend (if synopsis then [Stderr Synopsis] else []) w)))).

(** A world for a whole run: what the operator types and what the frame
    grabber replies. *)
Definition session_world (keys replies : list string) : World :=
  set_stdin_in keys (set_c2m_in replies initial_world).

(** How a run ended: the outcome, the number of capture requests, of
    successful captures and of final status lines, and the last seven
    events. *)
Definition ending (r : outcome unit * World) :=
  (fst r, List.length (requests (trace (snd r))), acknowledgements (trace (snd r)),
   reports (trace (snd r)),
   skipn (List.length (trace (snd r)) - 7) (trace (snd r))).

(** Three lighting conditions, one view, one height: three planned captures. *)
Definition three_captures : cmdline := Parsed false 3 1 1 0.1%float.

(** ** Reading parameters ([muff_params.py]) *)

(** [read_signif_line(rd)], on the lines that [rd] has still to give, each
    as [readline] returns it: the result, and the lines left after the
    call. With no line left [readline] returns the empty string. The result
    of the call of [re.sub] is bound to nothing, so the line goes on as it
    was read. *)
Fixpoint read_signif_line (rd : list string) : string * list string :=
  match rd with
  | [] => ("", [])
  | s :: rest =>
      if String.eqb s "" then (s, rest)
      else
        let s := strip s in
        if negb (String.eqb s "") then (s, rest)
        else read_signif_line rest
  end.

(** ** Vocabulary of the further properties *)

(** The characters [show_chars] may put out: printable ASCII other than the
    two quotes. *)
Definition displayable (c : ascii) : bool :=
  (32 <=? ord c) && (ord c <=? 126)
  && negb (Ascii.eqb c "'") && negb (Ascii.eqb c (ascii_of_nat 34)).

(** The characters [show_chars] copies as they are. *)
Definition copied (blanks : bool) (c : ascii) : bool :=
  (32 <=? ord c) && (ord c <=? 126) && negb (existsb (Ascii.eqb c) bad_chars)
  && negb (Ascii.eqb c " " && blanks).

Definition digit_value (c : ascii) : Z := ord c - 48.

(** Reading back what [show_chars] wrote: [[chr(NNN)]] is the character of
    code [NNN], any other character is itself. *)
Fixpoint unshow (s : string) : string :=
  match s with
  | String "[" (String "c" (String "h" (String "r" (String "("
      (String d1 (String d2 (String d3 (String ")" (String "]" t))))))))) =>
      String (ascii_of_N (Z.to_N (100 * digit_value d1 + 10 * digit_value d2 + digit_value d3)))
             (unshow t)
  | String c t => String c (unshow t)
  | EmptyString => EmptyString
  end.

(** The number a string of decimal digits stands for. *)
Fixpoint digits_value (acc : Z) (s : string) : Z :=
  match s with
  | String c t => digits_value (10 * acc + digit_value c) t
  | EmptyString => acc
  end.

(** ["%0<width>d" % n] has [width] characters and reads back as [n]. *)
Definition reads_back (width : nat) (n : Z) : bool :=
  (String.length (format_d false width n) =? width)%nat
  && (digits_value 0 (format_d false width n) =? n).

(** [P] on the [n] integers from [from] on. *)
Fixpoint all_from (P : Z -> bool) (n : nat) (from : Z) : bool :=
  match n with
  | O => true
  | S n' => P from && all_from P n' (from + 1)
  end.

(** The events of a successful [create_directories nL 1]. *)
Definition directory_events (topdir : string) (nL : Z) : list event :=
  MakeDirs topdir :: map (fun L => MakeDirs (make_subdir_name topdir L 0)) (range nL).

(** [w] is [w0] after the top directory and the subdirectories of the first
    [k] lighting conditions were made: only the directories and the trace
    differ; every directory there is was there before, is one of these
    subdirectories, or has a shorter name than they have. *)
Definition dirs_made (topdir : string) (w0 : World) (k : Z) (w : World) : Prop :=
  exists ds,
    w = set_trace (trace w0 ++ directory_events topdir k) (set_dirs ds w0)
    /\ incl (dirs w0) ds
    /\ In topdir ds
    /\ (forall L, 0 <= L < k -> In (make_subdir_name topdir L 0) ds)
    /\ (forall d, In d ds ->
          In d (dirs w0) \/ (String.length d < String.length topdir + 14)%nat
          \/ exists L, 0 <= L < k /\ d = make_subdir_name topdir L 0).

(** The vector of lighting condition [L] out of [nL]; empty where the
    planner raises. *)
Definition condition (L nL : Z) : list float :=
  match define_LED_vals L nL with
  | Normal vals => vals
  | Stop _ => []
  end.

(** The 24 entries of a cache with all lights off. *)
Definition all_off : list (option float) := repeat (Some 0%float) 24.

(** The commands that show one lighting condition from darkness and switch
    all lights off again. *)
Definition flash (vals : list float) : list string :=
  switches 0 vals all_off ++ ["-@"].

(** The commands of [test_lighting_conditions] up to and including the
    first [n] conditions of [nL]. *)
Definition rehearsal (nL n : Z) : list string :=
  ["+@"; "-@"] ++ flat_map (fun L => flash (condition L nL)) (range n).

(** [w'] is [w] after the lights were driven with the commands [cs] and left
    off: the cache reads all off, the trace has grown by events that carry
    these commands, no capture request, no reply and no final status, and
    nothing else differs. *)
Definition lights_run (cs : list string) (w w' : World) : Prop :=
  exists t,
    w' = set_LED_status all_off (extend t w)
    /\ commands t = cs /\ requests t = [] /\ reports t = 0%nat /\ milestones t = []
    /\ acknowledgements t = 0%nat.

(** Bytes that hold no result: spaces, CRs, LFs and comments, of which the
    last one may lack its end of line. *)
Inductive silent : list byte -> Prop :=
| silent_nil : silent []
| silent_blank (c : byte) (pre : list byte) :
    blank c -> silent pre -> silent (c :: pre)
| silent_comment (body : list byte) (e : byte) (pre : list byte) :
    Forall (fun c => ~ eol c) body -> eol e -> silent pre ->
    silent ("#"%byte :: body ++ e :: pre)
| silent_open (body : list byte) :
    Forall (fun c => ~ eol c) body -> silent ("#"%byte :: body).

(** The parameter checks of [capture_image_set], all five together. *)
Definition admissible (nL nV nH : Z) (Z_step : float) : bool :=
  ((0 <? nL) && (nL <=? nL_max))
  && ((0 <? nV) && (nV <=? nV_max))
  && ((0 <? nH) && (nH <=? nH_max))
  && (PrimFloat.leb Z_step_min Z_step && PrimFloat.leb Z_step Z_step_max)
  && PrimFloat.leb (float_of_int nH * Z_step) (Z_range_max + 0.0001).

(** The capture request of the frame of condition [L] at height [H]. *)
Definition frame_request (topdir : string) (H L : Z) : milestone :=
  Request (line ("G " ++ make_frame_filename topdir L 0 H)).

(** What a scan does at height [H]: one step up unless it is the first
    height, then one frame per lighting condition, in order. *)
Definition height_milestones (topdir : string) (nL H : Z) : list milestone :=
  (if 0 <? H then [StepOnce] else []) ++ map (frame_request topdir H) (range nL).

Definition scan_milestones (topdir : string) (nL nH : Z) : list milestone :=
  flat_map (height_milestones topdir nL) (range nH).

(** The height after [n] steps of [Z_step], added one after the other. *)
Fixpoint risen (n : nat) (z Z_step : float) : float :=
  match n with
  | O => z
  | S n' => risen n' (z + Z_step)%float Z_step
  end.

(** A world in which frames can be taken without a port: a cache of 24
    entries, a pipe that takes every request, the height [z], and the
    replies [replies] to come. *)
Definition ready (z : float) (replies : list string) (w : World) : Prop :=
  List.length (LED_status w) = 24%nat
  /\ Forall (fun f => f = false) (m2c_fails w)
  /\ Z_curr w = Some z
  /\ c2m_in w = replies.

(** [w'] is [w] after events with the milestones [ms]; the verbosity and
    the operator's pending lines are as they were. *)
Definition advanced (ms : list milestone) (w w' : World) : Prop :=
  exists t, trace w' = trace w ++ t /\ milestones t = ms
            /\ arduino_verbose w' = arduino_verbose w /\ stdin_in w' = stdin_in w.

(** The requests among milestones, and the number of steps among them. *)
Definition requested (ms : list milestone) : list string :=
  flat_map (fun m => match m with Request sent => [sent] | StepOnce => [] end) ms.

Definition steps (ms : list milestone) : nat :=
  List.length (filter (fun m => match m with StepOnce => true | Request _ => false end) ms).

(** What [capture_frame_camview] writes about a reply that is not [ok]. *)
Definition complaint (s : string) : message :=
  if String.eqb s "" then PipeWasClosed else InvalidResponse (show_chars s false).

(** The events of one frame whose request is answered by [s], not [ok]:
    the lights, the request, the reply and the complaint about it, all
    lights off, and the report of the failure. *)
Definition failed_frame_events (verbose : bool) (vals : list float)
    (status : list (option float)) (H : Z) (fname s : string) : list event :=
  light_events verbose 0 vals status
  ++ [Stderr (CapturingFrame H fname); PipeWrite (line ("G " ++ fname));
      PipeRead s; Stderr (complaint s)]
  ++ announce verbose (SettingAllLEDs 0%float) ++ simulated "-@"
  ++ [Stderr CaptureFailed].

Definition after_failed_frame (vals : list float) (H : Z) (fname s : string)
    (rest : list string) (w : World) : World :=
  set_LED_status (repeat (Some 0%float) 24)
    (set_c2m_in rest
       (set_m2c_unsent false
          (set_m2c_fails (tl (m2c_fails w))
             (extend (failed_frame_events (arduino_verbose w) vals (LED_status w) H fname s)
                w)))).

(** [w'] is [w] after events among which [n] captures were acknowledged
    and no final status was reported; a pipe with nothing unsent is left
    with nothing unsent. *)
Definition acknowledged (n : nat) (w w' : World) : Prop :=
  (exists t, trace w' = trace w ++ t /\ acknowledgements t = n /\ reports t = 0%nat)
  /\ (m2c_unsent w = false -> m2c_unsent w' = false).

(** The replies [tail] begin with no acknowledgement: with a line [s] that
    is not [ok], [rest] being the lines after it, or, the other end having
    closed the pipe, with no line at all, which reads as the empty [s]. *)
Definition unacknowledged (s : string) (rest tail : list string) : Prop :=
  (tail = s :: rest /\ s <> line "ok") \/ (tail = [] /\ s = "" /\ rest = []).

(** The milestones [ms] are a scan [full] broken off with its [n]-th
    request. *)
Definition stopped_after (n : nat) (full ms : list milestone) : Prop :=
  (exists later, full = ms ++ later)
  /\ List.length (requested ms) = n
  /\ exists before sent, ms = before ++ [Request sent].

(** The indices a vector has lit, in increasing order. *)
Definition lit (vals : list float) : list Z :=
  map fst (filter (fun p => PrimFloat.eqb (snd p) 1%float)
                  (combine (range (Z.of_nat (List.length vals))) vals)).

(** [vals] with 1.0 written at the indices in [set]. *)
Definition lit_at (set : list Z) (vals : list float) : list float :=
  map (fun p => if existsb (Z.eqb (fst p)) set then 1%float else snd p)
      (combine (range (Z.of_nat (List.length vals))) vals).

(** The LEDs of the pattern centred on top-tier LED [Lm]: it, its two
    neighbours and the two LEDs 120 degrees away on the top tier, and the
    LED below it. *)
Definition centric_set (Lm : Z) : list Z :=
  [Lm; (Lm + 1) mod 12; (Lm + 11) mod 12; (Lm + 4) mod 12; (Lm + 8) mod 12; Lm + 12].

(** The LEDs of the pattern centred between the top-tier LEDs [La] and the
    next: these two, the LED 120 degrees after the second and the one 120
    degrees before the first on the top tier, and the two LEDs below. *)
Definition bridging_set (La : Z) : list Z :=
  [La; (La + 1) mod 12; (La + 5) mod 12; (La + 8) mod 12; La + 12; (La + 1) mod 12 + 12].

Definition same_members (a c : list Z) : bool :=
  forallb (fun k => existsb (Z.eqb k) c) a && forallb (fun k => existsb (Z.eqb k) a) c.

(** An LED index turned by [r] places of 30 degrees within its tier. *)
Definition turn (r k : Z) : Z := (k + r) mod 12 + 12 * (k / 12).

(** The numbers of lit LEDs on the top and on the bottom tier. *)
Definition tiers (vals : list float) : nat * nat :=
  (List.length (filter (fun k => k <? 12) (lit vals)),
   List.length (filter (fun k => 12 <=? k) (lit vals))).

Definition list_Z_eqb (a c : list Z) : bool :=
  if list_eq_dec Z.eq_dec a c then true else false.

(** The checks behind the properties of the planner, for one input. *)
Definition distinct_check (nL L L' : Z) : bool :=
  (L =? L') || negb (list_Z_eqb (lit (condition L nL)) (lit (condition L' nL))).

(** The numbers of lit LEDs per tier that each branch of the planner
    stands for. *)
Definition expected_tiers (nL L : Z) : nat * nat :=
  if 12 <? nL then (if L <? 12 then (1%nat, 0%nat) else (0%nat, 1%nat))
  else if nL =? 12 then (1%nat, 1%nat)
  else if (nL =? 6) || (azimuth_slot L nL mod 2 =? 0) then (5%nat, 1%nat)
  else (4%nat, 2%nat).

Definition tiers_check (nL L : Z) : bool :=
  (fst (tiers (condition L nL)) =? fst (expected_tiers nL L))%nat
  && (snd (tiers (condition L nL)) =? snd (expected_tiers nL L))%nat.

(** The inputs on which the planner returns a vector. *)
Definition plannable (nL L : Z) : bool :=
  (1 <=? nL) && (nL <=? 24) && (0 <=? L) && (L <? nL)
  && ((L <? 12) || (nL =? 24) || (nL <=? 12)).

Definition rotate_check (nL L : Z) : bool :=
  same_members (lit (condition ((L + 1) mod nL) nL))
               (map (turn (12 / nL)) (lit (condition L nL))).

(** A line as [readline] gives it that holds only blanks. *)
Definition blank_line (s : string) : Prop := s <> "" /\ strip s = "".

(** What a line of the operator decides in the positioning loop: [ok]
    accepts the position, [abort], [q] and the end of the input (the empty
    string) give up, any other line leaves the loop running. *)
Definition verdict (s : string) : option bool :=
  if String.eqb s "" then Some false
  else if String.eqb (lower (strip s)) "ok" then Some true
  else if String.eqb (lower (strip s)) "abort" || String.eqb (lower (strip s)) "q"
       then Some false
  else None.

(** What the lines [keys] of the operator decide, the input ending after
    them, and the lines that are left once they have decided. *)
Fixpoint operator_accepts (keys : list string) : bool :=
  match keys with
  | [] => false
  | s :: rest => match verdict s with
                 | Some v => v
                 | None => operator_accepts rest
                 end
  end.

Fixpoint keys_left (keys : list string) : list string :=
  match keys with
  | [] => []
  | s :: rest => match verdict s with
                 | Some _ => rest
                 | None => keys_left rest
                 end
  end.

(** Events with no capture request, no step of the microscope, no reply
    and no final status among them. *)
Definition idle (t : list event) : Prop :=
  milestones t = [] /\ requests t = [] /\ reports t = 0%nat /\ acknowledgements t = 0%nat.

(** [w'] is [w] once the operator has decided: idle events were added, the
    operator's lines were read up to the deciding one, the height is 0.0
    when the position was accepted, and the pipes, the clock, the
    directories, the verbosity and the number of cache entries are as they
    were. *)
Definition positioned (w w' : World) : Prop :=
  (exists t, trace w' = trace w ++ t /\ idle t)
  /\ stdin_in w' = keys_left (stdin_in w)
  /\ (operator_accepts (stdin_in w) = true -> Z_curr w' = Some 0%float)
  /\ List.length (LED_status w') = List.length (LED_status w)
  /\ m2c_fails w' = m2c_fails w /\ m2c_unsent w' = m2c_unsent w /\ c2m_in w' = c2m_in w
  /\ utc_now w' = utc_now w /\ dirs w' = dirs w
  /\ arduino_verbose w' = arduino_verbose w.

(** The cleanup of a session, in the order of its events: both pipes
    closed, the motor stopped, all lights switched off, the final status
    reported. *)
Definition session_cleanup (ok : bool) : list event :=
  [PipeClosed muff_pipe_m2c; PipeClosed muff_pipe_c2m;
   Stderr (WouldSend "3"); Stderr PretendingOK;
   Stderr (WouldSend "-@"); Stderr PretendingOK;
   Stderr (if ok then Done else ProcessAborted)].

(** The run [r] of [main] from [w] left through [sys.exit], with 0 when
    [ok] and 1 otherwise. Its last events are the cleanup; before it there
    were [asked] capture requests, [done] acknowledged captures and no final
    status: the cleanup and the report happened once. [left] are the
    replies still unread. *)
Definition ended (r : outcome unit * World) (w : World) (ok : bool) (asked done : nat)
    (left : list string) : Prop :=
  fst r = Stop (Exit (if ok then 0 else 1))
  /\ c2m_in (snd r) = left
  /\ exists before,
       trace (snd r) = trace w ++ before ++ session_cleanup ok
       /\ List.length (requests before) = asked
       /\ acknowledgements before = done
       /\ reports before = 0%nat.

(** * Properties *)

(** ** Tools *)

Lemma range_In (n i : Z) : In i (range n) <-> 0 <= i < n.
Proof.
  unfold range. rewrite in_map_iff. split.
  - intros [k [<- Hk]]. apply in_seq in Hk. lia.
  - intros Hi. exists (Z.to_nat i). split; [lia | apply in_seq; lia].
Qed.

(** Settles the comparisons of a goal from the linear facts at hand. *)
Ltac settle_tests :=
  repeat match goal with
    | |- context [?a <? ?b] =>
        first [ replace (a <? b) with true by (symmetry; apply Z.ltb_lt; lia)
              | replace (a <? b) with false by (symmetry; apply Z.ltb_ge; lia) ]
    | |- context [?a <=? ?b] =>
        first [ replace (a <=? b) with true by (symmetry; apply Z.leb_le; lia)
              | replace (a <=? b) with false by (symmetry; apply Z.leb_gt; lia) ]
    | |- context [?a =? ?b] =>
        first [ replace (a =? b) with true by (symmetry; apply Z.eqb_eq; lia)
              | replace (a =? b) with false by (symmetry; apply Z.eqb_neq; lia) ]
    end.

(** Splits a bounded integer into its finitely many values. *)
Ltac enumerate i n :=
  let H := fresh "Hin" in
  assert (H : In i (range n)) by (apply range_In; lia);
  cbv [range Z.to_nat Pos.to_nat Pos.iter_op Nat.add seq map In Z.of_nat
       Pos.of_succ_nat Pos.succ] in H;
  repeat (destruct H as [H | H]; [subst i | ]); [ .. | contradiction ].

(** ** The light pattern planner *)

Lemma bottom_tier_index_range (L nL : Z) :
  13 <= nL <= 23 -> 12 <= L < nL -> 0 <= bottom_tier_index L nL < 12.
Proof.
  intros HnL HL. unfold bottom_tier_index. split.
  - apply Z.div_pos; lia.
  - apply Z.div_lt_upper_bound; lia.
Qed.

(** C1. For [nL] in 13..23 and [L] in 12..nL-1 the planner computes
    [Lx = ((L-12)*12 + 6)//(nL-12)], a top-tier index in 0..11, and then
    raises [NameError] on the unbound name [val]: no vector is returned, so
    none with LED [Lx + 12] lit. *)
Theorem define_LED_vals_bottom_tier_raises (L nL : Z) :
  13 <= nL <= 23 -> 12 <= L < nL ->
  define_LED_vals L nL = Stop (Raise (NameError "val"))
  /\ 0 <= bottom_tier_index L nL < 12
  /\ forall vals, define_LED_vals L nL <> Normal vals.
Proof.
  intros HnL HL.
  assert (E : define_LED_vals L nL = Stop (Raise (NameError "val"))).
  { unfold define_LED_vals, num_LEDs. settle_tests. reflexivity. }
  split; [exact E | split].
  - apply bottom_tier_index_range; assumption.
  - intros vals Hv. rewrite E in Hv. discriminate.
Qed.

Lemma define_LED_vals_bottom_tier_raises_at_12_13 :
  define_LED_vals 12 13 = Stop (Raise (NameError "val"))
  /\ 0 <= bottom_tier_index 12 13 < 12
  /\ forall vals, define_LED_vals 12 13 <> Normal vals.
Proof. apply (define_LED_vals_bottom_tier_raises 12 13); lia. Defined.

Ltac show_planned :=
  eexists; split; [ vm_compute; reflexivity | ];
  split; [ reflexivity | split; [ | reflexivity ] ];
  unfold binary;
  repeat (apply Forall_cons; [ first [ left; reflexivity | right; reflexivity ] | ]);
  apply Forall_nil.

Lemma planned_top (L nL : Z) :
  1 <= nL <= 24 -> 0 <= L < nL -> L < 12 \/ nL = 24 \/ nL <= 12 -> planned L nL.
Proof.
  intros HnL HL Hbranch.
  assert (HnL' : 0 <= nL - 1 < 24) by lia.
  remember (nL - 1) as m eqn:Em.
  assert (EnL : nL = m + 1) by lia. clear Em. subst nL.
  enumerate m 24; enumerate L (24 : Z); try lia; show_planned.
Qed.

(** C7. For every [nL] in 1..24 and [L] in 0..nL-1: in the bottom-tier
    branch ([nL] in 13..23, [L >= 12]) the planner raises [NameError] and
    returns no vector; on every other input it returns 24 entries, each 0.0
    or 1.0, of which 1 is lit for [nL > 12], 2 for [nL = 12] and 6 for
    [nL < 12]. The result depends on [(L, nL)] alone: run in any world, the
    call leaves the world as it was. *)
Theorem define_LED_vals_profile (L nL : Z) :
  1 <= nL <= 24 -> 0 <= L < nL ->
  (if (12 <? nL) && negb ((L <? 12) || (nL =? 24))
   then define_LED_vals L nL = Stop (Raise (NameError "val"))
   else planned L nL)
  /\ forall w, lift (define_LED_vals L nL) w = (define_LED_vals L nL, w).
Proof.
  intros HnL HL. split; [ | reflexivity ].
  destruct ((12 <? nL) && negb ((L <? 12) || (nL =? 24))) eqn:E.
  - apply andb_true_iff in E. destruct E as [E1 E2].
    apply Z.ltb_lt in E1. apply negb_true_iff in E2.
    apply orb_false_iff in E2. destruct E2 as [E2 E3].
    apply Z.ltb_ge in E2. apply Z.eqb_neq in E3.
    apply (define_LED_vals_bottom_tier_raises L nL); lia.
  - apply planned_top; try assumption.
    apply andb_false_iff in E. destruct E as [E | E].
    + apply Z.ltb_ge in E. lia.
    + apply negb_false_iff in E. apply orb_true_iff in E.
      destruct E as [E | E]; [apply Z.ltb_lt in E | apply Z.eqb_eq in E]; lia.
Qed.

Lemma define_LED_vals_profile_at_12_13 :
  define_LED_vals 12 13 = Stop (Raise (NameError "val"))
  /\ forall w, lift (define_LED_vals 12 13) w = (define_LED_vals 12 13, w).
Proof. apply (define_LED_vals_profile 12 13); lia. Defined.

Lemma azimuth_slot_bounds (L nL : Z) :
  1 <= nL <= 11 -> 0 <= L < nL -> 0 <= azimuth_slot L nL < 23.
Proof.
  intros HnL HL. unfold azimuth_slot. split.
  - apply Z.div_pos; lia.
  - apply Z.div_lt_upper_bound; lia.
Qed.

Lemma centric_returns (vals : list float) (Lm : Z) :
  List.length vals = 24%nat -> 0 <= Lm < 12 ->
  exists vals', define_LED_centric_pattern vals Lm = Normal vals'.
Proof.
  intros Hlen HLm.
  do 24 (destruct vals as [ | ? vals]; [discriminate | ]).
  destruct vals; [ | discriminate ].
  enumerate Lm (12 : Z); eexists; reflexivity.
Qed.

Lemma bridging_returns (vals : list float) (La : Z) :
  List.length vals = 24%nat -> 0 <= La < 12 ->
  exists vals', define_LED_bridging_pattern vals La = Normal vals'.
Proof.
  intros Hlen HLa.
  do 24 (destruct vals as [ | ? vals]; [discriminate | ]).
  destruct vals; [ | discriminate ].
  enumerate La (12 : Z); eexists; reflexivity.
Qed.

(** C10. For [nL] in 1..11 other than 6 and [L] in 0..nL-1 the azimuth slot
    [S = (L*24 + 12)//nL] satisfies [0 <= S < 23], the assertion of the code
    passes, the centre index ([S//2] for an even slot, [(S-1)//2] for an odd
    one) lies in 0..11, and the planner hands it to the pattern helper,
    whose own assertion passes: a vector is returned. *)
Theorem azimuth_slot_safe (L nL : Z) :
  1 <= nL <= 11 -> nL <> 6 -> 0 <= L < nL ->
  let S := azimuth_slot L nL in
  let zero := repeat 0%float 24 in
  0 <= S < 23
  /\ (S mod 2 = 0 ->
      0 <= S / 2 < 12
      /\ define_LED_vals L nL = define_LED_centric_pattern zero (S / 2))
  /\ (S mod 2 <> 0 ->
      0 <= (S - 1) / 2 < 12
      /\ define_LED_vals L nL = define_LED_bridging_pattern zero ((S - 1) / 2))
  /\ exists vals, define_LED_vals L nL = Normal vals.
Proof.
  intros HnL H6 HL S zero.
  assert (HS : 0 <= S < 23) by (apply azimuth_slot_bounds; assumption).
  assert (Hc : 0 <= S / 2 < 12).
  { split; [apply Z.div_pos; lia | apply Z.div_lt_upper_bound; lia]. }
  assert (Hb : S mod 2 <> 0 -> 0 <= (S - 1) / 2 < 12).
  { intros Hodd.
    assert (S <> 0) by (intros E0; apply Hodd; rewrite E0; reflexivity).
    split; [apply Z.div_pos; lia | apply Z.div_lt_upper_bound; lia]. }
  assert (E : define_LED_vals L nL =
              if S mod 2 =? 0 then define_LED_centric_pattern zero (S / 2)
              else define_LED_bridging_pattern zero ((S - 1) / 2)).
  { unfold define_LED_vals, num_LEDs. fold S. settle_tests. reflexivity. }
  split; [exact HS | split; [ | split ]].
  - intros Heven. split; [exact Hc | ].
    rewrite E. apply Z.eqb_eq in Heven. rewrite Heven. reflexivity.
  - intros Hodd. split; [exact (Hb Hodd) | ].
    rewrite E. apply Z.eqb_neq in Hodd. rewrite Hodd. reflexivity.
  - rewrite E. destruct (S mod 2 =? 0) eqn:Epar.
    + apply centric_returns; [reflexivity | exact Hc].
    + apply Z.eqb_neq in Epar.
      apply bridging_returns; [reflexivity | exact (Hb Epar)].
Qed.

Lemma azimuth_slot_safe_at_3_7 :
  let S := azimuth_slot 3 7 in
  let zero := repeat 0%float 24 in
  0 <= S < 23
  /\ (S mod 2 = 0 ->
      0 <= S / 2 < 12
      /\ define_LED_vals 3 7 = define_LED_centric_pattern zero (S / 2))
  /\ (S mod 2 <> 0 ->
      0 <= (S - 1) / 2 < 12
      /\ define_LED_vals 3 7 = define_LED_bridging_pattern zero ((S - 1) / 2))
  /\ exists vals, define_LED_vals 3 7 = Normal vals.
Proof. apply (azimuth_slot_safe 3 7); lia. Defined.

(** ** Running computations *)

Lemma bind_normal {A B} (m : M A) (k : A -> M B) (w w' : World) (a : A) :
  m w = (Normal a, w') -> bind m k w = k a w'.
Proof. intros E. unfold bind. rewrite E. reflexivity. Qed.

Lemma bind_stop {A B} (m : M A) (k : A -> M B) (w w' : World) (s : stop) :
  m w = (Stop s, w') -> bind m k w = (Stop s, w').
Proof. intros E. unfold bind. rewrite E. reflexivity. Qed.

Lemma commands_app (t u : list event) : commands (t ++ u) = commands t ++ commands u.
Proof.
  induction t as [ | e t IH]; simpl; [reflexivity | ].
  destruct (issued e); simpl; rewrite IH; reflexivity.
Qed.

Lemma requests_app (t u : list event) : requests (t ++ u) = requests t ++ requests u.
Proof.
  induction t as [ | e t IH]; simpl; [reflexivity | ].
  destruct e; simpl; rewrite IH; reflexivity.
Qed.

Lemma quiet_refl (w : World) : quiet w w.
Proof.
  split; [destruct w; reflexivity | ].
  exists []. rewrite app_nil_r. repeat split.
Qed.

Lemma quiet_trans (w1 w2 w3 : World) : quiet w1 w2 -> quiet w2 w3 -> quiet w1 w3.
Proof.
  intros [E12 [t [Ht [Hc Hr]]]] [E23 [u [Hu [Hc' Hr']]]]. split.
  - rewrite E23 at 1. rewrite E12. reflexivity.
  - exists (t ++ u). rewrite Hu, Ht, app_assoc, commands_app, requests_app, Hc, Hc', Hr, Hr'.
    repeat split.
Qed.

Lemma quiet_read (w : World) (rest : list bytes) : quiet w (set_serial_in rest w).
Proof.
  split; [destruct w; reflexivity | ].
  exists []. simpl. rewrite app_nil_r. repeat split.
Qed.

Lemma vlog_quiet (m : message) (w : World) :
  (forall shown, m <> WouldSend shown) ->
  exists w', vlog m w = (Normal tt, w') /\ quiet w w' /\ serial_in w' = serial_in w.
Proof.
  intros Hm. unfold vlog, bind, get, when.
  destruct (arduino_verbose w).
  - eexists. split; [reflexivity | ]. split; [ | reflexivity ]. split.
    + destruct w; reflexivity.
    + exists [Stderr m]. simpl. repeat split.
      destruct m; try reflexivity. exfalso. eapply Hm. reflexivity.
  - exists w. split; [reflexivity | ]. split; [apply quiet_refl | reflexivity].
Qed.

(** ** The acknowledgement reader *)

Lemma bytes_eqb_single (c d : byte) : bytes_eqb [c] [d] = true <-> c = d.
Proof.
  unfold bytes_eqb. rewrite String.eqb_eq. simpl. split.
  - intros E. injection E as E. apply (f_equal byte_of_ascii) in E.
    rewrite !byte_of_ascii_of_byte in E. exact E.
  - intros ->. reflexivity.
Qed.

Lemma bytes_eqb_single_false (c d : byte) : c <> d -> bytes_eqb [c] [d] = false.
Proof.
  intros Hne. destruct (bytes_eqb [c] [d]) eqn:E; [ | reflexivity ].
  apply bytes_eqb_single in E. contradiction.
Qed.

Lemma is_eol_true (c : byte) : eol c -> is_eol [c] = true.
Proof. intros [-> | ->]; reflexivity. Qed.

Lemma is_eol_false (c : byte) : ~ eol c -> is_eol [c] = false.
Proof.
  intros Hc. unfold is_eol. apply orb_false_iff. split;
    apply bytes_eqb_single_false; intros ->; apply Hc; [left | right]; reflexivity.
Qed.

Lemma readchar_single (p : serial_port) (c : byte) (rest : list bytes) (w : World) :
  serial_in w = [c] :: rest -> readchar p w = (Normal [c], set_serial_in rest w).
Proof. intros E. unfold readchar, bind, sport_read. rewrite E. reflexivity. Qed.

Lemma readchar_not_single (p : serial_port) (c : bytes) (rest : list bytes) (w : World) :
  serial_in w = c :: rest -> List.length c <> 1%nat ->
  readchar p w = (Stop (Raise (NameError "show_chrs")), set_serial_in rest w).
Proof.
  intros E Hlen. unfold readchar, bind, sport_read. rewrite E.
  apply Nat.eqb_neq in Hlen. rewrite Hlen. reflexivity.
Qed.

Lemma skip_to_eol_loop_ends (p : serial_port) (body : list byte) (e : byte) :
  Forall (fun c => ~ eol c) body -> eol e ->
  forall (fuel : nat) (later : list bytes) (w : World),
    serial_in w = stream (body ++ [e]) ++ later ->
    (List.length body < fuel)%nat ->
    exists w', skip_to_eol_loop fuel p w = (Normal tt, w')
      /\ serial_in w' = later /\ quiet w w'.
Proof.
  intros Hbody He. induction Hbody as [ | c body Hc Hbody IH];
    intros fuel later w Hin Hfuel;
    (destruct fuel as [ | fuel]; [inversion Hfuel | ]);
    cbn [skip_to_eol_loop].
  - change (stream ([] ++ [e]) ++ later) with ([e] :: later) in Hin.
    rewrite (bind_normal _ _ _ _ _ (readchar_single p e later w Hin)).
    destruct (vlog_quiet (Echo (show_bytes [e] false)) (set_serial_in later w))
      as [w1 [E1 [Q1 S1]]]; [discriminate | ].
    rewrite (bind_normal _ _ _ _ _ E1). rewrite (is_eol_true e He).
    exists w1. split; [reflexivity | ]. split; [exact S1 | ].
    eapply quiet_trans; [apply quiet_read | exact Q1].
  - change (stream ((c :: body) ++ [e]) ++ later)
      with ([c] :: stream (body ++ [e]) ++ later) in Hin.
    rewrite (bind_normal _ _ _ _ _ (readchar_single p c _ w Hin)).
    destruct (vlog_quiet (Echo (show_bytes [c] false))
                (set_serial_in (stream (body ++ [e]) ++ later) w))
      as [w1 [E1 [Q1 S1]]]; [discriminate | ].
    rewrite (bind_normal _ _ _ _ _ E1). rewrite (is_eol_false c Hc).
    destruct (IH fuel later w1) as [w2 [E2 [S2 Q2]]]; [exact S1 | simpl in Hfuel; lia | ].
    exists w2. split; [exact E2 | ]. split; [exact S2 | ].
    eapply quiet_trans; [apply quiet_read | ].
    eapply quiet_trans; [exact Q1 | exact Q2].
Qed.

Lemma skip_to_eol_ends (p : serial_port) (body : list byte) (e : byte)
    (later : list bytes) (w : World) :
  Forall (fun c => ~ eol c) body -> eol e ->
  serial_in w = stream (body ++ [e]) ++ later ->
  exists w', skip_to_eol p w = (Normal tt, w') /\ serial_in w' = later /\ quiet w w'.
Proof.
  intros Hbody He Hin. unfold skip_to_eol, pending_reads, bind, get.
  apply (skip_to_eol_loop_ends p body e Hbody He); [exact Hin | ].
  rewrite Hin, length_app. unfold stream. rewrite length_map, length_app. simpl. lia.
Qed.

Lemma blank_tests (c : byte) :
  blank c ->
  bytes_eqb [c] (b "#") = false
  /\ negb (bytes_eqb [c] (b " ")) && negb (bytes_eqb [c] [byte_of_ascii cr])
       && negb (bytes_eqb [c] [byte_of_ascii nl]) = false.
Proof. intros [-> | [-> | ->]]; split; reflexivity. Qed.

Lemma token_tests (c : byte) :
  ~ blank c -> c <> "#"%byte ->
  bytes_eqb [c] (b "#") = false
  /\ negb (bytes_eqb [c] (b " ")) && negb (bytes_eqb [c] [byte_of_ascii cr])
       && negb (bytes_eqb [c] [byte_of_ascii nl]) = true.
Proof.
  intros Hb Hh. split; [apply bytes_eqb_single_false; exact Hh | ].
  rewrite !andb_true_iff, !negb_true_iff. repeat split;
    apply bytes_eqb_single_false; intros ->; apply Hb; unfold blank;
    [left | right; left | right; right]; reflexivity.
Qed.

Lemma read_signif_loop_resolves (p : serial_port) (pre : list byte) (tok : byte) :
  resolves pre tok ->
  forall (fuel : nat) (later : list bytes) (w : World),
    serial_in w = stream pre ++ later ->
    (List.length pre <= fuel)%nat ->
    exists w', read_signif_loop fuel p w = (Normal [tok], w')
      /\ serial_in w' = later /\ quiet w w'.
Proof.
  intros Hres. induction Hres as [tok Hb Hh | c pre tok Hc Hres IH | body e pre tok Hbody He Hres IH];
    intros fuel later w Hin Hfuel;
    (destruct fuel as [ | fuel]; [inversion Hfuel | ]);
    cbn [read_signif_loop].
  - change (stream [tok] ++ later) with ([tok] :: later) in Hin.
    rewrite (bind_normal _ _ _ _ _ (readchar_single p tok later w Hin)).
    destruct (token_tests tok Hb Hh) as [T1 T2]. rewrite T1.
    destruct (vlog_quiet (Received (show_bytes [tok] true)) (set_serial_in later w))
      as [w1 [E1 [Q1 S1]]]; [discriminate | ].
    rewrite (bind_normal _ _ _ _ _ E1), T2.
    exists w1. split; [reflexivity | ]. split; [exact S1 | ].
    eapply quiet_trans; [apply quiet_read | exact Q1].
  - change (stream (c :: pre) ++ later) with ([c] :: stream pre ++ later) in Hin.
    rewrite (bind_normal _ _ _ _ _ (readchar_single p c _ w Hin)).
    destruct (blank_tests c Hc) as [T1 T2]. rewrite T1.
    destruct (vlog_quiet (Received (show_bytes [c] true))
                (set_serial_in (stream pre ++ later) w))
      as [w1 [E1 [Q1 S1]]]; [discriminate | ].
    rewrite (bind_normal _ _ _ _ _ E1), T2.
    destruct (IH fuel later w1) as [w2 [E2 [S2 Q2]]]; [exact S1 | simpl in Hfuel; lia | ].
    exists w2. split; [exact E2 | ]. split; [exact S2 | ].
    eapply quiet_trans; [apply quiet_read | ].
    eapply quiet_trans; [exact Q1 | exact Q2].
  - change (stream ("#"%byte :: body ++ e :: pre) ++ later)
      with (["#"%byte] :: stream (body ++ e :: pre) ++ later) in Hin.
    rewrite (bind_normal _ _ _ _ _ (readchar_single p "#"%byte _ w Hin)).
    change (bytes_eqb ["#"%byte] (b "#")) with true. cbv iota.
    destruct (vlog_quiet (ReceivedOpen (show_bytes ["#"%byte] false))
                (set_serial_in (stream (body ++ e :: pre) ++ later) w))
      as [w1 [E1 [Q1 S1]]]; [discriminate | ].
    rewrite (bind_normal _ _ _ _ _ E1).
    destruct (skip_to_eol_ends p body e (stream pre ++ later) w1 Hbody He)
      as [w2 [E2 [S2 Q2]]].
    { rewrite S1. unfold stream. rewrite !map_app, <- !app_assoc. reflexivity. }
    rewrite (bind_normal _ _ _ _ _ E2).
    destruct (vlog_quiet ReceivedClose w2) as [w3 [E3 [Q3 S3]]]; [discriminate | ].
    rewrite (bind_normal _ _ _ _ _ E3).
    destruct (IH fuel later w3) as [w4 [E4 [S4 Q4]]].
    { rewrite S3. exact S2. }
    { simpl in Hfuel. rewrite length_app in Hfuel. simpl in Hfuel. lia. }
    exists w4. split; [exact E4 | ]. split; [exact S4 | ].
    eapply quiet_trans; [apply quiet_read | ].
    eapply quiet_trans; [exact Q1 | ].
    eapply quiet_trans; [exact Q2 | ].
    eapply quiet_trans; [exact Q3 | exact Q4].
Qed.

Lemma read_signif_resolves (p : serial_port) (pre : list byte) (tok : byte)
    (later : list bytes) (w : World) :
  resolves pre tok -> serial_in w = stream pre ++ later ->
  exists w', read_signif (Some p) w = (Normal [tok], w')
    /\ serial_in w' = later /\ quiet w w'.
Proof.
  intros Hres Hin. unfold read_signif, sport_flush, pending_reads, bind, ret, get.
  apply (read_signif_loop_resolves p pre tok Hres); [exact Hin | ].
  rewrite Hin, length_app. unfold stream. rewrite length_map. lia.
Qed.

Lemma wait_arduino_OK_token (p : serial_port) (pre : list byte) (tok : byte)
    (later : list bytes) (w : World) :
  resolves pre tok -> serial_in w = stream pre ++ later ->
  exists w',
    serial_in w' = later /\ quiet w w'
    /\ (tok = "0"%byte -> wait_arduino_OK (Some p) w = (Normal tt, w'))
    /\ (tok <> "0"%byte ->
        wait_arduino_OK (Some p) w = (Stop (Exit 1), w')
        /\ exists t, trace w' = t ++ [Stderr (InvalidReturnCode (show_bytes [tok] true))]).
Proof.
  intros Hres Hin.
  destruct (read_signif_resolves p pre tok later w Hres Hin) as [w1 [E1 [S1 Q1]]].
  unfold wait_arduino_OK. rewrite (bind_normal _ _ _ _ _ E1).
  destruct (bytes_eqb [tok] (b "0")) eqn:E0.
  - apply bytes_eqb_single in E0. exists w1.
    split; [exact S1 | ]. split; [exact Q1 | ].
    split; [reflexivity | contradiction].
  - exists (set_trace (trace w1 ++ [Stderr (InvalidReturnCode (show_bytes [tok] true))]) w1).
    split; [exact S1 | ]. split; [ | split ].
    + eapply quiet_trans; [exact Q1 | ]. split; [destruct w1; reflexivity | ].
      eexists. split; [reflexivity | split; reflexivity].
    + intros ->. discriminate.
    + intros _. split; [reflexivity | ]. eexists. reflexivity.
Qed.

Lemma resolves_junk_then_ack : resolves junk_then_ack "0"%byte.
Proof.
  apply (resolves_comment (b " junk") x0d [x0a; "0"%byte] "0"%byte).
  - repeat (apply Forall_cons; [intros [H | H]; discriminate | ]). apply Forall_nil.
  - left; reflexivity.
  - apply resolves_blank; [right; right; reflexivity | ].
    apply resolves_token; [intros [H | [H | H]]; discriminate | discriminate].
Qed.

Lemma resolves_blanks_then_ack : resolves blanks_then_ack "0"%byte.
Proof.
  unfold blanks_then_ack. simpl.
  do 2 (apply resolves_blank; [left; reflexivity | ]).
  apply resolves_blank; [right; right; reflexivity | ].
  apply resolves_blank; [left; reflexivity | ].
  apply resolves_token; [intros [H | [H | H]]; discriminate | discriminate].
Qed.

Lemma resolves_one : resolves (b "1") "1"%byte.
Proof. apply resolves_token; [intros [H | [H | H]]; discriminate | discriminate]. Qed.

(** C5. On a serial input that starts with spaces, CRs, LFs and
    [#]-comments (each through its first CR or LF) followed by one other
    byte, [wait_arduino_OK] consumes exactly these bytes, sends nothing, and
    returns when that byte is [0]; on any other byte it reports the byte and
    leaves the process with [sys.exit(1)]. The inputs [# junk CR LF 0] and
    [SP SP LF SP 0] succeed, and the input [1] exits. *)
Theorem wait_arduino_OK_resolves :
  (forall (p : serial_port) (pre : list byte) (tok : byte) (later : list bytes) (w : World),
     resolves pre tok -> serial_in w = stream pre ++ later ->
     exists w',
       serial_in w' = later /\ quiet w w'
       /\ (tok = "0"%byte -> wait_arduino_OK (Some p) w = (Normal tt, w'))
       /\ (tok <> "0"%byte ->
           wait_arduino_OK (Some p) w = (Stop (Exit 1), w')
           /\ exists t, trace w' = t ++ [Stderr (InvalidReturnCode (show_bytes [tok] true))]))
  /\ (forall p w, serial_in w = stream junk_then_ack ->
        fst (wait_arduino_OK (Some p) w) = Normal tt)
  /\ (forall p w, serial_in w = stream blanks_then_ack ->
        fst (wait_arduino_OK (Some p) w) = Normal tt)
  /\ (forall p w, serial_in w = stream (b "1") ->
        fst (wait_arduino_OK (Some p) w) = Stop (Exit 1)).
Proof.
  split; [exact wait_arduino_OK_token | ].
  split; [ | split]; intros p w Hin.
  - destruct (wait_arduino_OK_token p junk_then_ack "0"%byte [] w resolves_junk_then_ack)
      as [w' [_ [_ [Hok _]]]]; [rewrite app_nil_r; exact Hin | ].
    rewrite (Hok eq_refl). reflexivity.
  - destruct (wait_arduino_OK_token p blanks_then_ack "0"%byte [] w resolves_blanks_then_ack)
      as [w' [_ [_ [Hok _]]]]; [rewrite app_nil_r; exact Hin | ].
    rewrite (Hok eq_refl). reflexivity.
  - destruct (wait_arduino_OK_token p (b "1") "1"%byte [] w resolves_one)
      as [w' [_ [_ [_ Hbad]]]]; [rewrite app_nil_r; exact Hin | ].
    destruct Hbad as [E _]; [discriminate | ]. rewrite E. reflexivity.
Qed.

Lemma wait_arduino_OK_resolves_junk :
  exists w',
    serial_in w' = [b "5"] /\ quiet (set_serial_in (stream junk_then_ack ++ [b "5"]) initial_world) w'
    /\ ("0"%byte = "0"%byte ->
        wait_arduino_OK (Some ttyUSB0) (set_serial_in (stream junk_then_ack ++ [b "5"]) initial_world)
        = (Normal tt, w'))
    /\ ("0"%byte <> "0"%byte ->
        wait_arduino_OK (Some ttyUSB0) (set_serial_in (stream junk_then_ack ++ [b "5"]) initial_world)
        = (Stop (Exit 1), w')
        /\ exists t, trace w' = t ++ [Stderr (InvalidReturnCode (show_bytes ["0"%byte] true))]).
Proof.
  apply (proj1 wait_arduino_OK_resolves ttyUSB0 junk_then_ack "0"%byte [b "5"]
           (set_serial_in (stream junk_then_ack ++ [b "5"]) initial_world)).
  - exact resolves_junk_then_ack.
  - reflexivity.
Defined.

(** C6. A read of the serial port that returns no byte or more than one
    ends the process: [readchar] raises [NameError] (from the unbound
    [show_chrs] of its complaint) right after the read, with nothing written
    and nothing sent; no caller handles it, so whatever was to follow the
    read does not run, and [wait_arduino_OK] ends the same way. *)
Theorem readchar_fatal (p : serial_port) (c : bytes) (rest : list bytes) (w : World) :
  serial_in w = c :: rest -> List.length c <> 1%nat ->
  readchar p w = (Stop (Raise (NameError "show_chrs")), set_serial_in rest w)
  /\ (forall (B : Type) (k : bytes -> M B),
        bind (readchar p) k w = (Stop (Raise (NameError "show_chrs")), set_serial_in rest w))
  /\ wait_arduino_OK (Some p) w
     = (Stop (Raise (NameError "show_chrs")), set_serial_in rest w)
  /\ trace (set_serial_in rest w) = trace w.
Proof.
  intros Hin Hlen.
  pose proof (readchar_not_single p c rest w Hin Hlen) as E.
  split; [exact E | ]. split; [ | split ].
  - intros B k. apply bind_stop. exact E.
  - unfold wait_arduino_OK, read_signif, sport_flush, pending_reads.
    unfold bind at 1 2 3. unfold ret, get.
    cbn [read_signif_loop]. rewrite (bind_stop _ _ _ _ _ E). reflexivity.
  - reflexivity.
Qed.

Lemma readchar_fatal_on_empty_read :
  let w := set_serial_in [[]; b "0"] initial_world in
  readchar ttyUSB0 w = (Stop (Raise (NameError "show_chrs")), set_serial_in [b "0"] w)
  /\ (forall (B : Type) (k : bytes -> M B),
        bind (readchar ttyUSB0) k w
        = (Stop (Raise (NameError "show_chrs")), set_serial_in [b "0"] w))
  /\ wait_arduino_OK (Some ttyUSB0) w
     = (Stop (Raise (NameError "show_chrs")), set_serial_in [b "0"] w)
  /\ trace (set_serial_in [b "0"] w) = trace w.
Proof.
  apply (readchar_fatal ttyUSB0 [] [b "0"] (set_serial_in [[]; b "0"] initial_world)).
  - reflexivity.
  - discriminate.
Defined.

(** ** Computations that keep quiet *)

Lemma keeps_quiet_ret {A} (a : A) : keeps_quiet (ret a).
Proof. intros w. apply quiet_refl. Qed.

Lemma keeps_quiet_halt {A} (s : stop) : keeps_quiet (@halt A s).
Proof. intros w. apply quiet_refl. Qed.

Lemma keeps_quiet_get {A} (f : World -> A) : keeps_quiet (get f).
Proof. intros w. apply quiet_refl. Qed.

Lemma keeps_quiet_bind {A B} (m : M A) (k : A -> M B) :
  keeps_quiet m -> (forall a, keeps_quiet (k a)) -> keeps_quiet (bind m k).
Proof.
  intros Hm Hk w. unfold bind. specialize (Hm w).
  destruct (m w) as [[a | s] w1]; simpl in Hm |- *.
  - eapply quiet_trans; [exact Hm | apply Hk].
  - exact Hm.
Qed.

Lemma keeps_quiet_stderr (m : message) :
  (forall shown, m <> WouldSend shown) -> keeps_quiet (stderr_write m).
Proof.
  intros Hm w. split; [destruct w; reflexivity | ].
  exists [Stderr m]. simpl. repeat split.
  destruct m; try reflexivity. exfalso. eapply Hm. reflexivity.
Qed.

Lemma keeps_quiet_vlog (m : message) :
  (forall shown, m <> WouldSend shown) -> keeps_quiet (vlog m).
Proof.
  intros Hm. unfold vlog. apply keeps_quiet_bind; [apply keeps_quiet_get | ].
  intros [ | ]; [apply keeps_quiet_stderr; exact Hm | apply keeps_quiet_ret].
Qed.

Lemma keeps_quiet_readchar (p : serial_port) : keeps_quiet (readchar p).
Proof.
  unfold readchar. apply keeps_quiet_bind.
  - intros w. unfold sport_read. destruct (serial_in w); [apply quiet_refl | apply quiet_read].
  - intros c. destruct (List.length c =? 1)%nat; [apply keeps_quiet_ret | apply keeps_quiet_halt].
Qed.

Lemma keeps_quiet_skip_to_eol_loop (p : serial_port) (fuel : nat) :
  keeps_quiet (skip_to_eol_loop fuel p).
Proof.
  induction fuel as [ | fuel IH]; cbn [skip_to_eol_loop]; [apply keeps_quiet_halt | ].
  apply keeps_quiet_bind; [apply keeps_quiet_readchar | intros c].
  apply keeps_quiet_bind; [apply keeps_quiet_vlog; discriminate | intros _].
  destruct (is_eol c); [apply keeps_quiet_ret | exact IH].
Qed.

Lemma keeps_quiet_skip_to_eol (p : serial_port) : keeps_quiet (skip_to_eol p).
Proof.
  unfold skip_to_eol, pending_reads.
  apply keeps_quiet_bind; [apply keeps_quiet_get | intros n].
  apply keeps_quiet_skip_to_eol_loop.
Qed.

Lemma keeps_quiet_read_signif_loop (p : serial_port) (fuel : nat) :
  keeps_quiet (read_signif_loop fuel p).
Proof.
  induction fuel as [ | fuel IH]; cbn [read_signif_loop]; [apply keeps_quiet_halt | ].
  apply keeps_quiet_bind; [apply keeps_quiet_readchar | intros c].
  destruct (bytes_eqb c (b "#")).
  - apply keeps_quiet_bind; [apply keeps_quiet_vlog; discriminate | intros _].
    apply keeps_quiet_bind; [apply keeps_quiet_skip_to_eol | intros _].
    apply keeps_quiet_bind; [apply keeps_quiet_vlog; discriminate | intros _].
    exact IH.
  - apply keeps_quiet_bind; [apply keeps_quiet_vlog; discriminate | intros _].
    destruct (negb (bytes_eqb c (b " ")) && negb (bytes_eqb c [byte_of_ascii cr])
              && negb (bytes_eqb c [byte_of_ascii nl]));
      [apply keeps_quiet_ret | exact IH].
Qed.

Lemma keeps_quiet_wait_arduino_OK (p : serial_port) : keeps_quiet (wait_arduino_OK (Some p)).
Proof.
  unfold wait_arduino_OK, read_signif, sport_flush, pending_reads.
  apply keeps_quiet_bind.
  - apply keeps_quiet_bind; [apply keeps_quiet_ret | intros _].
    apply keeps_quiet_bind; [apply keeps_quiet_get | intros n].
    apply keeps_quiet_read_signif_loop.
  - intros c. destruct (negb (bytes_eqb c (b "0"))); [ | apply keeps_quiet_ret].
    apply keeps_quiet_bind; [apply keeps_quiet_stderr; discriminate | intros _].
    apply keeps_quiet_halt.
Qed.

Lemma quiet_LED_status (w w' : World) : quiet w w' -> LED_status w' = LED_status w.
Proof. intros [E _]. rewrite E. reflexivity. Qed.

Lemma quiet_commands (w w' : World) : quiet w w' -> commands (trace w') = commands (trace w).
Proof.
  intros [_ [t [Ht [Hc _]]]]. rewrite Ht, commands_app, Hc. apply app_nil_r.
Qed.

(** A command sent and awaited adds itself to the commands of the trace and
    leaves the cache alone, whether the acknowledgement comes or not. *)
Lemma send_command_and_wait_effect (sport : option serial_port) (command : bytes) (w : World) :
  let w' := snd (send_command_and_wait sport command w) in
  LED_status w' = LED_status w
  /\ commands (trace w') = commands (trace w) ++ [show_bytes command false].
Proof.
  destruct sport as [p | ].
  - destruct (vlog_quiet (Sending (show_bytes command false)) w) as [w1 [E1 [Q1 _]]];
      [discriminate | ].
    set (w2 := set_trace (trace w1 ++ [SerialWrite command]) w1).
    assert (Erun : send_command_and_wait (Some p) command w = wait_arduino_OK (Some p) w2).
    { unfold send_command_and_wait, send_command.
      rewrite (bind_normal _ _ _ _ _
                 (bind_normal _ _ _ _ _ E1 : (vlog _ ;; sport_flush ;; emit _) w = (Normal tt, w2))).
      reflexivity. }
    rewrite Erun.
    pose proof (keeps_quiet_wait_arduino_OK p w2) as Q2.
    destruct (wait_arduino_OK (Some p) w2) as [o w3]. simpl in Q2 |- *.
    rewrite (quiet_LED_status _ _ Q2), (quiet_commands _ _ Q2). unfold w2. simpl.
    rewrite commands_app, (quiet_LED_status _ _ Q1), (quiet_commands _ _ Q1).
    split; reflexivity.
  - simpl. rewrite <- app_assoc, commands_app. simpl. split; reflexivity.
Qed.

(** ** Applying an illumination vector *)

Lemma bind_lift {A B} (o : outcome A) (a : A) (k : A -> M B) (w : World) :
  o = Normal a -> bind (lift o) k w = k a w.
Proof. intros ->. reflexivity. Qed.

Lemma list_index_app {A} (l1 l2 : list A) (a : A) :
  list_index (l1 ++ a :: l2) (Z.of_nat (List.length l1)) = Normal (List.length l1).
Proof.
  unfold list_index. rewrite length_app. simpl List.length.
  settle_tests. simpl. rewrite Nat2Z.id. reflexivity.
Qed.

Lemma list_get_app {A} (l1 l2 : list A) (a : A) :
  list_get (l1 ++ a :: l2) (Z.of_nat (List.length l1)) = Normal a.
Proof.
  unfold list_get. rewrite list_index_app. simpl.
  rewrite nth_error_app2, Nat.sub_diag; [reflexivity | lia].
Qed.

Lemma update_nth_app {A} (l1 l2 : list A) (a v : A) :
  update_nth (l1 ++ a :: l2) (List.length l1) v = l1 ++ v :: l2.
Proof. induction l1 as [ | h t IH]; simpl; [reflexivity | rewrite IH; reflexivity]. Qed.

Lemma list_assign_app {A} (l1 l2 : list A) (a v : A) :
  list_assign (l1 ++ a :: l2) (Z.of_nat (List.length l1)) v = Normal (l1 ++ v :: l2).
Proof. unfold list_assign. rewrite list_index_app. simpl. rewrite update_nth_app. reflexivity. Qed.

Lemma LED_command_shown (lix : Z) (pwr : float) :
  0 <= lix < 24 -> pwr = 0%float \/ pwr = 1%float ->
  show_bytes (list_byte_of_string (LED_command lix pwr)) false = LED_command lix pwr.
Proof.
  intros Hlix Hpwr. enumerate lix (24 : Z); destruct Hpwr as [-> | ->]; reflexivity.
Qed.

Lemma switch_LED_run (sport : option serial_port) (lix : Z) (pwr : float) (w : World) :
  0 <= lix < 24 -> pwr = 0%float \/ pwr = 1%float ->
  switch_LED sport lix pwr w
  = (vlog (SettingLED lix pwr) ;;
     send_command_and_wait sport (list_byte_of_string (LED_command lix pwr))) w.
Proof.
  intros Hlix Hpwr. enumerate lix (24 : Z); destruct Hpwr as [-> | ->]; reflexivity.
Qed.

Lemma switch_LED_effect (sport : option serial_port) (lix : Z) (pwr : float) (w : World) :
  0 <= lix < 24 -> pwr = 0%float \/ pwr = 1%float ->
  let w' := snd (switch_LED sport lix pwr w) in
  LED_status w' = LED_status w
  /\ commands (trace w') = commands (trace w) ++ [LED_command lix pwr].
Proof.
  intros Hlix Hpwr w'. subst w'. rewrite (switch_LED_run sport lix pwr w Hlix Hpwr).
  destruct (vlog_quiet (SettingLED lix pwr) w) as [w1 [E1 [Q1 _]]]; [discriminate | ].
  rewrite (bind_normal _ _ _ _ _ E1).
  destruct (send_command_and_wait_effect sport (list_byte_of_string (LED_command lix pwr)) w1)
    as [HL HC].
  rewrite HL, HC, (quiet_LED_status _ _ Q1), (quiet_commands _ _ Q1),
    (LED_command_shown lix pwr Hlix Hpwr).
  split; reflexivity.
Qed.

Lemma switch_LED_simulated (lix : Z) (pwr : float) (w : World) :
  0 <= lix < 24 -> pwr = 0%float \/ pwr = 1%float ->
  fst (switch_LED None lix pwr w) = Normal tt.
Proof.
  intros Hlix Hpwr. rewrite (switch_LED_run None lix pwr w Hlix Hpwr).
  destruct (vlog_quiet (SettingLED lix pwr) w) as [w1 [E1 _]]; [discriminate | ].
  rewrite (bind_normal _ _ _ _ _ E1). reflexivity.
Qed.

Lemma differs_refreshed (pwr : float) (old : option float) :
  pwr = 0%float \/ pwr = 1%float ->
  differs pwr (if differs pwr old then Some pwr else old) = false.
Proof.
  intros Hpwr. destruct (differs pwr old) eqn:E; [ | exact E].
  destruct Hpwr as [-> | ->]; reflexivity.
Qed.

(** One turn of the loop at LED [k = length done], with the cache split at it. *)
Lemma set_light_condition_body_effect (sport : option serial_port)
    (vdone vtodo : list float) (pwr : float)
    (done todo : list (option float)) (old : option float)
    (w w' : World) (o : outcome unit) :
  List.length vdone = List.length done -> (List.length done < 24)%nat ->
  pwr = 0%float \/ pwr = 1%float ->
  LED_status w = done ++ old :: todo ->
  let lix := Z.of_nat (List.length done) in
  set_light_condition_body sport (vdone ++ pwr :: vtodo) lix w = (o, w') ->
  (o = Normal tt ->
     LED_status w' = done ++ (if differs pwr old then Some pwr else old) :: todo
     /\ commands (trace w')
        = commands (trace w) ++ (if differs pwr old then [LED_command lix pwr] else []))
  /\ (sport = None -> o = Normal tt)
  /\ (differs pwr old = false -> o = Normal tt /\ w' = w).
Proof.
  intros Hlen Hk Hpwr Hst lix Hrun.
  assert (Hlix : 0 <= lix < 24) by (unfold lix; lia).
  assert (Er : set_light_condition_body sport (vdone ++ pwr :: vtodo) lix w
               = if differs pwr old
                 then (switch_LED sport lix pwr ;;
                       status <- get LED_status ;;
                       status <- lift (list_assign status lix (Some pwr)) ;;
                       modify (set_LED_status status)) w
                 else (Normal tt, w)).
  { unfold set_light_condition_body, lix. rewrite <- Hlen at 1.
    rewrite (bind_lift _ pwr); [ | apply list_get_app].
    assert (Ea : assert (PrimFloat.eqb pwr 0 || PrimFloat.eqb pwr 1) w = (Normal tt, w))
      by (destruct Hpwr as [-> | ->]; reflexivity).
    rewrite (bind_normal _ _ _ _ _ Ea).
    unfold bind at 1, get at 1. rewrite Hst.
    rewrite (bind_lift _ old); [ | apply list_get_app].
    destruct (differs pwr old); reflexivity. }
  rewrite Er in Hrun. clear Er. destruct (differs pwr old) eqn:Ed.
  - pose proof (switch_LED_effect sport lix pwr w Hlix Hpwr) as [HL HC].
    pose proof (switch_LED_simulated lix pwr w Hlix Hpwr) as Hsim.
    destruct (switch_LED sport lix pwr w) as [[[] | s] w1] eqn:Esw; simpl in HL, HC.
    + rewrite (bind_normal _ _ _ _ _ Esw) in Hrun.
      unfold bind at 1, get at 1 in Hrun. rewrite HL, Hst in Hrun.
      unfold lix in Hrun.
      rewrite (bind_lift _ (done ++ Some pwr :: todo)) in Hrun; [ | apply list_assign_app].
      injection Hrun as <- <-. simpl.
      split; [intros _; split; [reflexivity | exact HC] | ].
      split; [reflexivity | discriminate].
    + rewrite (bind_stop _ _ _ _ _ Esw) in Hrun. injection Hrun as <- <-.
      split; [discriminate | ]. split; [ | discriminate].
      intros ->. rewrite Esw in Hsim. exact Hsim.
  - injection Hrun as <- <-. split; [ | split; [reflexivity | split; reflexivity]].
    intros _. rewrite app_nil_r. split; [exact Hst | reflexivity].
Qed.

Lemma set_light_condition_loop (sport : option serial_port) (vtodo : list float) :
  forall (todo : list (option float)) (vdone : list float) (done : list (option float))
         (w w' : World) (o : outcome unit),
    List.length vdone = List.length done ->
    List.length vtodo = List.length todo ->
    (List.length done + List.length vtodo <= 24)%nat ->
    binary vtodo ->
    LED_status w = done ++ todo ->
    for_loop (map Z.of_nat (seq (List.length done) (List.length vtodo)))
             (set_light_condition_body sport (vdone ++ vtodo)) w = (o, w') ->
    (o = Normal tt ->
       LED_status w' = done ++ refreshed vtodo todo
       /\ commands (trace w')
          = commands (trace w) ++ switches (Z.of_nat (List.length done)) vtodo todo)
    /\ (sport = None -> o = Normal tt)
    /\ (Forall2 (fun pwr old => differs pwr old = false) vtodo todo ->
        o = Normal tt /\ w' = w).
Proof.
  induction vtodo as [ | pwr vtodo IH];
    intros todo vdone done w w' o Hlen Htodo Hbound Hbin Hst Hrun.
  - destruct todo; [ | discriminate]. simpl in Hrun. injection Hrun as <- <-.
    simpl. rewrite app_nil_r in Hst. rewrite !app_nil_r.
    repeat split; try reflexivity. exact Hst.
  - destruct todo as [ | old todo]; [discriminate | ].
    inversion Hbin as [ | ? ? Hpwr Hbin']; subst.
    simpl in Htodo, Hbound. injection Htodo as Htodo.
    cbn [List.length seq map for_loop] in Hrun.
    destruct (set_light_condition_body sport (vdone ++ pwr :: vtodo)
                (Z.of_nat (List.length done)) w) as [o1 w1] eqn:Ebody.
    destruct (set_light_condition_body_effect sport vdone vtodo pwr done todo old
                w w1 o1 Hlen ltac:(lia) Hpwr Hst Ebody) as [Hok [Hsim Hsame]].
    destruct o1 as [[] | s].
    + rewrite (bind_normal _ _ _ _ _ Ebody) in Hrun.
      destruct (Hok eq_refl) as [HL HC].
      set (new := if differs pwr old then Some pwr else old) in *.
      assert (Hrun' : for_loop
                (map Z.of_nat (seq (List.length (done ++ [new])) (List.length vtodo)))
                (set_light_condition_body sport ((vdone ++ [pwr]) ++ vtodo)) w1 = (o, w')).
      { rewrite <- app_assoc, length_app. simpl List.length.
        rewrite Nat.add_1_r. exact Hrun. }
      destruct (IH todo (vdone ++ [pwr]) (done ++ [new]) w1 w' o) as [Hok' [Hsim' Hsame']];
        try assumption.
      { rewrite !length_app. simpl. lia. }
      { rewrite length_app. simpl. lia. }
      { rewrite HL, <- app_assoc. reflexivity. }
      split; [ | split].
      * intros Ho. destruct (Hok' Ho) as [HL' HC']. split.
        -- rewrite HL', <- app_assoc. reflexivity.
        -- rewrite HC', HC, <- app_assoc. f_equal.
           cbn [switches]. fold new. f_equal.
           rewrite length_app. simpl List.length.
           replace (Z.of_nat (List.length done + 1)) with (Z.of_nat (List.length done) + 1) by lia.
           reflexivity.
      * exact Hsim'.
      * intros HF. inversion HF as [ | ? ? ? ? Hd HF']; subst.
        destruct (Hsame Hd) as [_ ->]. apply Hsame'. exact HF'.
    + rewrite (bind_stop _ _ _ _ _ Ebody) in Hrun. injection Hrun as <- <-.
      split; [discriminate | ]. split.
      * intros Hs. specialize (Hsim Hs). discriminate.
      * intros HF. inversion HF as [ | ? ? ? ? Hd HF']; subst.
        destruct (Hsame Hd) as [Hbad _]. discriminate.
Qed.

Lemma refreshed_settled (vals : list float) :
  binary vals ->
  forall status, List.length vals = List.length status ->
  Forall2 (fun pwr old => differs pwr old = false) vals (refreshed vals status).
Proof.
  induction 1 as [ | pwr vals Hpwr Hbin IH]; intros status Hlen.
  - destruct status; [constructor | discriminate].
  - destruct status as [ | old status]; [discriminate | ].
    simpl. constructor; [apply differs_refreshed; exact Hpwr | ].
    apply IH. simpl in Hlen. lia.
Qed.

Lemma refreshed_length (vals : list float) :
  forall status, List.length (refreshed vals status) = List.length status.
Proof.
  induction vals as [ | pwr vals IH]; intros [ | old status]; simpl; try reflexivity.
  rewrite IH. reflexivity.
Qed.

Lemma set_light_condition_run (sport : option serial_port) (vals : list float) (w : World) :
  List.length vals = 24%nat ->
  set_light_condition sport vals w
  = for_loop (map Z.of_nat (seq 0 24)) (set_light_condition_body sport vals) w.
Proof.
  intros Hlen. unfold set_light_condition.
  assert (Ea : assert (Z.of_nat (List.length vals) =? num_LEDs) w = (Normal tt, w))
    by (rewrite Hlen; reflexivity).
  rewrite (bind_normal _ _ _ _ _ Ea). reflexivity.
Qed.

(** C8. For a 24-entry vector of 0.0 and 1.0 and a 24-entry cache (entries
    [None], or floats of any value), with or without a port: without a port
    the application returns; and whenever an application returns, the
    commands it added are the switches of the entries that differ from the
    cache, in LED order, the cache holds the vector at those entries, and a
    second application returns at once in the same world, with nothing sent
    and nothing written. *)
Theorem set_light_condition_twice (sport : option serial_port) (vals : list float) (w : World) :
  List.length vals = 24%nat -> binary vals -> List.length (LED_status w) = 24%nat ->
  (sport = None -> fst (set_light_condition sport vals w) = Normal tt)
  /\ forall w1, set_light_condition sport vals w = (Normal tt, w1) ->
       commands (trace w1) = commands (trace w) ++ switches 0 vals (LED_status w)
       /\ LED_status w1 = refreshed vals (LED_status w)
       /\ set_light_condition sport vals w1 = (Normal tt, w1).
Proof.
  intros Hlen Hbin Hst.
  rewrite (set_light_condition_run sport vals w Hlen).
  split.
  - intros Hsim.
    destruct (for_loop (map Z.of_nat (seq 0 24)) (set_light_condition_body sport vals) w)
      as [o w1] eqn:Erun.
    destruct (set_light_condition_loop sport vals (LED_status w) [] [] w w1 o)
      as [_ [Hs _]]; try reflexivity; try assumption.
    + rewrite Hlen, Hst. reflexivity.
    + rewrite Hlen. simpl. lia.
    + rewrite Hlen. exact Erun.
    + simpl. rewrite (Hs Hsim). reflexivity.
  - intros w1 Erun.
    destruct (set_light_condition_loop sport vals (LED_status w) [] [] w w1 (Normal tt))
      as [Hok _]; try reflexivity; try assumption.
    + rewrite Hlen, Hst. reflexivity.
    + rewrite Hlen. simpl. lia.
    + rewrite Hlen. exact Erun.
    + destruct (Hok eq_refl) as [HL HC]. simpl in HL, HC.
      split; [exact HC | ]. split; [exact HL | ].
      rewrite (set_light_condition_run sport vals w1 Hlen).
      destruct (for_loop (map Z.of_nat (seq 0 24)) (set_light_condition_body sport vals) w1)
        as [o2 w2] eqn:Erun2.
      destruct (set_light_condition_loop sport vals (LED_status w1) [] [] w1 w2 o2)
        as [_ [_ Hsame]]; try reflexivity; try assumption.
      * rewrite HL, refreshed_length, Hlen, Hst. reflexivity.
      * rewrite Hlen. simpl. lia.
      * rewrite Hlen. exact Erun2.
      * destruct Hsame as [-> ->]; [ | reflexivity].
        rewrite HL. apply refreshed_settled; [exact Hbin | ].
        rewrite Hlen, Hst. reflexivity.
Qed.

Lemma binary_one_lit : binary one_lit.
Proof.
  unfold binary, one_lit. simpl.
  repeat (apply Forall_cons; [ first [ left; reflexivity | right; reflexivity ] | ]).
  apply Forall_nil.
Qed.

Lemma set_light_condition_twice_from_start :
  (@None serial_port = None -> fst (set_light_condition None one_lit initial_world) = Normal tt)
  /\ forall w1, set_light_condition None one_lit initial_world = (Normal tt, w1) ->
       commands (trace w1)
       = commands (trace initial_world) ++ switches 0 one_lit (LED_status initial_world)
       /\ LED_status w1 = refreshed one_lit (LED_status initial_world)
       /\ set_light_condition None one_lit w1 = (Normal tt, w1).
Proof.
  apply (set_light_condition_twice None one_lit initial_world).
  - reflexivity.
  - exact binary_one_lit.
  - reflexivity.
Defined.

(** ** Running without a port *)

Lemma extend_extend (t u : list event) (w : World) : extend u (extend t w) = extend (t ++ u) w.
Proof. destruct w. unfold extend. simpl. rewrite app_assoc. reflexivity. Qed.

Lemma extend_nil (w : World) : extend [] w = w.
Proof. destruct w. unfold extend. simpl. rewrite app_nil_r. reflexivity. Qed.

Lemma vlog_run (m : message) (w : World) :
  vlog m w = (Normal tt, extend (announce (arduino_verbose w) m) w).
Proof.
  unfold vlog, bind, get, when, announce.
  destruct (arduino_verbose w); [reflexivity | rewrite extend_nil; reflexivity].
Qed.

Lemma send_command_and_wait_sim (command : bytes) (w : World) :
  send_command_and_wait None command w
  = (Normal tt, extend (simulated (show_bytes command false)) w).
Proof.
  unfold send_command_and_wait, send_command, wait_arduino_OK, stderr_write, emit,
    modify, bind, simulated.
  fold (extend [Stderr (WouldSend (show_bytes command false))] w).
  f_equal. apply (extend_extend [_] [_]).
Qed.

Lemma noted_command_sim (note : message) (command : bytes) (w : World) :
  (vlog note ;; send_command_and_wait None command) w
  = (Normal tt,
     extend (announce (arduino_verbose w) note ++ simulated (show_bytes command false)) w).
Proof.
  rewrite (bind_normal _ _ _ _ _ (vlog_run note w)), send_command_and_wait_sim.
  rewrite extend_extend. reflexivity.
Qed.

Lemma stop_motor_sim (w : World) :
  stop_motor None w
  = (Normal tt, extend (announce (arduino_verbose w) StoppingMotor ++ simulated "3") w).
Proof. apply noted_command_sim. Qed.

Lemma move_microscope_sim (w : World) :
  move_microscope None w
  = (Normal tt, extend (announce (arduino_verbose w) RaisingMicroscope ++ simulated "5") w).
Proof. apply noted_command_sim. Qed.

Lemma arduino_verbose_extend (t : list event) (w : World) :
  arduino_verbose (extend t w) = arduino_verbose w.
Proof. reflexivity. Qed.

Lemma start_motor_sim (dir : Z) (fast : bool) (w : World) :
  dir = 1 \/ dir = -1 ->
  start_motor None dir fast w
  = (Normal tt,
     extend (announce (arduino_verbose w) StoppingMotor ++ simulated "3"
             ++ announce (arduino_verbose w) (StartingMotor dir)
             ++ simulated (motion_opcode dir fast)) w).
Proof.
  intros Hdir. unfold start_motor.
  rewrite (bind_normal _ _ _ _ _ (stop_motor_sim w)).
  rewrite (bind_normal _ _ _ _ _ (vlog_run _ _)).
  rewrite arduino_verbose_extend, !extend_extend, <- !app_assoc.
  set (w' := extend _ w).
  assert (E : (if dir =? 1 then ret (if fast then b "6" else b "1")
               else if dir =? -1 then ret (if fast then b "7" else b "2")
               else raise AssertionError) w'
              = (Normal (list_byte_of_string (motion_opcode dir fast)), w')).
  { unfold motion_opcode. destruct Hdir as [-> | ->]; destruct fast; reflexivity. }
  rewrite (bind_normal _ _ _ _ _ E), send_command_and_wait_sim.
  unfold w'. rewrite extend_extend, <- !app_assoc.
  replace (show_bytes (list_byte_of_string (motion_opcode dir fast)) false)
    with (motion_opcode dir fast)
    by (unfold motion_opcode; destruct Hdir as [-> | ->]; destruct fast; reflexivity).
  reflexivity.
Qed.

Lemma switch_all_LEDs_sim_off (w : World) :
  switch_all_LEDs None 0%float w
  = (Normal tt,
     extend (announce (arduino_verbose w) (SettingAllLEDs 0%float) ++ simulated "-@") w).
Proof.
  unfold switch_all_LEDs.
  rewrite (bind_normal _ _ _ _ _ (vlog_run _ _)).
  change (send_command_and_wait None (b "-@")
            (extend (announce (arduino_verbose w) (SettingAllLEDs 0%float)) w)
          = (Normal tt,
             extend (announce (arduino_verbose w) (SettingAllLEDs 0%float) ++ simulated "-@") w)).
  rewrite send_command_and_wait_sim, extend_extend. reflexivity.
Qed.

Lemma switch_LED_sim (lix : Z) (pwr : float) (w : World) :
  0 <= lix < 24 -> pwr = 0%float \/ pwr = 1%float ->
  switch_LED None lix pwr w
  = (Normal tt,
     extend (announce (arduino_verbose w) (SettingLED lix pwr)
             ++ simulated (LED_command lix pwr)) w).
Proof.
  intros Hlix Hpwr.
  rewrite (switch_LED_run None lix pwr w Hlix Hpwr), noted_command_sim,
    (LED_command_shown lix pwr Hlix Hpwr).
  reflexivity.
Qed.

Lemma set_LED_status_same (w : World) : set_LED_status (LED_status w) w = w.
Proof. destruct w. reflexivity. Qed.

Lemma set_LED_status_extend (st st' : list (option float)) (t u : list event) (w : World) :
  set_LED_status st' (extend u (set_LED_status st (extend t w)))
  = set_LED_status st' (extend (t ++ u) w).
Proof. destruct w. unfold extend, set_LED_status. simpl. rewrite app_assoc. reflexivity. Qed.

Lemma set_light_condition_body_sim (vdone vtodo : list float) (pwr : float)
    (done todo : list (option float)) (old : option float) (w : World) :
  List.length vdone = List.length done -> (List.length done < 24)%nat ->
  pwr = 0%float \/ pwr = 1%float ->
  LED_status w = done ++ old :: todo ->
  let lix := Z.of_nat (List.length done) in
  set_light_condition_body None (vdone ++ pwr :: vtodo) lix w
  = (Normal tt,
     if differs pwr old
     then set_LED_status (done ++ Some pwr :: todo)
            (extend (announce (arduino_verbose w) (SettingLED lix pwr)
                     ++ simulated (LED_command lix pwr)) w)
     else w).
Proof.
  intros Hlen Hk Hpwr Hst lix.
  assert (Hlix : 0 <= lix < 24) by (unfold lix; lia).
  unfold set_light_condition_body, lix. rewrite <- Hlen at 1.
  rewrite (bind_lift _ pwr); [ | apply list_get_app].
  assert (Ea : assert (PrimFloat.eqb pwr 0 || PrimFloat.eqb pwr 1) w = (Normal tt, w))
    by (destruct Hpwr as [-> | ->]; reflexivity).
  rewrite (bind_normal _ _ _ _ _ Ea).
  unfold bind at 1, get at 1. rewrite Hst.
  rewrite (bind_lift _ old); [ | apply list_get_app].
  destruct (differs pwr old); [ | reflexivity].
  rewrite (bind_normal _ _ _ _ _ (switch_LED_sim _ pwr w Hlix Hpwr)).
  unfold bind at 1, get at 1.
  change (LED_status (extend _ w)) with (LED_status w). rewrite Hst.
  rewrite (bind_lift _ (done ++ Some pwr :: todo)); [ | apply list_assign_app].
  reflexivity.
Qed.

Lemma set_light_condition_loop_sim (vtodo : list float) :
  forall (todo : list (option float)) (vdone : list float) (done : list (option float))
         (w : World),
    List.length vdone = List.length done ->
    List.length vtodo = List.length todo ->
    (List.length done + List.length vtodo <= 24)%nat ->
    binary vtodo ->
    LED_status w = done ++ todo ->
    for_loop (map Z.of_nat (seq (List.length done) (List.length vtodo)))
             (set_light_condition_body None (vdone ++ vtodo)) w
    = (Normal tt,
       set_LED_status (done ++ refreshed vtodo todo)
         (extend (light_events (arduino_verbose w) (Z.of_nat (List.length done)) vtodo todo) w)).
Proof.
  induction vtodo as [ | pwr vtodo IH]; intros todo vdone done w Hlen Htodo Hbound Hbin Hst.
  - destruct todo; [ | discriminate]. simpl.
    rewrite extend_nil, <- Hst, set_LED_status_same. reflexivity.
  - destruct todo as [ | old todo]; [discriminate | ].
    inversion Hbin as [ | ? ? Hpwr Hbin']; subst.
    simpl in Htodo, Hbound. injection Htodo as Htodo.
    cbn [List.length seq map for_loop].
    rewrite (bind_normal _ _ _ _ _
               (set_light_condition_body_sim vdone vtodo pwr done todo old w
                  Hlen ltac:(lia) Hpwr Hst)).
    set (new := if differs pwr old then Some pwr else old).
    set (ev := if differs pwr old
               then announce (arduino_verbose w) (SettingLED (Z.of_nat (List.length done)) pwr)
                    ++ simulated (LED_command (Z.of_nat (List.length done)) pwr)
               else []).
    set (w1 := if differs pwr old then _ else w).
    assert (Ew1 : w1 = set_LED_status (done ++ new :: todo) (extend ev w)).
    { unfold w1, new, ev. destruct (differs pwr old); [reflexivity | ].
      rewrite extend_nil, <- Hst, set_LED_status_same. reflexivity. }
    clearbody w1. subst w1.
    specialize (IH todo (vdone ++ [pwr]) (done ++ [new])
                  (set_LED_status (done ++ new :: todo) (extend ev w))).
    rewrite <- !app_assoc, !length_app in IH. simpl List.length in IH.
    rewrite !Nat.add_1_r in IH. simpl app in IH.
    rewrite IH; try assumption; try lia; try reflexivity.
    rewrite set_LED_status_extend. cbn [refreshed light_events]. fold new. fold ev.
    replace (Z.of_nat (S (List.length done))) with (Z.of_nat (List.length done) + 1) by lia.
    reflexivity.
Qed.

Lemma set_light_condition_sim (vals : list float) (w : World) :
  List.length vals = 24%nat -> binary vals -> List.length (LED_status w) = 24%nat ->
  set_light_condition None vals w
  = (Normal tt,
     set_LED_status (refreshed vals (LED_status w))
       (extend (light_events (arduino_verbose w) 0 vals (LED_status w)) w)).
Proof.
  intros Hlen Hbin Hst. rewrite (set_light_condition_run None vals w Hlen).
  pose proof (set_light_condition_loop_sim vals (LED_status w) [] [] w) as H.
  rewrite Hlen in H. apply H; try reflexivity; try assumption; simpl; lia.
Qed.

Lemma switch_all_lights_off_sim (w : World) :
  List.length (LED_status w) = 24%nat ->
  switch_all_lights_off None w
  = (Normal tt,
     set_LED_status (repeat (Some 0%float) 24)
       (extend (announce (arduino_verbose w) (SettingAllLEDs 0%float) ++ simulated "-@") w)).
Proof.
  intros Hst. unfold switch_all_lights_off.
  rewrite (bind_normal _ _ _ _ _ (switch_all_LEDs_sim_off w)).
  set (t := announce _ _ ++ _). destruct w as [si sti c2 m2 un ss ut ds v led z tr].
  simpl in Hst. clearbody t.
  do 24 (destruct led as [ | ? led]; [discriminate | ]).
  destruct led; [ | discriminate]. reflexivity.
Qed.

(** ** Manual positioning *)

Lemma prompt_and_read {A} (k : string -> M A) (s : string) (rest : list string) (w : World) :
  stdin_in w = s :: rest ->
  (stderr_write Prompt ;; s' <- stdin_readline ;; k s') w = k s (prompted s rest w).
Proof.
  intros Hin. unfold bind, stderr_write, emit, modify, stdin_readline. simpl. rewrite Hin.
  f_equal. destruct w. unfold prompted, extend. simpl. rewrite <- app_assoc. reflexivity.
Qed.

Lemma prompt_and_read_eof {A} (k : string -> M A) (w : World) :
  stdin_in w = [] ->
  (stderr_write Prompt ;; s' <- stdin_readline ;; k s') w
  = k "" (extend [Stderr Prompt; StdinRead ""] w).
Proof.
  intros Hin. unfold bind, stderr_write, emit, modify, stdin_readline. simpl. rewrite Hin.
  f_equal. destruct w. unfold extend. simpl. rewrite <- app_assoc. reflexivity.
Qed.

Lemma place_camera_loop_step (n : nat) (sport : option serial_port) (s : string)
    (rest : list string) (w : World) :
  stdin_in w = s :: rest ->
  place_camera_loop (S n) sport w
  = (r <- place_camera_body sport s ;;
     match r with
     | Some v => ret v
     | None => place_camera_loop n sport
     end) (prompted s rest w).
Proof.
  intros Hin. cbn [place_camera_loop].
  apply (prompt_and_read
           (fun s => r <- place_camera_body sport s ;;
                     match r with
                     | Some v => ret v
                     | None => place_camera_loop n sport
                     end) s rest w Hin).
Qed.

Lemma body_eof (w : World) :
  place_camera_body None "" w
  = (Normal (Some false),
     extend ([Stderr Newline] ++ announce (arduino_verbose w) StoppingMotor ++ simulated "3") w).
Proof.
  unfold place_camera_body. cbn [String.eqb].
  unfold bind at 1. unfold stderr_write, emit, modify.
  fold (extend [Stderr Newline] w).
  rewrite (bind_normal _ _ _ _ _ (stop_motor_sim _)), extend_extend. reflexivity.
Qed.

Lemma body_accept (s : string) (w : World) :
  s <> "" -> lower (strip s) = "ok" ->
  place_camera_body None s w
  = (Normal (Some true),
     set_Z_curr (Some 0%float)
       (extend (announce (arduino_verbose w) StoppingMotor ++ simulated "3") w)).
Proof.
  intros Hs Hok. unfold place_camera_body.
  apply String.eqb_neq in Hs. rewrite Hs, Hok. cbn [String.eqb Ascii.eqb Bool.eqb andb].
  rewrite (bind_normal _ _ _ _ _ (stop_motor_sim _)). reflexivity.
Qed.

Lemma body_abort (s : string) (w : World) :
  s <> "" -> lower (strip s) = "abort" \/ lower (strip s) = "q" ->
  place_camera_body None s w
  = (Normal (Some false),
     extend (announce (arduino_verbose w) StoppingMotor ++ simulated "3") w).
Proof.
  intros Hs Hab. unfold place_camera_body.
  apply String.eqb_neq in Hs. rewrite Hs.
  destruct Hab as [-> | ->]; cbn [String.eqb Ascii.eqb Bool.eqb andb orb];
    rewrite (bind_normal _ _ _ _ _ (stop_motor_sim _)); reflexivity.
Qed.

Lemma lower_fixed (c : string) (l : string) :
  lower l = l -> lower c <> l -> String.eqb c l = false.
Proof.
  intros Hl Hc. apply String.eqb_neq. intros ->. apply Hc. exact Hl.
Qed.

Lemma body_stop (s : string) (w : World) :
  s <> "" -> lower (strip s) = "s" ->
  place_camera_body None s w
  = (Normal None,
     extend (announce (arduino_verbose w) StoppingMotor ++ simulated "3") w).
Proof.
  intros Hs Hl. unfold place_camera_body.
  apply String.eqb_neq in Hs. rewrite Hs, Hl.
  cbn [String.eqb Ascii.eqb Bool.eqb andb orb].
  rewrite (lower_fixed (strip s) "u"), (lower_fixed (strip s) "d");
    try reflexivity; try (rewrite Hl; discriminate).
  assert (HU : String.eqb (strip s) "U" = false)
    by (apply String.eqb_neq; intros E; rewrite E in Hl; discriminate).
  assert (HD : String.eqb (strip s) "D" = false)
    by (apply String.eqb_neq; intros E; rewrite E in Hl; discriminate).
  rewrite HU, HD.
  rewrite (bind_normal _ _ _ _ _ (stop_motor_sim _)). reflexivity.
Qed.

Lemma body_motion (s : string) (dir : Z) (fast : bool) (w : World) :
  s <> "" ->
  (strip s = "u" /\ dir = 1 /\ fast = false) \/ (strip s = "d" /\ dir = -1 /\ fast = false)
  \/ (strip s = "U" /\ dir = 1 /\ fast = true) \/ (strip s = "D" /\ dir = -1 /\ fast = true) ->
  place_camera_body None s w
  = (Normal None,
     extend (announce (arduino_verbose w) StoppingMotor ++ simulated "3"
             ++ announce (arduino_verbose w) (StartingMotor dir)
             ++ simulated (motion_opcode dir fast)) w).
Proof.
  intros Hs Hm. unfold place_camera_body. apply String.eqb_neq in Hs. rewrite Hs.
  destruct Hm as [[-> [-> ->]] | [[-> [-> ->]] | [[-> [-> ->]] | [-> [-> ->]]]]];
    match goal with
    | |- context [lower ?c] =>
        let v := eval vm_compute in (lower c) in change (lower c) with v
    end;
    cbn [String.eqb Ascii.eqb Bool.eqb andb orb].
  - rewrite (bind_normal _ _ _ _ _ (start_motor_sim 1 false w (or_introl eq_refl))).
    reflexivity.
  - rewrite (bind_normal _ _ _ _ _ (start_motor_sim (-1) false w (or_intror eq_refl))).
    reflexivity.
  - rewrite (bind_normal _ _ _ _ _ (start_motor_sim 1 true w (or_introl eq_refl))).
    reflexivity.
  - rewrite (bind_normal _ _ _ _ _ (start_motor_sim (-1) true w (or_intror eq_refl))).
    reflexivity.
Qed.

Lemma body_blank (sport : option serial_port) (s : string) (w : World) :
  s <> "" -> strip s = "" -> place_camera_body sport s w = (Normal None, w).
Proof.
  intros Hs Hb. unfold place_camera_body. apply String.eqb_neq in Hs. rewrite Hs, Hb.
  reflexivity.
Qed.

Lemma body_unrecognised (sport : option serial_port) (s : string) (w : World) :
  s <> "" -> ~ recognised (strip s) ->
  place_camera_body sport s w
  = (Normal None, extend [Stderr (Unrecognized (show_chars (strip s) true))] w).
Proof.
  intros Hs Hr. unfold place_camera_body. apply String.eqb_neq in Hs. rewrite Hs.
  unfold recognised in Hr.
  repeat match goal with
    | |- context [String.eqb ?x ?y] =>
        replace (String.eqb x y) with false
          by (symmetry; apply String.eqb_neq; intros E; apply Hr; tauto)
    end.
  reflexivity.
Qed.

Lemma stderr_write_run (m : message) (w : World) :
  stderr_write m w = (Normal tt, extend [Stderr m] w).
Proof. reflexivity. Qed.

Lemma commands_light_events (verbose : bool) (vals : list float) :
  forall (lix : Z) (status : list (option float)),
    commands (light_events verbose lix vals status) = switches lix vals status.
Proof.
  induction vals as [ | pwr vals IH]; intros lix [ | old status]; try reflexivity.
  cbn [light_events switches]. rewrite commands_app, IH.
  destruct (differs pwr old); [ | reflexivity].
  destruct verbose; reflexivity.
Qed.

Lemma binary_positioning_lights : binary positioning_lights.
Proof.
  unfold binary.
  repeat (apply Forall_cons; [ first [ left; reflexivity | right; reflexivity ] | ]).
  apply Forall_nil.
Qed.

(** The positioning function up to its loop, without a port. *)
Lemma place_camera_prelude (w : World) :
  List.length (LED_status w) = 24%nat ->
  place_camera_for_first_image None w
  = place_camera_loop (S (List.length (stdin_in w))) None
      (set_LED_status (refreshed positioning_lights (LED_status w))
         (extend ([Stderr StartingPositioning; Stderr PositioningHelp]
                  ++ light_events (arduino_verbose w) 0 positioning_lights (LED_status w)) w)).
Proof.
  intros Hst. unfold place_camera_for_first_image.
  rewrite (bind_normal _ _ _ _ _ (stderr_write_run _ _)).
  rewrite (bind_normal _ _ _ _ _ (stderr_write_run _ _)).
  rewrite extend_extend.
  rewrite (bind_lift _ positioning_lights); [ | reflexivity].
  rewrite (bind_normal _ _ _ _ _
             (set_light_condition_sim positioning_lights
                (extend ([Stderr StartingPositioning] ++ [Stderr PositioningHelp]) w)
                eq_refl binary_positioning_lights Hst)).
  unfold bind at 1, get at 1.
  rewrite arduino_verbose_extend.
  change (LED_status (extend _ w)) with (LED_status w).
  rewrite extend_extend.
  reflexivity.
Qed.

(** Without a port a turn of the loop always returns. *)
Lemma place_camera_body_sim_returns (s : string) (w : World) :
  exists r t, place_camera_body None s w = (Normal r, match r with
                                                        | Some true => set_Z_curr (Some 0%float) (extend t w)
                                                        | _ => extend t w
                                                        end).
Proof.
  unfold place_camera_body.
  destruct (String.eqb s "").
  { exists (Some false). eexists.
    rewrite (bind_normal _ _ _ _ _ (stderr_write_run _ _)).
    rewrite (bind_normal _ _ _ _ _ (stop_motor_sim _)), extend_extend. reflexivity. }
  destruct (String.eqb (lower (strip s)) "ok").
  { exists (Some true). eexists.
    rewrite (bind_normal _ _ _ _ _ (stop_motor_sim _)). reflexivity. }
  destruct (String.eqb (lower (strip s)) "abort" || String.eqb (lower (strip s)) "q").
  { exists (Some false). eexists.
    rewrite (bind_normal _ _ _ _ _ (stop_motor_sim _)). reflexivity. }
  exists None.
  destruct (String.eqb (strip s) "u").
  { eexists. rewrite (bind_normal _ _ _ _ _ (start_motor_sim 1 false w (or_introl eq_refl))).
    reflexivity. }
  destruct (String.eqb (strip s) "d").
  { eexists. rewrite (bind_normal _ _ _ _ _ (start_motor_sim (-1) false w (or_intror eq_refl))).
    reflexivity. }
  destruct (String.eqb (strip s) "U").
  { eexists. rewrite (bind_normal _ _ _ _ _ (start_motor_sim 1 true w (or_introl eq_refl))).
    reflexivity. }
  destruct (String.eqb (strip s) "D").
  { eexists. rewrite (bind_normal _ _ _ _ _ (start_motor_sim (-1) true w (or_intror eq_refl))).
    reflexivity. }
  destruct (String.eqb (lower (strip s)) "s").
  { eexists. rewrite (bind_normal _ _ _ _ _ (stop_motor_sim _)). reflexivity. }
  destruct (String.eqb (strip s) "").
  { exists []. rewrite extend_nil. reflexivity. }
  eexists. rewrite (bind_normal _ _ _ _ _ (stderr_write_run _ _)). reflexivity.
Qed.

(** One more turn than there are lines is enough: the loop returns. *)
Lemma place_camera_loop_returns (n : nat) :
  forall w, (List.length (stdin_in w) < n)%nat ->
  exists r w', place_camera_loop n None w = (Normal r, w').
Proof.
  induction n as [ | n IH]; intros w Hn; [inversion Hn | ].
  destruct (stdin_in w) as [ | s rest] eqn:Hin.
  - cbn [place_camera_loop].
    rewrite (prompt_and_read_eof
               (fun s => r <- place_camera_body None s ;;
                         match r with
                         | Some v => ret v
                         | None => place_camera_loop n None
                         end) w Hin).
    rewrite (bind_normal _ _ _ _ _ (body_eof _)). eexists. eexists. reflexivity.
  - rewrite (place_camera_loop_step n None s rest w Hin).
    destruct (place_camera_body_sim_returns s (prompted s rest w)) as [r [t E]].
    rewrite (bind_normal _ _ _ _ _ E).
    destruct r as [[ | ] | ]; try (eexists; eexists; reflexivity).
    apply IH. simpl in Hn |- *. lia.
Qed.

Lemma line_not_empty (s : string) : line s <> "".
Proof. destruct s; discriminate. Qed.

Lemma place_camera_u_s_ok (w : World) (rest : list string) :
  List.length (LED_status w) = 24%nat ->
  stdin_in w = line "u" :: line "s" :: line "ok" :: rest ->
  exists w' before after,
    place_camera_for_first_image None w = (Normal true, w')
    /\ Z_curr w' = Some 0%float
    /\ stdin_in w' = rest
    /\ trace w' = trace w ++ before ++ StdinRead (line "ok") :: after
    /\ commands before = switches 0 positioning_lights (LED_status w) ++ ["3"; "1"; "3"]
    /\ commands after = ["3"]
    /\ Forall (fun e => forall s, e <> StdinRead s) after.
Proof.
  intros Hst Hin. rewrite (place_camera_prelude w Hst), Hin.
  cbn [List.length].
  set (w1 := set_LED_status _ _).
  rewrite (place_camera_loop_step _ None (line "u") (line "s" :: line "ok" :: rest) w1 Hin).
  rewrite (bind_normal _ _ _ _ _
             (body_motion (line "u") 1 false _ (line_not_empty "u")
                (or_introl (conj eq_refl (conj eq_refl eq_refl))))).
  set (w2 := extend _ (prompted _ _ w1)).
  rewrite (place_camera_loop_step _ None (line "s") (line "ok" :: rest) w2 eq_refl).
  rewrite (bind_normal _ _ _ _ _ (body_stop (line "s") _ (line_not_empty "s") eq_refl)).
  set (w3 := extend _ (prompted _ _ w2)).
  rewrite (place_camera_loop_step _ None (line "ok") rest w3 eq_refl).
  rewrite (bind_normal _ _ _ _ _ (body_accept (line "ok") _ (line_not_empty "ok") eq_refl)).
  unfold ret.
  exists (set_Z_curr (Some 0%float)
            (extend (announce (arduino_verbose (prompted (line "ok") rest w3)) StoppingMotor
                     ++ simulated "3") (prompted (line "ok") rest w3))).
  exists ([Stderr StartingPositioning; Stderr PositioningHelp]
          ++ light_events (arduino_verbose w) 0 positioning_lights (LED_status w)
          ++ [Stderr Prompt; StdinRead (line "u")]
          ++ announce (arduino_verbose w) StoppingMotor ++ simulated "3"
          ++ announce (arduino_verbose w) (StartingMotor 1) ++ simulated "1"
          ++ [Stderr Prompt; StdinRead (line "s")]
          ++ announce (arduino_verbose w) StoppingMotor ++ simulated "3"
          ++ [Stderr Prompt]).
  exists (announce (arduino_verbose w) StoppingMotor ++ simulated "3").
  split; [reflexivity | ]. split; [reflexivity | ]. split; [reflexivity | ].
  remember (light_events (arduino_verbose w) 0 positioning_lights (LED_status w)) as lights
    eqn:Elights.
  split; [ | split; [ | split]].
  - subst w3 w2 w1. unfold prompted, extend.
    cbn [trace arduino_verbose set_trace set_stdin_in set_LED_status set_Z_curr].
    rewrite <- ?Elights.
    destruct (arduino_verbose w); simpl; rewrite <- ?app_assoc; simpl; reflexivity.
  - rewrite !commands_app, Elights, commands_light_events.
    destruct (arduino_verbose w); reflexivity.
  - destruct (arduino_verbose w); reflexivity.
  - destruct (arduino_verbose w); repeat constructor; discriminate.
Qed.

(** C9. Without a port, on the lines [u], [s], [ok] the positioning
    function returns [True] with [Z_curr] set to 0.0; before the [ok] line is
    read it has sent the LED switches, then stop, slow-up and stop, and after
    it exactly one stop. In any turn of the loop: a line that is [ok] up to
    case and surrounding blanks accepts; [abort] or [q] up to case stops the
    motor and gives up; the end of the input does the same; [s] up to case
    stops the motor and prompts again; a blank line only prompts again; a
    line that is no command is reported and the loop prompts again. The
    function always returns. *)
Theorem place_camera_protocol :
  (forall (w : World) (rest : list string),
     List.length (LED_status w) = 24%nat ->
     stdin_in w = line "u" :: line "s" :: line "ok" :: rest ->
     exists w' before after,
       place_camera_for_first_image None w = (Normal true, w')
       /\ Z_curr w' = Some 0%float
       /\ stdin_in w' = rest
       /\ trace w' = trace w ++ before ++ StdinRead (line "ok") :: after
       /\ commands before = switches 0 positioning_lights (LED_status w) ++ ["3"; "1"; "3"]
       /\ commands after = ["3"]
       /\ Forall (fun e => forall s, e <> StdinRead s) after)
  /\ (forall (n : nat) (s : string) (rest : list string) (w : World),
        stdin_in w = s :: rest -> s <> "" ->
        let stopped := extend (announce (arduino_verbose w) StoppingMotor ++ simulated "3")
                         (prompted s rest w) in
        (lower (strip s) = "ok" ->
         place_camera_loop (S n) None w = (Normal true, set_Z_curr (Some 0%float) stopped))
        /\ (lower (strip s) = "abort" \/ lower (strip s) = "q" ->
            place_camera_loop (S n) None w = (Normal false, stopped))
        /\ (lower (strip s) = "s" ->
            place_camera_loop (S n) None w = place_camera_loop n None stopped)
        /\ (strip s = "" ->
            forall sport, place_camera_loop (S n) sport w
                          = place_camera_loop n sport (prompted s rest w))
        /\ (~ recognised (strip s) ->
            forall sport, place_camera_loop (S n) sport w
                          = place_camera_loop n sport
                              (extend [Stderr (Unrecognized (show_chars (strip s) true))]
                                 (prompted s rest w))))
  /\ (forall (n : nat) (w : World),
        stdin_in w = [] ->
        place_camera_loop (S n) None w
        = (Normal false,
           extend ([Stderr Prompt; StdinRead ""; Stderr Newline]
                   ++ announce (arduino_verbose w) StoppingMotor ++ simulated "3") w))
  /\ (lower (strip (line "OK")) = "ok" /\ lower (strip (line "Abort")) = "abort"
      /\ lower (strip (line "Q")) = "q" /\ lower (strip (line "S")) = "s")
  /\ (forall w, List.length (LED_status w) = 24%nat ->
        exists r w', place_camera_for_first_image None w = (Normal r, w')).
Proof.
  split; [exact place_camera_u_s_ok | ].
  split; [ | split; [ | split; [ | ]]].
  - intros n s rest w Hin Hs stopped.
    pose proof (place_camera_loop_step n None s rest w Hin) as Estep.
    split; [ | split; [ | split; [ | split]]].
    + intros Hok. rewrite Estep.
      rewrite (bind_normal _ _ _ _ _ (body_accept s _ Hs Hok)). reflexivity.
    + intros Hab. rewrite Estep.
      rewrite (bind_normal _ _ _ _ _ (body_abort s _ Hs Hab)). reflexivity.
    + intros Hst. rewrite Estep.
      rewrite (bind_normal _ _ _ _ _ (body_stop s _ Hs Hst)). reflexivity.
    + intros Hb sport. rewrite (place_camera_loop_step n sport s rest w Hin).
      rewrite (bind_normal _ _ _ _ _ (body_blank sport s _ Hs Hb)). reflexivity.
    + intros Hr sport. rewrite (place_camera_loop_step n sport s rest w Hin).
      rewrite (bind_normal _ _ _ _ _ (body_unrecognised sport s _ Hs Hr)). reflexivity.
  - intros n w Hin. cbn [place_camera_loop].
    rewrite (prompt_and_read_eof
               (fun s => r <- place_camera_body None s ;;
                         match r with
                         | Some v => ret v
                         | None => place_camera_loop n None
                         end) w Hin).
    rewrite (bind_normal _ _ _ _ _ (body_eof _)). rewrite extend_extend. reflexivity.
  - repeat split; reflexivity.
  - intros w Hst. rewrite (place_camera_prelude w Hst).
    apply place_camera_loop_returns. simpl. lia.
Qed.

Lemma place_camera_protocol_u_s_ok :
  exists w' before after,
    place_camera_for_first_image None
      (set_stdin_in [line "u"; line "s"; line "ok"] initial_world) = (Normal true, w')
    /\ Z_curr w' = Some 0%float
    /\ stdin_in w' = []
    /\ trace w' = [] ++ before ++ StdinRead (line "ok") :: after
    /\ commands before
       = switches 0 positioning_lights (repeat None 24) ++ ["3"; "1"; "3"]
    /\ commands after = ["3"]
    /\ Forall (fun e => forall s, e <> StdinRead s) after.
Proof.
  apply (proj1 place_camera_protocol
           (set_stdin_in [line "u"; line "s"; line "ok"] initial_world) []);
    reflexivity.
Defined.

(** ** Setting the step size *)

Lemma forallb_range (P : Z -> bool) (n : Z) :
  forallb P (range n) = true -> forall i, 0 <= i < n -> P i = true.
Proof.
  intros H i Hi. rewrite forallb_forall in H. apply H. apply range_In. exact Hi.
Qed.

Lemma payload_ok_in_range (istep : Z) : -999 <= istep <= 999 -> payload_ok istep = true.
Proof.
  intros H.
  assert (E : forallb (fun j => payload_ok (j - 999)) (range 1999) = true)
    by (vm_compute; reflexivity).
  pose proof (forallb_range _ _ E (istep + 999) ltac:(lia)) as P.
  cbv beta in P. replace (istep + 999 - 999) with istep in P by lia. exact P.
Qed.

Lemma set_Z_step_sim (Z_step : float) (istep : Z) (w : World) :
  py_round (Z_step * 1000)%float = Normal istep -> -999 <= istep <= 999 ->
  set_Z_step None Z_step w
  = (Normal tt,
     extend (announce (arduino_verbose w) (DefiningZStep (format_d true 3 istep))
             ++ simulated ("4" ++ format_d true 3 istep)) w).
Proof.
  intros Hround Hrange. unfold set_Z_step.
  rewrite (bind_lift _ istep _ _ Hround).
  assert (Ea : assert ((-999 <=? istep) && (istep <=? 999)) w = (Normal tt, w)).
  { settle_tests. reflexivity. }
  rewrite (bind_normal _ _ _ _ _ Ea).
  rewrite (bind_normal _ _ _ _ _ (vlog_run _ _)).
  pose proof (payload_ok_in_range istep Hrange) as P. unfold payload_ok in P.
  destruct (encode_ascii ("4" ++ format_d true 3 istep)) as [bs | ] eqn:Eenc; [ | discriminate].
  apply andb_true_iff in P. destruct P as [_ P]. apply String.eqb_eq in P.
  rewrite (bind_lift _ bs _ _ eq_refl), send_command_and_wait_sim, extend_extend, P.
  reflexivity.
Qed.

Lemma set_Z_step_refused (sport : option serial_port) (Z_step : float) (istep : Z) (w : World) :
  py_round (Z_step * 1000)%float = Normal istep -> istep < -999 \/ 999 < istep ->
  set_Z_step sport Z_step w = (Stop (Raise AssertionError), w).
Proof.
  intros Hround Hrange. unfold set_Z_step.
  rewrite (bind_lift _ istep _ _ Hround).
  assert (Ea : assert ((-999 <=? istep) && (istep <=? 999)) w
               = (Stop (Raise AssertionError), w)).
  { destruct Hrange; settle_tests; reflexivity. }
  rewrite (bind_stop _ _ _ _ _ Ea). reflexivity.
Qed.

Lemma magnitude_digits_in_range (istep : Z) :
  -999 <= istep <= 999 ->
  magnitude_digits istep = if Z.abs istep <? 100 then 2%nat else 3%nat.
Proof.
  intros H.
  assert (E : forallb (fun j => Nat.eqb (magnitude_digits (j - 999))
                                  (if Z.abs (j - 999) <? 100 then 2 else 3))
                (range 1999) = true)
    by (vm_compute; reflexivity).
  pose proof (forallb_range _ _ E (istep + 999) ltac:(lia)) as P.
  cbv beta in P. replace (istep + 999 - 999) with istep in P by lia.
  apply Nat.eqb_eq in P. exact P.
Qed.

(** C4, at a step of 0.05 mm. The step rounds to 50 microns, inside the
    interval, and the command sent is [4+50]: the sign and a two-digit
    magnitude, not three digits. *)
Theorem set_Z_step_two_digit_magnitude (w : World) :
  py_round (0.05 * 1000)%float = Normal 50
  /\ set_Z_step None 0.05%float w
     = (Normal tt,
        extend (announce (arduino_verbose w) (DefiningZStep "+50") ++ simulated "4+50") w)
  /\ magnitude_digits 50 = 2%nat.
Proof.
  split; [vm_compute; reflexivity | ]. split; [ | reflexivity].
  apply (set_Z_step_sim 0.05%float 50 w); [vm_compute; reflexivity | lia].
Qed.

(** ** Capturing frames *)

Lemma string_append_assoc (s1 s2 s3 : string) :
  ((s1 ++ s2) ++ s3 = s1 ++ s2 ++ s3)%string.
Proof. induction s1 as [ | c s1 IH]; simpl; [reflexivity | rewrite IH; reflexivity]. Qed.

Lemma string_length_append (s1 s2 : string) :
  String.length (s1 ++ s2) = (String.length s1 + String.length s2)%nat.
Proof. induction s1 as [ | c s1 IH]; simpl; [reflexivity | rewrite IH; reflexivity]. Qed.

Lemma milestones_app (t u : list event) : milestones (t ++ u) = milestones t ++ milestones u.
Proof.
  induction t as [ | e t IH]; simpl; [reflexivity | ].
  destruct (milestone_of e); simpl; rewrite IH; reflexivity.
Qed.

Lemma milestones_light_events (verbose : bool) (vals : list float) :
  forall (lix : Z) (status : list (option float)),
    milestones (light_events verbose lix vals status) = [].
Proof.
  induction vals as [ | pwr vals IH]; intros lix [ | old status]; try reflexivity.
  cbn [light_events]. rewrite milestones_app, IH, app_nil_r.
  destruct (differs pwr old); [ | reflexivity].
  unfold LED_command. destruct verbose; destruct (PrimFloat.eqb pwr 1); reflexivity.
Qed.

Lemma m2c_send_ok (p : pipe) (command : string) (w : World) :
  hd false (m2c_fails w) = false ->
  m2c_send (Some p) command w
  = (Normal true,
     extend [PipeWrite (line command)]
       (set_m2c_unsent false (set_m2c_fails (tl (m2c_fails w)) w))).
Proof.
  intros Hok. unfold m2c_send, bind at 1, get at 1.
  destruct (m2c_fails w) as [ | [ | ] fs] eqn:E; try discriminate.
  - destruct w. simpl in E. subst. reflexivity.
  - reflexivity.
Qed.

Lemma c2m_readline_next (p : pipe) (s : string) (rest : list string) (w : World) :
  c2m_in w = s :: rest ->
  c2m_readline (Some p) w = (Normal s, extend [PipeRead s] (set_c2m_in rest w)).
Proof. intros E. unfold c2m_readline, bind at 1, get at 1. rewrite E. reflexivity. Qed.

Lemma capture_frame_ok (p q : pipe) (topdir : string) (L V H : Z) (rest : list string)
    (w : World) :
  hd false (m2c_fails w) = false -> c2m_in w = line "ok" :: rest ->
  let fname := make_frame_filename topdir L V H in
  capture_frame (Some p) (Some q) topdir L V H w
  = (Normal true,
     extend [PipeRead (line "ok")]
       (set_c2m_in rest
          (extend [PipeWrite (line ("G " ++ fname))]
             (set_m2c_unsent false
                (set_m2c_fails (tl (m2c_fails w))
                   (extend [Stderr (CapturingFrame H fname)] w)))))).
Proof.
  intros Hok Hin fname. unfold capture_frame. fold fname.
  rewrite (bind_normal _ _ _ _ _ (stderr_write_run _ _)).
  change (if use_uvc then capture_frame_uvc fname
          else capture_frame_camview (Some p) (Some q) fname)
    with (capture_frame_camview (Some p) (Some q) fname).
  unfold capture_frame_camview.
  change (negb camera_present) with false. cbv iota.
  set (w1 := extend [Stderr (CapturingFrame H fname)] w).
  rewrite (bind_normal _ _ _ _ _ (m2c_send_ok p ("G " ++ fname) w1 Hok)).
  change (negb true) with false. cbv iota.
  set (w2 := extend _ (set_m2c_unsent _ (set_m2c_fails _ w1))).
  rewrite (bind_normal _ _ _ _ _ (c2m_readline_next q (line "ok") rest w2 Hin)).
  reflexivity.
Qed.

Lemma capture_image_set_body_ok (p q : pipe) (topdir : string) (nL V H L : Z)
    (vals : list float) (rest : list string) (w : World) :
  define_LED_vals L nL = Normal vals -> List.length vals = 24%nat -> binary vals ->
  List.length (LED_status w) = 24%nat ->
  hd false (m2c_fails w) = false -> c2m_in w = line "ok" :: rest ->
  capture_image_set_body None (Some p) (Some q) topdir nL V H L w
  = (Normal None, after_frame vals H (make_frame_filename topdir L V H) rest w).
Proof.
  intros Hplan Hlen Hbin Hst Hok Hin. unfold capture_image_set_body.
  rewrite (bind_lift _ vals _ _ Hplan).
  rewrite (bind_normal _ _ _ _ _ (set_light_condition_sim vals w Hlen Hbin Hst)).
  set (w1 := set_LED_status _ _).
  rewrite (bind_normal _ _ _ _ _ (capture_frame_ok p q topdir L V H rest w1 Hok Hin)).
  set (w2 := extend [PipeRead _] _).
  assert (Hst2 : List.length (LED_status w2) = 24%nat).
  { change (LED_status w2) with (refreshed vals (LED_status w)).
    rewrite refreshed_length. exact Hst. }
  rewrite (bind_normal _ _ _ _ _ (switch_all_lights_off_sim w2 Hst2)).
  change (negb true) with false. cbv iota. unfold ret. f_equal.
  subst w2 w1. unfold after_frame, frame_events.
  destruct w. unfold extend. simpl. rewrite <- !app_assoc. reflexivity.
Qed.

Lemma capture_image_set_rise_sim (Z_step z : float) (w : World) :
  Z_curr w = Some z ->
  capture_image_set_rise None Z_step w
  = (Normal tt,
     set_Z_curr (Some (z + Z_step)%float)
       (extend (announce (arduino_verbose w) RaisingMicroscope ++ simulated "5") w)).
Proof.
  intros Hz. unfold capture_image_set_rise.
  rewrite (bind_normal _ _ _ _ _ (move_microscope_sim w)).
  unfold bind at 1, get at 1.
  change (Z_curr (extend _ w)) with (Z_curr w). rewrite Hz. reflexivity.
Qed.

Lemma parents_shorter (path : string) :
  forall (seen d : string),
    In d (parents seen path) ->
    (String.length d < String.length seen + String.length path)%nat.
Proof.
  induction path as [ | c path IH]; intros seen d Hd; [contradiction | ].
  cbn [parents] in Hd. apply in_app_or in Hd. destruct Hd as [Hd | Hd].
  - destruct (Ascii.eqb c "/"); [ | contradiction].
    destruct Hd as [<- | []]. simpl. lia.
  - apply IH in Hd. rewrite string_length_append in Hd. simpl in Hd |- *. lia.
Qed.

Lemma exists_dir_by_length (path : string) (ds : list string) :
  (forall d, In d ds -> String.length d <> String.length path) ->
  exists_dir path ds = false.
Proof.
  intros H. unfold exists_dir. induction ds as [ | d ds IH]; [reflexivity | ].
  simpl. rewrite IH; [ | intros d' Hd'; apply H; right; exact Hd'].
  rewrite orb_false_r. apply String.eqb_neq. intros ->.
  apply (H d); [left | ]; reflexivity.
Qed.

Lemma makedirs_new (path : string) (w : World) :
  exists_dir path (dirs w) = false ->
  makedirs path w
  = (Normal tt,
     extend [MakeDirs path]
       (set_dirs (dirs w ++ filter (fun d => negb (exists_dir d (dirs w))) (parents "" path)
                  ++ [path]) w)).
Proof. intros H. unfold makedirs, bind at 1, get at 1. rewrite H. reflexivity. Qed.

Lemma subdir_name_length (topdir : string) (L V : Z) :
  (String.length topdir < String.length (make_subdir_name topdir L V))%nat.
Proof. unfold make_subdir_name. rewrite string_length_append. simpl. lia. Qed.

Lemma extend_set_dirs (d1 d2 : list string) (t u : list event) (w : World) :
  extend u (set_dirs d2 (extend t (set_dirs d1 w))) = extend (t ++ u) (set_dirs d2 w).
Proof. destruct w. unfold extend. simpl. rewrite <- app_assoc. reflexivity. Qed.

Lemma create_directories_one (w : World) :
  let topdir := ("muff_scans/" ++ utc_now w)%string in
  let subdir := make_subdir_name topdir 0 0 in
  exists_dir topdir (dirs w) = false -> exists_dir subdir (dirs w) = false ->
  exists ds',
    create_directories 1 1 w
    = (Normal topdir, extend [MakeDirs topdir; MakeDirs subdir] (set_dirs ds' w)).
Proof.
  intros topdir subdir Htop Hsub. unfold create_directories.
  change (bind (assert ((0 <? 1) && (1 <=? 99) && (1 <=? nL_max))) ?k w) with (k tt w).
  cbv beta.
  change (bind (assert ((0 <? 1) && (1 <=? 99) && (1 <=? nV_max))) ?k w) with (k tt w).
  cbv beta. unfold bind at 1, get at 1. fold topdir.
  change (when verbose (stderr_write (CreatingTop topdir))) with (ret tt).
  change (bind (ret tt) ?k w) with (k tt w). cbv beta.
  rewrite (bind_normal _ _ _ _ _ (makedirs_new topdir w Htop)).
  set (w1 := extend _ (set_dirs _ w)).
  change (range 1) with [0]. cbn [for_loop].
  change (when verbose (stderr_write (CreatingSub (make_subdir_name topdir 0 0)))) with (ret tt).
  fold subdir.
  assert (Hsub1 : exists_dir subdir (dirs w1) = false).
  { change (dirs w1)
      with (dirs w ++ filter (fun d => negb (exists_dir d (dirs w))) (parents "" topdir)
            ++ [topdir]).
    pose proof (subdir_name_length topdir 0 0) as Hlen. fold subdir in Hlen.
    unfold exists_dir. rewrite !existsb_app.
    apply orb_false_iff. split; [exact Hsub | ].
    apply orb_false_iff. split.
    - apply (exists_dir_by_length subdir). intros d Hd. apply filter_In in Hd.
      destruct Hd as [Hd _]. apply parents_shorter in Hd.
      change (String.length "") with 0%nat in Hd. lia.
    - cbn [existsb]. rewrite orb_false_r. apply String.eqb_neq.
      intros E. rewrite E in Hlen. lia. }
  pose proof (makedirs_new subdir w1 Hsub1) as E2.
  exists (dirs w1 ++ filter (fun d => negb (exists_dir d (dirs w1))) (parents "" subdir)
          ++ [subdir]).
  match goal with
  | |- bind ?m ?k w1 = _ =>
      assert (Em : m w1 = (Normal tt, extend [MakeDirs subdir]
                    (set_dirs (dirs w1 ++ filter (fun d => negb (exists_dir d (dirs w1)))
                                             (parents "" subdir) ++ [subdir]) w1)))
  end.
  { unfold bind, ret. rewrite E2. reflexivity. }
  rewrite (bind_normal _ _ _ _ _ Em). unfold ret. f_equal.
  subst w1. apply (extend_set_dirs _ _ [MakeDirs topdir] [MakeDirs subdir]).
Qed.

Lemma bind_assoc {A B C} (m : M A) (k : A -> M B) (h : B -> M C) (w : World) :
  bind (bind m k) h w = bind m (fun a => bind (k a) h) w.
Proof. unfold bind. destruct (m w) as [[a | s] w1]; reflexivity. Qed.

Lemma bind_ret {A B} (a : A) (k : A -> M B) (w : World) : bind (ret a) k w = k a w.
Proof. reflexivity. Qed.

Lemma frame_name (topdir : string) :
  make_frame_filename topdir 0 0 0 = (topdir ++ "/L_00/V_00/raw/frame_00000.jpg")%string
  /\ make_frame_filename topdir 0 0 1 = (topdir ++ "/L_00/V_00/raw/frame_00001.jpg")%string.
Proof.
  unfold make_frame_filename, make_subdir_name.
  change (format_d false 2 0) with "00".
  change (format_d false 5 0) with "00000".
  change (format_d false 5 1) with "00001".
  rewrite !string_append_assoc. split; reflexivity.
Qed.

Lemma define_LED_vals_sole : define_LED_vals 0 1 = Normal sole_condition.
Proof. reflexivity. Qed.

Lemma binary_sole_condition : binary sole_condition.
Proof.
  unfold binary.
  repeat (apply Forall_cons; [ first [ left; reflexivity | right; reflexivity ] | ]).
  apply Forall_nil.
Qed.

(** Runs the next statement of a sequence with the equation [E] of its run. *)
Tactic Notation "step" open_constr(E) :=
  rewrite ?bind_assoc; rewrite (bind_normal _ _ _ _ _ E); cbv beta.

Lemma milestones_frame_events (verbose : bool) (vals : list float)
    (status : list (option float)) (H : Z) (fname : string) :
  milestones (frame_events verbose vals status H fname) = [Request (line ("G " ++ fname))].
Proof.
  unfold frame_events. rewrite milestones_app, milestones_light_events.
  destruct verbose; reflexivity.
Qed.

(** C2. The session [nL = 1], [nV = 1], [nH = 2], [Z_step = 0.1] without a
    port, on fresh directories, with the pipe accepting both requests and
    both replies [ok]: the sequencer returns [True]; of capture requests and
    step-once commands it issues, in this order, the request for
    [.../L_00/V_00/raw/frame_00000.jpg], one step-once, the request for
    [.../L_00/V_00/raw/frame_00001.jpg], and nothing else; and [Z_curr] goes
    from 0.0 to 0.1. *)
Theorem capture_image_set_two_heights (p q : pipe) (w : World) (rest : list string) :
  let topdir := ("muff_scans/" ++ utc_now w)%string in
  exists_dir topdir (dirs w) = false ->
  exists_dir (make_subdir_name topdir 0 0) (dirs w) = false ->
  List.length (LED_status w) = 24%nat ->
  Z_curr w = Some 0%float ->
  hd false (m2c_fails w) = false -> hd false (tl (m2c_fails w)) = false ->
  c2m_in w = line "ok" :: line "ok" :: rest ->
  exists w' new,
    capture_image_set None (Some p) (Some q) 1 1 2 0.1%float w = (Normal true, w')
    /\ trace w' = trace w ++ new
    /\ milestones new
       = [Request (line ("G " ++ topdir ++ "/L_00/V_00/raw/frame_00000.jpg"));
          StepOnce;
          Request (line ("G " ++ topdir ++ "/L_00/V_00/raw/frame_00001.jpg"))]
    /\ Z_curr w' = Some 0.1%float
    /\ c2m_in w' = rest.
Proof.
  intros topdir Htop Hsub Hst Hz Hf1 Hf2 Hin.
  unfold capture_image_set.
  do 5 (match goal with
        | |- context [bind (assert ?c) ?k w] => change (bind (assert c) k w) with (k tt w)
        end; cbv beta).
  step (stderr_write_run (Capturing (1 * 1 * 2) 1 1 2) w).
  step (stderr_write_run (EstimatedTime (estimate_secs 1 1 2 / 60)%float) _).
  rewrite extend_extend.
  set (wa := extend _ w).
  destruct (create_directories_one wa Htop Hsub) as [ds' Ecreate].
  step Ecreate.
  step (stderr_write_run (SavingIn topdir) _).
  rewrite extend_extend.
  set (wb := extend _ (set_dirs ds' wa)).
  change (range 2) with [0; 1]. change (range 1) with [0].
  cbn [for_each].
  change (0 <? 0) with false. change (1 <? 1) with false. change (0 <? 1) with true.
  cbn [when].
  rewrite ?bind_assoc, bind_ret. rewrite ?bind_assoc, bind_ret.
  step (capture_image_set_body_ok p q _ 1 0 0 0 sole_condition (line "ok" :: rest) wb
          define_LED_vals_sole eq_refl binary_sole_condition Hst Hf1 Hin).
  rewrite ?bind_assoc, !bind_ret.
  set (wc := after_frame _ _ _ _ wb).
  step (capture_image_set_rise_sim 0.1%float 0%float wc Hz).
  set (wd := set_Z_curr _ _).
  rewrite ?bind_assoc, bind_ret.
  step (capture_image_set_body_ok p q _ 1 0 1 0 sole_condition rest wd
          define_LED_vals_sole eq_refl binary_sole_condition eq_refl Hf2 eq_refl).
  rewrite ?bind_assoc, !bind_ret.
  step (stderr_write_run _ _).
  unfold ret.
  change (utc_now wa) with (utc_now w) in *. fold topdir in wb, wc, wd |- *.
  destruct (frame_name topdir) as [Ef0 Ef1].
  set (f0 := make_frame_filename topdir 0 0 0) in *.
  set (f1 := make_frame_filename topdir 0 0 1) in *.
  eexists.
  exists ([Stderr (Capturing (1 * 1 * 2) 1 1 2);
           Stderr (EstimatedTime (estimate_secs 1 1 2 / 60)%float);
           MakeDirs topdir; MakeDirs (make_subdir_name topdir 0 0);
           Stderr (SavingIn topdir)]
          ++ frame_events (arduino_verbose w) sole_condition (LED_status w) 0 f0
          ++ (announce (arduino_verbose w) RaisingMicroscope ++ simulated "5")
          ++ frame_events (arduino_verbose w) sole_condition (repeat (Some 0%float) 24) 1 f1
          ++ [Stderr (Captured (1 * 1 * 2))]).
  split; [reflexivity | ]. split; [ | split; [ | split; reflexivity]].
  - subst wd wc wb wa. unfold after_frame, extend.
    cbn [trace set_trace set_dirs set_LED_status set_c2m_in set_m2c_fails set_m2c_unsent set_Z_curr
         arduino_verbose LED_status].
    rewrite <- !app_assoc. reflexivity.
  - rewrite !milestones_app, !milestones_frame_events, <- Ef0, <- Ef1.
    destruct (arduino_verbose w); reflexivity.
Qed.

Lemma capture_image_set_two_heights_fresh :
  let w := set_Z_curr (Some 0%float) (set_c2m_in [line "ok"; line "ok"] initial_world) in
  exists w' new,
    capture_image_set None (Some muff_pipe_m2c) (Some muff_pipe_c2m) 1 1 2 0.1%float w
    = (Normal true, w')
    /\ trace w' = trace w ++ new
    /\ milestones new
       = [Request (line ("G " ++ ("muff_scans/" ++ utc_now w)
                          ++ "/L_00/V_00/raw/frame_00000.jpg"));
          StepOnce;
          Request (line ("G " ++ ("muff_scans/" ++ utc_now w)
                          ++ "/L_00/V_00/raw/frame_00001.jpg"))]
    /\ Z_curr w' = Some 0.1%float
    /\ c2m_in w' = [].
Proof.
  apply (capture_image_set_two_heights muff_pipe_m2c muff_pipe_c2m
           (set_Z_curr (Some 0%float) (set_c2m_in [line "ok"; line "ok"] initial_world)) []);
    reflexivity.
Defined.

(** ** Leaving the process *)

Lemma reports_app (t u : list event) : reports (t ++ u) = (reports t + reports u)%nat.
Proof.
  induction t as [ | e t IH]; simpl; [reflexivity | ].
  destruct e as [ | [] | | | | | | | ]; simpl; rewrite IH; reflexivity.
Qed.

Create HintDb plain.

Lemma plain_ret {A} (a : A) : plain (ret a).
Proof. intros w. split; [discriminate | ]. exists []. rewrite app_nil_r. split; reflexivity. Qed.

Lemma plain_raise {A} (e : exn) : plain (@raise A e).
Proof. intros w. split; [discriminate | ]. exists []. rewrite app_nil_r. split; reflexivity. Qed.

Lemma plain_blocked {A} : plain (@halt A Blocked).
Proof. intros w. split; [discriminate | ]. exists []. rewrite app_nil_r. split; reflexivity. Qed.

Lemma plain_get {A} (f : World -> A) : plain (get f).
Proof. intros w. split; [discriminate | ]. exists []. rewrite app_nil_r. split; reflexivity. Qed.

Lemma plain_lift {A} (o : outcome A) : no_exit o -> plain (lift o).
Proof.
  intros Ho w. split; [exact Ho | ]. exists []. rewrite app_nil_r. split; reflexivity.
Qed.

Lemma plain_bind {A B} (m : M A) (k : A -> M B) :
  plain m -> (forall a, plain (k a)) -> plain (bind m k).
Proof.
  intros Hm Hk w. unfold bind. destruct (Hm w) as [Hne [t [Ht Hr]]].
  destruct (m w) as [[a | s] w1]; simpl in Hne, Ht |- *.
  - destruct (Hk a w1) as [Hne' [u [Hu Hr']]]. split; [exact Hne' | ].
    exists (t ++ u). rewrite Hu, Ht, app_assoc, reports_app, Hr, Hr'. split; reflexivity.
  - split; [ | exists t; split; assumption].
    intros c E. apply (Hne c). injection E as ->. reflexivity.
Qed.

Lemma plain_assert_then {B} (c : bool) (k : M B) :
  (c = true -> plain k) -> plain (assert c ;; k).
Proof.
  intros Hk. destruct c.
  - intros w. exact (Hk eq_refl w).
  - intros w. split; [discriminate | ]. exists []. rewrite app_nil_r. split; reflexivity.
Qed.

Lemma plain_assert (c : bool) : plain (assert c).
Proof.
  destruct c; intros w; (split; [discriminate | ]); exists [];
    rewrite app_nil_r; split; reflexivity.
Qed.

Lemma plain_modify (f : World -> World) :
  (forall w, trace (f w) = trace w) -> plain (modify f).
Proof.
  intros Hf w. split; [discriminate | ]. exists []. simpl.
  rewrite Hf, app_nil_r. split; reflexivity.
Qed.

Lemma plain_emit (e : event) : reports [e] = 0%nat -> plain (emit e).
Proof. intros He w. split; [discriminate | ]. exists [e]. split; [reflexivity | exact He]. Qed.

Lemma plain_stderr (m : message) : reports [Stderr m] = 0%nat -> plain (stderr_write m).
Proof. apply plain_emit. Qed.

Lemma plain_when (c : bool) (m : M unit) : plain m -> plain (when c m).
Proof. intros Hm. destruct c; [exact Hm | apply plain_ret]. Qed.

Lemma plain_for_loop {A} (xs : list A) (body : A -> M unit) :
  (forall x, plain (body x)) -> plain (for_loop xs body).
Proof.
  intros Hb. induction xs as [ | x xs IH]; cbn [for_loop]; [apply plain_ret | ].
  apply plain_bind; [apply Hb | intros _; exact IH].
Qed.

Lemma plain_for_each {A R} (xs : list A) (body : A -> M (option R)) :
  (forall x, plain (body x)) -> plain (for_each xs body).
Proof.
  intros Hb. induction xs as [ | x xs IH]; cbn [for_each]; [apply plain_ret | ].
  apply plain_bind; [apply Hb | intros [v | ]; [apply plain_ret | exact IH]].
Qed.

Lemma plain_vlog (m : message) : reports [Stderr m] = 0%nat -> plain (vlog m).
Proof.
  intros Hm. unfold vlog. apply plain_bind; [apply plain_get | ].
  intros v. apply plain_when. apply plain_stderr. exact Hm.
Qed.

#[local] Hint Resolve plain_ret plain_raise plain_blocked plain_get plain_assert
  plain_when plain_vlog plain_stderr plain_emit : plain.

(** Splits a sequence into its statements and settles the simple ones. *)
Ltac plain_steps :=
  repeat first
    [ solve [auto with plain]
    | apply plain_ret | apply plain_raise | apply plain_blocked | apply plain_get
    | apply plain_assert
    | apply plain_stderr; reflexivity
    | apply plain_vlog; reflexivity
    | apply plain_emit; reflexivity
    | apply plain_modify; intros; reflexivity
    | apply plain_when
    | apply plain_bind; [ | intros ? ]
    | apply plain_for_loop; intros ?
    | apply plain_for_each; intros ? ].

Lemma no_exit_bind {A B} (o : outcome A) (k : A -> outcome B) :
  no_exit o -> (forall a, no_exit (k a)) -> no_exit (Pure.bind o k).
Proof.
  intros Ho Hk. destruct o as [a | s]; simpl; [apply Hk | ].
  intros c E. apply (Ho c). injection E as ->. reflexivity.
Qed.

Lemma no_exit_normal {A} (a : A) : no_exit (Normal a).
Proof. intros c. discriminate. Qed.

Lemma no_exit_raise {A} (e : exn) : no_exit (@Pure.raise A e).
Proof. intros c. discriminate. Qed.

Lemma no_exit_assert (c : bool) : no_exit (Pure.assert c).
Proof. destruct c; intros ?; discriminate. Qed.

Lemma no_exit_list_index {A} (l : list A) (i : Z) : no_exit (list_index l i).
Proof. unfold list_index. destruct (_ && _); intros ?; discriminate. Qed.

Lemma no_exit_list_assign {A} (l : list A) (i : Z) (v : A) : no_exit (list_assign l i v).
Proof.
  unfold list_assign. apply no_exit_bind; [apply no_exit_list_index | ].
  intros n. apply no_exit_normal.
Qed.

Lemma no_exit_list_get {A} (l : list A) (i : Z) : no_exit (list_get l i).
Proof.
  unfold list_get. apply no_exit_bind; [apply no_exit_list_index | ].
  intros n. destruct (nth_error l n); intros ?; discriminate.
Qed.

Ltac no_exit_steps :=
  repeat first
    [ apply no_exit_normal | apply no_exit_raise | apply no_exit_assert
    | apply no_exit_list_assign | apply no_exit_list_get
    | apply no_exit_bind; [ | intros ? ] ].

Lemma no_exit_centric (vals : list float) (Lm : Z) :
  no_exit (define_LED_centric_pattern vals Lm).
Proof. unfold define_LED_centric_pattern. no_exit_steps. Qed.

Lemma no_exit_bridging (vals : list float) (La : Z) :
  no_exit (define_LED_bridging_pattern vals La).
Proof. unfold define_LED_bridging_pattern. no_exit_steps. Qed.

Lemma no_exit_define_LED_vals (L nL : Z) : no_exit (define_LED_vals L nL).
Proof.
  unfold define_LED_vals. no_exit_steps.
  destruct (12 <? nL).
  - destruct ((L <? 12) || (nL =? 24)); no_exit_steps.
  - destruct (nL =? 12); [no_exit_steps | ].
    destruct (nL =? 6); [apply no_exit_centric | ].
    no_exit_steps.
    destruct (azimuth_slot L nL mod 2 =? 0); [apply no_exit_centric | apply no_exit_bridging].
Qed.

Lemma no_exit_py_round (x : float) : no_exit (py_round x).
Proof. unfold py_round. destruct (Prim2SF x); intros ?; discriminate. Qed.

Lemma no_exit_chr (n : Z) : no_exit (chr n).
Proof. unfold chr. destruct (_ && _); intros ?; discriminate. Qed.

Lemma no_exit_encode_ascii (s : string) : no_exit (encode_ascii s).
Proof. unfold encode_ascii. destruct (forallb _ _); intros ?; discriminate. Qed.

Ltac plain_auto := plain_steps; auto with plain.

(** The same, with a case analysis on what a branch tests. *)
Ltac plain_cases :=
  plain_auto;
  repeat (match goal with
          | |- plain (if ?c then _ else _) => destruct c
          | |- plain (match ?x with _ => _ end) => destruct x
          end; plain_auto).

Lemma plain_lift_list_get {A} (l : list A) (i : Z) : plain (lift (list_get l i)).
Proof. apply plain_lift, no_exit_list_get. Qed.

Lemma plain_lift_list_assign {A} (l : list A) (i : Z) (v : A) :
  plain (lift (list_assign l i v)).
Proof. apply plain_lift, no_exit_list_assign. Qed.

Lemma plain_lift_define_LED_vals (L nL : Z) : plain (lift (define_LED_vals L nL)).
Proof. apply plain_lift, no_exit_define_LED_vals. Qed.

Lemma plain_lift_py_round (x : float) : plain (lift (py_round x)).
Proof. apply plain_lift, no_exit_py_round. Qed.

Lemma plain_lift_chr (n : Z) : plain (lift (chr n)).
Proof. apply plain_lift, no_exit_chr. Qed.

Lemma plain_lift_encode_ascii (s : string) : plain (lift (encode_ascii s)).
Proof. apply plain_lift, no_exit_encode_ascii. Qed.

#[local] Hint Resolve plain_lift_list_get plain_lift_list_assign plain_lift_define_LED_vals
  plain_lift_py_round plain_lift_chr plain_lift_encode_ascii : plain.

Lemma plain_send_command_and_wait (command : bytes) :
  plain (send_command_and_wait None command).
Proof. unfold send_command_and_wait, send_command, wait_arduino_OK. plain_auto. Qed.
#[local] Hint Resolve plain_send_command_and_wait : plain.

Lemma plain_stop_motor : plain (stop_motor None).
Proof. unfold stop_motor. plain_auto. Qed.
#[local] Hint Resolve plain_stop_motor : plain.

Lemma plain_move_microscope : plain (move_microscope None).
Proof. unfold move_microscope. plain_auto. Qed.
#[local] Hint Resolve plain_move_microscope : plain.

Lemma plain_start_motor (dir : Z) (fast : bool) : plain (start_motor None dir fast).
Proof.
  unfold start_motor. plain_auto.
  destruct (dir =? 1); [apply plain_ret | ].
  destruct (dir =? -1); [apply plain_ret | apply plain_raise].
Qed.
#[local] Hint Resolve plain_start_motor : plain.

Lemma plain_switch_all_LEDs_off : plain (switch_all_LEDs None 0%float).
Proof.
  unfold switch_all_LEDs.
  change (PrimFloat.eqb 0 1) with false. change (PrimFloat.eqb 0 0) with true.
  cbv iota. plain_auto.
Qed.

Lemma plain_switch_all_LEDs_on : plain (switch_all_LEDs None 1%float).
Proof.
  unfold switch_all_LEDs. change (PrimFloat.eqb 1 1) with true. cbv iota. plain_auto.
Qed.
#[local] Hint Resolve plain_switch_all_LEDs_off plain_switch_all_LEDs_on : plain.

Lemma plain_switch_LED (lix : Z) (pwr : float) :
  PrimFloat.eqb pwr 0 || PrimFloat.eqb pwr 1 = true -> plain (switch_LED None lix pwr).
Proof.
  intros Hpwr. unfold switch_LED. plain_auto.
  destruct (PrimFloat.eqb pwr 1); [apply plain_ret | ].
  destruct (PrimFloat.eqb pwr 0); [apply plain_ret | discriminate].
Qed.

Lemma plain_set_light_condition_body (LED_vals : list float) (lix : Z) :
  plain (set_light_condition_body None LED_vals lix).
Proof.
  unfold set_light_condition_body.
  apply plain_bind; [auto with plain | intros pwr].
  apply plain_assert_then. intros Hpwr.
  apply plain_bind; [apply plain_get | intros status].
  apply plain_bind; [auto with plain | intros old].
  destruct (differs pwr old); [ | apply plain_ret].
  apply plain_bind; [apply plain_switch_LED; exact Hpwr | intros _].
  plain_auto.
Qed.
#[local] Hint Resolve plain_set_light_condition_body : plain.

Lemma plain_set_light_condition (LED_vals : list float) :
  plain (set_light_condition None LED_vals).
Proof. unfold set_light_condition. plain_auto. Qed.
#[local] Hint Resolve plain_set_light_condition : plain.

Lemma plain_switch_all_lights_off : plain (switch_all_lights_off None).
Proof. unfold switch_all_lights_off. plain_auto. Qed.
#[local] Hint Resolve plain_switch_all_lights_off : plain.

Lemma plain_test_lighting_conditions (nL : Z) : plain (test_lighting_conditions None nL).
Proof. unfold test_lighting_conditions, test_lights. plain_auto. Qed.

Lemma plain_set_Z_step (Z_step : float) : plain (set_Z_step None Z_step).
Proof. unfold set_Z_step. plain_auto. Qed.

Lemma plain_place_camera_body (s : string) : plain (place_camera_body None s).
Proof.
  unfold place_camera_body.
  repeat match goal with
    | |- plain (if ?c then _ else _) => destruct c
    | |- plain (let _ := _ in _) => cbv zeta
    end; plain_auto;
  repeat match goal with
    | |- plain (if ?c then _ else _) => destruct c
    end; plain_auto.
Qed.
#[local] Hint Resolve plain_place_camera_body : plain.

Lemma plain_stdin_readline : plain stdin_readline.
Proof.
  intros w. unfold stdin_readline. destruct (stdin_in w) as [ | s rest];
    (split; [discriminate | ]); eexists; (split; [reflexivity | reflexivity]).
Qed.
#[local] Hint Resolve plain_stdin_readline : plain.

Lemma plain_place_camera_loop (fuel : nat) : plain (place_camera_loop fuel None).
Proof.
  induction fuel as [ | fuel IH]; cbn [place_camera_loop]; [apply plain_blocked | ].
  plain_auto. destruct a1 as [v | ]; [apply plain_ret | exact IH].
Qed.
#[local] Hint Resolve plain_place_camera_loop : plain.

Lemma plain_place_camera_for_first_image : plain (place_camera_for_first_image None).
Proof.
  unfold place_camera_for_first_image. plain_auto.
Qed.

Lemma plain_makedirs (path : string) : plain (makedirs path).
Proof.
  unfold makedirs. plain_cases.
Qed.
#[local] Hint Resolve plain_makedirs : plain.

Lemma plain_create_directories (nL nV : Z) : plain (create_directories nL nV).
Proof. unfold create_directories. plain_auto. Qed.
#[local] Hint Resolve plain_create_directories : plain.

Lemma plain_capture_frame_uvc (fname : string) : plain (capture_frame_uvc fname).
Proof.
  unfold capture_frame_uvc, os_system. plain_cases.
Qed.

Lemma plain_m2c_send (m2cPipe : option pipe) (command : string) :
  plain (m2c_send m2cPipe command).
Proof.
  unfold m2c_send. plain_cases.
Qed.

Lemma plain_c2m_readline (c2mPipe : option pipe) : plain (c2m_readline c2mPipe).
Proof.
  unfold c2m_readline. plain_cases.
Qed.
#[local] Hint Resolve plain_capture_frame_uvc plain_m2c_send plain_c2m_readline : plain.

Lemma plain_capture_frame_camview (m2cPipe c2mPipe : option pipe) (fname : string) :
  plain (capture_frame_camview m2cPipe c2mPipe fname).
Proof.
  unfold capture_frame_camview. plain_cases.
Qed.
#[local] Hint Resolve plain_capture_frame_camview : plain.

Lemma plain_capture_frame (m2cPipe c2mPipe : option pipe) (topdir : string) (L V H : Z) :
  plain (capture_frame m2cPipe c2mPipe topdir L V H).
Proof. unfold capture_frame. plain_cases. Qed.
#[local] Hint Resolve plain_capture_frame : plain.

Lemma plain_capture_image_set_body (m2cPipe c2mPipe : option pipe) (topdir : string)
    (nL V H L : Z) :
  plain (capture_image_set_body None m2cPipe c2mPipe topdir nL V H L).
Proof.
  unfold capture_image_set_body. plain_cases.
Qed.
#[local] Hint Resolve plain_capture_image_set_body : plain.

Lemma plain_capture_image_set_rise (Z_step : float) :
  plain (capture_image_set_rise None Z_step).
Proof. unfold capture_image_set_rise. plain_cases. Qed.
#[local] Hint Resolve plain_capture_image_set_rise : plain.

Lemma plain_set_view_direction (V nV : Z) : plain (set_view_direction None V nV).
Proof. unfold set_view_direction. plain_auto. Qed.
#[local] Hint Resolve plain_set_view_direction : plain.

Lemma plain_capture_image_set (m2cPipe c2mPipe : option pipe) (nL nV nH : Z)
    (Z_step : float) :
  plain (capture_image_set None m2cPipe c2mPipe nL nV nH Z_step).
Proof.
  unfold capture_image_set. plain_cases.
Qed.

Lemma plain_open_pipes : plain open_pipes.
Proof. unfold open_pipes. plain_cases. Qed.

Lemma m2c_close_run (p : pipe) (w : World) :
  m2c_unsent w = false -> m2c_close p w = (Normal tt, extend [PipeClosed p] w).
Proof. intros H. unfold m2c_close, bind, get. rewrite H. reflexivity. Qed.

Lemma m2c_close_raises (p : pipe) (w : World) :
  m2c_unsent w = true ->
  m2c_close p w = (Stop (Raise BrokenPipeError), extend [PipeClosed p] w).
Proof. intros H. unfold m2c_close, bind, get. rewrite H. reflexivity. Qed.

Lemma terminate_process_sim (m2cPipe c2mPipe : option pipe) (ok : bool) (w : World) :
  m2cPipe = None \/ m2c_unsent w = false ->
  terminate_process None m2cPipe c2mPipe ok w
  = (Stop (Exit (if ok then 0 else 1)),
     extend (cleanup_events (arduino_verbose w) m2cPipe c2mPipe ok) w).
Proof.
  intros Hsent. unfold terminate_process, cleanup_events.
  assert (Eclose : (match m2cPipe with Some p => m2c_close p | None => ret tt end ;;
                    match c2mPipe with Some p => c2m_close p | None => ret tt end) w
                   = (Normal tt, extend (closing m2cPipe c2mPipe) w)).
  { destruct m2cPipe as [p | ].
    - destruct Hsent as [Hnone | Hsent]; [discriminate | ].
      rewrite (bind_normal _ _ _ _ _ (m2c_close_run p w Hsent)).
      destruct c2mPipe as [q | ].
      + change (c2m_close q (extend [PipeClosed p] w))
          with (Normal tt, extend [PipeClosed q] (extend [PipeClosed p] w)).
        rewrite extend_extend. reflexivity.
      + reflexivity.
    - rewrite bind_ret. destruct c2mPipe as [q | ]; [reflexivity | ].
      unfold closing. cbn [app]. rewrite extend_nil. reflexivity. }
  rewrite <- (bind_assoc (match m2cPipe with Some p => m2c_close p | None => ret tt end)).
  rewrite (bind_normal _ _ _ _ _ Eclose).
  step (stop_motor_sim _).
  step (switch_all_LEDs_sim_off _).
  rewrite !extend_extend, <- !app_assoc.
  destruct ok; rewrite (bind_normal _ _ _ _ _ (stderr_write_run _ _));
    unfold sys_exit, halt; rewrite extend_extend, <- !app_assoc; reflexivity.
Qed.

Lemma terminate_process_unsent (sport : option serial_port) (p : pipe)
    (c2mPipe : option pipe) (ok : bool) (w : World) :
  m2c_unsent w = true ->
  terminate_process sport (Some p) c2mPipe ok w
  = (Stop (Raise BrokenPipeError), extend [PipeClosed p] w).
Proof.
  intros Hunsent. unfold terminate_process.
  apply (bind_stop _ _ _ _ _ (m2c_close_raises p w Hunsent)).
Qed.

(** However [terminate_process] is entered, it leaves through [sys.exit]
    after the cleanup or, with a request left unsent in [m2cPipe], with
    [BrokenPipeError] before it. *)
Lemma terminate_process_cases (m2cPipe c2mPipe : option pipe) (ok : bool) (w : World) :
  terminate_process None m2cPipe c2mPipe ok w
  = (Stop (Exit (if ok then 0 else 1)),
     extend (cleanup_events (arduino_verbose w) m2cPipe c2mPipe ok) w)
  \/ exists p, m2cPipe = Some p
               /\ terminate_process None m2cPipe c2mPipe ok w
                  = (Stop (Raise BrokenPipeError), extend [PipeClosed p] w).
Proof.
  destruct m2cPipe as [p | ].
  - destruct (m2c_unsent w) eqn:E.
    + right. exists p. split; [reflexivity | apply terminate_process_unsent; exact E].
    + left. apply terminate_process_sim. right. exact E.
  - left. apply terminate_process_sim. left. reflexivity.
Qed.

Lemma plain_then_exit {A B} (m : M A) (k : A -> M B) (w w' : World) (c : Z) :
  plain m -> bind m k w = (Stop (Exit c), w') ->
  exists a w1, m w = (Normal a, w1) /\ k a w1 = (Stop (Exit c), w')
               /\ reports (trace w1) = reports (trace w).
Proof.
  intros Hm Hrun. destruct (Hm w) as [Hne [t [Ht Hr]]]. unfold bind in Hrun.
  destruct (m w) as [[a | s] w1]; simpl in Hne, Ht.
  - exists a, w1. split; [reflexivity | ]. split; [exact Hrun | ].
    rewrite Ht, reports_app, Hr. lia.
  - injection Hrun as -> ->. exfalso. apply (Hne c). reflexivity.
Qed.

Lemma then_normal {A B} (m : M A) (k : A -> M B) (w w' : World) (b : B) :
  bind m k w = (Normal b, w') ->
  exists a w1, m w = (Normal a, w1) /\ k a w1 = (Normal b, w').
Proof.
  intros Hrun. unfold bind in Hrun. destruct (m w) as [[a | s] w1].
  - exists a, w1. split; [reflexivity | exact Hrun].
  - discriminate.
Qed.

Lemma open_pipes_run (w : World) :
  open_pipes w
  = (Normal (Some muff_pipe_m2c, Some muff_pipe_c2m),
     extend [PipeOpened muff_pipe_m2c; PipeOpened muff_pipe_c2m] (set_m2c_unsent false w)).
Proof.
  transitivity (Normal (Some muff_pipe_m2c, Some muff_pipe_c2m),
                extend [PipeOpened muff_pipe_c2m]
                  (set_m2c_unsent false (extend [PipeOpened muff_pipe_m2c] w)));
    [reflexivity | ].
  f_equal. destruct w. unfold extend. simpl. rewrite <- app_assoc. reflexivity.
Qed.

Lemma connect_absent (w : World) :
  connect arduino_present verbose w
  = (Normal None, extend [Stderr DebuggingRun] (set_arduino_verbose false w)).
Proof. reflexivity. Qed.

Lemma parse_parsed (synopsis : bool) (nL nV nH : Z) (Z_step : float) (w : World) :
  parse_command_line_args (Parsed synopsis nL nV nH Z_step) w
  = (Normal (Some (nL, nV, nH, Z_step)),
     extend (if synopsis then [Stderr Synopsis] else []) w).
Proof. destruct synopsis; [reflexivity | rewrite extend_nil; reflexivity]. Qed.

Lemma main_parsed (synopsis : bool) (nL nV nH : Z) (Z_step : float) (w : World) :
  main (Parsed synopsis nL nV nH Z_step) w
  = session (Some muff_pipe_m2c) (Some muff_pipe_c2m) nL nV nH Z_step
      (session_start synopsis w).
Proof.
  unfold main, session. rewrite bind_ret.
  rewrite (bind_normal _ _ _ _ _ (parse_parsed synopsis nL nV nH Z_step w)).
  rewrite (bind_normal _ _ _ _ _ (open_pipes_run _)).
  rewrite (bind_normal _ _ _ _ _ (connect_absent _)).
  reflexivity.
Qed.

Lemma reports_session_start (synopsis : bool) (w : World) :
  reports (trace (session_start synopsis w)) = reports (trace w).
Proof.
  unfold session_start, extend. simpl. rewrite !reports_app.
  destruct synopsis; simpl; lia.
Qed.

Lemma session_exit (m2cPipe c2mPipe : option pipe) (nL nV nH : Z) (Z_step : float)
    (w w' : World) (c : Z) :
  session m2cPipe c2mPipe nL nV nH Z_step w = (Stop (Exit c), w') ->
  exists w0 ok,
    w' = extend (cleanup_events (arduino_verbose w0) m2cPipe c2mPipe ok) w0
    /\ c = (if ok then 0 else 1)
    /\ reports (trace w0) = reports (trace w).
Proof.
  unfold session. intros Hrun.
  apply plain_then_exit in Hrun; [ | apply plain_test_lighting_conditions].
  destruct Hrun as [[] [w1 [_ [Hrun R1]]]].
  apply plain_then_exit in Hrun; [ | apply plain_set_Z_step].
  destruct Hrun as [[] [w2 [_ [Hrun R2]]]].
  apply plain_then_exit in Hrun; [ | apply plain_place_camera_for_first_image].
  destruct Hrun as [okp [w3 [_ [Hrun R3]]]].
  destruct okp; cbn [negb when] in Hrun.
  - rewrite bind_ret in Hrun.
    apply plain_then_exit in Hrun; [ | apply plain_capture_image_set].
    destruct Hrun as [okc [w4 [_ [Hrun R4]]]].
    unfold bind in Hrun.
    destruct (terminate_process_cases m2cPipe c2mPipe okc w4) as [E | [p [_ E]]];
      rewrite E in Hrun; [ | discriminate].
    injection Hrun as <- <-. exists w4, okc. split; [reflexivity | ].
    split; [reflexivity | lia].
  - unfold bind in Hrun.
    destruct (terminate_process_cases m2cPipe c2mPipe false w3) as [E | [p [_ E]]];
      rewrite E in Hrun; [ | discriminate].
    injection Hrun as <- <-. exists w3, false. split; [reflexivity | ].
    split; [reflexivity | lia].
Qed.

Lemma session_never_returns (m2cPipe c2mPipe : option pipe) (nL nV nH : Z) (Z_step : float)
    (w w' : World) :
  session m2cPipe c2mPipe nL nV nH Z_step w <> (Normal tt, w').
Proof.
  unfold session. intros Hrun.
  apply then_normal in Hrun. destruct Hrun as [u1 [w1 [_ Hrun]]].
  apply then_normal in Hrun. destruct Hrun as [u2 [w2 [_ Hrun]]].
  apply then_normal in Hrun. destruct Hrun as [okp [w3 [_ Hrun]]].
  apply then_normal in Hrun. destruct Hrun as [u4 [w4 [_ Hrun]]].
  apply then_normal in Hrun. destruct Hrun as [okc [w5 [_ Hrun]]].
  apply then_normal in Hrun. destruct Hrun as [u6 [w6 [Hterm _]]].
  destruct (terminate_process_cases m2cPipe c2mPipe okc w5) as [E | [p [_ E]]];
    rewrite E in Hterm; discriminate.
Qed.

Lemma reports_cleanup_events (verbose : bool) (m2cPipe c2mPipe : option pipe) (ok : bool) :
  reports (cleanup_events verbose m2cPipe c2mPipe ok) = 1%nat.
Proof. destruct verbose, m2cPipe, c2mPipe, ok; reflexivity. Qed.

Lemma main_exit (argv : cmdline) (w w' : World) (c : Z) :
  argv <> HelpRequested ->
  main argv w = (Stop (Exit c), w') ->
  exists w0 ok,
    w' = extend (cleanup_events (arduino_verbose w0) (Some muff_pipe_m2c)
                   (Some muff_pipe_c2m) ok) w0
    /\ c = (if ok then 0 else 1)
    /\ reports (trace w') = S (reports (trace w)).
Proof.
  intros Hhelp Hrun. destruct argv as [ | synopsis | synopsis nL nV nH Z_step].
  - contradiction.
  - exfalso. destruct synopsis; discriminate.
  - rewrite main_parsed in Hrun. apply session_exit in Hrun.
    destruct Hrun as [w0 [ok [-> [-> Hr]]]]. exists w0, ok.
    split; [reflexivity | ]. split; [reflexivity | ].
    unfold extend. simpl. rewrite reports_app, reports_cleanup_events, Hr,
      reports_session_start. lia.
Qed.

Lemma main_never_returns (argv : cmdline) (w w' : World) :
  main argv w <> (Normal tt, w').
Proof.
  destruct argv as [ | synopsis | synopsis nL nV nH Z_step].
  - discriminate.
  - destruct synopsis; discriminate.
  - rewrite main_parsed. apply session_never_returns.
Qed.

(** C3, as stated, at a bad reply on the second of three captures: only
    the first capture has been acknowledged when the sequence stops, not two. *)
Lemma bad_second_reply_one_success :
  acknowledgements
    (trace (snd (main three_captures
                   (session_world [line "ok"] [line "ok"; line "bad"; line "ok"]))))
  <> 2%nat.
Proof. vm_compute. discriminate. Qed.

(** ** Further properties of the device and capture protocols *)

(** A step that rounds into -999..999 microns is sent as [4] followed by
    ["%+03d"] of the microns; from 100 microns on the magnitude has three
    digits, and 0.5 mm gives [4+500]. *)
Theorem set_Z_step_in_range (Z_step : float) (istep : Z) (w : World) :
  py_round (Z_step * 1000)%float = Normal istep -> -999 <= istep <= 999 ->
  set_Z_step None Z_step w
  = (Normal tt,
     extend (announce (arduino_verbose w) (DefiningZStep (format_d true 3 istep))
             ++ simulated ("4" ++ format_d true 3 istep)) w)
  /\ (100 <= Z.abs istep -> magnitude_digits istep = 3%nat)
  /\ (Z_step = 0.5%float -> ("4" ++ format_d true 3 istep)%string = "4+500").
Proof.
  intros Hround Hrange. split; [apply set_Z_step_sim; assumption | split].
  - intros Hbig. rewrite (magnitude_digits_in_range istep Hrange).
    replace (Z.abs istep <? 100) with false by (symmetry; apply Z.ltb_ge; lia).
    reflexivity.
  - intros ->. vm_compute in Hround. injection Hround as <-. reflexivity.
Qed.

Lemma set_Z_step_in_range_half :
  set_Z_step None 0.5%float initial_world
  = (Normal tt,
     extend (announce (arduino_verbose initial_world) (DefiningZStep (format_d true 3 500))
             ++ simulated ("4" ++ format_d true 3 500)) initial_world)
  /\ (100 <= Z.abs 500 -> magnitude_digits 500 = 3%nat)
  /\ (0.5%float = 0.5%float -> ("4" ++ format_d true 3 500)%string = "4+500").
Proof.
  apply (set_Z_step_in_range 0.5%float 500 initial_world); [vm_compute; reflexivity | lia].
Defined.

(** A step that rounds outside -999..999 microns fails the assertion before
    anything is sent, with or without a port. *)
Theorem set_Z_step_out_of_range (sport : option serial_port) (Z_step : float) (istep : Z)
    (w : World) :
  py_round (Z_step * 1000)%float = Normal istep -> istep < -999 \/ 999 < istep ->
  set_Z_step sport Z_step w = (Stop (Raise AssertionError), w).
Proof. apply set_Z_step_refused. Qed.

Lemma set_Z_step_out_of_range_1234 :
  set_Z_step (Some ttyUSB0) 1.234%float initial_world
  = (Stop (Raise AssertionError), initial_world).
Proof.
  apply (set_Z_step_out_of_range (Some ttyUSB0) 1.234%float 1234 initial_world);
    [vm_compute; reflexivity | lia].
Defined.

(** [start_motor] stops the motor first; the four combinations of
    direction and speed send four different opcodes. *)
Theorem start_motor_stops_first (dir : Z) (fast : bool) (w : World) :
  dir = 1 \/ dir = -1 ->
  fst (start_motor None dir fast w) = Normal tt
  /\ commands (trace (snd (start_motor None dir fast w)))
     = commands (trace w) ++ ["3"; motion_opcode dir fast]
  /\ NoDup [motion_opcode 1 false; motion_opcode (-1) false;
            motion_opcode 1 true; motion_opcode (-1) true].
Proof.
  intros Hdir. rewrite (start_motor_sim dir fast w Hdir). split; [reflexivity | split].
  - unfold extend. simpl trace. rewrite !commands_app.
    destruct (arduino_verbose w); reflexivity.
  - repeat constructor; simpl; intuition discriminate.
Qed.

Lemma start_motor_stops_first_up_slow :
  fst (start_motor None 1 false initial_world) = Normal tt
  /\ commands (trace (snd (start_motor None 1 false initial_world)))
     = commands (trace initial_world) ++ ["3"; motion_opcode 1 false]
  /\ NoDup [motion_opcode 1 false; motion_opcode (-1) false;
            motion_opcode 1 true; motion_opcode (-1) true].
Proof. apply (start_motor_stops_first 1 false initial_world). left. reflexivity. Defined.

(** [switch_all_lights_off] sends the one broadcast command [-@] and sets
    all 24 entries of the cache to 0.0. *)
Theorem switch_all_lights_off_resets (w : World) :
  List.length (LED_status w) = 24%nat ->
  fst (switch_all_lights_off None w) = Normal tt
  /\ LED_status (snd (switch_all_lights_off None w)) = repeat (Some 0%float) 24
  /\ commands (trace (snd (switch_all_lights_off None w))) = commands (trace w) ++ ["-@"].
Proof.
  intros Hst. rewrite (switch_all_lights_off_sim w Hst).
  split; [reflexivity | split; [reflexivity | ]].
  unfold extend. simpl trace. rewrite !commands_app.
  destruct (arduino_verbose w); reflexivity.
Qed.

Lemma switch_all_lights_off_resets_start :
  fst (switch_all_lights_off None initial_world) = Normal tt
  /\ LED_status (snd (switch_all_lights_off None initial_world)) = repeat (Some 0%float) 24
  /\ commands (trace (snd (switch_all_lights_off None initial_world)))
     = commands (trace initial_world) ++ ["-@"].
Proof. apply (switch_all_lights_off_resets initial_world). reflexivity. Defined.

Lemma m2c_send_refused (p : pipe) (command : string) (w : World) :
  hd false (m2c_fails w) = true ->
  m2c_send (Some p) command w
  = (Normal false, set_m2c_unsent true (set_m2c_fails (tl (m2c_fails w)) w)).
Proof.
  intros Hfail. unfold m2c_send, bind at 1, get at 1.
  destruct (m2c_fails w) as [ | [ | ] fs] eqn:E; try discriminate.
  reflexivity.
Qed.

Lemma capture_frame_camview_refused (p q : pipe) (fname : string) (w : World) :
  hd false (m2c_fails w) = true ->
  capture_frame_camview (Some p) (Some q) fname w
  = (Normal false,
     extend [Stderr CommandNotSent] (set_m2c_unsent true (set_m2c_fails (tl (m2c_fails w)) w))).
Proof.
  intros Hfail. unfold capture_frame_camview. change (negb camera_present) with false.
  cbv iota.
  rewrite (bind_normal _ _ _ _ _ (m2c_send_refused p ("G " ++ fname) w Hfail)).
  change (negb false) with true. cbv iota.
  rewrite (bind_normal _ _ _ _ _ (stderr_write_run _ _)). reflexivity.
Qed.

(** Leaving through [terminate_process]. When [m2cPipe] is absent or holds
    nothing unsent, [terminate_process] without a port closes the pipes that
    are open, issues the commands [3] and [-@], writes the final status
    line and leaves with [sys.exit(0)] when [ok] is true and [sys.exit(1)]
    otherwise. When [m2cPipe] holds a request that a failed flush left in
    it, [close] raises [BrokenPipeError]: the other pipe is not closed, no
    command is issued, no status is written, and there is no [sys.exit].
    This is so right after a capture request whose write raised: a session
    of three captures in which the second request cannot be written ends
    with the uncaught [BrokenPipeError] after one request, the motor not
    stopped again and no final status reported. *)
Theorem terminate_process_cleans_up (m2cPipe c2mPipe : option pipe) (ok : bool) (w : World) :
  (m2cPipe = None \/ m2c_unsent w = false ->
   terminate_process None m2cPipe c2mPipe ok w
   = (Stop (Exit (if ok then 0 else 1)),
      extend (cleanup_events (arduino_verbose w) m2cPipe c2mPipe ok) w)
   /\ commands (cleanup_events (arduino_verbose w) m2cPipe c2mPipe ok) = ["3"; "-@"])
  /\ (forall (sport : option serial_port) (p : pipe),
        m2c_unsent w = true ->
        terminate_process sport (Some p) c2mPipe ok w
        = (Stop (Raise BrokenPipeError), extend [PipeClosed p] w))
  /\ (forall (sport : option serial_port) (p q : pipe) (fname : string),
        hd false (m2c_fails w) = true ->
        exists w',
          capture_frame_camview (Some p) (Some q) fname w = (Normal false, w')
          /\ terminate_process sport (Some p) c2mPipe ok w'
             = (Stop (Raise BrokenPipeError), extend [PipeClosed p] w')
          /\ commands (trace (extend [PipeClosed p] w')) = commands (trace w)
          /\ reports (trace (extend [PipeClosed p] w')) = reports (trace w))
  /\ ending (main three_captures
               (set_m2c_fails [false; true]
                  (session_world [line "ok"] [line "ok"; line "ok"; line "ok"])))
     = (Stop (Raise BrokenPipeError), 1%nat, 1%nat, 0%nat,
        [Stderr PretendingOK;
         Stderr (CapturingFrame 0
                   "muff_scans/2018-09-04-1849-U/L_01/V_00/raw/frame_00000.jpg");
         Stderr CommandNotSent; Stderr (WouldSend "-@"); Stderr PretendingOK;
         Stderr CaptureFailed; PipeClosed muff_pipe_m2c]).
Proof.
  split; [ | split; [ | split; [ | vm_compute; reflexivity]]].
  - intros Hsent. split; [apply terminate_process_sim; exact Hsent | ].
    destruct (arduino_verbose w), m2cPipe, c2mPipe, ok; reflexivity.
  - intros sport p Hunsent. apply terminate_process_unsent. exact Hunsent.
  - intros sport p q fname Hfail. eexists.
    split; [apply capture_frame_camview_refused; exact Hfail | ].
    split; [apply terminate_process_unsent; reflexivity | ].
    unfold extend. cbn [trace set_trace set_m2c_unsent set_m2c_fails].
    rewrite <- app_assoc, commands_app, reports_app, app_nil_r, Nat.add_0_r.
    split; reflexivity.
Qed.

Lemma terminate_process_cleans_up_after_refusal :
  (terminate_process None (Some muff_pipe_m2c) (Some muff_pipe_c2m) true initial_world
   = (Stop (Exit (if true then 0 else 1)),
      extend (cleanup_events (arduino_verbose initial_world) (Some muff_pipe_m2c)
                (Some muff_pipe_c2m) true) initial_world)
   /\ commands (cleanup_events (arduino_verbose initial_world) (Some muff_pipe_m2c)
                  (Some muff_pipe_c2m) true) = ["3"; "-@"])
  /\ exists w',
       capture_frame_camview (Some muff_pipe_m2c) (Some muff_pipe_c2m) "f.jpg"
         (set_m2c_fails [true] initial_world) = (Normal false, w')
       /\ terminate_process None (Some muff_pipe_m2c) (Some muff_pipe_c2m) false w'
          = (Stop (Raise BrokenPipeError), extend [PipeClosed muff_pipe_m2c] w')
       /\ commands (trace (extend [PipeClosed muff_pipe_m2c] w'))
          = commands (trace (set_m2c_fails [true] initial_world))
       /\ reports (trace (extend [PipeClosed muff_pipe_m2c] w'))
          = reports (trace (set_m2c_fails [true] initial_world)).
Proof.
  split.
  - apply (proj1 (terminate_process_cleans_up (Some muff_pipe_m2c) (Some muff_pipe_c2m) true
                    initial_world)).
    right. reflexivity.
  - apply (proj1 (proj2 (proj2 (terminate_process_cleans_up (Some muff_pipe_m2c)
                                  (Some muff_pipe_c2m) false
                                  (set_m2c_fails [true] initial_world))))
             None muff_pipe_m2c muff_pipe_c2m "f.jpg").
    reflexivity.
Defined.

(** A capture request whose write goes through is one line [G <path>]; the
    capture succeeds exactly when the reply is the line [ok]: any other
    line, or the end of the pipe, makes it fail. A write that raises fails
    the capture without a read. *)
Theorem capture_reply_decides (p q : pipe) (fname : string) (w : World) :
  (hd false (m2c_fails w) = false ->
   forall s rest, c2m_in w = s :: rest ->
     fst (capture_frame_camview (Some p) (Some q) fname w) = Normal (String.eqb s (line "ok"))
     /\ requests (trace (snd (capture_frame_camview (Some p) (Some q) fname w)))
        = requests (trace w) ++ [line ("G " ++ fname)]
     /\ c2m_in (snd (capture_frame_camview (Some p) (Some q) fname w)) = rest)
  /\ (hd false (m2c_fails w) = false -> c2m_in w = [] ->
      fst (capture_frame_camview (Some p) (Some q) fname w) = Normal false)
  /\ (hd false (m2c_fails w) = true ->
      fst (capture_frame_camview (Some p) (Some q) fname w) = Normal false
      /\ c2m_in (snd (capture_frame_camview (Some p) (Some q) fname w)) = c2m_in w
      /\ requests (trace (snd (capture_frame_camview (Some p) (Some q) fname w)))
         = requests (trace w)).
Proof.
  unfold capture_frame_camview. change (negb camera_present) with false. cbv iota.
  split; [ | split].
  - intros Hok s rest Hin.
    rewrite (bind_normal _ _ _ _ _ (m2c_send_ok p ("G " ++ fname) w Hok)).
    change (negb true) with false. cbv iota.
    set (w1 := extend _ (set_m2c_unsent _ (set_m2c_fails _ w))).
    rewrite (bind_normal _ _ _ _ _ (c2m_readline_next q s rest w1 Hin)).
    assert (Htrace : forall t, requests (trace (extend t (extend [PipeRead s] (set_c2m_in rest w1))))
                               = requests (trace w) ++ [line ("G " ++ fname)] ++ requests t).
    { intros t. unfold w1, extend. cbn [trace set_trace set_c2m_in set_m2c_fails set_m2c_unsent].
      rewrite !requests_app, <- !app_assoc. reflexivity. }
    destruct (String.eqb s "") eqn:Eempty.
    + apply String.eqb_eq in Eempty. subst s.
      rewrite (bind_normal _ _ _ _ _ (stderr_write_run _ _)).
      unfold ret. cbn [fst snd].
      split; [reflexivity | split; [ | reflexivity]].
      rewrite Htrace. reflexivity.
    + change (String "o" (String "k" (String nl ""))) with (line "ok").
      destruct (String.eqb s (line "ok")) eqn:Eok; cbn [negb].
      * unfold ret. cbn [fst snd].
        split; [reflexivity | split; [ | reflexivity]].
        rewrite <- (extend_nil (extend _ _)), Htrace. reflexivity.
      * rewrite (bind_normal _ _ _ _ _ (stderr_write_run _ _)).
        unfold ret. cbn [fst snd].
        split; [reflexivity | split; [ | reflexivity]].
        rewrite Htrace. reflexivity.
  - intros Hok Hin.
    rewrite (bind_normal _ _ _ _ _ (m2c_send_ok p ("G " ++ fname) w Hok)).
    change (negb true) with false. cbv iota.
    set (w1 := extend _ (set_m2c_unsent _ (set_m2c_fails _ w))).
    assert (E : c2m_readline (Some q) w1 = (Normal "", extend [PipeRead ""] w1)).
    { unfold c2m_readline, bind at 1, get at 1.
      change (c2m_in w1) with (c2m_in w). rewrite Hin. reflexivity. }
    rewrite (bind_normal _ _ _ _ _ E). reflexivity.
  - intros Hfail.
    rewrite (bind_normal _ _ _ _ _ (m2c_send_refused p ("G " ++ fname) w Hfail)).
    change (negb false) with true. cbv iota.
    rewrite (bind_normal _ _ _ _ _ (stderr_write_run _ _)).
    unfold ret, extend. cbn [fst snd trace set_trace set_m2c_fails c2m_in].
    rewrite requests_app, app_nil_r.
    split; [reflexivity | split; reflexivity].
Qed.

Lemma capture_reply_decides_bad :
  fst (capture_frame_camview (Some muff_pipe_m2c) (Some muff_pipe_c2m) "f.jpg"
         (set_c2m_in [line "bad"] initial_world))
  = Normal (String.eqb (line "bad") (line "ok"))
  /\ requests (trace (snd (capture_frame_camview (Some muff_pipe_m2c) (Some muff_pipe_c2m)
                             "f.jpg" (set_c2m_in [line "bad"] initial_world))))
     = requests (trace (set_c2m_in [line "bad"] initial_world)) ++ [line ("G " ++ "f.jpg")]
  /\ c2m_in (snd (capture_frame_camview (Some muff_pipe_m2c) (Some muff_pipe_c2m) "f.jpg"
                    (set_c2m_in [line "bad"] initial_world)))
     = [].
Proof.
  apply (proj1 (capture_reply_decides muff_pipe_m2c muff_pipe_c2m "f.jpg"
                  (set_c2m_in [line "bad"] initial_world))); reflexivity.
Defined.

(** ** The display of strings and bytes *)

Lemma list_ascii_of_string_app (s1 s2 : string) :
  list_ascii_of_string (s1 ++ s2) = list_ascii_of_string s1 ++ list_ascii_of_string s2.
Proof. induction s1 as [ | c s1 IH]; [reflexivity | ]. simpl. rewrite IH. reflexivity. Qed.

Lemma show_chars_app (s1 s2 : string) (blanks : bool) :
  show_chars (s1 ++ s2) blanks = (show_chars s1 blanks ++ show_chars s2 blanks)%string.
Proof.
  induction s1 as [ | c s1 IH]; [reflexivity | ].
  cbn [show_chars String.append]. rewrite IH, string_append_assoc. reflexivity.
Qed.

Lemma show_char_displayable (blanks : bool) (c : ascii) :
  forallb displayable (list_ascii_of_string (show_char blanks c)) = true
  /\ (blanks = true ->
      forallb (fun d => negb (Ascii.eqb d " ")) (list_ascii_of_string (show_char blanks c))
      = true).
Proof.
  destruct blanks; destruct c as [[] [] [] [] [] [] [] []];
    (split; [vm_compute; reflexivity | intros Hb; try discriminate Hb; vm_compute; reflexivity]).
Qed.

Lemma show_char_copied (blanks : bool) (c : ascii) :
  show_char blanks c = if copied blanks c then String c "" else
                       ("[chr(" ++ format_d false 3 (ord c) ++ ")]")%string.
Proof.
  destruct blanks; destruct c as [[] [] [] [] [] [] [] []]; vm_compute; reflexivity.
Qed.

Lemma unshow_show_char (blanks : bool) (c : ascii) (rest : string) :
  unshow (show_char blanks c ++ rest) = String c (unshow rest).
Proof.
  destruct blanks; destruct c as [[] [] [] [] [] [] [] []]; reflexivity.
Qed.

Lemma unshow_show_chars (s : string) (blanks : bool) :
  unshow (show_chars s blanks) = s.
Proof.
  induction s as [ | c s IH]; [reflexivity | ].
  cbn [show_chars]. rewrite unshow_show_char, IH. reflexivity.
Qed.

(** What [show_chars] returns holds printable ASCII only and neither of the
    two quotes, whatever the string; with [blanks] set it holds no space
    either. The same for [show_bytes]. *)
Theorem show_chars_displayable (s : string) (bs : bytes) (blanks : bool) :
  forallb displayable (list_ascii_of_string (show_chars s blanks)) = true
  /\ forallb displayable (list_ascii_of_string (show_bytes bs blanks)) = true
  /\ forallb (fun d => negb (Ascii.eqb d " ")) (list_ascii_of_string (show_chars s true)) = true
  /\ forallb (fun d => negb (Ascii.eqb d " ")) (list_ascii_of_string (show_bytes bs true)) = true.
Proof.
  assert (H1 : forall s blanks,
             forallb displayable (list_ascii_of_string (show_chars s blanks)) = true).
  { intros t bl. induction t as [ | c t IH]; [reflexivity | ].
    cbn [show_chars]. rewrite list_ascii_of_string_app, forallb_app, IH.
    rewrite (proj1 (show_char_displayable bl c)). reflexivity. }
  assert (H2 : forall s, forallb (fun d => negb (Ascii.eqb d " "))
                           (list_ascii_of_string (show_chars s true)) = true).
  { intros t. induction t as [ | c t IH]; [reflexivity | ].
    cbn [show_chars]. rewrite list_ascii_of_string_app, forallb_app, IH.
    rewrite (proj2 (show_char_displayable true c) eq_refl). reflexivity. }
  unfold show_bytes. repeat split; auto.
Qed.

(** Over strings of code points below 256, the only ones a [string] here
    holds: a string of printable characters other than quotes, brackets and
    parentheses (and other than the space, with [blanks] set) is shown as it
    is; any other character is shown as [[chr(NNN)]] with its code, which is
    below 256, in three digits. (The format [%03d] pads to three digits and
    cuts nothing: a code point from 1000 on, which a Python string may hold
    and a [string] may not, takes four digits or more.) *)
Theorem show_chars_copies (s : string) (blanks : bool) :
  (forallb (copied blanks) (list_ascii_of_string s) = true -> show_chars s blanks = s)
  /\ (forall c, copied blanks c = false ->
        show_chars (String c s) blanks
        = ("[chr(" ++ format_d false 3 (ord c) ++ ")]" ++ show_chars s blanks)%string
        /\ 0 <= ord c < 256
        /\ String.length (format_d false 3 (ord c)) = 3%nat)
  /\ String.length (format_d false 3 999) = 3%nat
  /\ String.length (format_d false 3 1000) = 4%nat.
Proof.
  split; [ | split; [ | split; reflexivity]].
  - induction s as [ | c s IH]; [reflexivity | ].
    cbn [list_ascii_of_string forallb]. intros H. apply andb_prop in H as [Hc Hs].
    cbn [show_chars]. rewrite show_char_copied, Hc, (IH Hs). reflexivity.
  - intros c Hc. split; [ | split].
    + cbn [show_chars]. rewrite show_char_copied, Hc.
      rewrite !string_append_assoc. reflexivity.
    + clear Hc. destruct c as [[] [] [] [] [] [] [] []]; cbv; split; congruence.
    + clear Hc. destruct c as [[] [] [] [] [] [] [] []]; reflexivity.
Qed.

Lemma show_chars_copies_abort : show_chars "abort" true = "abort".
Proof. apply (proj1 (show_chars_copies "abort" true)). reflexivity. Defined.

(** No two strings are shown alike: [show_chars] can be read back, and so
    can [show_bytes]. *)
Theorem show_chars_injective (blanks : bool) :
  (forall s1 s2 : string, show_chars s1 blanks = show_chars s2 blanks -> s1 = s2)
  /\ (forall b1 b2 : bytes, show_bytes b1 blanks = show_bytes b2 blanks -> b1 = b2).
Proof.
  assert (H : forall s1 s2 : string, show_chars s1 blanks = show_chars s2 blanks -> s1 = s2).
  { intros s1 s2 E. apply (f_equal unshow) in E. rewrite !unshow_show_chars in E. exact E. }
  split; [exact H | ].
  intros b1 b2 E. unfold show_bytes in E. apply H in E.
  apply (f_equal list_byte_of_string) in E.
  rewrite !list_byte_of_string_of_list_byte in E. exact E.
Qed.

(** ** File names and directories *)

Lemma all_from_spec (P : Z -> bool) (n : nat) :
  forall from, all_from P n from = true ->
    forall i, from <= i < from + Z.of_nat n -> P i = true.
Proof.
  induction n as [ | n IH]; intros from H i Hi; [lia | ].
  cbn [all_from] in H. apply andb_prop in H as [H0 H1].
  destruct (Z.eq_dec i from) as [-> | Hne]; [exact H0 | ].
  apply (IH (from + 1) H1). lia.
Qed.

Lemma reads_back_2 (n : Z) : 0 <= n < 100 -> reads_back 2 n = true.
Proof.
  intros Hn. apply (all_from_spec (reads_back 2) 100 0); [vm_compute; reflexivity | lia].
Qed.

Lemma reads_back_5 (n : Z) : 0 <= n < 100000 -> reads_back 5 n = true.
Proof.
  intros Hn.
  apply (all_from_spec (reads_back 5) (Z.to_nat 100000) 0); [vm_compute; reflexivity | lia].
Qed.

Lemma string_app_inv_head (s a c : string) : (s ++ a = s ++ c)%string -> a = c.
Proof.
  induction s as [ | x s IH]; simpl; intros H; [exact H | ].
  injection H as H. exact (IH H).
Qed.

Lemma string_app_inv_length (a : string) :
  forall (c x y : string),
    String.length a = String.length c -> (a ++ x = c ++ y)%string -> a = c /\ x = y.
Proof.
  induction a as [ | p a IH]; intros [ | q c] x y Hlen H; try discriminate.
  - split; [reflexivity | exact H].
  - simpl in H. injection H as Hp H. simpl in Hlen. injection Hlen as Hlen.
    destruct (IH c x y Hlen H) as [-> ->]. subst q. split; reflexivity.
Qed.

Lemma reads_back_length (width : nat) (n : Z) :
  reads_back width n = true -> String.length (format_d false width n) = width.
Proof.
  unfold reads_back. intros H. apply andb_prop in H as [H _].
  apply Nat.eqb_eq in H. exact H.
Qed.

Lemma reads_back_inj (width : nat) (n m : Z) :
  reads_back width n = true -> reads_back width m = true ->
  format_d false width n = format_d false width m -> n = m.
Proof.
  unfold reads_back. intros Hn Hm E.
  apply andb_prop in Hn as [_ Hn]. apply andb_prop in Hm as [_ Hm].
  apply Z.eqb_eq in Hn, Hm. rewrite E in Hn. congruence.
Qed.

Lemma make_subdir_name_inj (t t' : string) (L V L' V' : Z) (x y : string) :
  String.length t = String.length t' ->
  0 <= L < 100 -> 0 <= V < 100 -> 0 <= L' < 100 -> 0 <= V' < 100 ->
  (make_subdir_name t L V ++ x = make_subdir_name t' L' V' ++ y)%string ->
  t = t' /\ L = L' /\ V = V' /\ x = y.
Proof.
  intros Hlen HL HV HL' HV' E. unfold make_subdir_name in E.
  rewrite !string_append_assoc in E.
  apply string_app_inv_length in E as [Et E]; [ | exact Hlen].
  cbn [String.append] in E. injection E as E.
  apply string_app_inv_length in E as [EL E];
    [ | rewrite !reads_back_length by (apply reads_back_2; assumption); reflexivity].
  cbn [String.append] in E. injection E as E.
  apply string_app_inv_length in E as [EV E];
    [ | rewrite !reads_back_length by (apply reads_back_2; assumption); reflexivity].
  cbn [String.append] in E. injection E as E.
  apply reads_back_inj in EL; try (apply reads_back_2; assumption).
  apply reads_back_inj in EV; try (apply reads_back_2; assumption).
  repeat split; assumption.
Qed.

Lemma make_frame_filename_inj (t t' : string) (L V H L' V' H' : Z) :
  String.length t = String.length t' ->
  0 <= L < 100 -> 0 <= V < 100 -> 0 <= H < 100000 ->
  0 <= L' < 100 -> 0 <= V' < 100 -> 0 <= H' < 100000 ->
  make_frame_filename t L V H = make_frame_filename t' L' V' H' ->
  t = t' /\ L = L' /\ V = V' /\ H = H'.
Proof.
  intros Hlen HL HV HH HL' HV' HH' E. unfold make_frame_filename in E.
  apply make_subdir_name_inj in E as [Et [EL [EV E]]]; try assumption.
  cbn [String.append] in E. injection E as E.
  apply string_app_inv_length in E as [EH _];
    [ | rewrite !reads_back_length by (apply reads_back_5; assumption); reflexivity].
  apply reads_back_inj in EH; try (apply reads_back_5; assumption).
  repeat split; assumption.
Qed.

(** Frames differ in their file names: with top directories of one length
    (as the timestamps give), lighting conditions and views below 100 and
    heights below 100000, frames that differ in the top directory, the
    condition, the view or the height have different file names. *)
Theorem make_frame_filename_injective (t t' : string) (L V H L' V' H' : Z) :
  String.length t = String.length t' ->
  0 <= L < 100 -> 0 <= V < 100 -> 0 <= H < 100000 ->
  0 <= L' < 100 -> 0 <= V' < 100 -> 0 <= H' < 100000 ->
  (t, L, V, H) <> (t', L', V', H') ->
  make_frame_filename t L V H <> make_frame_filename t' L' V' H'.
Proof.
  intros Hlen HL HV HH HL' HV' HH' Hne E. apply Hne.
  destruct (make_frame_filename_inj t t' L V H L' V' H' Hlen HL HV HH HL' HV' HH' E)
    as [-> [-> [-> ->]]].
  reflexivity.
Qed.

Lemma make_frame_filename_injective_next_height :
  ("muff_scans/a", 7, 0, 8) <> ("muff_scans/a", 7, 0, 9)
  /\ make_frame_filename "muff_scans/a" 7 0 8 <> make_frame_filename "muff_scans/a" 7 0 9.
Proof.
  split; [discriminate | ].
  apply (make_frame_filename_injective "muff_scans/a" "muff_scans/a" 7 0 8 7 0 9);
    try reflexivity; try lia.
  discriminate.
Defined.

Lemma exists_dir_In (path : string) (ds : list string) :
  exists_dir path ds = true <-> In path ds.
Proof.
  unfold exists_dir. rewrite existsb_exists. split.
  - intros [x [Hin E]]. apply String.eqb_eq in E. subst x. exact Hin.
  - intros H. exists path. split; [exact H | apply String.eqb_refl].
Qed.

Lemma exists_dir_not_In (path : string) (ds : list string) :
  exists_dir path ds = false <-> ~ In path ds.
Proof.
  rewrite <- exists_dir_In. destruct (exists_dir path ds); split; intros H;
    try reflexivity; try discriminate; try (intros E; discriminate); exfalso; apply H; reflexivity.
Qed.

Lemma subdir_length (topdir : string) (L : Z) :
  0 <= L < 100 ->
  String.length (make_subdir_name topdir L 0) = (String.length topdir + 14)%nat.
Proof.
  intros HL. unfold make_subdir_name. rewrite !string_length_append.
  rewrite !reads_back_length by (apply reads_back_2; lia). simpl. lia.
Qed.

Lemma range_succ (k : Z) : 0 <= k -> range (k + 1) = range k ++ [k].
Proof.
  intros Hk. unfold range. replace (Z.to_nat (k + 1)) with (S (Z.to_nat k)) by lia.
  rewrite seq_S, map_app. simpl. rewrite Z2Nat.id by lia. reflexivity.
Qed.

Lemma dirs_made_step (topdir : string) (w0 w : World) (k : Z) :
  0 <= k < 100 ->
  ~ In (make_subdir_name topdir k 0) (dirs w0) ->
  dirs_made topdir w0 k w ->
  exists w',
    for_loop (range 1) (fun V =>
      let subdir := make_subdir_name topdir k V in
      when verbose (stderr_write (CreatingSub subdir)) ;;
      makedirs subdir) w = (Normal tt, w')
    /\ dirs_made topdir w0 (k + 1) w'.
Proof.
  intros Hk Hfresh [ds [Hw [Hincl [Htop [Hsubs Hall]]]]].
  assert (Hnew : exists_dir (make_subdir_name topdir k 0) (dirs w) = false).
  { apply exists_dir_not_In. subst w. cbn [dirs set_trace set_dirs]. intros Hin.
    destruct (Hall _ Hin) as [H0 | [Hshort | [L [HL E]]]].
    - exact (Hfresh H0).
    - rewrite subdir_length in Hshort by lia. lia.
    - apply (f_equal (fun s => (s ++ "")%string)) in E.
      apply make_subdir_name_inj in E as [_ [E _]]; try lia. }
  change (range 1) with [0]. cbn [for_loop]. unfold verbose, when. cbv zeta.
  rewrite bind_assoc, bind_ret.
  rewrite (bind_normal _ _ _ _ _ (makedirs_new _ w Hnew)).
  eexists. split; [reflexivity | ].
  set (missing := filter _ _).
  exists (dirs w ++ missing ++ [make_subdir_name topdir k 0]).
  assert (Ed : dirs w = ds) by (subst w; reflexivity).
  split; [ | split; [ | split; [ | split]]].
  - subst w. unfold extend, directory_events. cbn [trace dirs set_trace set_dirs].
    rewrite range_succ by lia. rewrite map_app, <- app_assoc. reflexivity.
  - rewrite Ed. intros d Hd. apply in_or_app. left. exact (Hincl d Hd).
  - rewrite Ed. apply in_or_app. left. exact Htop.
  - intros L HL. rewrite Ed. destruct (Z.eq_dec L k) as [-> | Hne].
    + apply in_or_app. right. apply in_or_app. right. left. reflexivity.
    + apply in_or_app. left. apply Hsubs. lia.
  - intros d Hd. rewrite Ed in Hd. apply in_app_or in Hd as [Hd | Hd].
    + destruct (Hall d Hd) as [H0 | [Hshort | [L [HL E]]]].
      * left. exact H0.
      * right. left. exact Hshort.
      * right. right. exists L. split; [lia | exact E].
    + apply in_app_or in Hd as [Hd | [<- | []]].
      * right. left. unfold missing in Hd. apply filter_In in Hd as [Hd _].
        apply parents_shorter in Hd. rewrite subdir_length in Hd by lia. simpl in Hd. exact Hd.
      * right. right. exists k. split; [lia | reflexivity].
Qed.

Lemma dirs_made_loop (topdir : string) (w0 : World) (m : nat) :
  forall (k : Z) (w : World),
    0 <= k -> k + Z.of_nat m <= 100 ->
    (forall L, 0 <= L < k + Z.of_nat m -> ~ In (make_subdir_name topdir L 0) (dirs w0)) ->
    dirs_made topdir w0 k w ->
    exists w',
      for_loop (map Z.of_nat (seq (Z.to_nat k) m)) (fun L =>
        for_loop (range 1) (fun V =>
          let subdir := make_subdir_name topdir L V in
          when verbose (stderr_write (CreatingSub subdir)) ;;
          makedirs subdir)) w = (Normal tt, w')
      /\ dirs_made topdir w0 (k + Z.of_nat m) w'.
Proof.
  induction m as [ | m IH]; intros k w Hk Hkm Hfresh Hmade.
  - exists w. split; [reflexivity | ]. rewrite Z.add_0_r. exact Hmade.
  - cbn [seq map for_loop]. rewrite Z2Nat.id by lia.
    destruct (dirs_made_step topdir w0 w k) as [w1 [E1 H1]];
      [lia | apply Hfresh; lia | exact Hmade | ].
    rewrite (bind_normal _ _ _ _ _ E1).
    destruct (IH (k + 1) w1) as [w2 [E2 H2]]; [lia | lia | | exact H1 | ].
    { intros L HL. apply Hfresh. lia. }
    replace (Z.to_nat (k + 1)) with (S (Z.to_nat k)) in E2 by lia.
    exists w2. split; [exact E2 | ].
    replace (k + Z.of_nat (S m)) with (k + 1 + Z.of_nat m) by lia. exact H2.
Qed.

Lemma bind_assert {A} (c : bool) (k : unit -> M A) (w : World) :
  c = true -> bind (assert c) k w = k tt w.
Proof. intros ->. reflexivity. Qed.

Lemma bind_assert_false {A} (c : bool) (k : unit -> M A) (w : World) :
  c = false -> bind (assert c) k w = (Stop (Raise AssertionError), w).
Proof. intros ->. reflexivity. Qed.

Lemma create_directories_run (nL : Z) (w : World) :
  1 <= nL <= 24 -> ~ In ("muff_scans/" ++ utc_now w)%string (dirs w) ->
  (forall L, 0 <= L < nL ->
     ~ In (make_subdir_name ("muff_scans/" ++ utc_now w) L 0) (dirs w)) ->
  exists w',
    create_directories nL 1 w = (Normal ("muff_scans/" ++ utc_now w)%string, w')
    /\ dirs_made ("muff_scans/" ++ utc_now w) w nL w'.
Proof.
  intros HnL Htop Hsubs. unfold create_directories.
  rewrite bind_assert by (unfold nL_max, num_LEDs; settle_tests; reflexivity).
  rewrite bind_assert by reflexivity.
  unfold bind at 1, get at 1. cbv zeta.
  unfold verbose at 1, when at 1. rewrite bind_ret.
  set (topdir := ("muff_scans/" ++ utc_now w)%string) in *.
  rewrite (bind_normal _ _ _ _ _
             (makedirs_new topdir w (proj2 (exists_dir_not_In topdir (dirs w)) Htop))).
  set (w1 := extend _ _).
  assert (H1 : dirs_made topdir w 0 w1).
  { exists (dirs w1). split; [ | split; [ | split; [ | split]]].
    - unfold w1, extend. cbn [trace dirs set_trace set_dirs]. reflexivity.
    - intros d Hd. unfold w1, extend. cbn [trace dirs set_trace set_dirs].
      apply in_or_app. left. exact Hd.
    - unfold w1, extend. cbn [trace dirs set_trace set_dirs].
      apply in_or_app. right. apply in_or_app. right. left. reflexivity.
    - intros L HL. lia.
    - intros d Hd. unfold w1, extend in Hd. cbn [trace dirs set_trace set_dirs] in Hd.
      apply in_app_or in Hd as [Hd | Hd]; [left; exact Hd | right; left].
      apply in_app_or in Hd as [Hd | [<- | []]]; [ | lia].
      apply filter_In in Hd as [Hd _]. apply parents_shorter in Hd.
      change (String.length "") with 0%nat in Hd. lia. }
  destruct (dirs_made_loop topdir w (Z.to_nat nL) 0 w1) as [w2 [E2 H2]];
    [lia | lia | | exact H1 | ].
  { intros L HL. apply Hsubs. lia. }
  change (Z.to_nat 0) with 0%nat in E2. unfold range.
  rewrite (bind_normal _ _ _ _ _ E2).
  exists w2. split; [reflexivity | ].
  replace (0 + Z.of_nat (Z.to_nat nL)) with nL in H2 by lia. exact H2.
Qed.

(** Making the directory tree of a scan: for 1 to 24 lighting conditions
    and one view, where neither the top directory of this minute nor a
    subdirectory of it exists, [create_directories] returns the top
    directory [muff_scans/<minute>], makes it first and then one
    subdirectory per lighting condition in order, keeps every directory that
    was there, and changes nothing but the directories and the trace. *)
Theorem create_directories_makes_tree (nL : Z) (w : World) :
  1 <= nL <= 24 ->
  exists_dir ("muff_scans/" ++ utc_now w) (dirs w) = false ->
  (forall L, 0 <= L < nL ->
     exists_dir (make_subdir_name ("muff_scans/" ++ utc_now w) L 0) (dirs w) = false) ->
  exists w',
    create_directories nL 1 w = (Normal ("muff_scans/" ++ utc_now w)%string, w')
    /\ trace w' = trace w ++ directory_events ("muff_scans/" ++ utc_now w) nL
    /\ w' = set_trace (trace w') (set_dirs (dirs w') w)
    /\ (forall d, exists_dir d (dirs w) = true -> exists_dir d (dirs w') = true)
    /\ exists_dir ("muff_scans/" ++ utc_now w) (dirs w') = true
    /\ (forall L, 0 <= L < nL ->
          exists_dir (make_subdir_name ("muff_scans/" ++ utc_now w) L 0) (dirs w') = true).
Proof.
  intros HnL Htop Hsubs.
  destruct (create_directories_run nL w HnL) as [w' [E [ds [Hw [Hincl [Hin [Hall _]]]]]]].
  - apply exists_dir_not_In. exact Htop.
  - intros L HL. apply exists_dir_not_In. apply Hsubs. exact HL.
  - exists w'. split; [exact E | ]. subst w'. cbn [trace dirs set_trace set_dirs].
    split; [reflexivity | split; [reflexivity | split; [ | split]]].
    + intros d Hd. apply exists_dir_In. apply Hincl. apply exists_dir_In. exact Hd.
    + apply exists_dir_In. exact Hin.
    + intros L HL. apply exists_dir_In. apply Hall. exact HL.
Qed.

Lemma create_directories_makes_tree_of_3 :
  exists w',
    create_directories 3 1 initial_world
    = (Normal ("muff_scans/" ++ utc_now initial_world)%string, w')
    /\ trace w' = trace initial_world
                  ++ directory_events ("muff_scans/" ++ utc_now initial_world) 3
    /\ w' = set_trace (trace w') (set_dirs (dirs w') initial_world)
    /\ (forall d, exists_dir d (dirs initial_world) = true -> exists_dir d (dirs w') = true)
    /\ exists_dir ("muff_scans/" ++ utc_now initial_world) (dirs w') = true
    /\ (forall L, 0 <= L < 3 ->
          exists_dir (make_subdir_name ("muff_scans/" ++ utc_now initial_world) L 0) (dirs w')
          = true).
Proof.
  apply (create_directories_makes_tree 3 initial_world);
    [lia | reflexivity | intros L HL; reflexivity].
Defined.

Lemma makedirs_exists (path : string) (w : World) :
  exists_dir path (dirs w) = true ->
  makedirs path w = (Stop (Raise (FileExistsError path)), w).
Proof. intros H. unfold makedirs, bind, get. rewrite H. reflexivity. Qed.

Lemma create_directories_exists (nL : Z) (w : World) :
  1 <= nL <= 24 ->
  exists_dir ("muff_scans/" ++ utc_now w) (dirs w) = true ->
  create_directories nL 1 w
  = (Stop (Raise (FileExistsError ("muff_scans/" ++ utc_now w))), w).
Proof.
  intros HnL Htop. unfold create_directories.
  rewrite bind_assert by (unfold nL_max, num_LEDs; settle_tests; reflexivity).
  rewrite bind_assert by reflexivity.
  unfold bind at 1, get at 1. cbv zeta.
  unfold verbose at 1, when at 1. rewrite bind_ret.
  apply bind_stop. apply makedirs_exists. exact Htop.
Qed.

(** What [create_directories] refuses: a number of lighting conditions
    outside 1..24 or a number of views other than 1 fails the assertion, and
    a top directory that exists raises [FileExistsError]; in both cases
    nothing is made. So a second scan started in the same minute as a
    successful one fails. *)
Theorem create_directories_refuses :
  (forall (nL nV : Z) (w : World),
     nL < 1 \/ 24 < nL \/ nV <> 1 ->
     create_directories nL nV w = (Stop (Raise AssertionError), w))
  /\ (forall (nL : Z) (w : World),
        1 <= nL <= 24 ->
        exists_dir ("muff_scans/" ++ utc_now w) (dirs w) = true ->
        create_directories nL 1 w
        = (Stop (Raise (FileExistsError ("muff_scans/" ++ utc_now w))), w))
  /\ (forall (nL nL' : Z) (w : World),
        1 <= nL <= 24 -> 1 <= nL' <= 24 ->
        exists_dir ("muff_scans/" ++ utc_now w) (dirs w) = false ->
        (forall L, 0 <= L < nL ->
           exists_dir (make_subdir_name ("muff_scans/" ++ utc_now w) L 0) (dirs w) = false) ->
        exists w',
          create_directories nL 1 w = (Normal ("muff_scans/" ++ utc_now w)%string, w')
          /\ create_directories nL' 1 w'
             = (Stop (Raise (FileExistsError ("muff_scans/" ++ utc_now w))), w')).
Proof.
  split; [ | split].
  - intros nL nV w H. unfold create_directories, nL_max, nV_max, num_LEDs.
    destruct (Z_lt_dec nL 1) as [Hlo | Hlo];
      [rewrite bind_assert_false by (settle_tests; reflexivity); reflexivity | ].
    destruct (Z_lt_dec 24 nL) as [Hhi | Hhi];
      [rewrite bind_assert_false
         by (settle_tests; destruct (nL <=? 99); reflexivity); reflexivity | ].
    rewrite bind_assert by (settle_tests; reflexivity).
    assert (HnV : nV <> 1) by lia.
    rewrite bind_assert_false; [reflexivity | ].
    destruct (Z_lt_dec nV 1); settle_tests; [ | destruct (nV <=? 99)]; reflexivity.
  - exact create_directories_exists.
  - intros nL nL' w HnL HnL' Htop Hsubs.
    destruct (create_directories_run nL w HnL) as [w' [E [ds [Hw [Hincl [Hin _]]]]]].
    + apply exists_dir_not_In. exact Htop.
    + intros L HL. apply exists_dir_not_In. apply Hsubs. exact HL.
    + exists w'. split; [exact E | ].
      assert (Eu : utc_now w' = utc_now w) by (subst w'; reflexivity).
      rewrite <- Eu. apply create_directories_exists; [exact HnL' | ].
      rewrite Eu. apply exists_dir_In. subst w'. exact Hin.
Qed.

(** ** The rehearsal of the lighting conditions *)

Lemma acknowledgements_app (t u : list event) :
  acknowledgements (t ++ u) = (acknowledgements t + acknowledgements u)%nat.
Proof.
  induction t as [ | e t IH]; [reflexivity | ].
  destruct e; cbn [app acknowledgements]; try exact IH.
  destruct (String.eqb s (line "ok")); rewrite IH; reflexivity.
Qed.

Lemma acknowledgements_light_events (verbose : bool) (vals : list float) :
  forall (lix : Z) (status : list (option float)),
    acknowledgements (light_events verbose lix vals status) = 0%nat.
Proof.
  induction vals as [ | pwr vals IH]; intros lix [ | old status]; try reflexivity.
  cbn [light_events]. rewrite acknowledgements_app, IH, Nat.add_0_r.
  destruct (differs pwr old); [ | reflexivity].
  destruct verbose; reflexivity.
Qed.

Lemma requests_light_events (verbose : bool) (vals : list float) :
  forall (lix : Z) (status : list (option float)),
    requests (light_events verbose lix vals status) = [].
Proof.
  induction vals as [ | pwr vals IH]; intros lix [ | old status]; try reflexivity.
  cbn [light_events]. rewrite requests_app, IH, app_nil_r.
  destruct (differs pwr old); [ | reflexivity].
  destruct verbose; reflexivity.
Qed.

Lemma reports_light_events (verbose : bool) (vals : list float) :
  forall (lix : Z) (status : list (option float)),
    reports (light_events verbose lix vals status) = 0%nat.
Proof.
  induction vals as [ | pwr vals IH]; intros lix [ | old status]; try reflexivity.
  cbn [light_events]. rewrite reports_app, IH, Nat.add_0_r.
  destruct (differs pwr old); [ | reflexivity].
  destruct verbose; reflexivity.
Qed.

Lemma extend_set_LED_status (st : list (option float)) (t : list event) (w : World) :
  extend t (set_LED_status st w) = set_LED_status st (extend t w).
Proof. reflexivity. Qed.

Lemma lights_run_trans (cs1 cs2 : list string) (w w1 w2 : World) :
  lights_run cs1 w w1 -> lights_run cs2 w1 w2 -> lights_run (cs1 ++ cs2) w w2.
Proof.
  intros [t1 [E1 [Hc1 [Hr1 [Hp1 [Hm1 Ha1]]]]]] [t2 [E2 [Hc2 [Hr2 [Hp2 [Hm2 Ha2]]]]]].
  exists (t1 ++ t2). split; [ | split; [ | split; [ | split; [ | split]]]].
  - rewrite E2, E1. apply set_LED_status_extend.
  - rewrite commands_app, Hc1, Hc2. reflexivity.
  - rewrite requests_app, Hr1, Hr2. reflexivity.
  - rewrite reports_app, Hp1, Hp2. reflexivity.
  - rewrite milestones_app, Hm1, Hm2. reflexivity.
  - rewrite acknowledgements_app, Ha1, Ha2. reflexivity.
Qed.

Lemma lights_run_nil (w : World) : LED_status w = all_off -> lights_run [] w w.
Proof.
  intros H. exists []. split; [ | repeat split].
  rewrite extend_nil, <- H, set_LED_status_same. reflexivity.
Qed.

Lemma lights_run_all_off (cs : list string) (w w' : World) :
  lights_run cs w w' -> LED_status w' = all_off.
Proof. intros [t [-> _]]. reflexivity. Qed.

Lemma switch_all_LEDs_sim_on (w : World) :
  switch_all_LEDs None 1%float w
  = (Normal tt,
     extend (announce (arduino_verbose w) (SettingAllLEDs 1%float) ++ simulated "+@") w).
Proof.
  unfold switch_all_LEDs.
  rewrite (bind_normal _ _ _ _ _ (vlog_run _ _)).
  change (send_command_and_wait None (b "+@")
            (extend (announce (arduino_verbose w) (SettingAllLEDs 1%float)) w)
          = (Normal tt,
             extend (announce (arduino_verbose w) (SettingAllLEDs 1%float) ++ simulated "+@") w)).
  rewrite send_command_and_wait_sim, extend_extend. reflexivity.
Qed.

Lemma test_lights_sim (w : World) :
  test_lights None w
  = (Normal tt,
     extend (announce (arduino_verbose w) TestingLEDs
             ++ (announce (arduino_verbose w) (SettingAllLEDs 1%float) ++ simulated "+@")
             ++ announce (arduino_verbose w) (SettingAllLEDs 0%float) ++ simulated "-@") w).
Proof.
  unfold test_lights.
  rewrite (bind_normal _ _ _ _ _ (vlog_run _ _)).
  rewrite (bind_normal _ _ _ _ _ (switch_all_LEDs_sim_on _)).
  rewrite switch_all_LEDs_sim_off.
  rewrite !arduino_verbose_extend, !extend_extend. reflexivity.
Qed.

Lemma show_condition (nL L : Z) (vals : list float) (w : World) :
  define_LED_vals L nL = Normal vals -> List.length vals = 24%nat -> binary vals ->
  LED_status w = all_off ->
  exists w',
    (stderr_write (SettingCondition L) ;;
     LED_vals <- lift (define_LED_vals L nL) ;;
     set_light_condition None LED_vals ;;
     switch_all_lights_off None) w = (Normal tt, w')
    /\ lights_run (flash vals) w w'.
Proof.
  intros E Hlen Hbin Hst.
  rewrite (bind_normal _ _ _ _ _ (stderr_write_run _ _)).
  rewrite (bind_lift _ vals _ _ E).
  set (w1 := extend _ w).
  assert (Hst1 : LED_status w1 = all_off) by exact Hst.
  assert (Hlen1 : List.length (LED_status w1) = 24%nat) by (rewrite Hst1; reflexivity).
  rewrite (bind_normal _ _ _ _ _ (set_light_condition_sim vals w1 Hlen Hbin Hlen1)).
  set (w2 := set_LED_status _ _).
  assert (Hlen2 : List.length (LED_status w2) = 24%nat).
  { unfold w2. cbn [LED_status set_LED_status]. rewrite refreshed_length. exact Hlen1. }
  rewrite (switch_all_lights_off_sim w2 Hlen2).
  eexists. split; [reflexivity | ].
  exists ([Stderr (SettingCondition L)]
          ++ light_events (arduino_verbose w) 0 vals all_off
          ++ announce (arduino_verbose w) (SettingAllLEDs 0%float) ++ simulated "-@").
  split; [ | split; [ | split; [ | split; [ | split]]]].
  - change (arduino_verbose w2) with (arduino_verbose w). unfold w2.
    change (arduino_verbose w1) with (arduino_verbose w). rewrite Hst1.
    change (repeat (Some 0%float) 24) with all_off.
    rewrite set_LED_status_extend. unfold w1.
    rewrite extend_extend. reflexivity.
  - rewrite !commands_app, commands_light_events. unfold flash.
    destruct (arduino_verbose w); reflexivity.
  - rewrite !requests_app, requests_light_events.
    destruct (arduino_verbose w); reflexivity.
  - rewrite !reports_app, reports_light_events.
    destruct (arduino_verbose w); reflexivity.
  - rewrite !milestones_app, milestones_light_events.
    destruct (arduino_verbose w); reflexivity.
  - rewrite !acknowledgements_app, acknowledgements_light_events.
    destruct (arduino_verbose w); reflexivity.
Qed.

Lemma condition_planned (L nL : Z) :
  planned L nL ->
  define_LED_vals L nL = Normal (condition L nL)
  /\ List.length (condition L nL) = 24%nat /\ binary (condition L nL).
Proof.
  intros [vals [E [Hlen [Hbin _]]]]. unfold condition. rewrite E. repeat split; assumption.
Qed.

Lemma show_conditions (nL : Z) (m : nat) :
  forall (k : Z) (w : World),
    0 <= k -> (forall L, k <= L < k + Z.of_nat m -> planned L nL) ->
    LED_status w = all_off ->
    exists w',
      for_loop (map Z.of_nat (seq (Z.to_nat k) m)) (fun L =>
        stderr_write (SettingCondition L) ;;
        LED_vals <- lift (define_LED_vals L nL) ;;
        set_light_condition None LED_vals ;;
        switch_all_lights_off None) w = (Normal tt, w')
      /\ lights_run (flat_map (fun L => flash (condition L nL))
                       (map Z.of_nat (seq (Z.to_nat k) m))) w w'.
Proof.
  induction m as [ | m IH]; intros k w Hk Hplan Hst.
  - exists w. split; [reflexivity | ]. apply lights_run_nil. exact Hst.
  - cbn [seq map for_loop flat_map]. rewrite Z2Nat.id by lia.
    destruct (condition_planned k nL) as [E [Hlen Hbin]]; [apply Hplan; lia | ].
    destruct (show_condition nL k _ w E Hlen Hbin Hst) as [w1 [E1 H1]].
    rewrite (bind_normal _ _ _ _ _ E1).
    destruct (IH (k + 1) w1) as [w2 [E2 H2]];
      [lia | intros L HL; apply Hplan; lia | exact (lights_run_all_off _ _ _ H1) | ].
    replace (Z.to_nat (k + 1)) with (S (Z.to_nat k)) in E2, H2 by lia.
    exists w2. split; [exact E2 | ]. exact (lights_run_trans _ _ _ _ _ H1 H2).
Qed.

Lemma rehearsal_start (nL : Z) (w : World) :
  lights_run ["+@"; "-@"] w
    (extend [Stderr (TestingConditions nL)]
       (set_LED_status (repeat (Some 0%float) (Z.to_nat num_LEDs))
          (extend (announce (arduino_verbose w) TestingLEDs
                   ++ (announce (arduino_verbose w) (SettingAllLEDs 1%float) ++ simulated "+@")
                   ++ announce (arduino_verbose w) (SettingAllLEDs 0%float) ++ simulated "-@")
             (extend [Stderr (TestingAll num_LEDs)] w)))).
Proof.
  eexists. split; [ | split; [ | split; [ | split; [ | split]]]].
  - rewrite extend_set_LED_status, !extend_extend. reflexivity.
  - destruct (arduino_verbose w); reflexivity.
  - destruct (arduino_verbose w); reflexivity.
  - destruct (arduino_verbose w); reflexivity.
  - destruct (arduino_verbose w); reflexivity.
  - destruct (arduino_verbose w); reflexivity.
Qed.

Lemma bind_ext {A B} (m : M A) (k k' : A -> M B) (w : World) :
  (forall a w1, k a w1 = k' a w1) -> bind m k w = bind m k' w.
Proof.
  intros H. unfold bind. destruct (m w) as [[a | s] w1]; [apply H | reflexivity].
Qed.

Lemma for_loop_app {A} (xs ys : list A) (body : A -> M unit) (w : World) :
  for_loop (xs ++ ys) body w = (for_loop xs body ;; for_loop ys body) w.
Proof.
  revert w. induction xs as [ | x xs IH]; intros w; [reflexivity | ].
  cbn [app for_loop]. rewrite bind_assoc. apply bind_ext. intros _ w1. apply IH.
Qed.

Lemma test_lighting_conditions_start {A} (nL : Z) (k : unit -> M A) (w : World) :
  exists w1,
    (stderr_write (TestingAll num_LEDs) ;;
     test_lights None ;;
     modify (set_LED_status (repeat (Some 0%float) (Z.to_nat num_LEDs))) ;;
     stderr_write (TestingConditions nL) ;;
     k tt) w = k tt w1
    /\ lights_run ["+@"; "-@"] w w1.
Proof.
  eexists. split; [ | apply (rehearsal_start nL w)].
  rewrite (bind_normal _ _ _ _ _ (stderr_write_run _ _)).
  rewrite (bind_normal _ _ _ _ _ (test_lights_sim _)).
  change (arduino_verbose (extend _ w)) with (arduino_verbose w).
  reflexivity.
Qed.

Lemma lights_run_commands (cs : list string) (w w' : World) :
  lights_run cs w w' ->
  commands (trace w') = commands (trace w) ++ cs
  /\ requests (trace w') = requests (trace w)
  /\ reports (trace w') = reports (trace w)
  /\ LED_status w' = all_off
  /\ w' = set_LED_status (LED_status w') (set_trace (trace w') w).
Proof.
  intros [t [-> [Hc [Hr [Hp _]]]]]. unfold extend. cbn [trace LED_status set_trace set_LED_status].
  rewrite commands_app, requests_app, reports_app, Hc, Hr, Hp, app_nil_r, Nat.add_0_r.
  repeat split.
Qed.

Lemma test_lighting_conditions_run (nL : Z) (w : World) :
  1 <= nL <= 12 \/ nL = 24 ->
  exists w',
    test_lighting_conditions None nL w = (Normal tt, w')
    /\ lights_run (rehearsal nL nL) w w'.
Proof.
  intros HnL. unfold test_lighting_conditions.
  destruct (test_lighting_conditions_start nL
              (fun _ => for_loop (range nL) (fun L =>
                 stderr_write (SettingCondition L) ;;
                 LED_vals <- lift (define_LED_vals L nL) ;;
                 set_light_condition None LED_vals ;;
                 switch_all_lights_off None)) w) as [w1 [E1 H1]].
  cbv beta in E1. rewrite E1.
  destruct (show_conditions nL (Z.to_nat nL) 0 w1) as [w2 [E2 H2]].
  - lia.
  - intros L HL. apply planned_top; lia.
  - exact (lights_run_all_off _ _ _ H1).
  - exists w2. split; [exact E2 | ]. exact (lights_run_trans _ _ _ _ _ H1 H2).
Qed.

Lemma bottom_tier_raises (nL : Z) :
  13 <= nL <= 23 -> define_LED_vals 12 nL = Stop (Raise (NameError "val")).
Proof.
  intros HnL. unfold define_LED_vals, num_LEDs. settle_tests. reflexivity.
Qed.

Lemma test_lighting_conditions_bottom_tier (nL : Z) (w : World) :
  13 <= nL <= 23 ->
  exists w',
    test_lighting_conditions None nL w = (Stop (Raise (NameError "val")), w')
    /\ lights_run (rehearsal nL 12) w w'.
Proof.
  intros HnL. unfold test_lighting_conditions.
  destruct (test_lighting_conditions_start nL
              (fun _ => for_loop (range nL) (fun L =>
                 stderr_write (SettingCondition L) ;;
                 LED_vals <- lift (define_LED_vals L nL) ;;
                 set_light_condition None LED_vals ;;
                 switch_all_lights_off None)) w) as [w1 [E1 H1]].
  cbv beta in E1. rewrite E1.
  unfold range at 1.
  replace (Z.to_nat nL) with (12 + S (Z.to_nat nL - 13))%nat by lia.
  rewrite seq_app, map_app, for_loop_app.
  destruct (show_conditions nL 12 0 w1) as [w2 [E2 H2]].
  - lia.
  - intros L HL. apply planned_top; lia.
  - exact (lights_run_all_off _ _ _ H1).
  - change (Z.to_nat 0) with 0%nat in E2, H2.
    rewrite (bind_normal _ _ _ _ _ E2).
    cbn [seq map for_loop Nat.add]. change (Z.of_nat 12) with 12.
    rewrite bind_assoc.
    rewrite (bind_normal _ _ _ _ _ (stderr_write_run _ _)).
    rewrite bind_assoc.
    unfold bind at 1, lift at 1. rewrite (bottom_tier_raises nL HnL).
    eexists. split; [reflexivity | ].
    apply (lights_run_trans _ _ _ _ _ H1) in H2.
    destruct H2 as [t [E [Hc [Hr [Hp [Hm Ha]]]]]].
    exists (t ++ [Stderr (SettingCondition 12)]).
    split; [ | split; [ | split; [ | split; [ | split]]]].
    + rewrite E, extend_set_LED_status, extend_extend. reflexivity.
    + rewrite commands_app, Hc. apply app_nil_r.
    + rewrite requests_app, Hr. reflexivity.
    + rewrite reports_app, Hp. reflexivity.
    + rewrite milestones_app, Hm. reflexivity.
    + rewrite acknowledgements_app, Ha. reflexivity.
Qed.

(** The rehearsal before a scan: for 1 to 12 or for 24 lighting conditions,
    without a port and whatever the cache held, [test_lighting_conditions]
    returns; it has sent all-on, all-off, and then for each condition in
    order the switch-on of its lit LEDs followed by all-off, and nothing
    else; it leaves the cache reading all 24 LEDs off, sends no capture
    request and changes nothing but the cache and the trace. *)
Theorem test_lighting_conditions_rehearses (nL : Z) (w : World) :
  1 <= nL <= 12 \/ nL = 24 ->
  exists w',
    test_lighting_conditions None nL w = (Normal tt, w')
    /\ commands (trace w') = commands (trace w) ++ rehearsal nL nL
    /\ requests (trace w') = requests (trace w)
    /\ LED_status w' = all_off
    /\ w' = set_LED_status (LED_status w') (set_trace (trace w') w).
Proof.
  intros HnL. destruct (test_lighting_conditions_run nL w HnL) as [w' [E H]].
  exists w'. split; [exact E | ].
  destruct (lights_run_commands _ _ _ H) as [Hc [Hr [_ [Hst Hw]]]].
  repeat split; assumption.
Qed.

Lemma test_lighting_conditions_rehearses_3 :
  exists w',
    test_lighting_conditions None 3 initial_world = (Normal tt, w')
    /\ commands (trace w') = commands (trace initial_world) ++ rehearsal 3 3
    /\ requests (trace w') = requests (trace initial_world)
    /\ LED_status w' = all_off
    /\ w' = set_LED_status (LED_status w') (set_trace (trace w') initial_world).
Proof. apply (test_lighting_conditions_rehearses 3 initial_world). left. lia. Defined.

Lemma commands_session_start (synopsis : bool) (w : World) :
  commands (trace (session_start synopsis w)) = commands (trace w)
  /\ requests (trace (session_start synopsis w)) = requests (trace w).
Proof.
  unfold session_start, extend. cbn [trace set_trace set_arduino_verbose set_m2c_unsent].
  rewrite !commands_app, !requests_app. destruct synopsis; cbn; rewrite !app_nil_r; split; reflexivity.
Qed.

(** A scan with 13 to 23 lighting conditions never starts: the rehearsal
    shows the first 12 conditions and then ends with the uncaught
    [NameError] of the planner's bottom-tier branch, and so does [main],
    before a line of the operator is read: no capture request is sent, no
    directory is made, the motor is not stopped and no final status is
    reported. *)
Theorem bottom_tier_session_fails (synopsis : bool) (nL nV nH : Z) (Z_step : float)
    (w : World) :
  13 <= nL <= 23 ->
  (exists w1,
     test_lighting_conditions None nL w = (Stop (Raise (NameError "val")), w1)
     /\ commands (trace w1) = commands (trace w) ++ rehearsal nL 12)
  /\ exists w',
       main (Parsed synopsis nL nV nH Z_step) w = (Stop (Raise (NameError "val")), w')
       /\ commands (trace w') = commands (trace w) ++ rehearsal nL 12
       /\ requests (trace w') = requests (trace w)
       /\ reports (trace w') = reports (trace w)
       /\ stdin_in w' = stdin_in w /\ dirs w' = dirs w.
Proof.
  intros HnL. split.
  - destruct (test_lighting_conditions_bottom_tier nL w HnL) as [w1 [E H]].
    exists w1. split; [exact E | ]. apply (lights_run_commands _ _ _ H).
  - rewrite main_parsed. unfold session.
    destruct (test_lighting_conditions_bottom_tier nL (session_start synopsis w) HnL)
      as [w' [E H]].
    rewrite (bind_stop _ _ _ _ _ E).
    exists w'. split; [reflexivity | ].
    destruct (lights_run_commands _ _ _ H) as [Hc [Hr [Hp [_ Hw]]]].
    destruct (commands_session_start synopsis w) as [Hc0 Hr0].
    rewrite Hc, Hr, Hp, Hc0, Hr0, reports_session_start.
    rewrite Hw. repeat split.
Qed.

Lemma bottom_tier_session_fails_13 :
  (exists w1,
     test_lighting_conditions None 13 initial_world = (Stop (Raise (NameError "val")), w1)
     /\ commands (trace w1) = commands (trace initial_world) ++ rehearsal 13 12)
  /\ exists w',
       main (Parsed false 13 1 2 0.1%float) initial_world
       = (Stop (Raise (NameError "val")), w')
       /\ commands (trace w') = commands (trace initial_world) ++ rehearsal 13 12
       /\ requests (trace w') = requests (trace initial_world)
       /\ reports (trace w') = reports (trace initial_world)
       /\ stdin_in w' = stdin_in initial_world /\ dirs w' = dirs initial_world.
Proof. apply (bottom_tier_session_fails false 13 1 2 0.1%float initial_world). lia. Defined.

(** ** A port that stays silent *)

Lemma readchar_blocked (p : serial_port) (w : World) :
  serial_in w = [] -> readchar p w = (Stop Blocked, w).
Proof. intros E. unfold readchar, bind, sport_read. rewrite E. reflexivity. Qed.

Lemma skip_to_eol_loop_blocks (p : serial_port) (body : list byte) :
  Forall (fun c => ~ eol c) body ->
  forall (fuel : nat) (w : World),
    serial_in w = stream body -> (List.length body < fuel)%nat ->
    exists w', skip_to_eol_loop fuel p w = (Stop Blocked, w')
      /\ serial_in w' = [] /\ quiet w w'.
Proof.
  intros Hbody. induction Hbody as [ | c body Hc Hbody IH];
    intros fuel w Hin Hfuel;
    (destruct fuel as [ | fuel]; [inversion Hfuel | ]);
    cbn [skip_to_eol_loop].
  - rewrite (bind_stop _ _ _ _ _ (readchar_blocked p w Hin)).
    exists w. split; [reflexivity | ]. split; [exact Hin | apply quiet_refl].
  - change (stream (c :: body)) with ([c] :: stream body) in Hin.
    rewrite (bind_normal _ _ _ _ _ (readchar_single p c _ w Hin)).
    destruct (vlog_quiet (Echo (show_bytes [c] false)) (set_serial_in (stream body) w))
      as [w1 [E1 [Q1 S1]]]; [discriminate | ].
    rewrite (bind_normal _ _ _ _ _ E1). rewrite (is_eol_false c Hc).
    destruct (IH fuel w1) as [w2 [E2 [S2 Q2]]]; [exact S1 | simpl in Hfuel; lia | ].
    exists w2. split; [exact E2 | ]. split; [exact S2 | ].
    eapply quiet_trans; [apply quiet_read | ].
    eapply quiet_trans; [exact Q1 | exact Q2].
Qed.

Lemma skip_to_eol_blocks (p : serial_port) (body : list byte) (w : World) :
  Forall (fun c => ~ eol c) body -> serial_in w = stream body ->
  exists w', skip_to_eol p w = (Stop Blocked, w') /\ serial_in w' = [] /\ quiet w w'.
Proof.
  intros Hbody Hin. unfold skip_to_eol, pending_reads, bind, get.
  apply (skip_to_eol_loop_blocks p body Hbody); [exact Hin | ].
  rewrite Hin. unfold stream. rewrite length_map. lia.
Qed.

Lemma read_signif_loop_blocks (p : serial_port) (pre : list byte) :
  silent pre ->
  forall (fuel : nat) (w : World),
    serial_in w = stream pre -> (List.length pre < fuel)%nat ->
    exists w', read_signif_loop fuel p w = (Stop Blocked, w')
      /\ serial_in w' = [] /\ quiet w w'.
Proof.
  intros Hs.
  induction Hs as [ | c pre Hc Hs IH | body e pre Hbody He Hs IH | body Hbody];
    intros fuel w Hin Hfuel;
    (destruct fuel as [ | fuel]; [inversion Hfuel | ]);
    cbn [read_signif_loop].
  - rewrite (bind_stop _ _ _ _ _ (readchar_blocked p w Hin)).
    exists w. split; [reflexivity | ]. split; [exact Hin | apply quiet_refl].
  - change (stream (c :: pre)) with ([c] :: stream pre) in Hin.
    rewrite (bind_normal _ _ _ _ _ (readchar_single p c _ w Hin)).
    destruct (blank_tests c Hc) as [T1 T2]. rewrite T1.
    destruct (vlog_quiet (Received (show_bytes [c] true)) (set_serial_in (stream pre) w))
      as [w1 [E1 [Q1 S1]]]; [discriminate | ].
    rewrite (bind_normal _ _ _ _ _ E1), T2.
    destruct (IH fuel w1) as [w2 [E2 [S2 Q2]]]; [exact S1 | simpl in Hfuel; lia | ].
    exists w2. split; [exact E2 | ]. split; [exact S2 | ].
    eapply quiet_trans; [apply quiet_read | ].
    eapply quiet_trans; [exact Q1 | exact Q2].
  - change (stream ("#"%byte :: body ++ e :: pre))
      with (["#"%byte] :: stream (body ++ e :: pre)) in Hin.
    rewrite (bind_normal _ _ _ _ _ (readchar_single p "#"%byte _ w Hin)).
    change (bytes_eqb ["#"%byte] (b "#")) with true. cbv iota.
    destruct (vlog_quiet (ReceivedOpen (show_bytes ["#"%byte] false))
                (set_serial_in (stream (body ++ e :: pre)) w))
      as [w1 [E1 [Q1 S1]]]; [discriminate | ].
    rewrite (bind_normal _ _ _ _ _ E1).
    destruct (skip_to_eol_ends p body e (stream pre) w1 Hbody He)
      as [w2 [E2 [S2 Q2]]].
    { rewrite S1. cbn [serial_in set_serial_in]. unfold stream.
      rewrite !map_app, <- app_assoc. reflexivity. }
    rewrite (bind_normal _ _ _ _ _ E2).
    destruct (vlog_quiet ReceivedClose w2) as [w3 [E3 [Q3 S3]]]; [discriminate | ].
    rewrite (bind_normal _ _ _ _ _ E3).
    destruct (IH fuel w3) as [w4 [E4 [S4 Q4]]].
    { rewrite S3. exact S2. }
    { simpl in Hfuel. rewrite length_app in Hfuel. simpl in Hfuel. lia. }
    exists w4. split; [exact E4 | ]. split; [exact S4 | ].
    eapply quiet_trans; [apply quiet_read | ].
    eapply quiet_trans; [exact Q1 | ].
    eapply quiet_trans; [exact Q2 | ].
    eapply quiet_trans; [exact Q3 | exact Q4].
  - change (stream ("#"%byte :: body)) with (["#"%byte] :: stream body) in Hin.
    rewrite (bind_normal _ _ _ _ _ (readchar_single p "#"%byte _ w Hin)).
    change (bytes_eqb ["#"%byte] (b "#")) with true. cbv iota.
    destruct (vlog_quiet (ReceivedOpen (show_bytes ["#"%byte] false))
                (set_serial_in (stream body) w))
      as [w1 [E1 [Q1 S1]]]; [discriminate | ].
    rewrite (bind_normal _ _ _ _ _ E1).
    destruct (skip_to_eol_blocks p body w1 Hbody S1) as [w2 [E2 [S2 Q2]]].
    rewrite (bind_stop _ _ _ _ _ E2).
    exists w2. split; [reflexivity | ]. split; [exact S2 | ].
    eapply quiet_trans; [apply quiet_read | ].
    eapply quiet_trans; [exact Q1 | exact Q2].
Qed.

Lemma read_signif_blocks (p : serial_port) (pre : list byte) (w : World) :
  silent pre -> serial_in w = stream pre ->
  exists w', read_signif (Some p) w = (Stop Blocked, w')
    /\ serial_in w' = [] /\ quiet w w'.
Proof.
  intros Hs Hin. unfold read_signif, sport_flush, pending_reads, bind, ret, get.
  apply (read_signif_loop_blocks p pre Hs); [exact Hin | ].
  rewrite Hin. unfold stream. rewrite length_map. lia.
Qed.

Lemma wait_arduino_OK_blocks (p : serial_port) (pre : list byte) (w : World) :
  silent pre -> serial_in w = stream pre ->
  exists w', wait_arduino_OK (Some p) w = (Stop Blocked, w')
    /\ serial_in w' = [] /\ quiet w w'.
Proof.
  intros Hs Hin. destruct (read_signif_blocks p pre w Hs Hin) as [w' [E [S Q]]].
  unfold wait_arduino_OK. rewrite (bind_stop _ _ _ _ _ E).
  exists w'. split; [reflexivity | split; [exact S | exact Q]].
Qed.

(** With a port that sends only spaces, CRs, LFs and comments, or nothing
    at all, and then stays silent, the wait for the acknowledgement never
    returns: the input is read to its end, nothing is sent and nothing
    reported as an error. A command sent to such a port is written once and
    then the program hangs. *)
Theorem silent_port_blocks (p : serial_port) (pre : list byte) (command : bytes) (w : World) :
  silent pre -> serial_in w = stream pre ->
  (exists w', wait_arduino_OK (Some p) w = (Stop Blocked, w')
     /\ serial_in w' = [] /\ quiet w w')
  /\ exists w', send_command_and_wait (Some p) command w = (Stop Blocked, w')
       /\ serial_in w' = []
       /\ commands (trace w') = commands (trace w) ++ [show_bytes command false].
Proof.
  intros Hs Hin. split; [exact (wait_arduino_OK_blocks p pre w Hs Hin) | ].
  unfold send_command_and_wait, send_command, sport_flush.
  rewrite !bind_assoc. rewrite (bind_normal _ _ _ _ _ (vlog_run _ _)).
  rewrite !bind_assoc, bind_ret.
  set (w1 := extend _ w).
  assert (E1 : emit (SerialWrite command) w1 = (Normal tt, extend [SerialWrite command] w1))
    by reflexivity.
  rewrite (bind_normal _ _ _ _ _ E1).
  destruct (wait_arduino_OK_blocks p pre (extend [SerialWrite command] w1) Hs Hin)
    as [w' [E [S Q]]].
  exists w'. split; [exact E | split; [exact S | ]].
  rewrite (quiet_commands _ _ Q). unfold w1, extend. cbn [trace set_trace].
  rewrite !commands_app. destruct (arduino_verbose w); cbn; rewrite ?app_nil_r; reflexivity.
Qed.

Lemma silent_port_blocks_on_comment :
  (exists w', wait_arduino_OK (Some ttyUSB0) (set_serial_in (stream (b "# booting")) initial_world)
              = (Stop Blocked, w')
     /\ serial_in w' = []
     /\ quiet (set_serial_in (stream (b "# booting")) initial_world) w')
  /\ exists w', send_command_and_wait (Some ttyUSB0) (b "3")
                  (set_serial_in (stream (b "# booting")) initial_world)
                = (Stop Blocked, w')
       /\ serial_in w' = []
       /\ commands (trace w')
          = commands (trace (set_serial_in (stream (b "# booting")) initial_world))
            ++ [show_bytes (b "3") false].
Proof.
  apply (silent_port_blocks ttyUSB0 (b "# booting") (b "3")
           (set_serial_in (stream (b "# booting")) initial_world)); [ | reflexivity].
  apply silent_open.
  repeat (apply Forall_cons; [intros [H | H]; discriminate | ]). apply Forall_nil.
Defined.

(** ** Switching LEDs *)

Lemma LED_command_inj (lix lix' : Z) (pwr pwr' : float) :
  0 <= lix < 24 -> 0 <= lix' < 24 ->
  pwr = 0%float \/ pwr = 1%float -> pwr' = 0%float \/ pwr' = 1%float ->
  LED_command lix pwr = LED_command lix' pwr' -> lix = lix' /\ pwr = pwr'.
Proof.
  intros Hl Hl' Hp Hp' E. unfold LED_command in E.
  assert (Ename : ascii_of_N (Z.to_N (65 + lix)) = ascii_of_N (Z.to_N (65 + lix'))
                  /\ pwr = pwr').
  { destruct Hp as [-> | ->]; destruct Hp' as [-> | ->]; cbn in E;
      try discriminate E; injection E as E; split; [exact E | reflexivity | exact E | reflexivity]. }
  destruct Ename as [Ename Epwr]. split; [ | exact Epwr].
  apply (f_equal N_of_ascii) in Ename.
  rewrite !N_ascii_embedding in Ename by lia. lia.
Qed.

(** The command of an LED: for an index in 0..23 and an intensity 0.0 or
    1.0, with or without a port, [switch_LED] issues exactly one command,
    the sign [+] or [-] followed by the letter of the LED, [A] for LED 0 up
    to [X] for LED 23; different LEDs or different intensities give
    different commands. *)
Theorem switch_LED_commands (sport : option serial_port) (lix lix' : Z) (pwr pwr' : float)
    (w : World) :
  0 <= lix < 24 -> 0 <= lix' < 24 ->
  pwr = 0%float \/ pwr = 1%float -> pwr' = 0%float \/ pwr' = 1%float ->
  commands (trace (snd (switch_LED sport lix pwr w)))
  = commands (trace w) ++ [LED_command lix pwr]
  /\ (exists sign letter,
        LED_command lix pwr = String sign (String letter "")
        /\ sign = (if PrimFloat.eqb pwr 1 then "+" else "-")%char
        /\ ord letter = ord "A" + lix)
  /\ (LED_command lix pwr = LED_command lix' pwr' -> lix = lix' /\ pwr = pwr').
Proof.
  intros Hl Hl' Hp Hp'. split; [ | split].
  - apply (switch_LED_effect sport lix pwr w Hl Hp).
  - unfold LED_command. eexists. eexists. split; [ | split; [reflexivity | ]].
    + destruct (PrimFloat.eqb pwr 1); reflexivity.
    + unfold ord. rewrite N_ascii_embedding by lia. simpl N_of_ascii. lia.
  - apply LED_command_inj; assumption.
Qed.

Lemma switch_LED_commands_C_on :
  commands (trace (snd (switch_LED None 2 1%float initial_world)))
  = commands (trace initial_world) ++ [LED_command 2 1%float]
  /\ (exists sign letter,
        LED_command 2 1%float = String sign (String letter "")
        /\ sign = (if PrimFloat.eqb 1%float 1 then "+" else "-")%char
        /\ ord letter = ord "A" + 2)
  /\ (LED_command 2 1%float = LED_command 3 0%float -> 2 = 3 /\ 1%float = 0%float).
Proof.
  apply (switch_LED_commands None 2 3 1%float 0%float initial_world);
    try lia; [right | left]; reflexivity.
Defined.

Lemma vlog_then {A} (m : message) (k : unit -> M A) (w : World) :
  bind (vlog m) k w = k tt (extend (announce (arduino_verbose w) m) w).
Proof. apply bind_normal. apply vlog_run. Qed.

(** What the LED switches refuse, with or without a port and before
    anything is sent: [switch_LED] fails its assertion on an index outside
    0..23, and both [switch_LED] and [switch_all_LEDs] fail theirs on an
    intensity that is not within 0.0 to 1.0 (a NaN included); an intensity
    within 0.0 to 1.0 that is neither of the two is answered with the
    message that partial intensity is not implemented and [sys.exit(1)]. *)
Theorem partial_intensity_refused (sport : option serial_port) (lix : Z) (pwr : float)
    (w : World) :
  (lix < 0 \/ 24 <= lix ->
   switch_LED sport lix pwr w
   = (Stop (Raise AssertionError),
      extend (announce (arduino_verbose w) (SettingLED lix pwr)) w))
  /\ (PrimFloat.leb 0 pwr && PrimFloat.leb pwr 1 = false ->
      (0 <= lix < 24 ->
       switch_LED sport lix pwr w
       = (Stop (Raise AssertionError),
          extend (announce (arduino_verbose w) (SettingLED lix pwr)) w))
      /\ switch_all_LEDs sport pwr w
         = (Stop (Raise AssertionError),
            extend (announce (arduino_verbose w) (SettingAllLEDs pwr)) w))
  /\ (PrimFloat.leb 0 pwr && PrimFloat.leb pwr 1 = true ->
      PrimFloat.eqb pwr 1 = false -> PrimFloat.eqb pwr 0 = false ->
      (0 <= lix < 24 ->
       switch_LED sport lix pwr w
       = (Stop (Exit 1),
          extend (announce (arduino_verbose w) (SettingLED lix pwr)
                  ++ [Stderr PartialIntensity]) w))
      /\ switch_all_LEDs sport pwr w
         = (Stop (Exit 1),
            extend (announce (arduino_verbose w) (SettingAllLEDs pwr)
                    ++ [Stderr PartialIntensity]) w)).
Proof.
  split; [ | split].
  - intros Hl. unfold switch_LED, num_LEDs. rewrite vlog_then.
    rewrite bind_assert_false; [reflexivity | ].
    destruct Hl; settle_tests; [ | destruct (0 <=? lix)]; reflexivity.
  - intros Hp. split.
    + intros Hl. unfold switch_LED, num_LEDs. rewrite vlog_then.
      rewrite bind_assert by (settle_tests; reflexivity).
      rewrite bind_assert_false by exact Hp. reflexivity.
    + unfold switch_all_LEDs. rewrite vlog_then.
      rewrite bind_assert_false by exact Hp. reflexivity.
  - intros Hp H1 H0. split.
    + intros Hl. unfold switch_LED, num_LEDs. rewrite vlog_then.
      rewrite bind_assert by (settle_tests; reflexivity).
      rewrite bind_assert by exact Hp.
      rewrite H1, H0.
      rewrite bind_assoc, (bind_normal _ _ _ _ _ (stderr_write_run _ _)), extend_extend.
      reflexivity.
    + unfold switch_all_LEDs. rewrite vlog_then.
      rewrite bind_assert by exact Hp.
      rewrite H1, H0.
      rewrite bind_assoc, (bind_normal _ _ _ _ _ (stderr_write_run _ _)), extend_extend.
      reflexivity.
Qed.

Lemma partial_intensity_refused_half :
  switch_all_LEDs (Some ttyUSB0) 0.5%float initial_world
  = (Stop (Exit 1),
     extend (announce (arduino_verbose initial_world) (SettingAllLEDs 0.5%float)
             ++ [Stderr PartialIntensity]) initial_world).
Proof.
  apply (proj2 (proj2 (partial_intensity_refused (Some ttyUSB0) 0 0.5%float initial_world)));
    reflexivity.
Defined.

(** ** The scan *)

Lemma advanced_refl (w : World) : advanced [] w w.
Proof. exists []. split; [symmetry; apply app_nil_r | repeat split]. Qed.

Lemma advanced_trans (ms1 ms2 : list milestone) (w w1 w2 : World) :
  advanced ms1 w w1 -> advanced ms2 w1 w2 -> advanced (ms1 ++ ms2) w w2.
Proof.
  intros [t1 [E1 [H1 [V1 S1]]]] [t2 [E2 [H2 [V2 S2]]]]. exists (t1 ++ t2).
  split; [ | split; [ | split]].
  - rewrite E2, E1, app_assoc. reflexivity.
  - rewrite milestones_app, H1, H2. reflexivity.
  - rewrite V2, V1. reflexivity.
  - rewrite S2, S1. reflexivity.
Qed.

Lemma advanced_extend (t : list event) (w : World) : advanced (milestones t) w (extend t w).
Proof. exists t. repeat split. Qed.

Lemma acknowledged_refl (w : World) : acknowledged 0 w w.
Proof.
  split; [ | intros H; exact H].
  exists []. split; [symmetry; apply app_nil_r | split; reflexivity].
Qed.

Lemma acknowledged_trans (n1 n2 : nat) (w w1 w2 : World) :
  acknowledged n1 w w1 -> acknowledged n2 w1 w2 -> acknowledged (n1 + n2) w w2.
Proof.
  intros [[t1 [E1 [A1 R1]]] U1] [[t2 [E2 [A2 R2]]] U2]. split.
  - exists (t1 ++ t2). split; [rewrite E2, E1, app_assoc; reflexivity | ].
    rewrite acknowledgements_app, reports_app, A1, A2, R1, R2. split; reflexivity.
  - intros H. apply U2, U1, H.
Qed.

Lemma acknowledged_extend (t : list event) (w : World) :
  acknowledgements t = 0%nat -> reports t = 0%nat -> acknowledged 0 w (extend t w).
Proof.
  intros A R. split; [ | intros H; exact H].
  exists t. split; [reflexivity | split; assumption].
Qed.

Lemma acknowledged_after_frame (vals : list float) (H : Z) (fname : string)
    (rest : list string) (w : World) :
  acknowledged 1 w (after_frame vals H fname rest w).
Proof.
  split; [ | reflexivity].
  exists (frame_events (arduino_verbose w) vals (LED_status w) H fname).
  split; [reflexivity | ]. unfold frame_events.
  rewrite !acknowledgements_app, !reports_app, acknowledgements_light_events,
    reports_light_events.
  destruct (arduino_verbose w); split; reflexivity.
Qed.

Lemma unacknowledged_not_ok (s : string) (rest tail : list string) :
  unacknowledged s rest tail -> s <> line "ok".
Proof. intros [[_ H] | [_ [-> _]]]; [exact H | discriminate]. Qed.

Lemma acknowledged_after_failed_frame (vals : list float) (H : Z) (fname s : string)
    (rest : list string) (w : World) :
  s <> line "ok" -> acknowledged 0 w (after_failed_frame vals H fname s rest w).
Proof.
  intros Hbad. split; [ | reflexivity].
  exists (failed_frame_events (arduino_verbose w) vals (LED_status w) H fname s).
  split; [reflexivity | ]. unfold failed_frame_events, complaint.
  rewrite !acknowledgements_app, !reports_app, acknowledgements_light_events,
    reports_light_events.
  cbn [acknowledgements app]. apply String.eqb_neq in Hbad. rewrite Hbad.
  destruct (String.eqb s ""); destruct (arduino_verbose w); split; reflexivity.
Qed.

(** The trace grows by one list of events: what [advanced] and
    [acknowledged] say of it holds of the same events. *)
Lemma advanced_acknowledged (ms : list milestone) (n : nat) (w w' : World) :
  advanced ms w w' -> acknowledged n w w' ->
  exists t, trace w' = trace w ++ t /\ milestones t = ms
            /\ acknowledgements t = n /\ reports t = 0%nat.
Proof.
  intros [t [E [Hm _]]] [[t' [E' [Ha Hr]]] _].
  assert (t' = t) by (rewrite E in E'; apply app_inv_head in E'; symmetry; exact E').
  subst t'. exists t. repeat split; assumption.
Qed.

Lemma ready_hd (z : float) (replies : list string) (w : World) :
  ready z replies w -> hd false (m2c_fails w) = false.
Proof.
  intros [_ [H _]]. destruct (m2c_fails w) as [ | f fs]; [reflexivity | ].
  inversion H; subst. reflexivity.
Qed.

Lemma ready_after_frame (z : float) (vals : list float) (H : Z) (fname s : string)
    (rest : list string) (w : World) :
  ready z (s :: rest) w -> ready z rest (after_frame vals H fname rest w).
Proof.
  intros [Hlen [Hf [Hz Hin]]]. unfold after_frame, ready, extend.
  cbn [LED_status m2c_fails Z_curr c2m_in set_LED_status set_c2m_in set_m2c_fails
       set_m2c_unsent set_trace].
  split; [reflexivity | split; [ | split; [exact Hz | reflexivity]]].
  destruct (m2c_fails w) as [ | f fs]; [constructor | ]. inversion Hf; subst. assumption.
Qed.

Lemma take_frames (p q : pipe) (topdir : string) (nL H : Z) (m : nat) :
  forall (k : Z) (z : float) (rest : list string) (w : World),
    0 <= k -> (forall L, k <= L < k + Z.of_nat m -> planned L nL) ->
    ready z (repeat (line "ok") m ++ rest) w ->
    exists w',
      for_each (map Z.of_nat (seq (Z.to_nat k) m))
        (capture_image_set_body None (Some p) (Some q) topdir nL 0 H) w = (Normal None, w')
      /\ ready z rest w'
      /\ (m = 0%nat \/ LED_status w' = all_off)
      /\ advanced (map (frame_request topdir H) (map Z.of_nat (seq (Z.to_nat k) m))) w w'
      /\ acknowledged m w w'.
Proof.
  induction m as [ | m IH]; intros k z rest w Hk Hplan Hready.
  - exists w. split; [reflexivity | ]. split; [exact Hready | ].
    split; [left; reflexivity | split; [apply advanced_refl | apply acknowledged_refl]].
  - cbn [seq map for_each repeat app] in *. rewrite Z2Nat.id by lia.
    destruct (condition_planned k nL) as [E [Hlen Hbin]]; [apply Hplan; lia | ].
    assert (Hbody := capture_image_set_body_ok p q topdir nL 0 H k (condition k nL)
                       (repeat (line "ok") m ++ rest) w E Hlen Hbin
                       (proj1 Hready) (ready_hd _ _ _ Hready) (proj2 (proj2 (proj2 Hready)))).
    rewrite (bind_normal _ _ _ _ _ Hbody).
    set (w1 := after_frame _ _ _ _ w).
    assert (Hready1 : ready z (repeat (line "ok") m ++ rest) w1)
      by (apply (ready_after_frame z _ H _ (line "ok")); exact Hready).
    destruct (IH (k + 1) z rest w1) as [w2 [E2 [R2 [L2 [A2 K2]]]]];
      [lia | intros L HL; apply Hplan; lia | exact Hready1 | ].
    replace (Z.to_nat (k + 1)) with (S (Z.to_nat k)) in E2, A2 by lia.
    exists w2. split; [exact E2 | ]. split; [exact R2 | ]. split; [ | split].
    + right. destruct L2 as [-> | L2]; [ | exact L2].
      cbn [seq map for_each] in E2. injection E2 as <-. reflexivity.
    + apply (advanced_trans [frame_request topdir H k] _ w w1 w2); [ | exact A2].
      exists (frame_events (arduino_verbose w) (condition k nL) (LED_status w) H
                (make_frame_filename topdir k 0 H)).
      split; [reflexivity | split; [apply milestones_frame_events | split; reflexivity]].
    + apply (acknowledged_trans 1 m w w1 w2); [ | exact K2].
      apply acknowledged_after_frame.
Qed.

(** The step before a height that is not the first. *)
Lemma rise_or_stay (H : Z) (Z_step z : float) (replies : list string) (w : World) :
  ready z replies w ->
  exists w1,
    when (0 <? H) (capture_image_set_rise None Z_step) w = (Normal tt, w1)
    /\ ready (if 0 <? H then (z + Z_step)%float else z) replies w1
    /\ advanced (if 0 <? H then [StepOnce] else []) w w1
    /\ acknowledged 0 w w1.
Proof.
  intros Hready. destruct (0 <? H).
  - eexists. split; [apply (capture_image_set_rise_sim Z_step z w);
                     exact (proj1 (proj2 (proj2 Hready))) | ].
    split; [ | split].
    + destruct Hready as [Hlen [Hf [Hz Hin]]]. repeat split; assumption.
    + eexists. split; [reflexivity | ].
      split; [destruct (arduino_verbose w); reflexivity | split; reflexivity].
    + split; [ | intros Hu; exact Hu]. eexists. split; [reflexivity | ].
      destruct (arduino_verbose w); split; reflexivity.
  - exists w. split; [reflexivity | ]. split; [exact Hready | ].
    split; [apply advanced_refl | apply acknowledged_refl].
Qed.

Lemma take_height (p q : pipe) (topdir : string) (nL H : Z) (Z_step z : float)
    (rest : list string) (w : World) :
  0 <= H -> 1 <= nL <= 12 \/ nL = 24 ->
  ready z (repeat (line "ok") (Z.to_nat nL) ++ rest) w ->
  exists w',
    (when (0 <? H) (capture_image_set_rise None Z_step) ;;
     for_each (range 1) (fun V =>
       when (1 <? 1) (set_view_direction None V 1) ;;
       for_each (range nL) (capture_image_set_body None (Some p) (Some q) topdir nL V H))) w
    = (Normal None, w')
    /\ ready (if 0 <? H then (z + Z_step)%float else z) rest w'
    /\ LED_status w' = all_off
    /\ advanced (height_milestones topdir nL H) w w'
    /\ acknowledged (Z.to_nat nL) w w'.
Proof.
  intros HH HnL Hready.
  destruct (rise_or_stay H Z_step z _ w Hready) as [w1 [E1 [R1 [A1 K1]]]].
  rewrite (bind_normal _ _ _ _ _ E1).
  change (range 1) with [0]. cbn [for_each]. change (1 <? 1) with false. unfold when.
  rewrite !bind_assoc, bind_ret.
  destruct (take_frames p q topdir nL H (Z.to_nat nL) 0
              (if 0 <? H then (z + Z_step)%float else z) rest w1)
    as [w2 [E2 [R2 [L2 [A2 K2]]]]];
    [lia | intros L HL; apply planned_top; lia | exact R1 | ].
  change (Z.to_nat 0) with 0%nat in E2, A2. unfold range at 1.
  rewrite (bind_normal _ _ _ _ _ E2).
  exists w2. split; [reflexivity | ]. split; [exact R2 | ]. split; [ | split].
  - destruct L2 as [L2 | L2]; [lia | exact L2].
  - unfold height_milestones. apply (advanced_trans _ _ w w1 w2 A1 A2).
  - apply (acknowledged_trans 0 _ w w1 w2 K1 K2).
Qed.

Lemma take_heights (p q : pipe) (topdir : string) (nL : Z) (Z_step : float) (m : nat) :
  forall (h : Z) (z : float) (rest : list string) (w : World),
    1 <= h -> 1 <= nL <= 12 \/ nL = 24 ->
    ready z (repeat (line "ok") (Z.to_nat nL * m) ++ rest) w ->
    LED_status w = all_off ->
    exists w',
      for_each (map Z.of_nat (seq (Z.to_nat h) m)) (fun H =>
        when (0 <? H) (capture_image_set_rise None Z_step) ;;
        for_each (range 1) (fun V =>
          when (1 <? 1) (set_view_direction None V 1) ;;
          for_each (range nL)
            (capture_image_set_body None (Some p) (Some q) topdir nL V H))) w
      = (Normal None, w')
      /\ ready (risen m z Z_step) rest w'
      /\ LED_status w' = all_off
      /\ advanced (flat_map (height_milestones topdir nL) (map Z.of_nat (seq (Z.to_nat h) m)))
           w w'
      /\ acknowledged (Z.to_nat nL * m) w w'.
Proof.
  induction m as [ | m IH]; intros h z rest w Hh HnL Hready Hoff.
  - rewrite Nat.mul_0_r in Hready |- *. exists w. split; [reflexivity | ].
    split; [exact Hready | split; [exact Hoff | ]].
    split; [apply advanced_refl | apply acknowledged_refl].
  - rewrite Nat.mul_succ_r, Nat.add_comm, repeat_app, <- app_assoc in Hready.
    cbn [seq map for_each flat_map risen]. rewrite Z2Nat.id by lia.
    destruct (take_height p q topdir nL h Z_step z
                (repeat (line "ok") (Z.to_nat nL * m) ++ rest) w)
      as [w1 [E1 [R1 [L1 [A1 K1]]]]];
      [lia | exact HnL | exact Hready | ].
    rewrite (bind_normal _ _ _ _ _ E1).
    replace (0 <? h) with true in R1 by (symmetry; apply Z.ltb_lt; lia).
    destruct (IH (h + 1) (z + Z_step)%float rest w1) as [w2 [E2 [R2 [L2 [A2 K2]]]]];
      [lia | exact HnL | exact R1 | exact L1 | ].
    replace (Z.to_nat (h + 1)) with (S (Z.to_nat h)) in E2, A2 by lia.
    exists w2. split; [exact E2 | ]. split; [exact R2 | ]. split; [exact L2 | ].
    split; [apply (advanced_trans _ _ w w1 w2 A1 A2) | ].
    rewrite Nat.mul_succ_r, Nat.add_comm.
    apply (acknowledged_trans _ _ w w1 w2 K1 K2).
Qed.

Lemma milestones_directory_events (topdir : string) (nL : Z) :
  milestones (directory_events topdir nL) = [].
Proof.
  unfold directory_events. cbn [milestones milestone_of issued].
  induction (range nL) as [ | L l IH]; [reflexivity | exact IH].
Qed.

Lemma admissible_checks (nL nV nH : Z) (Z_step : float) :
  admissible nL nV nH Z_step = true ->
  (0 <? nL) && (nL <=? nL_max) = true
  /\ (0 <? nV) && (nV <=? nV_max) = true
  /\ (0 <? nH) && (nH <=? nH_max) = true
  /\ PrimFloat.leb Z_step_min Z_step && PrimFloat.leb Z_step Z_step_max = true
  /\ PrimFloat.leb (float_of_int nH * Z_step) (Z_range_max + 0.0001) = true.
Proof.
  unfold admissible. intros H.
  apply andb_prop in H as [H H5]. apply andb_prop in H as [H H4].
  apply andb_prop in H as [H H3]. apply andb_prop in H as [H1 H2].
  repeat split; assumption.
Qed.

Lemma tallies_directory_events (topdir : string) (nL : Z) :
  acknowledgements (directory_events topdir nL) = 0%nat
  /\ reports (directory_events topdir nL) = 0%nat.
Proof.
  unfold directory_events. cbn [acknowledgements reports].
  induction (range nL) as [ | L l IH]; [split; reflexivity | exact IH].
Qed.

Lemma capture_image_set_start (p q : pipe) (nL nH : Z) (Z_step z : float)
    (replies : list string) (w : World) :
  1 <= nL <= 12 \/ nL = 24 ->
  admissible nL 1 nH Z_step = true ->
  exists_dir ("muff_scans/" ++ utc_now w) (dirs w) = false ->
  (forall L, 0 <= L < nL ->
     exists_dir (make_subdir_name ("muff_scans/" ++ utc_now w) L 0) (dirs w) = false) ->
  ready z replies w ->
  exists ws,
    capture_image_set None (Some p) (Some q) nL 1 nH Z_step w
    = (r <- for_each (range nH) (fun H =>
              when (0 <? H) (capture_image_set_rise None Z_step) ;;
              for_each (range 1) (fun V =>
                when (1 <? 1) (set_view_direction None V 1) ;;
                for_each (range nL)
                  (capture_image_set_body None (Some p) (Some q)
                     ("muff_scans/" ++ utc_now w) nL V H))) ;;
       match r with
       | Some v => ret v
       | None => stderr_write (Captured (nL * 1 * nH)) ;; ret true
       end) ws
    /\ ready z replies ws
    /\ advanced [] w ws
    /\ acknowledged 0 w ws.
Proof.
  intros HnL Hadm Htop Hsubs Hready.
  destruct (admissible_checks _ _ _ _ Hadm) as [C1 [C2 [C3 [C4 C5]]]].
  unfold capture_image_set.
  rewrite (bind_assert _ _ _ C1), (bind_assert _ _ _ C2), (bind_assert _ _ _ C3),
    (bind_assert _ _ _ C4), (bind_assert _ _ _ C5).
  cbv zeta.
  rewrite (bind_normal _ _ _ _ _ (stderr_write_run _ _)).
  rewrite (bind_normal _ _ _ _ _ (stderr_write_run _ _)).
  rewrite extend_extend. set (wa := extend _ w).
  set (topdir := ("muff_scans/" ++ utc_now w)%string) in *.
  destruct (create_directories_run nL wa) as [wd [Ed [ds [Hwd _]]]].
  { lia. }
  { apply exists_dir_not_In. exact Htop. }
  { intros L HL. apply exists_dir_not_In. apply Hsubs. exact HL. }
  change (utc_now wa) with (utc_now w) in Ed, Hwd. fold topdir in Ed, Hwd.
  rewrite (bind_normal _ _ _ _ _ Ed).
  rewrite (bind_normal _ _ _ _ _ (stderr_write_run _ _)).
  eexists. split; [reflexivity | ]. split; [ | split].
  - rewrite Hwd. exact Hready.
  - rewrite Hwd. unfold wa, extend. cbn [trace set_trace set_dirs].
    eexists. split; [rewrite <- !app_assoc; reflexivity | ].
    split; [ | split; reflexivity].
    rewrite !milestones_app, milestones_directory_events. reflexivity.
  - rewrite Hwd. split; [ | intros Hu; exact Hu].
    unfold wa, extend. cbn [trace set_trace set_dirs].
    eexists. split; [rewrite <- !app_assoc; reflexivity | ].
    destruct (tallies_directory_events topdir nL) as [Ha Hr].
    rewrite !acknowledgements_app, !reports_app, Ha, Hr. split; reflexivity.
Qed.

Lemma capture_image_set_run (p q : pipe) (nL nH : Z) (Z_step z : float)
    (rest : list string) (w : World) :
  1 <= nL <= 12 \/ nL = 24 ->
  admissible nL 1 nH Z_step = true ->
  exists_dir ("muff_scans/" ++ utc_now w) (dirs w) = false ->
  (forall L, 0 <= L < nL ->
     exists_dir (make_subdir_name ("muff_scans/" ++ utc_now w) L 0) (dirs w) = false) ->
  ready z (repeat (line "ok") (Z.to_nat nL * Z.to_nat nH) ++ rest) w ->
  exists w',
    capture_image_set None (Some p) (Some q) nL 1 nH Z_step w = (Normal true, w')
    /\ ready (risen (Z.to_nat (nH - 1)) z Z_step) rest w'
    /\ LED_status w' = all_off
    /\ advanced (scan_milestones ("muff_scans/" ++ utc_now w) nL nH) w w'
    /\ acknowledged (Z.to_nat nL * Z.to_nat nH) w w'.
Proof.
  intros HnL Hadm Htop Hsubs Hready.
  assert (HnH : 1 <= nH).
  { destruct (admissible_checks _ _ _ _ Hadm) as [_ [_ [C3 _]]].
    apply andb_prop in C3 as [C3 _]. apply Z.ltb_lt in C3. lia. }
  destruct (capture_image_set_start p q nL nH Z_step z _ w HnL Hadm Htop Hsubs Hready)
    as [ws [E [Hreadys [As Ks]]]].
  rewrite E. clear E.
  set (topdir := ("muff_scans/" ++ utc_now w)%string) in *.
  unfold range at 1. replace (Z.to_nat nH) with (S (Z.to_nat (nH - 1))) in * by lia.
  rewrite Nat.mul_succ_r, Nat.add_comm, repeat_app, <- app_assoc in Hreadys.
  cbn [seq map for_each].
  rewrite bind_assoc.
  destruct (take_height p q topdir nL 0 Z_step z
              (repeat (line "ok") (Z.to_nat nL * Z.to_nat (nH - 1)) ++ rest) ws)
    as [w1 [E1 [R1 [L1 [A1 K1]]]]];
    [lia | exact HnL | exact Hreadys | ].
  change (Z.of_nat 0) with 0.
  rewrite (bind_normal _ _ _ _ _ E1).
  change (0 <? 0) with false in R1. cbv iota in R1.
  destruct (take_heights p q topdir nL Z_step (Z.to_nat (nH - 1)) 1 z rest w1)
    as [w2 [E2 [R2 [L2 [A2 K2]]]]]; [lia | exact HnL | exact R1 | exact L1 | ].
  change (Z.to_nat 1) with 1%nat in E2, A2.
  rewrite (bind_normal _ _ _ _ _ E2).
  rewrite (bind_normal _ _ _ _ _ (stderr_write_run _ _)).
  eexists. split; [reflexivity | ]. split; [exact R2 | ]. split; [exact L2 | ].
  split.
  - assert (A : advanced ([] ++ height_milestones topdir nL 0
                          ++ flat_map (height_milestones topdir nL)
                               (map Z.of_nat (seq 1 (Z.to_nat (nH - 1))))) w w2).
    { apply (advanced_trans _ _ w ws w2 As). apply (advanced_trans _ _ ws w1 w2 A1 A2). }
    destruct A as [t [Et [Hm [Hv Hs]]]].
    exists (t ++ [Stderr (Captured (nL * 1 * nH))]). split; [ | split; [ | split]].
    + unfold extend. cbn [trace set_trace]. rewrite Et, app_assoc. reflexivity.
    + rewrite milestones_app, Hm. unfold scan_milestones, range.
      replace (Z.to_nat nH) with (S (Z.to_nat (nH - 1))) by lia.
      cbn [seq map flat_map app]. rewrite app_nil_r. reflexivity.
    + exact Hv.
    + exact Hs.
  - assert (K : acknowledged (0 + (Z.to_nat nL + Z.to_nat nL * Z.to_nat (nH - 1)) + 0) w
                  (extend [Stderr (Captured (nL * 1 * nH))] w2)).
    { apply (acknowledged_trans _ 0 w w2).
      - apply (acknowledged_trans _ _ w ws w2 Ks).
        apply (acknowledged_trans _ _ ws w1 w2 K1 K2).
      - apply acknowledged_extend; reflexivity. }
    rewrite Nat.mul_succ_r.
    replace (Z.to_nat nL * Z.to_nat (nH - 1) + Z.to_nat nL)%nat
      with (0 + (Z.to_nat nL + Z.to_nat nL * Z.to_nat (nH - 1)) + 0)%nat by lia.
    exact K.
Qed.

Lemma requests_milestones (t : list event) : requests t = requested (milestones t).
Proof.
  induction t as [ | e t IH]; [reflexivity | ].
  destruct e as [c | m | s | l | s | p | p | d | c]; cbn [requests milestones milestone_of];
    try (destruct (issued _) as [c' | ]; [destruct (String.eqb c' "5") | ]);
    cbn [requested flat_map app]; rewrite IH; reflexivity.
Qed.

Lemma steps_milestones (t : list event) :
  count_occ string_dec (commands t) "5" = steps (milestones t).
Proof.
  assert (Hstep : forall (c : string) (cs : list string) (ms : list milestone),
             count_occ string_dec cs "5" = steps ms ->
             count_occ string_dec (c :: cs) "5"
             = steps (match (if String.eqb c "5" then Some StepOnce else None) with
                      | Some m => m :: ms
                      | None => ms
                      end)).
  { intros c cs ms IH. cbn [count_occ]. destruct (String.eqb c "5") eqn:E.
    - apply String.eqb_eq in E. subst c.
      destruct (string_dec "5" "5") as [_ | N]; [ | contradiction].
      change (steps (StepOnce :: ms)) with (S (steps ms)). f_equal. exact IH.
    - destruct (string_dec c "5") as [Y | _]; [ | exact IH].
      rewrite Y in E. discriminate. }
  induction t as [ | e t IH]; [reflexivity | ].
  destruct e as [c | m | s | l | s | p | p | d | c];
    cbn [commands milestones milestone_of issued]; try exact IH.
  - apply Hstep. exact IH.
  - destruct m; cbn [commands milestones milestone_of issued]; try exact IH.
    apply Hstep. exact IH.
Qed.

Lemma requested_app (a c : list milestone) : requested (a ++ c) = requested a ++ requested c.
Proof. apply flat_map_app. Qed.

Lemma steps_app (a c : list milestone) : steps (a ++ c) = (steps a + steps c)%nat.
Proof. unfold steps. rewrite filter_app, length_app. reflexivity. Qed.

Lemma frames_counts (topdir : string) (H : Z) (l : list Z) :
  List.length (requested (map (frame_request topdir H) l)) = List.length l
  /\ steps (map (frame_request topdir H) l) = 0%nat.
Proof.
  induction l as [ | L l [IH1 IH2]]; [split; reflexivity | ].
  split; [cbn; f_equal; exact IH1 | exact IH2].
Qed.

Lemma heights_counts (topdir : string) (nL : Z) (m : nat) :
  forall h : nat, (1 <= h)%nat ->
    List.length (requested (flat_map (height_milestones topdir nL) (map Z.of_nat (seq h m))))
    = (Z.to_nat nL * m)%nat
    /\ steps (flat_map (height_milestones topdir nL) (map Z.of_nat (seq h m))) = m.
Proof.
  induction m as [ | m IH]; intros h Hh; [split; [cbn; lia | reflexivity] | ].
  cbn [seq map flat_map]. destruct (IH (S h)) as [IH1 IH2]; [lia | ].
  rewrite requested_app, steps_app, length_app, IH1, IH2.
  unfold height_milestones.
  replace (0 <? Z.of_nat h) with true by (symmetry; apply Z.ltb_lt; lia).
  rewrite requested_app, steps_app, length_app.
  destruct (frames_counts topdir (Z.of_nat h) (range nL)) as [F1 F2].
  rewrite F1, F2. unfold range. rewrite length_map, length_seq. cbn. split; lia.
Qed.

Lemma scan_counts (topdir : string) (nL nH : Z) :
  1 <= nH ->
  List.length (requested (scan_milestones topdir nL nH)) = (Z.to_nat nL * Z.to_nat nH)%nat
  /\ steps (scan_milestones topdir nL nH) = Z.to_nat (nH - 1).
Proof.
  intros HnH. unfold scan_milestones.
  change (range nH) with (map Z.of_nat (seq 0 (Z.to_nat nH))).
  replace (Z.to_nat nH) with (S (Z.to_nat (nH - 1))) by lia.
  cbn [seq map flat_map]. destruct (heights_counts topdir nL (Z.to_nat (nH - 1)) 1) as [H1 H2];
    [lia | ].
  rewrite requested_app, steps_app, length_app, H1, H2.
  unfold height_milestones. change (0 <? Z.of_nat 0) with false. cbn [app].
  destruct (frames_counts topdir (Z.of_nat 0) (range nL)) as [F1 F2].
  rewrite F1, F2. unfold range. rewrite length_map, length_seq. split; lia.
Qed.

(** A whole scan: for 1 to 12 or for 24 lighting conditions, one view and
    parameters that pass the checks, without a port, on fresh directories,
    with a pipe that takes every request and answers [ok] to each,
    [capture_image_set] returns [True]. Of capture requests and step-once
    commands it issues exactly these, in this order: at each height, first
    one step unless it is the first height, then the requests for the frames
    of the lighting conditions 0, 1, ... at that height; that is [nL * nH]
    requests and [nH - 1] steps. The presumed height has grown by one
    [Z_step] per step, the replies are used up and all lights are off. *)
Theorem capture_image_set_scans (p q : pipe) (nL nH : Z) (Z_step z : float)
    (rest : list string) (w : World) :
  1 <= nL <= 12 \/ nL = 24 ->
  admissible nL 1 nH Z_step = true ->
  exists_dir ("muff_scans/" ++ utc_now w) (dirs w) = false ->
  (forall L, 0 <= L < nL ->
     exists_dir (make_subdir_name ("muff_scans/" ++ utc_now w) L 0) (dirs w) = false) ->
  List.length (LED_status w) = 24%nat ->
  Forall (fun f => f = false) (m2c_fails w) ->
  Z_curr w = Some z ->
  c2m_in w = repeat (line "ok") (Z.to_nat nL * Z.to_nat nH) ++ rest ->
  exists w' new,
    capture_image_set None (Some p) (Some q) nL 1 nH Z_step w = (Normal true, w')
    /\ trace w' = trace w ++ new
    /\ milestones new = scan_milestones ("muff_scans/" ++ utc_now w) nL nH
    /\ List.length (requests new) = (Z.to_nat nL * Z.to_nat nH)%nat
    /\ count_occ string_dec (commands new) "5" = Z.to_nat (nH - 1)
    /\ Z_curr w' = Some (risen (Z.to_nat (nH - 1)) z Z_step)
    /\ c2m_in w' = rest
    /\ LED_status w' = all_off.
Proof.
  intros HnL Hadm Htop Hsubs Hlen Hf Hz Hin.
  destruct (capture_image_set_run p q nL nH Z_step z rest w HnL Hadm Htop Hsubs)
    as [w' [E [[_ [_ [Hz' Hin']]] [Hoff [[new [Et [Hm _]]] _]]]]].
  { repeat split; assumption. }
  assert (HnH : 1 <= nH).
  { destruct (admissible_checks _ _ _ _ Hadm) as [_ [_ [C3 _]]].
    apply andb_prop in C3 as [C3 _]. apply Z.ltb_lt in C3. lia. }
  destruct (scan_counts ("muff_scans/" ++ utc_now w) nL nH HnH) as [Hreq Hsteps].
  exists w', new. split; [exact E | ]. split; [exact Et | ]. split; [exact Hm | ].
  rewrite requests_milestones, steps_milestones, Hm.
  repeat split; assumption.
Qed.

Lemma capture_image_set_scans_3_by_2 :
  exists w' new,
    capture_image_set None (Some muff_pipe_m2c) (Some muff_pipe_c2m) 3 1 2 0.1%float
      (set_Z_curr (Some 0%float) (set_c2m_in (repeat (line "ok") 6) initial_world))
    = (Normal true, w')
    /\ trace w' = [] ++ new
    /\ milestones new = scan_milestones ("muff_scans/" ++ utc_now initial_world) 3 2
    /\ List.length (requests new) = (Z.to_nat 3 * Z.to_nat 2)%nat
    /\ count_occ string_dec (commands new) "5" = Z.to_nat (2 - 1)
    /\ Z_curr w' = Some (risen (Z.to_nat (2 - 1)) 0%float 0.1%float)
    /\ c2m_in w' = []
    /\ LED_status w' = all_off.
Proof.
  apply (capture_image_set_scans muff_pipe_m2c muff_pipe_c2m 3 2 0.1%float 0%float []
           (set_Z_curr (Some 0%float) (set_c2m_in (repeat (line "ok") 6) initial_world)));
    try reflexivity; [left; lia | constructor].
Defined.

(** The checks of the scan parameters: a number of lighting conditions
    outside 1..24, a number of views other than 1, a number of heights
    outside 1..99, a step outside -0.999..0.999 mm or a total rise above
    100.0001 mm fails an assertion of [capture_image_set] before anything
    is written, made or sent, with or without port and pipes. *)
Theorem capture_image_set_rejects (sport : option serial_port) (m2cPipe c2mPipe : option pipe)
    (nL nV nH : Z) (Z_step : float) (w : World) :
  (nL < 1 \/ 24 < nL \/ nV <> 1 \/ nH < 1 \/ 99 < nH -> admissible nL nV nH Z_step = false)
  /\ (admissible nL nV nH Z_step = false ->
      capture_image_set sport m2cPipe c2mPipe nL nV nH Z_step w
      = (Stop (Raise AssertionError), w)).
Proof.
  split.
  - intros H. unfold admissible, nL_max, nV_max, nH_max, num_LEDs.
    destruct (Z_lt_dec nL 1); [settle_tests; reflexivity | ].
    destruct (Z_lt_dec 24 nL); [settle_tests; reflexivity | ].
    destruct (Z_lt_dec nV 1); [settle_tests; reflexivity | ].
    destruct (Z_lt_dec 1 nV); [settle_tests; reflexivity | ].
    destruct (Z_lt_dec nH 1); [settle_tests; reflexivity | ].
    destruct (Z_lt_dec 99 nH); [settle_tests; reflexivity | ].
    lia.
  - unfold admissible, capture_image_set. intros H.
    repeat match goal with
           | |- context [assert ?c] =>
               let C := fresh "C" in
               destruct c eqn:C;
               [rewrite bind_assert by reflexivity
               | rewrite bind_assert_false by reflexivity; reflexivity]
           end.
    discriminate H.
Qed.

Lemma capture_image_set_rejects_two_views :
  capture_image_set None None None 3 2 5 0.1%float initial_world
  = (Stop (Raise AssertionError), initial_world).
Proof.
  apply (proj2 (capture_image_set_rejects None None None 3 2 5 0.1%float initial_world)).
  reflexivity.
Defined.

Lemma c2m_readline_end (p : pipe) (w : World) :
  c2m_in w = [] ->
  c2m_readline (Some p) w = (Normal "", extend [PipeRead ""] (set_c2m_in [] w)).
Proof.
  intros E. unfold c2m_readline, bind at 1, get at 1. rewrite E.
  transitivity (Normal "", extend [PipeRead ""] w); [reflexivity | ].
  f_equal. destruct w. simpl in E. subst. reflexivity.
Qed.

Lemma capture_frame_bad (p q : pipe) (topdir : string) (L V H : Z) (s : string)
    (rest : list string) (w : World) :
  hd false (m2c_fails w) = false -> unacknowledged s rest (c2m_in w) ->
  capture_frame (Some p) (Some q) topdir L V H w
  = (Normal false,
     extend [PipeRead s; Stderr (complaint s)]
       (set_c2m_in rest
          (extend [PipeWrite (line ("G " ++ make_frame_filename topdir L V H))]
             (set_m2c_unsent false
                (set_m2c_fails (tl (m2c_fails w))
                   (extend [Stderr (CapturingFrame H (make_frame_filename topdir L V H))]
                      w)))))).
Proof.
  intros Hok Hun. unfold capture_frame.
  set (fname := make_frame_filename topdir L V H).
  rewrite (bind_normal _ _ _ _ _ (stderr_write_run _ _)).
  change (if use_uvc then capture_frame_uvc fname
          else capture_frame_camview (Some p) (Some q) fname)
    with (capture_frame_camview (Some p) (Some q) fname).
  unfold capture_frame_camview.
  change (negb camera_present) with false. cbv iota.
  set (w1 := extend [Stderr (CapturingFrame H fname)] w).
  rewrite (bind_normal _ _ _ _ _ (m2c_send_ok p ("G " ++ fname) w1 Hok)).
  change (negb true) with false. cbv iota.
  set (w2 := extend _ (set_m2c_unsent _ (set_m2c_fails _ w1))).
  destruct Hun as [[Hin Hbad] | [Hin [-> ->]]].
  - rewrite (bind_normal _ _ _ _ _ (c2m_readline_next q s rest w2 Hin)).
    unfold complaint. destruct (String.eqb s "") eqn:Eempty.
    + rewrite (bind_normal _ _ _ _ _ (stderr_write_run _ _)), extend_extend. reflexivity.
    + change (String "o" (String "k" (String nl ""))) with (line "ok").
      replace (String.eqb s (line "ok")) with false
        by (symmetry; apply String.eqb_neq; exact Hbad).
      change (negb false) with true. cbv iota.
      rewrite (bind_normal _ _ _ _ _ (stderr_write_run _ _)), extend_extend. reflexivity.
  - rewrite (bind_normal _ _ _ _ _ (c2m_readline_end q w2 Hin)).
    cbn [String.eqb].
    rewrite (bind_normal _ _ _ _ _ (stderr_write_run _ _)), extend_extend. reflexivity.
Qed.

Lemma capture_image_set_body_bad (p q : pipe) (topdir : string) (nL V H L : Z)
    (vals : list float) (s : string) (rest : list string) (w : World) :
  define_LED_vals L nL = Normal vals -> List.length vals = 24%nat -> binary vals ->
  List.length (LED_status w) = 24%nat ->
  hd false (m2c_fails w) = false -> unacknowledged s rest (c2m_in w) ->
  capture_image_set_body None (Some p) (Some q) topdir nL V H L w
  = (Normal (Some false),
     after_failed_frame vals H (make_frame_filename topdir L V H) s rest w).
Proof.
  intros Hplan Hlen Hbin Hst Hok Hun. unfold capture_image_set_body.
  rewrite (bind_lift _ vals _ _ Hplan).
  rewrite (bind_normal _ _ _ _ _ (set_light_condition_sim vals w Hlen Hbin Hst)).
  set (w1 := set_LED_status _ _).
  rewrite (bind_normal _ _ _ _ _ (capture_frame_bad p q topdir L V H s rest w1 Hok Hun)).
  set (w2 := extend [PipeRead _; _] _).
  assert (Hst2 : List.length (LED_status w2) = 24%nat).
  { change (LED_status w2) with (refreshed vals (LED_status w)).
    rewrite refreshed_length. exact Hst. }
  rewrite (bind_normal _ _ _ _ _ (switch_all_lights_off_sim w2 Hst2)).
  change (negb false) with true. cbv iota.
  rewrite (bind_normal _ _ _ _ _ (stderr_write_run _ _)).
  unfold ret. f_equal.
  subst w2 w1. unfold after_failed_frame, failed_frame_events.
  destruct w. unfold extend. simpl. rewrite <- !app_assoc. reflexivity.
Qed.

Lemma milestones_failed_frame_events (verbose : bool) (vals : list float)
    (status : list (option float)) (H : Z) (fname s : string) :
  milestones (failed_frame_events verbose vals status H fname s)
  = [Request (line ("G " ++ fname))].
Proof.
  unfold failed_frame_events, complaint. rewrite milestones_app, milestones_light_events.
  destruct (String.eqb s ""); destruct verbose; reflexivity.
Qed.

Lemma take_frames_bad (p q : pipe) (topdir : string) (nL H : Z) (s : string)
    (rest tail : list string) (m : nat) :
  unacknowledged s rest tail ->
  forall (j : nat) (k : Z) (z : float) (w : World),
    0 <= k -> (forall L, k <= L < k + Z.of_nat m -> planned L nL) ->
    (j < m)%nat ->
    ready z (repeat (line "ok") j ++ tail) w ->
    exists w',
      for_each (map Z.of_nat (seq (Z.to_nat k) m))
        (capture_image_set_body None (Some p) (Some q) topdir nL 0 H) w
      = (Normal (Some false), w')
      /\ c2m_in w' = rest
      /\ LED_status w' = all_off
      /\ advanced (map (frame_request topdir H) (map Z.of_nat (seq (Z.to_nat k) (S j)))) w w'
      /\ (exists t0, trace w' = t0 ++ [Stderr CaptureFailed])
      /\ acknowledged j w w'.
Proof.
  intros Hun. pose proof (unacknowledged_not_ok _ _ _ Hun) as Hbad.
  induction m as [ | m IH]; intros j k z w Hk Hplan Hj Hready; [lia | ].
  cbn [seq map for_each]. rewrite Z2Nat.id by lia.
  destruct (condition_planned k nL) as [E [Hlen Hbin]]; [apply Hplan; lia | ].
  destruct j as [ | j].
  - cbn [repeat app] in Hready.
    assert (Hun' : unacknowledged s rest (c2m_in w))
      by (rewrite (proj2 (proj2 (proj2 Hready))); exact Hun).
    rewrite (bind_normal _ _ _ _ _
               (capture_image_set_body_bad p q topdir nL 0 H k (condition k nL) s rest w
                  E Hlen Hbin (proj1 Hready) (ready_hd _ _ _ Hready) Hun')).
    eexists. split; [reflexivity | ]. split; [reflexivity | ]. split; [reflexivity | ].
    split; [ | split].
    + eexists. split; [reflexivity | ].
      split; [cbn [seq map]; apply milestones_failed_frame_events | split; reflexivity].
    + unfold after_failed_frame, failed_frame_events, extend.
      cbn [trace set_trace set_LED_status set_c2m_in set_m2c_fails set_m2c_unsent].
      eexists. rewrite !app_assoc. reflexivity.
    + apply acknowledged_after_failed_frame. exact Hbad.
  - cbn [repeat app] in Hready.
    assert (Hbody := capture_image_set_body_ok p q topdir nL 0 H k (condition k nL)
                       (repeat (line "ok") j ++ tail) w E Hlen Hbin
                       (proj1 Hready) (ready_hd _ _ _ Hready) (proj2 (proj2 (proj2 Hready)))).
    rewrite (bind_normal _ _ _ _ _ Hbody).
    set (w1 := after_frame _ _ _ _ w).
    assert (Hready1 : ready z (repeat (line "ok") j ++ tail) w1)
      by (apply (ready_after_frame z _ H _ (line "ok")); exact Hready).
    destruct (IH j (k + 1) z w1) as [w2 [E2 [R2 [L2 [A2 [T2 K2]]]]]];
      [lia | intros L HL; apply Hplan; lia | lia | exact Hready1 | ].
    replace (Z.to_nat (k + 1)) with (S (Z.to_nat k)) in E2, A2 by lia.
    exists w2. split; [exact E2 | ]. split; [exact R2 | ]. split; [exact L2 | ].
    split; [ | split; [exact T2 | ]].
    + apply (advanced_trans [frame_request topdir H k] _ w w1 w2); [ | exact A2].
      exists (frame_events (arduino_verbose w) (condition k nL) (LED_status w) H
                (make_frame_filename topdir k 0 H)).
      split; [reflexivity | split; [apply milestones_frame_events | split; reflexivity]].
    + apply (acknowledged_trans 1 j w w1 w2); [ | exact K2].
      apply acknowledged_after_frame.
Qed.

Lemma take_height_bad (p q : pipe) (topdir : string) (nL H : Z) (Z_step z : float)
    (s : string) (j : nat) (rest tail : list string) (w : World) :
  unacknowledged s rest tail -> 0 <= H -> 1 <= nL <= 12 \/ nL = 24 ->
  (j < Z.to_nat nL)%nat ->
  ready z (repeat (line "ok") j ++ tail) w ->
  exists w',
    (when (0 <? H) (capture_image_set_rise None Z_step) ;;
     for_each (range 1) (fun V =>
       when (1 <? 1) (set_view_direction None V 1) ;;
       for_each (range nL) (capture_image_set_body None (Some p) (Some q) topdir nL V H))) w
    = (Normal (Some false), w')
    /\ c2m_in w' = rest
    /\ LED_status w' = all_off
    /\ advanced ((if 0 <? H then [StepOnce] else [])
                 ++ map (frame_request topdir H) (map Z.of_nat (seq 0 (S j)))) w w'
    /\ (exists t0, trace w' = t0 ++ [Stderr CaptureFailed])
    /\ acknowledged j w w'.
Proof.
  intros Hun HH HnL Hj Hready.
  destruct (rise_or_stay H Z_step z _ w Hready) as [w1 [E1 [R1 [A1 K1]]]].
  rewrite (bind_normal _ _ _ _ _ E1).
  change (range 1) with [0]. cbn [for_each]. change (1 <? 1) with false. unfold when.
  rewrite !bind_assoc, bind_ret.
  destruct (take_frames_bad p q topdir nL H s rest tail (Z.to_nat nL) Hun j 0
              (if 0 <? H then (z + Z_step)%float else z) w1)
    as [w2 [E2 [R2 [L2 [A2 [T2 K2]]]]]];
    [lia | intros L HL; apply planned_top; lia | exact Hj | exact R1 | ].
  change (Z.to_nat 0) with 0%nat in E2, A2. unfold range at 1.
  rewrite (bind_normal _ _ _ _ _ E2).
  exists w2. split; [reflexivity | ]. split; [exact R2 | ]. split; [exact L2 | ].
  split; [ | split; [exact T2 | ]].
  - apply (advanced_trans _ _ w w1 w2 A1 A2).
  - apply (acknowledged_trans 0 j w w1 w2 K1 K2).
Qed.

Lemma stopped_after_prefix (a full ms : list milestone) (n : nat) :
  stopped_after n full ms ->
  stopped_after (List.length (requested a) + n) (a ++ full) (a ++ ms).
Proof.
  intros [[later E] [Hn [before [sent Elast]]]]. split; [ | split].
  - exists later. rewrite E, app_assoc. reflexivity.
  - rewrite requested_app, length_app, Hn. reflexivity.
  - exists (a ++ before), sent. rewrite Elast, app_assoc. reflexivity.
Qed.

Lemma stopped_in_height (topdir : string) (nL H : Z) (j : nat) (later : list milestone) :
  (j < Z.to_nat nL)%nat ->
  stopped_after (S j) (height_milestones topdir nL H ++ later)
    ((if 0 <? H then [StepOnce] else [])
     ++ map (frame_request topdir H) (map Z.of_nat (seq 0 (S j)))).
Proof.
  intros Hj. unfold height_milestones, range.
  replace (Z.to_nat nL) with (S j + (Z.to_nat nL - S j))%nat by lia.
  rewrite seq_app, !map_app. split; [ | split].
  - eexists. rewrite <- !app_assoc. reflexivity.
  - rewrite requested_app, length_app.
    destruct (frames_counts topdir H (map Z.of_nat (seq 0 (S j)))) as [F1 _].
    rewrite F1, length_map, length_seq. destruct (0 <? H); reflexivity.
  - rewrite seq_S, !map_app. cbn [map]. eexists. eexists. rewrite app_assoc. reflexivity.
Qed.

Lemma height_requests (topdir : string) (nL H : Z) :
  List.length (requested (height_milestones topdir nL H)) = Z.to_nat nL.
Proof.
  unfold height_milestones. rewrite requested_app, length_app.
  destruct (frames_counts topdir H (range nL)) as [F1 _]. rewrite F1.
  unfold range. rewrite length_map, length_seq. destruct (0 <? H); reflexivity.
Qed.

Lemma take_heights_bad (p q : pipe) (topdir : string) (nL : Z) (Z_step : float)
    (s : string) (rest tail : list string) (m : nat) :
  unacknowledged s rest tail -> 1 <= nL <= 12 \/ nL = 24 ->
  forall (k : nat) (h : Z) (z : float) (w : World),
    1 <= h -> (k < Z.to_nat nL * m)%nat ->
    ready z (repeat (line "ok") k ++ tail) w ->
    exists w' ms,
      for_each (map Z.of_nat (seq (Z.to_nat h) m)) (fun H =>
        when (0 <? H) (capture_image_set_rise None Z_step) ;;
        for_each (range 1) (fun V =>
          when (1 <? 1) (set_view_direction None V 1) ;;
          for_each (range nL)
            (capture_image_set_body None (Some p) (Some q) topdir nL V H))) w
      = (Normal (Some false), w')
      /\ c2m_in w' = rest
      /\ LED_status w' = all_off
      /\ advanced ms w w'
      /\ stopped_after (S k)
           (flat_map (height_milestones topdir nL) (map Z.of_nat (seq (Z.to_nat h) m))) ms
      /\ (exists t0, trace w' = t0 ++ [Stderr CaptureFailed])
      /\ acknowledged k w w'.
Proof.
  intros Hun HnL. induction m as [ | m IH]; intros k h z w Hh Hk Hready; [lia | ].
  cbn [seq map for_each flat_map]. rewrite Z2Nat.id by lia.
  destruct (Nat.lt_ge_cases k (Z.to_nat nL)) as [Hlt | Hge].
  - destruct (take_height_bad p q topdir nL h Z_step z s k rest tail w)
      as [w1 [E1 [R1 [L1 [A1 [T1 K1]]]]]]; try assumption; [lia | ].
    rewrite (bind_normal _ _ _ _ _ E1).
    eexists. eexists. split; [reflexivity | ]. split; [exact R1 | ]. split; [exact L1 | ].
    split; [exact A1 | ]. split; [ | split; [exact T1 | exact K1]].
    apply stopped_in_height. exact Hlt.
  - replace k with (Z.to_nat nL + (k - Z.to_nat nL))%nat in Hready by lia.
    rewrite repeat_app, <- app_assoc in Hready.
    destruct (take_height p q topdir nL h Z_step z
                (repeat (line "ok") (k - Z.to_nat nL) ++ tail) w)
      as [w1 [E1 [R1 [L1 [A1 K1]]]]]; [lia | exact HnL | exact Hready | ].
    rewrite (bind_normal _ _ _ _ _ E1).
    destruct (IH (k - Z.to_nat nL)%nat (h + 1)
                (if 0 <? h then (z + Z_step)%float else z) w1)
      as [w2 [ms [E2 [R2 [L2 [A2 [S2 [T2 K2]]]]]]]]; [lia | nia | exact R1 | ].
    replace (Z.to_nat (h + 1)) with (S (Z.to_nat h)) in E2, S2 by lia.
    exists w2, (height_milestones topdir nL h ++ ms).
    split; [exact E2 | ]. split; [exact R2 | ]. split; [exact L2 | ].
    split; [apply (advanced_trans _ _ w w1 w2 A1 A2) | ]. split; [ | split; [exact T2 | ]].
    + replace (S k) with (List.length (requested (height_milestones topdir nL h))
                          + S (k - Z.to_nat nL))%nat
        by (rewrite height_requests; lia).
      apply stopped_after_prefix. exact S2.
    + replace k with (Z.to_nat nL + (k - Z.to_nat nL))%nat at 1 by lia.
      apply (acknowledged_trans _ _ w w1 w2 K1 K2).
Qed.

(** A scan that is broken off: what [capture_image_set_stops] states, from
    a world that is [ready], also when the replies end instead of holding a
    bad line, and with the tally of acknowledged captures. *)
Lemma capture_image_set_halts (p q : pipe) (nL nH : Z) (Z_step z : float) (k : nat)
    (s : string) (rest tail : list string) (w : World) :
  1 <= nL <= 12 \/ nL = 24 ->
  admissible nL 1 nH Z_step = true ->
  exists_dir ("muff_scans/" ++ utc_now w) (dirs w) = false ->
  (forall L, 0 <= L < nL ->
     exists_dir (make_subdir_name ("muff_scans/" ++ utc_now w) L 0) (dirs w) = false) ->
  ready z (repeat (line "ok") k ++ tail) w ->
  (k < Z.to_nat nL * Z.to_nat nH)%nat ->
  unacknowledged s rest tail ->
  exists w' ms,
    capture_image_set None (Some p) (Some q) nL 1 nH Z_step w = (Normal false, w')
    /\ c2m_in w' = rest
    /\ LED_status w' = all_off
    /\ advanced ms w w'
    /\ stopped_after (S k) (scan_milestones ("muff_scans/" ++ utc_now w) nL nH) ms
    /\ (exists t0, trace w' = t0 ++ [Stderr CaptureFailed])
    /\ acknowledged k w w'.
Proof.
  intros HnL Hadm Htop Hsubs Hready Hk Hun.
  destruct (capture_image_set_start p q nL nH Z_step z _ w HnL Hadm Htop Hsubs Hready)
    as [ws [E [Hreadys [As Ks]]]].
  rewrite E. clear E.
  set (topdir := ("muff_scans/" ++ utc_now w)%string) in *.
  assert (HnH : 1 <= nH).
  { destruct (admissible_checks _ _ _ _ Hadm) as [_ [_ [C3 _]]].
    apply andb_prop in C3 as [C3 _]. apply Z.ltb_lt in C3. lia. }
  unfold scan_milestones.
  change (range nH) with (map Z.of_nat (seq 0 (Z.to_nat nH))).
  replace (Z.to_nat nH) with (S (Z.to_nat (nH - 1))) in * by lia.
  cbn [seq map for_each flat_map]. change (Z.of_nat 0) with 0.
  rewrite bind_assoc.
  destruct (Nat.lt_ge_cases k (Z.to_nat nL)) as [Hlt | Hge].
  - destruct (take_height_bad p q topdir nL 0 Z_step z s k rest tail ws)
      as [w1 [E1 [R1 [L1 [A1 [T1 K1]]]]]]; try assumption; [lia | ].
    rewrite (bind_normal _ _ _ _ _ E1).
    eexists. eexists. split; [reflexivity | ]. split; [exact R1 | ]. split; [exact L1 | ].
    split; [exact (advanced_trans _ _ _ _ _ As A1) | ].
    split; [ | split; [exact T1 | exact (acknowledged_trans _ _ _ _ _ Ks K1)]].
    cbn [app]. apply stopped_in_height. exact Hlt.
  - replace k with (Z.to_nat nL + (k - Z.to_nat nL))%nat in Hreadys by lia.
    rewrite repeat_app, <- app_assoc in Hreadys.
    destruct (take_height p q topdir nL 0 Z_step z
                (repeat (line "ok") (k - Z.to_nat nL) ++ tail) ws)
      as [w1 [E1 [R1 [L1 [A1 K1]]]]]; [lia | exact HnL | exact Hreadys | ].
    change (0 <? 0) with false in R1. cbv iota in R1.
    rewrite (bind_normal _ _ _ _ _ E1).
    destruct (take_heights_bad p q topdir nL Z_step s rest tail (Z.to_nat (nH - 1)) Hun HnL
                (k - Z.to_nat nL)%nat 1 z w1)
      as [w2 [ms [E2 [R2 [L2 [A2 [S2 [T2 K2]]]]]]]]; [lia | nia | exact R1 | ].
    change (Z.to_nat 1) with 1%nat in E2, S2.
    rewrite (bind_normal _ _ _ _ _ E2).
    exists w2, ([] ++ height_milestones topdir nL 0 ++ ms).
    split; [reflexivity | ]. split; [exact R2 | ]. split; [exact L2 | ].
    split; [exact (advanced_trans _ _ _ _ _ As (advanced_trans _ _ _ _ _ A1 A2)) | ].
    split; [ | split; [exact T2 | ]].
    + cbn [app].
      replace (S k) with (List.length (requested (height_milestones topdir nL 0))
                          + S (k - Z.to_nat nL))%nat
        by (rewrite height_requests; lia).
      apply stopped_after_prefix. exact S2.
    + replace k with (0 + (Z.to_nat nL + (k - Z.to_nat nL)))%nat at 1 by lia.
      exact (acknowledged_trans _ _ _ _ _ Ks (acknowledged_trans _ _ _ _ _ K1 K2)).
Qed.

(** The last event of a trace that has grown and ends with [e]. *)
Lemma last_of_grown (t0 old new : list event) (e : event) :
  old ++ new = t0 ++ [e] -> new <> [] -> exists t1, new = t1 ++ [e].
Proof.
  intros E Hne. destruct new as [ | x new] using rev_ind; [contradiction | ].
  exists new. rewrite app_assoc in E. apply app_inj_tail in E as [_ <-]. reflexivity.
Qed.

(** A scan that fails: under the conditions of a whole scan, when the
    replies are [k] times [ok] and then a line that is not [ok] (an empty
    one stands for a closed pipe) before the scan is complete,
    [capture_image_set] returns [False]. What it issued is the scan up to
    and including the request that got this reply, [k + 1] requests in all
    and none after it; it has read that reply and no further one, switched
    all lights off, and its last line reports the failed capture. *)
Theorem capture_image_set_stops (p q : pipe) (nL nH : Z) (Z_step z : float) (k : nat)
    (s : string) (rest : list string) (w : World) :
  1 <= nL <= 12 \/ nL = 24 ->
  admissible nL 1 nH Z_step = true ->
  exists_dir ("muff_scans/" ++ utc_now w) (dirs w) = false ->
  (forall L, 0 <= L < nL ->
     exists_dir (make_subdir_name ("muff_scans/" ++ utc_now w) L 0) (dirs w) = false) ->
  List.length (LED_status w) = 24%nat ->
  Forall (fun f => f = false) (m2c_fails w) ->
  Z_curr w = Some z ->
  (k < Z.to_nat nL * Z.to_nat nH)%nat ->
  s <> line "ok" ->
  c2m_in w = repeat (line "ok") k ++ s :: rest ->
  exists w' new,
    capture_image_set None (Some p) (Some q) nL 1 nH Z_step w = (Normal false, w')
    /\ trace w' = trace w ++ new
    /\ stopped_after (S k) (scan_milestones ("muff_scans/" ++ utc_now w) nL nH)
         (milestones new)
    /\ List.length (requests new) = S k
    /\ c2m_in w' = rest
    /\ LED_status w' = all_off
    /\ exists t0, new = t0 ++ [Stderr CaptureFailed].
Proof.
  intros HnL Hadm Htop Hsubs Hlen Hf Hz Hk Hbad Hin.
  assert (Hready : ready z (repeat (line "ok") k ++ s :: rest) w)
    by (repeat split; assumption).
  destruct (capture_image_set_halts p q nL nH Z_step z k s rest (s :: rest) w
              HnL Hadm Htop Hsubs Hready Hk)
    as [w' [ms [E [R [L [[new [Et [Hm _]]] [S [[t0 T] _]]]]]]]].
  { left. split; [reflexivity | exact Hbad]. }
  exists w', new. split; [exact E | ]. split; [exact Et | ].
  rewrite requests_milestones, Hm. split; [exact S | ].
  split; [exact (proj1 (proj2 S)) | ]. split; [exact R | ]. split; [exact L | ].
  rewrite Et in T. apply (last_of_grown _ _ _ _ T).
  intros ->. destruct S as [_ [_ [before [sent Eb]]]]. rewrite <- Hm in Eb.
  destruct before; discriminate Eb.
Qed.

Lemma capture_image_set_stops_at_second :
  exists w' new,
    capture_image_set None (Some muff_pipe_m2c) (Some muff_pipe_c2m) 3 1 2 0.1%float
      (set_Z_curr (Some 0%float) (set_c2m_in [line "ok"; line "bad"; line "ok"] initial_world))
    = (Normal false, w')
    /\ trace w' = [] ++ new
    /\ stopped_after 2 (scan_milestones ("muff_scans/" ++ utc_now initial_world) 3 2)
         (milestones new)
    /\ List.length (requests new) = 2%nat
    /\ c2m_in w' = [line "ok"]
    /\ LED_status w' = all_off
    /\ exists t0, new = t0 ++ [Stderr CaptureFailed].
Proof.
  apply (capture_image_set_stops muff_pipe_m2c muff_pipe_c2m 3 2 0.1%float 0%float 1
           (line "bad") [line "ok"]
           (set_Z_curr (Some 0%float)
              (set_c2m_in [line "ok"; line "bad"; line "ok"] initial_world)));
    try reflexivity; [left; lia | constructor | cbn; lia | discriminate].
Defined.

(** ** A whole session *)

Lemma idle_nil : idle [].
Proof. repeat split. Qed.

Lemma idle_app (t u : list event) : idle t -> idle u -> idle (t ++ u).
Proof.
  intros [M1 [Q1 [R1 A1]]] [M2 [Q2 [R2 A2]]]. unfold idle.
  rewrite milestones_app, requests_app, reports_app, acknowledgements_app,
    M1, M2, Q1, Q2, R1, R2, A1, A2.
  repeat split.
Qed.

Lemma idle_light_events (verbose : bool) (vals : list float) (lix : Z)
    (status : list (option float)) :
  idle (light_events verbose lix vals status).
Proof.
  split; [apply milestones_light_events | ].
  split; [apply requests_light_events | ].
  split; [apply reports_light_events | apply acknowledgements_light_events].
Qed.

(** A turn of the positioning loop without a port: it decides what
    [verdict] says of the line, sets the height to 0.0 when it accepts, and
    adds idle events. *)
Lemma place_camera_body_verdict (s : string) (w : World) :
  exists t,
    place_camera_body None s w
    = (Normal (verdict s),
       match verdict s with
       | Some true => set_Z_curr (Some 0%float) (extend t w)
       | _ => extend t w
       end)
    /\ idle t.
Proof.
  unfold place_camera_body, verdict.
  destruct (String.eqb s "").
  { eexists. split.
    - rewrite (bind_normal _ _ _ _ _ (stderr_write_run _ _)).
      rewrite (bind_normal _ _ _ _ _ (stop_motor_sim _)), extend_extend. reflexivity.
    - change (arduino_verbose (extend [Stderr Newline] w)) with (arduino_verbose w).
      destruct (arduino_verbose w); repeat split. }
  destruct (String.eqb (lower (strip s)) "ok").
  { eexists. split.
    - rewrite (bind_normal _ _ _ _ _ (stop_motor_sim _)). reflexivity.
    - destruct (arduino_verbose w); repeat split. }
  destruct (String.eqb (lower (strip s)) "abort" || String.eqb (lower (strip s)) "q").
  { eexists. split.
    - rewrite (bind_normal _ _ _ _ _ (stop_motor_sim _)). reflexivity.
    - destruct (arduino_verbose w); repeat split. }
  destruct (String.eqb (strip s) "u").
  { eexists. split.
    - rewrite (bind_normal _ _ _ _ _ (start_motor_sim 1 false w (or_introl eq_refl))).
      reflexivity.
    - destruct (arduino_verbose w); repeat split. }
  destruct (String.eqb (strip s) "d").
  { eexists. split.
    - rewrite (bind_normal _ _ _ _ _ (start_motor_sim (-1) false w (or_intror eq_refl))).
      reflexivity.
    - destruct (arduino_verbose w); repeat split. }
  destruct (String.eqb (strip s) "U").
  { eexists. split.
    - rewrite (bind_normal _ _ _ _ _ (start_motor_sim 1 true w (or_introl eq_refl))).
      reflexivity.
    - destruct (arduino_verbose w); repeat split. }
  destruct (String.eqb (strip s) "D").
  { eexists. split.
    - rewrite (bind_normal _ _ _ _ _ (start_motor_sim (-1) true w (or_intror eq_refl))).
      reflexivity.
    - destruct (arduino_verbose w); repeat split. }
  destruct (String.eqb (lower (strip s)) "s").
  { eexists. split.
    - rewrite (bind_normal _ _ _ _ _ (stop_motor_sim _)). reflexivity.
    - destruct (arduino_verbose w); repeat split. }
  destruct (String.eqb (strip s) "").
  { exists []. split; [rewrite extend_nil; reflexivity | apply idle_nil]. }
  eexists. split.
  - rewrite (bind_normal _ _ _ _ _ (stderr_write_run _ _)). reflexivity.
  - repeat split.
Qed.

(** The positioning loop without a port, with one more turn than there are
    lines: it returns what the operator's lines decide. *)
Lemma place_camera_loop_decides (n : nat) :
  forall w, (List.length (stdin_in w) < n)%nat ->
  exists w',
    place_camera_loop n None w = (Normal (operator_accepts (stdin_in w)), w')
    /\ positioned w w'.
Proof.
  induction n as [ | n IH]; intros w Hn; [inversion Hn | ].
  destruct (stdin_in w) as [ | s rest] eqn:Hin.
  - cbn [place_camera_loop].
    rewrite (prompt_and_read_eof
               (fun s => r <- place_camera_body None s ;;
                         match r with
                         | Some v => ret v
                         | None => place_camera_loop n None
                         end) w Hin).
    rewrite (bind_normal _ _ _ _ _ (body_eof _)).
    eexists. split; [reflexivity | ].
    unfold positioned, extend.
    cbn [trace stdin_in Z_curr LED_status m2c_fails m2c_unsent c2m_in utc_now dirs
         arduino_verbose set_trace].
    rewrite Hin. cbn [operator_accepts keys_left].
    split; [ | repeat split; discriminate].
    eexists. split; [rewrite <- !app_assoc; reflexivity | ].
    destruct (arduino_verbose w); repeat split.
  - rewrite (place_camera_loop_step n None s rest w Hin).
    destruct (place_camera_body_verdict s (prompted s rest w)) as [t [E It]].
    rewrite (bind_normal _ _ _ _ _ E).
    cbn [operator_accepts keys_left].
    destruct (verdict s) as [[ | ] | ] eqn:V.
    + eexists. split; [reflexivity | ].
      unfold positioned, prompted, extend.
      cbn [trace stdin_in Z_curr LED_status m2c_fails m2c_unsent c2m_in utc_now dirs
           arduino_verbose set_trace set_stdin_in set_Z_curr].
      rewrite Hin. cbn [operator_accepts keys_left]. rewrite V.
      split; [ | repeat split].
      eexists. split; [rewrite <- !app_assoc; reflexivity | ].
      apply (idle_app [Stderr Prompt; StdinRead s] t); [repeat split | exact It].
    + eexists. split; [reflexivity | ].
      unfold positioned, prompted, extend.
      cbn [trace stdin_in Z_curr LED_status m2c_fails m2c_unsent c2m_in utc_now dirs
           arduino_verbose set_trace set_stdin_in set_Z_curr].
      rewrite Hin. cbn [operator_accepts keys_left]. rewrite V.
      split; [ | repeat split; discriminate].
      eexists. split; [rewrite <- !app_assoc; reflexivity | ].
      apply (idle_app [Stderr Prompt; StdinRead s] t); [repeat split | exact It].
    + set (w1 := extend t (prompted s rest w)) in *.
      destruct (IH w1) as [w' [E' P']].
      { change (stdin_in w1) with rest. cbn [List.length] in Hn. lia. }
      change (stdin_in w1) with rest in E', P'.
      exists w'. split; [exact E' | ].
      destruct P' as [[t' [Et' It']] [Hk [Hz [Hl [Hf [Hu [Hc [Hut [Hd Hv]]]]]]]]].
      unfold positioned. rewrite Hin. cbn [operator_accepts keys_left]. rewrite V.
      split; [ | repeat split; assumption].
      exists (([Stderr Prompt; StdinRead s] ++ t) ++ t').
      split.
      * rewrite Et'. unfold w1, prompted, extend. cbn [trace set_trace set_stdin_in].
        rewrite <- !app_assoc. reflexivity.
      * apply idle_app; [ | exact It'].
        apply (idle_app [Stderr Prompt; StdinRead s] t); [repeat split | exact It].
Qed.

Lemma place_camera_decides (w : World) :
  List.length (LED_status w) = 24%nat ->
  exists w',
    place_camera_for_first_image None w = (Normal (operator_accepts (stdin_in w)), w')
    /\ positioned w w'.
Proof.
  intros Hlen. rewrite (place_camera_prelude w Hlen).
  set (w1 := set_LED_status _ _).
  destruct (place_camera_loop_decides (S (List.length (stdin_in w))) w1) as [w' [E P]].
  { change (stdin_in w1) with (stdin_in w). lia. }
  change (stdin_in w1) with (stdin_in w) in E, P.
  exists w'. split; [exact E | ].
  destruct P as [[t' [Et' It']] [Hk [Hz [Hl [Hf [Hu [Hc [Hut [Hd Hv]]]]]]]]].
  split; [ | split; [exact Hk | split; [exact Hz | split; [ | repeat split; assumption]]]].
  - eexists. split.
    + rewrite Et'. unfold w1, extend. cbn [trace set_trace set_LED_status].
      rewrite <- app_assoc. reflexivity.
    + apply idle_app; [ | exact It'].
      apply (idle_app [Stderr StartingPositioning; Stderr PositioningHelp]);
        [repeat split | apply idle_light_events].
  - rewrite Hl. unfold w1. cbn [LED_status set_LED_status].
    apply refreshed_length.
Qed.

Lemma milestones_set_Z_step (verbose : bool) (istep : Z) :
  milestones (announce verbose (DefiningZStep (format_d true 3 istep))
              ++ simulated ("4" ++ format_d true 3 istep)) = [].
Proof. destruct verbose; reflexivity. Qed.

Lemma milestones_cleanup_events (verbose : bool) (m2cPipe c2mPipe : option pipe) (ok : bool) :
  milestones (cleanup_events verbose m2cPipe c2mPipe ok) = [].
Proof. destruct verbose, m2cPipe, c2mPipe, ok; reflexivity. Qed.

(** [main] on arguments that parse, up to the operator's decision: the
    pipes are opened, the lighting conditions rehearsed, the step is set
    and the camera is positioned. What follows runs in a world that differs
    from the first one by idle events, the lines the operator has used, the
    lights and the height. *)
Lemma main_positions (synopsis : bool) (nL nV nH : Z) (Z_step : float) (istep : Z)
    (w : World) :
  1 <= nL <= 12 \/ nL = 24 ->
  py_round (Z_step * 1000)%float = Normal istep -> -999 <= istep <= 999 ->
  exists w3 t3,
    main (Parsed synopsis nL nV nH Z_step) w
    = (when (negb (operator_accepts (stdin_in w)))
         (terminate_process None (Some muff_pipe_m2c) (Some muff_pipe_c2m)
            (operator_accepts (stdin_in w))) ;;
       ok <- capture_image_set None (Some muff_pipe_m2c) (Some muff_pipe_c2m)
               nL nV nH Z_step ;;
       terminate_process None (Some muff_pipe_m2c) (Some muff_pipe_c2m) ok ;;
       raise AssertionError) w3
    /\ trace w3 = trace w ++ t3 /\ idle t3
    /\ stdin_in w3 = keys_left (stdin_in w)
    /\ (operator_accepts (stdin_in w) = true -> Z_curr w3 = Some 0%float)
    /\ List.length (LED_status w3) = 24%nat
    /\ m2c_fails w3 = m2c_fails w /\ m2c_unsent w3 = false /\ c2m_in w3 = c2m_in w
    /\ utc_now w3 = utc_now w /\ dirs w3 = dirs w /\ arduino_verbose w3 = false.
Proof.
  intros HnL Hround Hrange.
  rewrite main_parsed. unfold session.
  set (w0 := session_start synopsis w).
  destruct (test_lighting_conditions_run nL w0 HnL)
    as [w1 [E1 [t1 [Ew1 [_ [Hq1 [Hr1 [Hm1 Ha1]]]]]]]].
  rewrite (bind_normal _ _ _ _ _ E1).
  rewrite (bind_normal _ _ _ _ _ (set_Z_step_sim Z_step istep w1 Hround Hrange)).
  set (t2 := announce (arduino_verbose w1) _ ++ _).
  assert (I2 : idle t2) by (unfold t2; destruct (arduino_verbose w1); repeat split).
  clearbody t2. set (w2 := extend t2 w1).
  assert (Hlen2 : List.length (LED_status w2) = 24%nat)
    by (unfold w2; rewrite Ew1; reflexivity).
  destruct (place_camera_decides w2 Hlen2) as [w3 [E3 P3]].
  assert (Hs2 : stdin_in w2 = stdin_in w) by (unfold w2; rewrite Ew1; reflexivity).
  unfold positioned in P3. rewrite Hs2 in E3, P3.
  rewrite (bind_normal _ _ _ _ _ E3).
  destruct P3 as [[t3 [Et3 It3]] [Hk [Hz [Hl [Hf [Hu [Hc [Hut [Hd Hv]]]]]]]]].
  exists w3. eexists. split; [reflexivity | ].
  split.
  { rewrite Et3. unfold w2, extend. rewrite Ew1. unfold w0, session_start, extend.
    cbn [trace set_trace set_LED_status set_arduino_verbose set_m2c_unsent].
    rewrite <- !app_assoc. reflexivity. }
  split.
  { apply idle_app; [destruct synopsis; repeat split | ].
    apply (idle_app [PipeOpened muff_pipe_m2c; PipeOpened muff_pipe_c2m]);
      [repeat split | ].
    apply (idle_app [Stderr DebuggingRun]); [repeat split | ].
    apply idle_app; [repeat split; assumption | ].
    apply idle_app; assumption. }
  split; [exact Hk | ]. split; [exact Hz | ].
  split; [rewrite Hl; exact Hlen2 | ].
  split; [rewrite Hf; unfold w2; rewrite Ew1; reflexivity | ].
  split; [rewrite Hu; unfold w2; rewrite Ew1; reflexivity | ].
  split; [rewrite Hc; unfold w2; rewrite Ew1; reflexivity | ].
  split; [rewrite Hut; unfold w2; rewrite Ew1; reflexivity | ].
  split; [rewrite Hd; unfold w2; rewrite Ew1; reflexivity | ].
  rewrite Hv. unfold w2. rewrite Ew1. reflexivity.
Qed.

(** The end of a session whose scan has returned [ok] in [w4], with
    nothing unsent: the cleanup and the exit. *)
Lemma session_closes (ok : bool) (w4 : World) :
  m2c_unsent w4 = false -> arduino_verbose w4 = false ->
  (terminate_process None (Some muff_pipe_m2c) (Some muff_pipe_c2m) ok ;;
   @raise unit AssertionError) w4
  = (Stop (Exit (if ok then 0 else 1)), extend (session_cleanup ok) w4).
Proof.
  intros Hu Hv.
  rewrite (bind_stop _ _ _ _ _
             (terminate_process_sim (Some muff_pipe_m2c) (Some muff_pipe_c2m) ok w4
                (or_intror Hu))).
  rewrite Hv. reflexivity.
Qed.

Lemma tallies_session_cleanup (ok : bool) :
  session_cleanup ok = cleanup_events false (Some muff_pipe_m2c) (Some muff_pipe_c2m) ok
  /\ milestones (session_cleanup ok) = []
  /\ commands (session_cleanup ok) = ["3"; "-@"]
  /\ reports (session_cleanup ok) = 1%nat.
Proof. destruct ok; repeat split. Qed.

(** A session in which the operator accepts the position and every reply
    is [ok]. *)
Lemma main_scans (synopsis : bool) (nL nH : Z) (Z_step : float) (istep : Z)
    (rest : list string) (w : World) :
  1 <= nL <= 12 \/ nL = 24 ->
  admissible nL 1 nH Z_step = true ->
  py_round (Z_step * 1000)%float = Normal istep -> -999 <= istep <= 999 ->
  exists_dir ("muff_scans/" ++ utc_now w) (dirs w) = false ->
  (forall L, 0 <= L < nL ->
     exists_dir (make_subdir_name ("muff_scans/" ++ utc_now w) L 0) (dirs w) = false) ->
  Forall (fun f => f = false) (m2c_fails w) ->
  operator_accepts (stdin_in w) = true ->
  c2m_in w = repeat (line "ok") (Z.to_nat nL * Z.to_nat nH) ++ rest ->
  exists w4 before,
    main (Parsed synopsis nL 1 nH Z_step) w
    = (Stop (Exit 0), extend (session_cleanup true) w4)
    /\ trace w4 = trace w ++ before
    /\ milestones before = scan_milestones ("muff_scans/" ++ utc_now w) nL nH
    /\ acknowledgements before = (Z.to_nat nL * Z.to_nat nH)%nat
    /\ reports before = 0%nat
    /\ stdin_in w4 = keys_left (stdin_in w) /\ c2m_in w4 = rest
    /\ LED_status w4 = all_off.
Proof.
  intros HnL Hadm Hround Hrange Htop Hsubs Hf Hacc Hin.
  destruct (main_positions synopsis nL 1 nH Z_step istep w HnL Hround Hrange)
    as [w3 [t3 [E [Et3 [[Hm3 [Hq3 [Hr3 Ha3]]] [Hk3 [Hz3 [Hl3 [Hf3 [Hu3 [Hc3 [Hut3 [Hd3
       Hv3]]]]]]]]]]]]].
  rewrite E, Hacc. clear E. cbn [negb when]. rewrite bind_ret.
  destruct (capture_image_set_run muff_pipe_m2c muff_pipe_c2m nL nH Z_step 0%float rest w3
              HnL Hadm)
    as [w4 [E4 [[_ [_ [_ Hin4]]] [L4 [A4 K4]]]]].
  { rewrite Hut3, Hd3. exact Htop. }
  { rewrite Hut3, Hd3. exact Hsubs. }
  { split; [exact Hl3 | ]. split; [rewrite Hf3; exact Hf | ].
    split; [exact (Hz3 Hacc) | rewrite Hc3; exact Hin]. }
  rewrite (bind_normal _ _ _ _ _ E4).
  destruct (advanced_acknowledged _ _ _ _ A4 K4) as [t4 [Et4 [Hm4 [Ha4 Hr4]]]].
  destruct A4 as [_ [_ [_ [Hv4 Hs4]]]]. destruct K4 as [_ Hu4].
  rewrite (session_closes true w4 (Hu4 Hu3)); [ | rewrite Hv4; exact Hv3].
  exists w4, (t3 ++ t4). split; [reflexivity | ].
  split; [rewrite Et4, Et3, app_assoc; reflexivity | ].
  rewrite milestones_app, acknowledgements_app, reports_app, Hm3, Ha3, Hr3, Hm4, Ha4, Hr4,
    Hut3.
  repeat split; try assumption.
  rewrite Hs4. exact Hk3.
Qed.

(** A session that runs to its end: [main] on arguments that parse, for 1
    to 12 or for 24 lighting conditions and one view, with parameters that
    pass the checks, fresh directories, an operator who answers the first
    prompt with [ok] and a frame grabber that answers [ok] to every request.
    It leaves with [sys.exit(0)]; between start and exit it issued the
    requests and steps of the whole scan, in scan order, and no other; its
    last events are the cleanup: pipes closed, motor stopped, all lights
    off, [done] reported. One line of the operator and the replies of the
    scan are used up. *)
Theorem main_completes (synopsis : bool) (nL nH : Z) (Z_step : float) (istep : Z)
    (keys rest : list string) (w : World) :
  1 <= nL <= 12 \/ nL = 24 ->
  admissible nL 1 nH Z_step = true ->
  py_round (Z_step * 1000)%float = Normal istep -> -999 <= istep <= 999 ->
  exists_dir ("muff_scans/" ++ utc_now w) (dirs w) = false ->
  (forall L, 0 <= L < nL ->
     exists_dir (make_subdir_name ("muff_scans/" ++ utc_now w) L 0) (dirs w) = false) ->
  Forall (fun f => f = false) (m2c_fails w) ->
  stdin_in w = line "ok" :: keys ->
  c2m_in w = repeat (line "ok") (Z.to_nat nL * Z.to_nat nH) ++ rest ->
  exists w' new,
    main (Parsed synopsis nL 1 nH Z_step) w = (Stop (Exit 0), w')
    /\ trace w' = trace w ++ new
    /\ milestones new = scan_milestones ("muff_scans/" ++ utc_now w) nL nH
    /\ List.length (requests new) = (Z.to_nat nL * Z.to_nat nH)%nat
    /\ (exists before,
          new = before ++ cleanup_events false (Some muff_pipe_m2c) (Some muff_pipe_c2m) true)
    /\ stdin_in w' = keys /\ c2m_in w' = rest /\ LED_status w' = all_off.
Proof.
  intros HnL Hadm Hround Hrange Htop Hsubs Hf Hkeys Hin.
  destruct (main_scans synopsis nL nH Z_step istep rest w HnL Hadm Hround Hrange Htop Hsubs
              Hf)
    as [w4 [before [E [Et [Hm [_ [_ [Hs [Hc Hl]]]]]]]]];
    [rewrite Hkeys; reflexivity | exact Hin | ].
  destruct (tallies_session_cleanup true) as [Ec [Hmc _]].
  exists (extend (session_cleanup true) w4), (before ++ session_cleanup true).
  split; [exact E | ].
  split; [unfold extend; cbn [trace set_trace]; rewrite Et, app_assoc; reflexivity | ].
  assert (Hms : milestones (before ++ session_cleanup true)
                = scan_milestones ("muff_scans/" ++ utc_now w) nL nH)
    by (rewrite milestones_app, Hm, Hmc, app_nil_r; reflexivity).
  split; [exact Hms | ]. split.
  { rewrite requests_milestones, Hms. apply scan_counts.
    destruct (admissible_checks _ _ _ _ Hadm) as [_ [_ [C3 _]]].
    apply andb_prop in C3 as [C3 _]. apply Z.ltb_lt in C3. lia. }
  split; [exists before; rewrite Ec; reflexivity | ].
  split; [ | split; [exact Hc | exact Hl]].
  change (stdin_in (extend _ w4)) with (stdin_in w4). rewrite Hs, Hkeys. reflexivity.
Qed.

Lemma main_completes_3_by_2 :
  exists w' new,
    main (Parsed false 3 1 2 0.1%float)
      (session_world [line "ok"] (repeat (line "ok") 6)) = (Stop (Exit 0), w')
    /\ trace w' = trace (session_world [line "ok"] (repeat (line "ok") 6)) ++ new
    /\ milestones new
       = scan_milestones
           ("muff_scans/" ++ utc_now (session_world [line "ok"] (repeat (line "ok") 6))) 3 2
    /\ List.length (requests new) = (Z.to_nat 3 * Z.to_nat 2)%nat
    /\ (exists before,
          new = before ++ cleanup_events false (Some muff_pipe_m2c) (Some muff_pipe_c2m) true)
    /\ stdin_in w' = [] /\ c2m_in w' = [] /\ LED_status w' = all_off.
Proof.
  apply (main_completes false 3 2 0.1%float 100 [] []
           (session_world [line "ok"] (repeat (line "ok") 6)));
    try reflexivity; [left; lia | lia | constructor].
Defined.

(** ** The ends of a session *)

Lemma ended_after (r : outcome unit * World) (ok : bool) (w w4 : World)
    (before : list event) (asked done : nat) :
  r = (Stop (Exit (if ok then 0 else 1)), extend (session_cleanup ok) w4) ->
  trace w4 = trace w ++ before ->
  List.length (requests before) = asked -> acknowledgements before = done ->
  reports before = 0%nat ->
  ended r w ok asked done (c2m_in w4).
Proof.
  intros -> Et Hq Ha Hr. split; [reflexivity | ]. split; [reflexivity | ].
  exists before. split; [ | repeat split; assumption].
  unfold extend. cbn [snd trace set_trace]. rewrite Et, app_assoc. reflexivity.
Qed.

(** A session in which the operator gives up. *)
Lemma main_aborts (synopsis : bool) (nL nV nH : Z) (Z_step : float) (istep : Z)
    (w : World) :
  1 <= nL <= 12 \/ nL = 24 ->
  py_round (Z_step * 1000)%float = Normal istep -> -999 <= istep <= 999 ->
  operator_accepts (stdin_in w) = false ->
  ended (main (Parsed synopsis nL nV nH Z_step) w) w false 0 0 (c2m_in w).
Proof.
  intros HnL Hround Hrange Hacc.
  destruct (main_positions synopsis nL nV nH Z_step istep w HnL Hround Hrange)
    as [w3 [t3 [E [Et3 [[Hm3 [Hq3 [Hr3 Ha3]]] [_ [_ [_ [_ [Hu3 [Hc3 [_ [_ Hv3]]]]]]]]]]]]].
  rewrite E, Hacc. clear E. cbn [negb when]. rewrite <- Hc3.
  apply (ended_after _ false w w3 t3).
  - rewrite (bind_stop _ _ _ _ _
               (terminate_process_sim (Some muff_pipe_m2c) (Some muff_pipe_c2m) false w3
                  (or_intror Hu3))).
    rewrite Hv3. reflexivity.
  - exact Et3.
  - rewrite Hq3. reflexivity.
  - exact Ha3.
  - exact Hr3.
Qed.

(** A session in which the operator accepts the position and the reply to
    request [k + 1] is no acknowledgement. *)
Lemma main_halts (synopsis : bool) (nL nH : Z) (Z_step : float) (istep : Z) (k : nat)
    (s : string) (rest tail : list string) (w : World) :
  1 <= nL <= 12 \/ nL = 24 ->
  admissible nL 1 nH Z_step = true ->
  py_round (Z_step * 1000)%float = Normal istep -> -999 <= istep <= 999 ->
  exists_dir ("muff_scans/" ++ utc_now w) (dirs w) = false ->
  (forall L, 0 <= L < nL ->
     exists_dir (make_subdir_name ("muff_scans/" ++ utc_now w) L 0) (dirs w) = false) ->
  Forall (fun f => f = false) (m2c_fails w) ->
  operator_accepts (stdin_in w) = true ->
  (k < Z.to_nat nL * Z.to_nat nH)%nat ->
  unacknowledged s rest tail ->
  c2m_in w = repeat (line "ok") k ++ tail ->
  ended (main (Parsed synopsis nL 1 nH Z_step) w) w false (S k) k rest.
Proof.
  intros HnL Hadm Hround Hrange Htop Hsubs Hf Hacc Hk Hun Hin.
  destruct (main_positions synopsis nL 1 nH Z_step istep w HnL Hround Hrange)
    as [w3 [t3 [E [Et3 [[Hm3 [Hq3 [Hr3 Ha3]]] [Hk3 [Hz3 [Hl3 [Hf3 [Hu3 [Hc3 [Hut3 [Hd3
       Hv3]]]]]]]]]]]]].
  rewrite E, Hacc. clear E. cbn [negb when]. rewrite bind_ret.
  destruct (capture_image_set_halts muff_pipe_m2c muff_pipe_c2m nL nH Z_step 0%float k s
              rest tail w3 HnL Hadm)
    as [w4 [ms [E4 [R4 [L4 [A4 [S4 [_ K4]]]]]]]]; try assumption.
  { rewrite Hut3, Hd3. exact Htop. }
  { rewrite Hut3, Hd3. exact Hsubs. }
  { split; [exact Hl3 | ]. split; [rewrite Hf3; exact Hf | ].
    split; [exact (Hz3 Hacc) | rewrite Hc3; exact Hin]. }
  rewrite (bind_normal _ _ _ _ _ E4).
  destruct (advanced_acknowledged _ _ _ _ A4 K4) as [t4 [Et4 [Hm4 [Ha4 Hr4]]]].
  destruct A4 as [_ [_ [_ [Hv4 _]]]]. destruct K4 as [_ Hu4].
  rewrite <- R4.
  apply (ended_after _ false w w4 (t3 ++ t4)).
  - apply session_closes; [exact (Hu4 Hu3) | rewrite Hv4; exact Hv3].
  - rewrite Et4, Et3, app_assoc. reflexivity.
  - rewrite requests_milestones, milestones_app, Hm3, Hm4. exact (proj1 (proj2 S4)).
  - rewrite acknowledgements_app, Ha3, Ha4. reflexivity.
  - rewrite reports_app, Hr3, Hr4. reflexivity.
Qed.

(** C3, amended. A session of [main] for 1 to 12 or for 24 lighting
    conditions, one view and a step that rounds into -999..999 microns ends
    as follows, wherever it starts and whatever the operator types.

    - The operator gives up ([abort], [q] or the end of the input, after
      any lines that decide nothing): [main] leaves with [sys.exit(1)]; no
      capture was requested.
    - The operator accepts the position, the parameters pass the checks,
      the directories are new, every request is written to the pipe, and
      all replies are [ok]: [main] leaves with [sys.exit(0)] after as many
      requests and acknowledged captures as were planned.
    - The same, but the reply to request [k + 1] is a line other than [ok],
      or the reply pipe is closed: [main] leaves with [sys.exit(1)] after
      [k + 1] requests, of which [k] were acknowledged; no further request
      is sent.

    In each case the last events of the run are, in this order, the two
    pipes closed, the motor stopped ([3]), all lights switched off ([-@])
    and the final status reported, and no final status was reported before:
    the cleanup and the report happen once. Moreover [main] never returns,
    and whenever it leaves through [sys.exit], except for [-help], it has
    just done this cleanup and reported once. *)
Theorem main_cleans_up (synopsis : bool) (nL nH : Z) (Z_step : float) (istep : Z)
    (w : World) :
  1 <= nL <= 12 \/ nL = 24 ->
  py_round (Z_step * 1000)%float = Normal istep -> -999 <= istep <= 999 ->
  (operator_accepts (stdin_in w) = false ->
   ended (main (Parsed synopsis nL 1 nH Z_step) w) w false 0 0 (c2m_in w))
  /\ (operator_accepts (stdin_in w) = true ->
      admissible nL 1 nH Z_step = true ->
      exists_dir ("muff_scans/" ++ utc_now w) (dirs w) = false ->
      (forall L, 0 <= L < nL ->
         exists_dir (make_subdir_name ("muff_scans/" ++ utc_now w) L 0) (dirs w) = false) ->
      Forall (fun f => f = false) (m2c_fails w) ->
      (forall rest,
         c2m_in w = repeat (line "ok") (Z.to_nat nL * Z.to_nat nH) ++ rest ->
         ended (main (Parsed synopsis nL 1 nH Z_step) w) w true
           (Z.to_nat nL * Z.to_nat nH) (Z.to_nat nL * Z.to_nat nH) rest)
      /\ (forall (k : nat) (s : string) (rest tail : list string),
            (k < Z.to_nat nL * Z.to_nat nH)%nat ->
            unacknowledged s rest tail ->
            c2m_in w = repeat (line "ok") k ++ tail ->
            ended (main (Parsed synopsis nL 1 nH Z_step) w) w false (S k) k rest))
  /\ (forall ok, commands (session_cleanup ok) = ["3"; "-@"]
                 /\ reports (session_cleanup ok) = 1%nat)
  /\ (forall argv w', main argv w <> (Normal tt, w'))
  /\ (forall argv w' c,
        argv <> HelpRequested -> main argv w = (Stop (Exit c), w') ->
        exists w0 ok,
          w' = extend (cleanup_events (arduino_verbose w0) (Some muff_pipe_m2c)
                         (Some muff_pipe_c2m) ok) w0
          /\ c = (if ok then 0 else 1)
          /\ reports (trace w') = S (reports (trace w))).
Proof.
  intros HnL Hround Hrange.
  split; [apply (main_aborts synopsis nL 1 nH Z_step istep w HnL Hround Hrange) | ].
  split; [ | split; [ | split]].
  - intros Hacc Hadm Htop Hsubs Hf. split.
    + intros rest Hin.
      destruct (main_scans synopsis nL nH Z_step istep rest w HnL Hadm Hround Hrange Htop
                  Hsubs Hf Hacc Hin)
        as [w4 [before [E [Et [Hm [Ha [Hr [_ [Hc _]]]]]]]]].
      rewrite <- Hc. apply (ended_after _ true w w4 before); try assumption.
      rewrite requests_milestones, Hm. apply scan_counts.
      destruct (admissible_checks _ _ _ _ Hadm) as [_ [_ [C3 _]]].
      apply andb_prop in C3 as [C3 _]. apply Z.ltb_lt in C3. lia.
    + intros k s rest tail Hk Hun Hin.
      apply (main_halts synopsis nL nH Z_step istep k s rest tail w); assumption.
  - intros ok. destruct (tallies_session_cleanup ok) as [_ [_ [Hc Hr]]].
    split; assumption.
  - intros argv w'. apply main_never_returns.
  - intros argv w' c. apply main_exit.
Qed.

(** The session of the counterexample: three planned captures, the second
    reply is bad. *)
Lemma main_cleans_up_after_bad_reply :
  ended (main three_captures
           (session_world [line "ok"] [line "ok"; line "bad"; line "ok"]))
    (session_world [line "ok"] [line "ok"; line "bad"; line "ok"]) false 2 1 [line "ok"].
Proof.
  apply (proj2 (proj1 (proj2 (main_cleans_up false 3 1 0.1%float 100
                                (session_world [line "ok"]
                                   [line "ok"; line "bad"; line "ok"])
                                ltac:(left; lia) eq_refl ltac:(lia)))
                  eq_refl eq_refl eq_refl (fun L _ => eq_refl) (Forall_nil _))
           1%nat (line "bad") [line "ok"] [line "bad"; line "ok"]).
  - cbn. lia.
  - left. split; [reflexivity | discriminate].
  - reflexivity.
Defined.

(** ** The shape of the lighting conditions *)

(** The two six-LED patterns: on a vector of 24 entries and a centre in
    0..11 each returns the vector with 1.0 written at its six LEDs and every
    other entry as it was; the centred pattern has five LEDs on the top tier
    and the one below the centre, the bridging pattern four on the top tier
    and two below; with a centre outside 0..11 each fails its assertion. *)
Theorem six_LED_patterns (vals : list float) (c : Z) :
  List.length vals = 24%nat ->
  (0 <= c < 12 ->
   define_LED_centric_pattern vals c = Normal (lit_at (centric_set c) vals)
   /\ define_LED_bridging_pattern vals c = Normal (lit_at (bridging_set c) vals)
   /\ NoDup (centric_set c) /\ NoDup (bridging_set c)
   /\ List.length (filter (fun k => k <? 12) (centric_set c)) = 5%nat
   /\ List.length (filter (fun k => k <? 12) (bridging_set c)) = 4%nat)
  /\ (c < 0 \/ 12 <= c ->
      define_LED_centric_pattern vals c = Stop (Raise AssertionError)
      /\ define_LED_bridging_pattern vals c = Stop (Raise AssertionError)).
Proof.
  intros Hlen. split.
  - intros Hc.
    do 24 (destruct vals as [ | ? vals]; [discriminate | ]).
    destruct vals; [ | discriminate]. clear Hlen.
    enumerate c 12;
      (split; [reflexivity | split; [reflexivity | ]];
       split; [repeat constructor; cbn; intuition discriminate | ];
       split; [repeat constructor; cbn; intuition discriminate | ];
       split; reflexivity).
  - intros Hc. unfold define_LED_centric_pattern, define_LED_bridging_pattern.
    destruct Hc; settle_tests; [ | destruct (0 <=? c)]; split; reflexivity.
Qed.

Lemma six_LED_patterns_centre_0 :
  define_LED_centric_pattern (repeat 0%float 24) 0
  = Normal (lit_at (centric_set 0) (repeat 0%float 24))
  /\ define_LED_bridging_pattern (repeat 0%float 24) 0
     = Normal (lit_at (bridging_set 0) (repeat 0%float 24))
  /\ NoDup (centric_set 0) /\ NoDup (bridging_set 0)
  /\ List.length (filter (fun k => k <? 12) (centric_set 0)) = 5%nat
  /\ List.length (filter (fun k => k <? 12) (bridging_set 0)) = 4%nat.
Proof.
  apply (proj1 (six_LED_patterns (repeat 0%float 24) 0 eq_refl)). lia.
Defined.

Lemma plannable_spec (nL L : Z) :
  plannable nL L = true <->
  1 <= nL <= 24 /\ 0 <= L < nL /\ (L < 12 \/ nL = 24 \/ nL <= 12).
Proof.
  unfold plannable. rewrite !andb_true_iff, !orb_true_iff.
  rewrite !Z.leb_le, !Z.ltb_lt, Z.eqb_eq. intuition lia.
Qed.

Lemma planner_checks :
  forallb (fun nL => forallb (fun L =>
    negb (plannable nL L)
    || (tiers_check nL L
        && forallb (fun L' => negb (plannable nL L') || distinct_check nL L L') (range 24)))
    (range 24)) (range 25) = true.
Proof. vm_compute. reflexivity. Qed.

Lemma planner_checked (nL L : Z) :
  plannable nL L = true ->
  tiers_check nL L = true
  /\ forall L', plannable nL L' = true -> distinct_check nL L L' = true.
Proof.
  intros Hp. assert (H := Hp). apply plannable_spec in H as [HnL [HL _]].
  assert (C := forallb_range _ 25 planner_checks nL ltac:(lia)). cbv beta in C.
  assert (C1 := forallb_range _ 24 C L ltac:(lia)). cbv beta in C1.
  rewrite Hp in C1. cbn [negb orb] in C1. apply andb_prop in C1 as [Ct Cd].
  split; [exact Ct | ]. intros L' Hp'. assert (H' := Hp'). apply plannable_spec in H' as [_ [HL' _]].
  assert (C2 := forallb_range _ 24 Cd L' ltac:(lia)). cbv beta in C2.
  rewrite Hp' in C2. exact C2.
Qed.

(** The lighting conditions of a session: wherever the planner returns a
    vector (1 to 12 or 24 conditions, or the conditions below 12 of 13 to
    23), two different conditions of the same session are different
    vectors, lit at different LEDs; a condition has one LED lit for more
    than 12 conditions (on the top tier for a condition below 12, else on
    the bottom tier), one on each tier for 12, and for fewer than 12 five
    on the top tier and one on the bottom, or four and two. *)
Theorem lighting_conditions_differ (nL L L' : Z) :
  1 <= nL <= 24 -> 0 <= L < nL -> 0 <= L' < nL ->
  (L < 12 /\ L' < 12) \/ nL = 24 \/ nL <= 12 ->
  tiers (condition L nL) = expected_tiers nL L
  /\ (L <> L' ->
      lit (condition L nL) <> lit (condition L' nL)
      /\ define_LED_vals L nL <> define_LED_vals L' nL).
Proof.
  intros HnL HL HL' Hdom.
  assert (Hp : plannable nL L = true) by (apply plannable_spec; lia).
  assert (Hp' : plannable nL L' = true) by (apply plannable_spec; lia).
  destruct (planner_checked nL L Hp) as [Ct Cd]. split.
  - unfold tiers_check in Ct. apply andb_prop in Ct as [C1 C2].
    apply Nat.eqb_eq in C1, C2.
    destruct (tiers (condition L nL)), (expected_tiers nL L). cbn in C1, C2. congruence.
  - intros Hne. specialize (Cd L' Hp'). unfold distinct_check in Cd.
    replace (L =? L') with false in Cd by (symmetry; apply Z.eqb_neq; exact Hne).
    cbn [orb] in Cd. unfold list_Z_eqb in Cd.
    destruct (list_eq_dec Z.eq_dec (lit (condition L nL)) (lit (condition L' nL)))
      as [E | N]; [discriminate | ].
    split; [exact N | ]. intros E. apply N. unfold condition. rewrite E. reflexivity.
Qed.

Lemma lighting_conditions_differ_5_of_8 :
  tiers (condition 5 8) = expected_tiers 8 5
  /\ (5 <> 6 ->
      lit (condition 5 8) <> lit (condition 6 8)
      /\ define_LED_vals 5 8 <> define_LED_vals 6 8).
Proof. apply (lighting_conditions_differ 8 5 6); lia. Defined.

Lemma same_members_spec (a c : list Z) :
  same_members a c = true -> forall k, In k a <-> In k c.
Proof.
  unfold same_members. intros H. apply andb_prop in H as [H1 H2].
  rewrite forallb_forall in H1, H2. intros k. split; intros Hk.
  - specialize (H1 k Hk). apply existsb_exists in H1 as [x [Hx E]].
    apply Z.eqb_eq in E. subst x. exact Hx.
  - specialize (H2 k Hk). apply existsb_exists in H2 as [x [Hx E]].
    apply Z.eqb_eq in E. subst x. exact Hx.
Qed.

Lemma rotate_checks :
  forallb (fun nL => forallb (fun L =>
    negb ((1 <=? nL) && (12 mod nL =? 0) && (L <? nL)) || rotate_check nL L)
    (range 12)) (range 13) = true.
Proof. vm_compute. reflexivity. Qed.

(** Even spacing: when the number of lighting conditions divides 12, the
    LEDs of the next condition are those of a condition turned by
    [12 / nL] places of 30 degrees, each within its tier, and the condition
    after the last one is the first again. *)
Theorem lighting_conditions_turn (nL L : Z) :
  1 <= nL <= 12 -> 12 mod nL = 0 -> 0 <= L < nL ->
  forall k, In k (lit (condition ((L + 1) mod nL) nL))
            <-> In k (map (turn (12 / nL)) (lit (condition L nL))).
Proof.
  intros HnL Hdiv HL.
  assert (C := forallb_range _ 13 rotate_checks nL ltac:(lia)). cbv beta in C.
  assert (C1 := forallb_range _ 12 C L ltac:(lia)). cbv beta in C1.
  replace (1 <=? nL) with true in C1 by (symmetry; apply Z.leb_le; lia).
  replace (12 mod nL =? 0) with true in C1 by (symmetry; apply Z.eqb_eq; exact Hdiv).
  replace (L <? nL) with true in C1 by (symmetry; apply Z.ltb_lt; lia).
  cbn [andb negb orb] in C1. apply same_members_spec. exact C1.
Qed.

Lemma lighting_conditions_turn_last_of_4 :
  12 mod 4 = 0
  /\ forall k, In k (lit (condition ((3 + 1) mod 4) 4))
               <-> In k (map (turn (12 / 4)) (lit (condition 3 4))).
Proof.
  split; [reflexivity | ].
  apply (lighting_conditions_turn 4 3); [lia | reflexivity | lia].
Defined.

(** ** Commands and their acknowledgement *)

(** A command sent to a port whose answer is blanks and comments and then
    one other byte: the command is written once, as the first thing the
    call does after its verbose line; the answer is read up to and
    including that byte and no further; the call returns when the byte is
    [0] and leaves the process with [sys.exit(1)] when it is any other.
    Nothing else is sent either way. *)
Theorem send_command_and_wait_acknowledged (p : serial_port) (command : bytes)
    (pre : list byte) (tok : byte) (later : list bytes) (w : World) :
  resolves pre tok -> serial_in w = stream pre ++ later ->
  exists w',
    serial_in w' = later
    /\ commands (trace w') = commands (trace w) ++ [show_bytes command false]
    /\ (exists t, trace w' = trace w
                             ++ announce (arduino_verbose w) (Sending (show_bytes command false))
                             ++ SerialWrite command :: t
                  /\ commands t = [])
    /\ (tok = "0"%byte -> send_command_and_wait (Some p) command w = (Normal tt, w'))
    /\ (tok <> "0"%byte -> send_command_and_wait (Some p) command w = (Stop (Exit 1), w')).
Proof.
  intros Hres Hin. unfold send_command_and_wait, send_command, sport_flush.
  rewrite !bind_assoc. rewrite (bind_normal _ _ _ _ _ (vlog_run _ _)).
  rewrite !bind_assoc, bind_ret.
  set (w1 := extend _ w).
  assert (E1 : emit (SerialWrite command) w1 = (Normal tt, extend [SerialWrite command] w1))
    by reflexivity.
  rewrite (bind_normal _ _ _ _ _ E1).
  set (w2 := extend [SerialWrite command] w1).
  destruct (wait_arduino_OK_token p pre tok later w2 Hres Hin) as [w' [S [Q [Hok Hbad]]]].
  exists w'. split; [exact S | ].
  assert (Hc : commands (trace w') = commands (trace w) ++ [show_bytes command false]).
  { rewrite (quiet_commands _ _ Q). unfold w2, w1, extend. cbn [trace set_trace].
    rewrite !commands_app. destruct (arduino_verbose w); cbn; rewrite ?app_nil_r; reflexivity. }
  split; [exact Hc | ]. split.
  - destruct Q as [_ [t [Et [Hct _]]]]. exists t. split; [ | exact Hct].
    rewrite Et. unfold w2, w1, extend. cbn [trace set_trace].
    rewrite <- !app_assoc. reflexivity.
  - split; [exact Hok | ]. intros Hne. exact (proj1 (Hbad Hne)).
Qed.

Lemma send_command_and_wait_acknowledged_after_comment :
  exists w',
    serial_in w' = []
    /\ commands (trace w')
       = commands (trace (set_serial_in (stream junk_then_ack) initial_world))
         ++ [show_bytes (b "5") false]
    /\ (exists t, trace w' = trace (set_serial_in (stream junk_then_ack) initial_world)
                             ++ announce (arduino_verbose
                                            (set_serial_in (stream junk_then_ack) initial_world))
                                  (Sending (show_bytes (b "5") false))
                             ++ SerialWrite (b "5") :: t
                  /\ commands t = [])
    /\ ("0"%byte = "0"%byte ->
        send_command_and_wait (Some ttyUSB0) (b "5")
          (set_serial_in (stream junk_then_ack) initial_world) = (Normal tt, w'))
    /\ ("0"%byte <> "0"%byte ->
        send_command_and_wait (Some ttyUSB0) (b "5")
          (set_serial_in (stream junk_then_ack) initial_world) = (Stop (Exit 1), w')).
Proof.
  apply (send_command_and_wait_acknowledged ttyUSB0 (b "5") junk_then_ack "0"%byte []
           (set_serial_in (stream junk_then_ack) initial_world)).
  - exact resolves_junk_then_ack.
  - reflexivity.
Defined.

(** A motion in a direction that is neither +1 nor -1: [start_motor] has
    stopped the motor by then, and fails its assertion without sending a
    second command. *)
Theorem start_motor_refuses (dir : Z) (fast : bool) (w : World) :
  dir <> 1 -> dir <> -1 ->
  fst (start_motor None dir fast w) = Stop (Raise AssertionError)
  /\ commands (trace (snd (start_motor None dir fast w))) = commands (trace w) ++ ["3"].
Proof.
  intros H1 H2. unfold start_motor.
  rewrite (bind_normal _ _ _ _ _ (stop_motor_sim w)).
  rewrite (bind_normal _ _ _ _ _ (vlog_run _ _)).
  replace (dir =? 1) with false by (symmetry; apply Z.eqb_neq; exact H1).
  replace (dir =? -1) with false by (symmetry; apply Z.eqb_neq; exact H2).
  split; [reflexivity | ].
  unfold bind, raise, halt. cbn [snd]. unfold extend. cbn [trace set_trace arduino_verbose].
  rewrite !commands_app. destruct (arduino_verbose w); cbn; rewrite ?app_nil_r; reflexivity.
Qed.

Lemma start_motor_refuses_zero :
  fst (start_motor None 0 false initial_world) = Stop (Raise AssertionError)
  /\ commands (trace (snd (start_motor None 0 false initial_world)))
     = commands (trace initial_world) ++ ["3"].
Proof. apply (start_motor_refuses 0 false initial_world); lia. Defined.

(** ** Starting without a session *)

Lemma main_unparsed (synopsis : bool) (w : World) :
  main (Unparsed synopsis) w
  = (Stop (Raise TypeError),
     extend ((if synopsis then [Stderr Synopsis] else []) ++ [Stderr BadArguments]) w).
Proof.
  unfold main, parse_command_line_args, when. rewrite bind_ret.
  destruct synopsis.
  - rewrite !bind_assoc.
    rewrite (bind_normal _ _ _ _ _ (stderr_write_run _ _)).
    rewrite !bind_assoc.
    rewrite (bind_normal _ _ _ _ _ (stderr_write_run _ _)).
    rewrite bind_ret, extend_extend. reflexivity.
  - rewrite !bind_assoc, bind_ret.
    rewrite !bind_assoc.
    rewrite (bind_normal _ _ _ _ _ (stderr_write_run _ _)).
    rewrite bind_ret. reflexivity.
Qed.

(** [main] on a command line that does not give a session: [-help] alone
    prints the help and leaves with [sys.exit(0)]; arguments that do not
    convert are reported and then the call of [terminate_process] with two
    arguments raises [TypeError]. In both cases no pipe is opened, nothing
    is sent, nothing is read, and no final status is reported. *)
Theorem main_without_session (synopsis : bool) (w : World) :
  main HelpRequested w = (Stop (Exit 0), extend [Stderr Synopsis] w)
  /\ main (Unparsed synopsis) w
     = (Stop (Raise TypeError),
        extend ((if synopsis then [Stderr Synopsis] else []) ++ [Stderr BadArguments]) w)
  /\ forall argv, (forall s nL nV nH Z_step, argv <> Parsed s nL nV nH Z_step) ->
       commands (trace (snd (main argv w))) = commands (trace w)
       /\ requests (trace (snd (main argv w))) = requests (trace w)
       /\ reports (trace (snd (main argv w))) = reports (trace w)
       /\ Forall (fun e => forall p, e <> PipeOpened p)
            (skipn (List.length (trace w)) (trace (snd (main argv w))))
       /\ stdin_in (snd (main argv w)) = stdin_in w.
Proof.
  assert (H1 : main HelpRequested w = (Stop (Exit 0), extend [Stderr Synopsis] w))
    by reflexivity.
  assert (H2 : main (Unparsed synopsis) w
               = (Stop (Raise TypeError),
                  extend ((if synopsis then [Stderr Synopsis] else []) ++ [Stderr BadArguments])
                    w)).
  { apply main_unparsed. }
  split; [exact H1 | split; [exact H2 | ]].
  intros argv Hargv. destruct argv as [ | syn | syn nL nV nH Z_step];
    [ | | exfalso; exact (Hargv syn nL nV nH Z_step eq_refl)].
  - rewrite H1. unfold extend. cbn [snd trace set_trace stdin_in].
    rewrite commands_app, requests_app, reports_app, skipn_app, skipn_all, Nat.sub_diag.
    cbn. rewrite !app_nil_r, Nat.add_0_r.
    split; [reflexivity | split; [reflexivity | split; [reflexivity | split; [ | reflexivity]]]].
    repeat (apply Forall_cons; [intros p; discriminate | ]); apply Forall_nil.
  - assert (H3 : main (Unparsed syn) w
                 = (Stop (Raise TypeError),
                    extend ((if syn then [Stderr Synopsis] else []) ++ [Stderr BadArguments]) w)).
    { apply main_unparsed. }
    rewrite H3. unfold extend. cbn [snd trace set_trace stdin_in].
    rewrite commands_app, requests_app, reports_app, skipn_app, skipn_all, Nat.sub_diag.
    destruct syn; cbn; rewrite !app_nil_r, Nat.add_0_r;
      (split; [reflexivity | split; [reflexivity | split; [reflexivity | split; [ | reflexivity]]]]);
      repeat (apply Forall_cons; [intros p; discriminate | ]); apply Forall_nil.
Qed.

(** ** Vectors that [set_light_condition] refuses *)

Lemma set_light_condition_loop_prefix (vtodo : list float) :
  forall (todo : list (option float)) (vdone : list float) (done : list (option float))
         (vlater : list float) (later : list (option float)) (w : World),
    List.length vdone = List.length done ->
    List.length vtodo = List.length todo ->
    (List.length done + List.length vtodo <= 24)%nat ->
    binary vtodo ->
    LED_status w = done ++ todo ++ later ->
    for_loop (map Z.of_nat (seq (List.length done) (List.length vtodo)))
             (set_light_condition_body None (vdone ++ vtodo ++ vlater)) w
    = (Normal tt,
       set_LED_status (done ++ refreshed vtodo todo ++ later)
         (extend (light_events (arduino_verbose w) (Z.of_nat (List.length done)) vtodo todo) w)).
Proof.
  induction vtodo as [ | pwr vtodo IH];
    intros todo vdone done vlater later w Hlen Htodo Hbound Hbin Hst.
  - destruct todo; [ | discriminate]. simpl.
    rewrite extend_nil. simpl in Hst. rewrite <- Hst, set_LED_status_same. reflexivity.
  - destruct todo as [ | old todo]; [discriminate | ].
    inversion Hbin as [ | ? ? Hpwr Hbin']; subst.
    simpl in Htodo, Hbound. injection Htodo as Htodo.
    cbn [List.length seq map for_loop].
    change ((pwr :: vtodo) ++ vlater) with (pwr :: vtodo ++ vlater).
    change ((old :: todo) ++ later) with (old :: todo ++ later) in Hst.
    rewrite (bind_normal _ _ _ _ _
               (set_light_condition_body_sim vdone (vtodo ++ vlater) pwr done (todo ++ later)
                  old w Hlen ltac:(lia) Hpwr Hst)).
    set (new := if differs pwr old then Some pwr else old).
    set (ev := if differs pwr old
               then announce (arduino_verbose w) (SettingLED (Z.of_nat (List.length done)) pwr)
                    ++ simulated (LED_command (Z.of_nat (List.length done)) pwr)
               else []).
    set (w1 := if differs pwr old then _ else w).
    assert (Ew1 : w1 = set_LED_status (done ++ new :: todo ++ later) (extend ev w)).
    { unfold w1, new, ev. destruct (differs pwr old); [reflexivity | ].
      rewrite extend_nil, <- Hst, set_LED_status_same. reflexivity. }
    clearbody w1. subst w1.
    specialize (IH todo (vdone ++ [pwr]) (done ++ [new]) vlater later
                  (set_LED_status (done ++ new :: todo ++ later) (extend ev w))).
    rewrite <- !app_assoc, !length_app in IH. simpl List.length in IH.
    rewrite !Nat.add_1_r in IH. simpl app in IH.
    rewrite IH; try assumption; try lia; try reflexivity.
    rewrite set_LED_status_extend. cbn [refreshed light_events app]. fold new. fold ev.
    replace (Z.of_nat (S (List.length done))) with (Z.of_nat (List.length done) + 1) by lia.
    reflexivity.
Qed.

Lemma set_light_condition_body_refuses (vdone vlater : list float) (bad : float)
    (w : World) :
  (List.length vdone < 24)%nat ->
  PrimFloat.eqb bad 0 || PrimFloat.eqb bad 1 = false ->
  set_light_condition_body None (vdone ++ bad :: vlater) (Z.of_nat (List.length vdone)) w
  = (Stop (Raise AssertionError), w).
Proof.
  intros Hlen Hbad. unfold set_light_condition_body.
  rewrite (bind_lift _ bad); [ | apply list_get_app].
  rewrite Hbad. reflexivity.
Qed.

(** What [set_light_condition] refuses: a vector that has not 24 entries
    fails the assertion before anything is sent, with or without a port;
    a vector of 24 entries with one that is neither 0.0 nor 1.0 fails the
    assertion at that entry, after the LEDs before it have been switched
    and recorded in the cache as for a good vector. *)
Theorem set_light_condition_refuses (sport : option serial_port) (vals good later : list float)
    (bad : float) (w : World) :
  (List.length vals <> 24%nat ->
   set_light_condition sport vals w = (Stop (Raise AssertionError), w))
  /\ (List.length (good ++ bad :: later) = 24%nat -> binary good ->
      PrimFloat.eqb bad 0 || PrimFloat.eqb bad 1 = false ->
      List.length (LED_status w) = 24%nat ->
      set_light_condition None (good ++ bad :: later) w
      = (Stop (Raise AssertionError),
         set_LED_status
           (refreshed good (firstn (List.length good) (LED_status w))
            ++ skipn (List.length good) (LED_status w))
           (extend (light_events (arduino_verbose w) 0 good
                      (firstn (List.length good) (LED_status w))) w))
         /\ commands (light_events (arduino_verbose w) 0 good
                        (firstn (List.length good) (LED_status w)))
            = switches 0 good (firstn (List.length good) (LED_status w))).
Proof.
  split.
  - intros Hlen. unfold set_light_condition, num_LEDs.
    rewrite bind_assert_false; [reflexivity | ]. apply Z.eqb_neq. lia.
  - intros Hlen Hbin Hbad Hst. split; [ | apply commands_light_events].
    rewrite (set_light_condition_run None _ w Hlen).
    rewrite length_app in Hlen. cbn [List.length] in Hlen.
    replace 24%nat with (List.length good + S (List.length later))%nat by lia.
    rewrite seq_app, map_app, for_loop_app.
    pose proof (set_light_condition_loop_prefix good
                  (firstn (List.length good) (LED_status w)) [] [] (bad :: later)
                  (skipn (List.length good) (LED_status w)) w) as H.
    cbn [List.length app Nat.add] in H.
    assert (E : for_loop (map Z.of_nat (seq 0 (List.length good)))
                  (set_light_condition_body None (good ++ bad :: later)) w
                = (Normal tt,
                   set_LED_status
                     (refreshed good (firstn (List.length good) (LED_status w))
                      ++ skipn (List.length good) (LED_status w))
                     (extend (light_events (arduino_verbose w) 0 good
                                (firstn (List.length good) (LED_status w))) w))).
    { apply H; [reflexivity | rewrite firstn_length_le by lia; reflexivity | lia
                | exact Hbin | symmetry; apply firstn_skipn]. }
    rewrite (bind_normal _ _ _ _ _ E).
    cbn [seq map for_loop Nat.add].
    apply bind_stop.
    apply (set_light_condition_body_refuses good later bad _ ltac:(lia) Hbad).
Qed.

Lemma set_light_condition_refuses_half :
  set_light_condition None ([1%float] ++ 0.5%float :: repeat 0%float 22) initial_world
  = (Stop (Raise AssertionError),
     set_LED_status
       (refreshed [1%float] (firstn (List.length [1%float]) (LED_status initial_world))
        ++ skipn (List.length [1%float]) (LED_status initial_world))
       (extend (light_events (arduino_verbose initial_world) 0 [1%float]
                  (firstn (List.length [1%float]) (LED_status initial_world))) initial_world))
  /\ commands (light_events (arduino_verbose initial_world) 0 [1%float]
                 (firstn (List.length [1%float]) (LED_status initial_world)))
     = switches 0 [1%float] (firstn (List.length [1%float]) (LED_status initial_world)).
Proof.
  apply (proj2 (set_light_condition_refuses None [] [1%float] (repeat 0%float 22) 0.5%float
                  initial_world)); try reflexivity.
  apply Forall_cons; [right; reflexivity | apply Forall_nil].
Defined.

(** ** The estimate of the running time *)

Lemma estimate_secs_checks :
  forallb (fun nL => forallb (fun nH =>
    negb ((1 <=? nL) && (1 <=? nH))
    || PrimFloat.eqb (estimate_secs nL 1 nH) (float_of_int (3 * nL * nH + 2 * (nH - 1))))
    (range 100)) (range 25) = true.
Proof. vm_compute. reflexivity. Qed.

(** The estimate for a scan with one view is, without any rounding, 3
    seconds per frame and 2 seconds per step between heights. *)
Theorem estimate_secs_exact (nL nH : Z) :
  1 <= nL <= 24 -> 1 <= nH <= 99 ->
  PrimFloat.eqb (estimate_secs nL 1 nH) (float_of_int (3 * nL * nH + 2 * (nH - 1))) = true.
Proof.
  intros HnL HnH.
  assert (C := forallb_range _ 25 estimate_secs_checks nL ltac:(lia)). cbv beta in C.
  assert (C1 := forallb_range _ 100 C nH ltac:(lia)). cbv beta in C1.
  replace (1 <=? nL) with true in C1 by (symmetry; apply Z.leb_le; lia).
  replace (1 <=? nH) with true in C1 by (symmetry; apply Z.leb_le; lia).
  exact C1.
Qed.

Lemma estimate_secs_exact_24_99 :
  PrimFloat.eqb (estimate_secs 24 1 99) (float_of_int (3 * 24 * 99 + 2 * (99 - 1))) = true.
Proof. apply (estimate_secs_exact 24 99); lia. Defined.

(** ** Reading a parameter file *)

Lemma lstrip_keeps_last (c : ascii) (l : list ascii) :
  isspace c = false ->
  exists l', lstrip (string_of_list_ascii (l ++ [c])) = string_of_list_ascii (l' ++ [c]).
Proof.
  intros Hc. induction l as [ | x l [l' IH]].
  - exists []. cbn [app string_of_list_ascii lstrip]. rewrite Hc. reflexivity.
  - cbn [app string_of_list_ascii lstrip]. destruct (isspace x).
    + exists l'. exact IH.
    + exists (x :: l). reflexivity.
Qed.

Lemma strip_keeps_hash (body : string) :
  exists t, strip (String "#" body) = String "#" t.
Proof.
  unfold strip. change (lstrip (String "#" body)) with (String "#" body).
  unfold reverse at 2. cbn [list_ascii_of_string rev].
  destruct (lstrip_keeps_last "#" (rev (list_ascii_of_string body)) eq_refl) as [l' E].
  rewrite E. unfold reverse. rewrite list_ascii_of_string_of_list_ascii, rev_app_distr.
  cbn [rev app string_of_list_ascii]. eexists. reflexivity.
Qed.

(** [read_signif_line] skips the lines that hold only blanks and returns
    the first other line, stripped of the blanks around it, leaving the
    lines after it unread; when only blank lines are left, or none, it
    returns the empty string. A [#] comment is not removed: a line that
    starts with [#] is returned as any other, [#] first. *)
Theorem read_signif_line_first_line (blanks : list string) (s : string) (rest : list string) :
  Forall blank_line blanks ->
  read_signif_line blanks = ("", [])
  /\ (s <> "" -> strip s <> "" ->
      read_signif_line (blanks ++ s :: rest) = (strip s, rest))
  /\ forall body, exists t,
       read_signif_line (blanks ++ String "#" body :: rest) = (String "#" t, rest).
Proof.
  intros Hblanks.
  assert (Hskip : forall later,
             read_signif_line (blanks ++ later) = read_signif_line later).
  { intros later. induction Hblanks as [ | l blanks [Hne Hstrip] _ IH]; [reflexivity | ].
    cbn [app read_signif_line].
    replace (String.eqb l "") with false by (symmetry; apply String.eqb_neq; exact Hne).
    rewrite Hstrip. exact IH. }
  assert (Hline : forall l, l <> "" -> strip l <> "" ->
             read_signif_line (blanks ++ l :: rest) = (strip l, rest)).
  { intros l Hne Hstrip. rewrite Hskip. cbn [read_signif_line].
    replace (String.eqb l "") with false by (symmetry; apply String.eqb_neq; exact Hne).
    replace (String.eqb (strip l) "") with false
      by (symmetry; apply String.eqb_neq; exact Hstrip).
    reflexivity. }
  split; [ | split].
  - rewrite <- (app_nil_r blanks). rewrite Hskip. reflexivity.
  - exact (Hline s).
  - intros body. destruct (strip_keeps_hash body) as [t E]. exists t.
    rewrite <- E. apply Hline; [discriminate | rewrite E; discriminate].
Qed.

Lemma read_signif_line_first_line_comment :
  Forall blank_line [line "  "]
  /\ read_signif_line [line "  "] = ("", [])
  /\ (line "# nL" <> "" -> strip (line "# nL") <> "" ->
      read_signif_line ([line "  "] ++ line "# nL" :: [line "nL = 3"])
      = (strip (line "# nL"), [line "nL = 3"]))
  /\ forall body, exists t,
       read_signif_line ([line "  "] ++ String "#" body :: [line "nL = 3"])
       = (String "#" t, [line "nL = 3"]).
Proof.
  assert (H : Forall blank_line [line "  "]).
  { apply Forall_cons; [split; [discriminate | reflexivity] | apply Forall_nil]. }
  split; [exact H | ].
  apply (read_signif_line_first_line [line "  "] (line "# nL") [line "nL = 3"] H).
Defined.
